(** * Entitlement and payroll reconciliation engine of [app.py]

    A shallow embedding of the payroll core of the workforce application
    (duty roster counting, overtime count upsert, vacation ledger, leave
    cash-out, lunch settlement, payroll record upsert) together with the
    properties its specification states about it.

    Modelling conventions.
    - A Python [str] is the list of its Unicode code points ([str]); string
      constants of the source are written as UTF-8 literals and decoded by
      [utf8].
    - A Python [int] is a [Z].  A Python [float] is an IEEE 754 binary64
      number where the source divides, truncates and rounds floats
      ([calc_cashout]: the [spec_float] of the Standard Library with its
      correctly rounded operations, infinities and NaN); where it stores,
      compares and adds the numbers of the store it is an exact rational
      [Q], and the rounding error of those sums is outside the model.
    - A Python [dict] is an association list in insertion order with unique
      keys ([dict_get], [dict_set]).
    - The external record store is a set of collections, each a schema and a
      list of pages; a query returns the first [page_size] pages that satisfy
      the filter, in collection order.  A well-formed call to the store
      succeeds: transport errors are outside the model.  A page created
      without a parent is refused, which is what becomes of every line
      [log_action] sends.
    - The read cache [st.cache_data(ttl=60)] in front of the eligible lunch
      days is modelled with its clock where a read follows a write
      ([calc_working_days_for_lunch_cached]); a definition without the
      suffix is the body that runs on the store when the cache has no live
      entry.  The caches of the schema reads are outside the model. *)

From Stdlib Require Import ZArith NArith QArith Qround Qminmax Qabs Lia Lqa.
From Stdlib Require Import List Bool Floats.SpecFloat.
From Stdlib Require Import Strings.String Strings.Ascii.
From Stdlib Require Import Numbers.DecimalString.
Import ListNotations.

Set Warnings "-register-all".
Local Open Scope Z_scope.

(* ================================================================== *)
(** ** Python strings *)
(* ================================================================== *)

Module PyStr.

(** A string is the sequence of its code points. *)
Definition str := list N.

(** UTF-8 decoder for the literals of this file: [acc] is the code point
    under construction and [k] the number of continuation bytes awaited. *)
Fixpoint utf8_go (acc : N) (k : nat) (l : list N) : str :=
  match l with
  | [] => []
  | b :: l' =>
      match k with
      | O =>
          if (b <? 128)%N then b :: utf8_go 0 0 l'
          else if (b <? 224)%N then utf8_go (b - 192) 1 l'
          else if (b <? 240)%N then utf8_go (b - 224) 2 l'
          else utf8_go (b - 240) 3 l'
      | S O => (acc * 64 + (b - 128))%N :: utf8_go 0 0 l'
      | S k' => utf8_go (acc * 64 + (b - 128))%N k' l'
      end
  end.

Definition utf8 (s : string) : str :=
  utf8_go 0 0 (map N_of_ascii (list_ascii_of_string s)).

Fixpoint eqb (a b : str) : bool :=
  match a, b with
  | [], [] => true
  | x :: a', y :: b' => (x =? y)%N && eqb a' b'
  | _, _ => false
  end.

(** [bool(s)]: a string is truthy when it is not empty. *)
Definition truthy (s : str) : bool :=
  match s with [] => false | _ => true end.

(** [str.isspace] on one code point (the white-space set of CPython). *)
Definition isspace (c : N) : bool :=
  ((9 <=? c) && (c <=? 13) || (28 <=? c) && (c <=? 32)
   || (c =? 133) || (c =? 160) || (c =? 5760)
   || (8192 <=? c) && (c <=? 8202)
   || (c =? 8232) || (c =? 8233) || (c =? 8239) || (c =? 8287)
   || (c =? 12288))%N.

(** [s.lstrip()], [s.rstrip()], [s.strip()]. *)
Fixpoint lstrip (s : str) : str :=
  match s with
  | [] => []
  | c :: s' => if isspace c then lstrip s' else s
  end.

Fixpoint rstrip (s : str) : str :=
  match s with
  | [] => []
  | c :: s' =>
      match rstrip s' with
      | [] => if isspace c then [] else [c]
      | r => c :: r
      end
  end.

Definition strip (s : str) : str := rstrip (lstrip s).

(** [s.replace(old, new)] for patterns of one code point, which is all the
    source uses. *)
Definition replace1 (old new : N) (s : str) : str :=
  map (fun c => if (c =? old)%N then new else c) s.

(** [s.split(sep)] for a separator of one code point: consecutive
    separators yield empty fields, and the empty string yields one empty
    field. *)
Fixpoint split (sep : N) (s : str) : list str :=
  match s with
  | [] => [[]]
  | c :: s' =>
      if (c =? sep)%N then [] :: split sep s'
      else match split sep s' with
           | [] => [[c]]
           | w :: ws => (c :: w) :: ws
           end
  end.

(** [s.startswith(p)]. *)
Fixpoint startswith (s p : str) : bool :=
  match p, s with
  | [], _ => true
  | x :: p', y :: s' => (x =? y)%N && startswith s' p'
  | _ :: _, [] => false
  end.

(** [str(z)] for an integer. *)
Definition str_of_Z (z : Z) : str :=
  map N_of_ascii (list_ascii_of_string (NilZero.string_of_int (Z.to_int z))).

(** [x in l] for a list or set of strings. *)
Definition mem (x : str) (l : list str) : bool := existsb (eqb x) l.

(** [s.lower()], by the case tables of Unicode 14.0 as CPython 3.11 holds
    them.  A run [(first, last, step, delta)] sends the code points first,
    first + step, ..., last to themselves plus delta; the runs are in the
    order of their first code points, those below U+2E80 in the first
    table and those from U+A640 on in the second: no code point between
    the two has a lower case of its own. *)
Definition lower_runs_low : list (N * N * N * Z) :=
  [
   (65, 90, 1, 32%Z); (192, 214, 1, 32%Z); (216, 222, 1, 32%Z);
   (256, 302, 2, 1%Z); (306, 310, 2, 1%Z); (313, 327, 2, 1%Z);
   (330, 374, 2, 1%Z); (376, 376, 1, (-121)%Z); (377, 381, 2, 1%Z);
   (385, 385, 1, 210%Z); (386, 388, 2, 1%Z); (390, 390, 1, 206%Z);
   (391, 391, 1, 1%Z); (393, 394, 1, 205%Z); (395, 395, 1, 1%Z);
   (398, 398, 1, 79%Z); (399, 399, 1, 202%Z); (400, 400, 1, 203%Z);
   (401, 401, 1, 1%Z); (403, 403, 1, 205%Z); (404, 404, 1, 207%Z);
   (406, 406, 1, 211%Z); (407, 407, 1, 209%Z); (408, 408, 1, 1%Z);
   (412, 412, 1, 211%Z); (413, 413, 1, 213%Z); (415, 415, 1, 214%Z);
   (416, 420, 2, 1%Z); (422, 422, 1, 218%Z); (423, 423, 1, 1%Z);
   (425, 425, 1, 218%Z); (428, 428, 1, 1%Z); (430, 430, 1, 218%Z);
   (431, 431, 1, 1%Z); (433, 434, 1, 217%Z); (435, 437, 2, 1%Z);
   (439, 439, 1, 219%Z); (440, 440, 1, 1%Z); (444, 444, 1, 1%Z);
   (452, 452, 1, 2%Z); (453, 453, 1, 1%Z); (455, 455, 1, 2%Z);
   (456, 456, 1, 1%Z); (458, 458, 1, 2%Z); (459, 475, 2, 1%Z);
   (478, 494, 2, 1%Z); (497, 497, 1, 2%Z); (498, 500, 2, 1%Z);
   (502, 502, 1, (-97)%Z); (503, 503, 1, (-56)%Z); (504, 542, 2, 1%Z);
   (544, 544, 1, (-130)%Z); (546, 562, 2, 1%Z); (570, 570, 1, 10795%Z);
   (571, 571, 1, 1%Z); (573, 573, 1, (-163)%Z); (574, 574, 1, 10792%Z);
   (577, 577, 1, 1%Z); (579, 579, 1, (-195)%Z); (580, 580, 1, 69%Z);
   (581, 581, 1, 71%Z); (582, 590, 2, 1%Z); (880, 882, 2, 1%Z);
   (886, 886, 1, 1%Z); (895, 895, 1, 116%Z); (902, 902, 1, 38%Z);
   (904, 906, 1, 37%Z); (908, 908, 1, 64%Z); (910, 911, 1, 63%Z);
   (913, 929, 1, 32%Z); (931, 939, 1, 32%Z); (975, 975, 1, 8%Z);
   (984, 1006, 2, 1%Z); (1012, 1012, 1, (-60)%Z); (1015, 1015, 1, 1%Z);
   (1017, 1017, 1, (-7)%Z); (1018, 1018, 1, 1%Z); (1021, 1023, 1, (-130)%Z);
   (1024, 1039, 1, 80%Z); (1040, 1071, 1, 32%Z); (1120, 1152, 2, 1%Z);
   (1162, 1214, 2, 1%Z); (1216, 1216, 1, 15%Z); (1217, 1229, 2, 1%Z);
   (1232, 1326, 2, 1%Z); (1329, 1366, 1, 48%Z); (4256, 4293, 1, 7264%Z);
   (4295, 4295, 1, 7264%Z); (4301, 4301, 1, 7264%Z); (5024, 5103, 1, 38864%Z);
   (5104, 5109, 1, 8%Z); (7312, 7354, 1, (-3008)%Z); (7357, 7359, 1, (-3008)%Z);
   (7680, 7828, 2, 1%Z); (7838, 7838, 1, (-7615)%Z); (7840, 7934, 2, 1%Z);
   (7944, 7951, 1, (-8)%Z); (7960, 7965, 1, (-8)%Z); (7976, 7983, 1, (-8)%Z);
   (7992, 7999, 1, (-8)%Z); (8008, 8013, 1, (-8)%Z); (8025, 8031, 2, (-8)%Z);
   (8040, 8047, 1, (-8)%Z); (8072, 8079, 1, (-8)%Z); (8088, 8095, 1, (-8)%Z);
   (8104, 8111, 1, (-8)%Z); (8120, 8121, 1, (-8)%Z); (8122, 8123, 1, (-74)%Z);
   (8124, 8124, 1, (-9)%Z); (8136, 8139, 1, (-86)%Z); (8140, 8140, 1, (-9)%Z);
   (8152, 8153, 1, (-8)%Z); (8154, 8155, 1, (-100)%Z); (8168, 8169, 1, (-8)%Z);
   (8170, 8171, 1, (-112)%Z); (8172, 8172, 1, (-7)%Z); (8184, 8185, 1, (-128)%Z);
   (8186, 8187, 1, (-126)%Z); (8188, 8188, 1, (-9)%Z); (8486, 8486, 1, (-7517)%Z);
   (8490, 8490, 1, (-8383)%Z); (8491, 8491, 1, (-8262)%Z); (8498, 8498, 1, 28%Z);
   (8544, 8559, 1, 16%Z); (8579, 8579, 1, 1%Z); (9398, 9423, 1, 26%Z);
   (11264, 11311, 1, 48%Z); (11360, 11360, 1, 1%Z); (11362, 11362, 1, (-10743)%Z);
   (11363, 11363, 1, (-3814)%Z); (11364, 11364, 1, (-10727)%Z); (11367, 11371, 2, 1%Z);
   (11373, 11373, 1, (-10780)%Z); (11374, 11374, 1, (-10749)%Z); (11375, 11375, 1, (-10783)%Z);
   (11376, 11376, 1, (-10782)%Z); (11378, 11378, 1, 1%Z); (11381, 11381, 1, 1%Z);
   (11390, 11391, 1, (-10815)%Z); (11392, 11490, 2, 1%Z); (11499, 11501, 2, 1%Z);
   (11506, 11506, 1, 1%Z)
  ]%N.

Definition lower_runs_high : list (N * N * N * Z) :=
  [
   (42560, 42604, 2, 1%Z); (42624, 42650, 2, 1%Z); (42786, 42798, 2, 1%Z);
   (42802, 42862, 2, 1%Z); (42873, 42875, 2, 1%Z); (42877, 42877, 1, (-35332)%Z);
   (42878, 42886, 2, 1%Z); (42891, 42891, 1, 1%Z); (42893, 42893, 1, (-42280)%Z);
   (42896, 42898, 2, 1%Z); (42902, 42920, 2, 1%Z); (42922, 42922, 1, (-42308)%Z);
   (42923, 42923, 1, (-42319)%Z); (42924, 42924, 1, (-42315)%Z); (42925, 42925, 1, (-42305)%Z);
   (42926, 42926, 1, (-42308)%Z); (42928, 42928, 1, (-42258)%Z); (42929, 42929, 1, (-42282)%Z);
   (42930, 42930, 1, (-42261)%Z); (42931, 42931, 1, 928%Z); (42932, 42946, 2, 1%Z);
   (42948, 42948, 1, (-48)%Z); (42949, 42949, 1, (-42307)%Z); (42950, 42950, 1, (-35384)%Z);
   (42951, 42953, 2, 1%Z); (42960, 42960, 1, 1%Z); (42966, 42968, 2, 1%Z);
   (42997, 42997, 1, 1%Z); (65313, 65338, 1, 32%Z); (66560, 66599, 1, 40%Z);
   (66736, 66771, 1, 40%Z); (66928, 66938, 1, 39%Z); (66940, 66954, 1, 39%Z);
   (66956, 66962, 1, 39%Z); (66964, 66965, 1, 39%Z); (68736, 68786, 1, 64%Z);
   (71840, 71871, 1, 32%Z); (93760, 93791, 1, 32%Z); (125184, 125217, 1, 34%Z)
  ]%N.

Fixpoint lower_in (runs : list (N * N * N * Z)) (c : N) : N :=
  match runs with
  | [] => c
  | (first, last, step, delta) :: runs' =>
      if (c <? first)%N then c
      else if ((c <=? last) && ((c - first) mod step =? 0))%N
           then Z.to_N (Z.of_N c + delta)
           else lower_in runs' c
  end.

(** The lower case of one code point: U+0130 alone becomes two. *)
Definition lower_full (c : N) : str :=
  if (c =? 304)%N then [105; 775]%N
  else if (c <? 11904)%N then [lower_in lower_runs_low c]
  else [lower_in lower_runs_high c].

(** The code points with the property Case_Ignorable, and the cased ones
    among the others, as ranges in increasing order. *)
Definition case_ignorable_ranges : list (N * N) :=
  [
   (39, 39); (46, 46); (58, 58); (94, 94); (96, 96); (168, 168);
   (173, 173); (175, 175); (180, 180); (183, 184); (688, 879); (884, 885);
   (890, 890); (900, 901); (903, 903); (1155, 1161); (1369, 1369); (1375, 1375);
   (1425, 1469); (1471, 1471); (1473, 1474); (1476, 1477); (1479, 1479); (1524, 1524);
   (1536, 1541); (1552, 1562); (1564, 1564); (1600, 1600); (1611, 1631); (1648, 1648);
   (1750, 1757); (1759, 1768); (1770, 1773); (1807, 1807); (1809, 1809); (1840, 1866);
   (1958, 1968); (2027, 2037); (2042, 2042); (2045, 2045); (2070, 2093); (2137, 2139);
   (2184, 2184); (2192, 2193); (2200, 2207); (2249, 2306); (2362, 2362); (2364, 2364);
   (2369, 2376); (2381, 2381); (2385, 2391); (2402, 2403); (2417, 2417); (2433, 2433);
   (2492, 2492); (2497, 2500); (2509, 2509); (2530, 2531); (2558, 2558); (2561, 2562);
   (2620, 2620); (2625, 2626); (2631, 2632); (2635, 2637); (2641, 2641); (2672, 2673);
   (2677, 2677); (2689, 2690); (2748, 2748); (2753, 2757); (2759, 2760); (2765, 2765);
   (2786, 2787); (2810, 2815); (2817, 2817); (2876, 2876); (2879, 2879); (2881, 2884);
   (2893, 2893); (2901, 2902); (2914, 2915); (2946, 2946); (3008, 3008); (3021, 3021);
   (3072, 3072); (3076, 3076); (3132, 3132); (3134, 3136); (3142, 3144); (3146, 3149);
   (3157, 3158); (3170, 3171); (3201, 3201); (3260, 3260); (3263, 3263); (3270, 3270);
   (3276, 3277); (3298, 3299); (3328, 3329); (3387, 3388); (3393, 3396); (3405, 3405);
   (3426, 3427); (3457, 3457); (3530, 3530); (3538, 3540); (3542, 3542); (3633, 3633);
   (3636, 3642); (3654, 3662); (3761, 3761); (3764, 3772); (3782, 3782); (3784, 3789);
   (3864, 3865); (3893, 3893); (3895, 3895); (3897, 3897); (3953, 3966); (3968, 3972);
   (3974, 3975); (3981, 3991); (3993, 4028); (4038, 4038); (4141, 4144); (4146, 4151);
   (4153, 4154); (4157, 4158); (4184, 4185); (4190, 4192); (4209, 4212); (4226, 4226);
   (4229, 4230); (4237, 4237); (4253, 4253); (4348, 4348); (4957, 4959); (5906, 5908);
   (5938, 5939); (5970, 5971); (6002, 6003); (6068, 6069); (6071, 6077); (6086, 6086);
   (6089, 6099); (6103, 6103); (6109, 6109); (6155, 6159); (6211, 6211); (6277, 6278);
   (6313, 6313); (6432, 6434); (6439, 6440); (6450, 6450); (6457, 6459); (6679, 6680);
   (6683, 6683); (6742, 6742); (6744, 6750); (6752, 6752); (6754, 6754); (6757, 6764);
   (6771, 6780); (6783, 6783); (6823, 6823); (6832, 6862); (6912, 6915); (6964, 6964);
   (6966, 6970); (6972, 6972); (6978, 6978); (7019, 7027); (7040, 7041); (7074, 7077);
   (7080, 7081); (7083, 7085); (7142, 7142); (7144, 7145); (7149, 7149); (7151, 7153);
   (7212, 7219); (7222, 7223); (7288, 7293); (7376, 7378); (7380, 7392); (7394, 7400);
   (7405, 7405); (7412, 7412); (7416, 7417); (7468, 7530); (7544, 7544); (7579, 7679);
   (8125, 8125); (8127, 8129); (8141, 8143); (8157, 8159); (8173, 8175); (8189, 8190);
   (8203, 8207); (8216, 8217); (8228, 8228); (8231, 8231); (8234, 8238); (8288, 8292);
   (8294, 8303); (8305, 8305); (8319, 8319); (8336, 8348); (8400, 8432); (11388, 11389);
   (11503, 11505); (11631, 11631); (11647, 11647); (11744, 11775); (11823, 11823); (12293, 12293);
   (12330, 12333); (12337, 12341); (12347, 12347); (12441, 12446); (12540, 12542); (40981, 40981);
   (42232, 42237); (42508, 42508); (42607, 42610); (42612, 42621); (42623, 42623); (42652, 42655);
   (42736, 42737); (42752, 42785); (42864, 42864); (42888, 42890); (42994, 42996); (43000, 43001);
   (43010, 43010); (43014, 43014); (43019, 43019); (43045, 43046); (43052, 43052); (43204, 43205);
   (43232, 43249); (43263, 43263); (43302, 43309); (43335, 43345); (43392, 43394); (43443, 43443);
   (43446, 43449); (43452, 43453); (43471, 43471); (43493, 43494); (43561, 43566); (43569, 43570);
   (43573, 43574); (43587, 43587); (43596, 43596); (43632, 43632); (43644, 43644); (43696, 43696);
   (43698, 43700); (43703, 43704); (43710, 43711); (43713, 43713); (43741, 43741); (43756, 43757);
   (43763, 43764); (43766, 43766); (43867, 43871); (43881, 43883); (44005, 44005); (44008, 44008);
   (44013, 44013); (64286, 64286); (64434, 64450); (65024, 65039); (65043, 65043); (65056, 65071);
   (65106, 65106); (65109, 65109); (65279, 65279); (65287, 65287); (65294, 65294); (65306, 65306);
   (65342, 65342); (65344, 65344); (65392, 65392); (65438, 65439); (65507, 65507); (65529, 65531);
   (66045, 66045); (66272, 66272); (66422, 66426); (67456, 67461); (67463, 67504); (67506, 67514);
   (68097, 68099); (68101, 68102); (68108, 68111); (68152, 68154); (68159, 68159); (68325, 68326);
   (68900, 68903); (69291, 69292); (69446, 69456); (69506, 69509); (69633, 69633); (69688, 69702);
   (69744, 69744); (69747, 69748); (69759, 69761); (69811, 69814); (69817, 69818); (69821, 69821);
   (69826, 69826); (69837, 69837); (69888, 69890); (69927, 69931); (69933, 69940); (70003, 70003);
   (70016, 70017); (70070, 70078); (70089, 70092); (70095, 70095); (70191, 70193); (70196, 70196);
   (70198, 70199); (70206, 70206); (70367, 70367); (70371, 70378); (70400, 70401); (70459, 70460);
   (70464, 70464); (70502, 70508); (70512, 70516); (70712, 70719); (70722, 70724); (70726, 70726);
   (70750, 70750); (70835, 70840); (70842, 70842); (70847, 70848); (70850, 70851); (71090, 71093);
   (71100, 71101); (71103, 71104); (71132, 71133); (71219, 71226); (71229, 71229); (71231, 71232);
   (71339, 71339); (71341, 71341); (71344, 71349); (71351, 71351); (71453, 71455); (71458, 71461);
   (71463, 71467); (71727, 71735); (71737, 71738); (71995, 71996); (71998, 71998); (72003, 72003);
   (72148, 72151); (72154, 72155); (72160, 72160); (72193, 72202); (72243, 72248); (72251, 72254);
   (72263, 72263); (72273, 72278); (72281, 72283); (72330, 72342); (72344, 72345); (72752, 72758);
   (72760, 72765); (72767, 72767); (72850, 72871); (72874, 72880); (72882, 72883); (72885, 72886);
   (73009, 73014); (73018, 73018); (73020, 73021); (73023, 73029); (73031, 73031); (73104, 73105);
   (73109, 73109); (73111, 73111); (73459, 73460); (78896, 78904); (92912, 92916); (92976, 92982);
   (92992, 92995); (94031, 94031); (94095, 94111); (94176, 94177); (94179, 94180); (110576, 110579);
   (110581, 110587); (110589, 110590); (113821, 113822); (113824, 113827); (118528, 118573); (118576, 118598);
   (119143, 119145); (119155, 119170); (119173, 119179); (119210, 119213); (119362, 119364); (121344, 121398);
   (121403, 121452); (121461, 121461); (121476, 121476); (121499, 121503); (121505, 121519); (122880, 122886);
   (122888, 122904); (122907, 122913); (122915, 122916); (122918, 122922); (123184, 123197); (123566, 123566);
   (123628, 123631); (125136, 125142); (125252, 125259); (127995, 127999); (917505, 917505); (917536, 917631);
   (917760, 917999)
  ]%N.

Definition cased_ranges : list (N * N) :=
  [
   (65, 90); (97, 122); (170, 170); (181, 181); (186, 186); (192, 214);
   (216, 246); (248, 442); (444, 447); (452, 659); (661, 687); (880, 883);
   (886, 887); (891, 893); (895, 895); (902, 902); (904, 906); (908, 908);
   (910, 929); (931, 1013); (1015, 1153); (1162, 1327); (1329, 1366); (1376, 1416);
   (4256, 4293); (4295, 4295); (4301, 4301); (4304, 4346); (4349, 4351); (5024, 5109);
   (5112, 5117); (7296, 7304); (7312, 7354); (7357, 7359); (7424, 7467); (7531, 7543);
   (7545, 7578); (7680, 7957); (7960, 7965); (7968, 8005); (8008, 8013); (8016, 8023);
   (8025, 8025); (8027, 8027); (8029, 8029); (8031, 8061); (8064, 8116); (8118, 8124);
   (8126, 8126); (8130, 8132); (8134, 8140); (8144, 8147); (8150, 8155); (8160, 8172);
   (8178, 8180); (8182, 8188); (8450, 8450); (8455, 8455); (8458, 8467); (8469, 8469);
   (8473, 8477); (8484, 8484); (8486, 8486); (8488, 8488); (8490, 8493); (8495, 8500);
   (8505, 8505); (8508, 8511); (8517, 8521); (8526, 8526); (8544, 8575); (8579, 8580);
   (9398, 9449); (11264, 11387); (11390, 11492); (11499, 11502); (11506, 11507); (11520, 11557);
   (11559, 11559); (11565, 11565); (42560, 42605); (42624, 42651); (42786, 42863); (42865, 42887);
   (42891, 42894); (42896, 42954); (42960, 42961); (42963, 42963); (42965, 42969); (42997, 42998);
   (43002, 43002); (43824, 43866); (43872, 43880); (43888, 43967); (64256, 64262); (64275, 64279);
   (65313, 65338); (65345, 65370); (66560, 66639); (66736, 66771); (66776, 66811); (66928, 66938);
   (66940, 66954); (66956, 66962); (66964, 66965); (66967, 66977); (66979, 66993); (66995, 67001);
   (67003, 67004); (68736, 68786); (68800, 68850); (71840, 71903); (93760, 93823); (119808, 119892);
   (119894, 119964); (119966, 119967); (119970, 119970); (119973, 119974); (119977, 119980); (119982, 119993);
   (119995, 119995); (119997, 120003); (120005, 120069); (120071, 120074); (120077, 120084); (120086, 120092);
   (120094, 120121); (120123, 120126); (120128, 120132); (120134, 120134); (120138, 120144); (120146, 120485);
   (120488, 120512); (120514, 120538); (120540, 120570); (120572, 120596); (120598, 120628); (120630, 120654);
   (120656, 120686); (120688, 120712); (120714, 120744); (120746, 120770); (120772, 120779); (122624, 122633);
   (122635, 122654); (125184, 125251); (127280, 127305); (127312, 127337); (127344, 127369)
  ]%N.

Fixpoint in_ranges (ranges : list (N * N)) (c : N) : bool :=
  match ranges with
  | [] => false
  | (first, last) :: ranges' =>
      if (c <? first)%N then false
      else if (c <=? last)%N then true
      else in_ranges ranges' c
  end.

(** The capital sigma, U+03A3, becomes the final sigma, U+03C2, when a
    cased letter comes before it, case-ignorable code points skipped, and
    none comes after it; otherwise U+03C3. *)
Fixpoint skip_ignorable (s : str) : option N :=
  match s with
  | [] => None
  | c :: s' =>
      if in_ranges case_ignorable_ranges c then skip_ignorable s' else Some c
  end.

Definition final_sigma (before_reversed after : str) : bool :=
  match skip_ignorable before_reversed with
  | Some c =>
      in_ranges cased_ranges c
      && match skip_ignorable after with
         | Some c' => negb (in_ranges cased_ranges c')
         | None => true
         end
  | None => false
  end.

Fixpoint lower_from (before_reversed s : str) : str :=
  match s with
  | [] => []
  | c :: s' =>
      (if (c =? 931)%N
       then [if final_sigma before_reversed s' then 962%N else 963%N]
       else lower_full c)
      ++ lower_from (c :: before_reversed) s'
  end.

Definition lower (s : str) : str := lower_from [] s.

End PyStr.

Import PyStr.

(* ================================================================== *)
(** ** Python dictionaries and the calendar *)
(* ================================================================== *)

(** A [dict] with string keys: insertion order, unique keys. *)
Definition dict (V : Type) := list (str * V).

Fixpoint dict_get {V : Type} (k : str) (d : dict V) : option V :=
  match d with
  | [] => None
  | (k', v) :: d' => if PyStr.eqb k k' then Some v else dict_get k d'
  end.

(** [d[k] = v]: an existing key keeps its position, a new key goes last. *)
Fixpoint dict_set {V : Type} (k : str) (v : V) (d : dict V) : dict V :=
  match d with
  | [] => [(k, v)]
  | (k', v') :: d' =>
      if PyStr.eqb k k' then (k', v) :: d' else (k', v') :: dict_set k v d'
  end.

Definition dict_keys {V : Type} (d : dict V) : list str := map fst d.

Definition dict_has {V : Type} (k : str) (d : dict V) : bool :=
  match dict_get k d with Some _ => true | None => false end.

(** [d.get(k, default)]. *)
Definition dict_get_default {V : Type} (k : str) (default : V) (d : dict V) : V :=
  match dict_get k d with Some v => v | None => default end.

(** The proleptic Gregorian calendar of the [datetime] module. *)
Module Calendar.

Definition _is_leap (year : Z) : bool :=
  (year mod 4 =? 0) && (negb (year mod 100 =? 0) || (year mod 400 =? 0)).

Definition _days_before_year (year : Z) : Z :=
  let y := year - 1 in y * 365 + y / 4 - y / 100 + y / 400.

Definition _DAYS_IN_MONTH : list Z :=
  [31; 28; 31; 30; 31; 30; 31; 31; 30; 31; 30; 31].

Definition _days_in_month (year month : Z) : Z :=
  if (month =? 2) && _is_leap year then 29
  else nth (Z.to_nat (month - 1)) _DAYS_IN_MONTH 0.

Definition _days_before_month (year month : Z) : Z :=
  fold_right Z.add 0 (firstn (Z.to_nat (month - 1)) _DAYS_IN_MONTH)
  + (if (2 <? month) && _is_leap year then 1 else 0).

Definition _ymd2ord (year month day : Z) : Z :=
  _days_before_year year + _days_before_month year month + day.

(** The range check of the [date] and [datetime] constructors. *)
Definition valid_ymd (year month day : Z) : bool :=
  (1 <=? year) && (year <=? 9999) && (1 <=? month) && (month <=? 12)
  && (1 <=? day) && (day <=? _days_in_month year month).

(** A [date] value. *)
Record date := mkdate { year : Z; month : Z; day : Z }.

Definition toordinal (d : date) : Z := _ymd2ord (year d) (month d) (day d).

(** [d.weekday()]: Monday is 0, Sunday is 6. *)
Definition weekday (d : date) : Z := (toordinal d + 6) mod 7.

(** [date(y, m, d)]: [None] stands for the [ValueError] of an out-of-range
    field. *)
Definition make_date (y m d : Z) : option date :=
  if valid_ymd y m d then Some (mkdate y m d) else None.

(** Comparison of dates, on (year, month, day). *)
Definition date_ltb (a b : date) : bool :=
  (year a <? year b)
  || (year a =? year b)
     && ((month a <? month b) || (month a =? month b) && (day a <? day b)).

Definition date_leb (a b : date) : bool := negb (date_ltb b a).

End Calendar.

Import Calendar.

(* ================================================================== *)
(** ** The external record store *)
(* ================================================================== *)

(** Property types of a collection schema; a select property lists its
    options. *)
Inductive prop_type :=
| TTitle | TRichText | TNumber | TSelect (options : list str)
| TStatus | TMultiSelect | TDate | TOther.

(** Property values of a page, by payload shape.  A date value is held as
    the calendar date of its start; [None] is an empty cell. *)
Inductive prop_value :=
| VTitle (s : str)
| VRichText (s : str)
| VNumber (n : option Q)
| VSelect (o : option str)
| VStatus (o : option str)
| VMultiSelect (l : list str)
| VDate (start : option date).

Record page := mkpage { page_id : positive; properties : dict prop_value }.

Record database := mkdb { db_properties : dict prop_type; db_pages : list page }.

(** Query filters, as the source writes them. *)
Inductive qfilter :=
| FTitleEq (prop s : str)
| FRichTextEq (prop s : str)
| FSelectEq (prop s : str)
| FStatusEq (prop s : str)
| FMultiSelectContains (prop s : str)
| FNumberEq (prop : str) (z : Z)
| FDateOnOrAfter (prop : str) (d : date)
| FDateBefore (prop : str) (d : date)
| FAnd (fs : list qfilter)
| FOr (fs : list qfilter).

Definition opt_str_eqb (o : option str) (s : str) : bool :=
  match o with Some t => PyStr.eqb t s | None => false end.

Fixpoint eval_filter (p : page) (f : qfilter) : bool :=
  match f with
  | FTitleEq k s =>
      match dict_get k (properties p) with
      | Some (VTitle t) => PyStr.eqb t s | _ => false end
  | FRichTextEq k s =>
      match dict_get k (properties p) with
      | Some (VRichText t) => PyStr.eqb t s | _ => false end
  | FSelectEq k s =>
      match dict_get k (properties p) with
      | Some (VSelect o) => opt_str_eqb o s | _ => false end
  | FStatusEq k s =>
      match dict_get k (properties p) with
      | Some (VStatus o) => opt_str_eqb o s | _ => false end
  | FMultiSelectContains k s =>
      match dict_get k (properties p) with
      | Some (VMultiSelect l) => PyStr.mem s l | _ => false end
  | FNumberEq k z =>
      match dict_get k (properties p) with
      | Some (VNumber (Some q)) => Qeq_bool q (inject_Z z) | _ => false end
  | FDateOnOrAfter k d =>
      match dict_get k (properties p) with
      | Some (VDate (Some x)) => date_leb d x | _ => false end
  | FDateBefore k d =>
      match dict_get k (properties p) with
      | Some (VDate (Some x)) => date_ltb x d | _ => false end
  | FAnd fs => forallb (eval_filter p) fs
  | FOr fs => existsb (eval_filter p) fs
  end.

(** [notion.databases.query(database_id, filter, page_size, start_cursor)]:
    one page of results.  The cursor is the number of matching pages already
    delivered; the answer carries the results, [has_more] and the next
    cursor. *)
Definition matching (db : database) (f : qfilter) : list page :=
  filter (fun p => eval_filter p f) (db_pages db).

Definition query_from (db : database) (f : qfilter) (page_size cursor : nat)
  : list page * bool * nat :=
  let rest := skipn cursor (matching db f) in
  (firstn page_size rest,
   Nat.ltb page_size (List.length rest),
   (cursor + page_size)%nat).

(** A query without a cursor: the first page of results only. *)
Definition query (db : database) (f : qfilter) (page_size : nat) : list page :=
  fst (fst (query_from db f page_size 0)).

(** [notion.pages.update(page_id, properties)]: the given properties replace
    or extend those of the page, the others stay. *)
Definition set_properties (props old : dict prop_value) : dict prop_value :=
  fold_left (fun acc kv => dict_set (fst kv) (snd kv) acc) props old.

Definition pages_update (db : database) (id : positive) (props : dict prop_value)
  : database :=
  mkdb (db_properties db)
       (map (fun p => if Pos.eqb (page_id p) id
                      then mkpage (page_id p) (set_properties props (properties p))
                      else p)
            (db_pages db)).

(** [notion.pages.create(parent, properties)]: a new page at the end of the
    collection, under the identifier the store hands out. *)
Definition pages_create (db : database) (id : positive) (props : dict prop_value)
  : database :=
  mkdb (db_properties db) (db_pages db ++ [mkpage id props]).

(** One line of the operation log: who, what kind, the text (as the pieces
    of the formatted message) and the outcome. *)
Inductive log_part := LStr (s : str) | LInt (z : Z) | LNum (q : Q).

Record log_entry := mklog {
  log_employee : str; log_type : str; log_content : list log_part;
  log_result : str }.

(** The workspace: the collections the payroll core reads and writes, the
    operation log, the next page identifier of the store, and the error
    messages shown to the user ([st.error]). *)
Record notion := mknotion {
  OVERTIME_COUNT_DB : database;
  OVERTIME_RULE_DB : database;
  LEAVE_DB : database;
  VACATION_DB : database;
  SALARY_DB : database;
  ATTEND_DB : database;
  LUNCH_DB : database;
  OPLOG_DB : list log_entry;
  next_id : positive;
  st_error : list str }.

(** The configured collection identifiers; an empty identifier is an unset
    one. *)
Record config := mkconfig {
  OVERTIME_COUNT_DB_ID : str;
  OVERTIME_RULE_DB_ID : str;
  SALARY_DB_ID : str;
  ATTEND_DB_ID : str;
  LUNCH_DB_ID : str;
  OPLOG_DB_ID : str }.

(* ================================================================== *)
(** ** Constants of the source *)
(* ================================================================== *)

Definition SPACE : N := 32.
Definition DASH : str := Eval vm_compute in utf8 "—".

Definition K_DATE : str := Eval vm_compute in utf8 "日期".
Definition K_WEEKDAY : str := Eval vm_compute in utf8 "星期".
Definition K_NOTE : str := Eval vm_compute in utf8 "備註".
Definition K_EMPLOYEE : str := Eval vm_compute in utf8 "員工姓名".
Definition K_YEAR : str := Eval vm_compute in utf8 "年份".
Definition K_MONTH : str := Eval vm_compute in utf8 "月份".
Definition K_HOURS : str := Eval vm_compute in utf8 "時數".
Definition K_SHIFT_HOURS : str := Eval vm_compute in utf8 "班次換算時數".
Definition K_HOURLY_RATE : str := Eval vm_compute in utf8 "加班時薪".

Definition LOG_OVERTIME_COUNT : str := Eval vm_compute in utf8 "加班次數表".
Definition RESULT_OK : str := Eval vm_compute in utf8 "成功".
Definition RESULT_FAIL : str := Eval vm_compute in utf8 "失敗".

Definition LUNCH_ALLOWANCE_PER_DAY : Z := 90.
Definition WORKDAY_WEEKDAYS : list Z := [0; 1; 2; 3; 4; 5].
Definition ATTEND_PRESENT_STATUS : str := Eval vm_compute in utf8 "出席".
Definition ATTEND_LEAVE_STATUS : str := Eval vm_compute in utf8 "請假".
Definition ATTEND_LATE_STATUS : str := Eval vm_compute in utf8 "遲到".

(** [sorted(ATTEND_LUNCH_ELIGIBLE_STATUSES)]: by code point, 出席 (U+51FA)
    comes before 遲到 (U+9072). *)
Definition ATTEND_LUNCH_ELIGIBLE_STATUSES : list str :=
  [ATTEND_PRESENT_STATUS; ATTEND_LATE_STATUS].

(* ================================================================== *)
(** ** Field resolver *)
(* ================================================================== *)

(** [_norm_prop_name]: full-width parentheses and spaces to half-width,
    spaces removed, lower case. *)
Definition translate1 (c : N) : N :=
  if (c =? 65288)%N then 40%N          (* （ to ( *)
  else if (c =? 65289)%N then 41%N     (* ） to ) *)
  else if (c =? 12288)%N then 32%N     (* ideographic space *)
  else if (c =? 160)%N then 32%N       (* no-break space *)
  else c.

Definition _norm_prop_name (s : str) : str :=
  let s := map translate1 s in
  let s := filter (fun c => negb (c =? SPACE)%N) s in
  lower (strip s).

(** [resolve_prop_key(props_meta, want)]. *)
Definition resolve_prop_key {V : Type} (props_meta : dict V) (want : str)
  : option str :=
  match props_meta with
  | [] => None
  | _ =>
      if dict_has want props_meta then Some want
      else find (fun k => PyStr.eqb (_norm_prop_name k) (_norm_prop_name want))
                (dict_keys props_meta)
  end.

(** [get_db_properties(database_id)], read from the store. *)
Definition get_db_properties (db : database) : dict prop_type := db_properties db.

(** [resolve_title_prop(database_id)]: the first property of type title. *)
Definition resolve_title_prop (db : database) : option str :=
  option_map fst
    (find (fun kv => match snd kv with TTitle => true | _ => false end)
          (get_db_properties db)).

(** [a or b] on optional strings: the first one that is present and not
    empty. *)
Definition or_str (a : option str) (b : str) : str :=
  match a with
  | Some s => if truthy s then s else b
  | None => b
  end.

(** [get_select_options(database_id, property_name)]. *)
Definition get_select_options (db : database) (property_name : str) : list str :=
  match dict_get property_name (get_db_properties db) with
  | Some (TSelect options) => filter truthy options
  | _ => []
  end.

(* ================================================================== *)
(** ** The application *)
(* ================================================================== *)

Section App.

(** Builtins whose text formats are not modelled: [int(s)] and [float(s)]
    on a string ([None] stands for [ValueError]) and [str(x)] on a float.
    Every statement below holds whatever they compute. *)
Variable int_of_str : str -> option Z.
Variable float_of_str : str -> option Q.
Variable str_of_float : Q -> str.

(** The configuration read at start-up. *)
Variable cfg : config.

Set Default Proof Using "Type".

(** [tauto] without the builtins and the configuration among the
    hypotheses. *)
Ltac prop_tauto :=
  try clear int_of_str; try clear float_of_str; try clear str_of_float;
  try clear cfg; tauto.

(** *** State updates *)

Definition set_OVERTIME_COUNT_DB (db : database) (st : notion) : notion :=
  mknotion db (OVERTIME_RULE_DB st) (LEAVE_DB st) (VACATION_DB st)
           (SALARY_DB st) (ATTEND_DB st) (LUNCH_DB st) (OPLOG_DB st)
           (next_id st) (st_error st).

Definition set_VACATION_DB (db : database) (st : notion) : notion :=
  mknotion (OVERTIME_COUNT_DB st) (OVERTIME_RULE_DB st) (LEAVE_DB st) db
           (SALARY_DB st) (ATTEND_DB st) (LUNCH_DB st) (OPLOG_DB st)
           (next_id st) (st_error st).

Definition set_SALARY_DB (db : database) (st : notion) : notion :=
  mknotion (OVERTIME_COUNT_DB st) (OVERTIME_RULE_DB st) (LEAVE_DB st)
           (VACATION_DB st) db (ATTEND_DB st) (LUNCH_DB st) (OPLOG_DB st)
           (next_id st) (st_error st).

Definition set_OPLOG_DB (l : list log_entry) (st : notion) : notion :=
  mknotion (OVERTIME_COUNT_DB st) (OVERTIME_RULE_DB st) (LEAVE_DB st)
           (VACATION_DB st) (SALARY_DB st) (ATTEND_DB st) (LUNCH_DB st) l
           (next_id st) (st_error st).

Definition set_next_id (id : positive) (st : notion) : notion :=
  mknotion (OVERTIME_COUNT_DB st) (OVERTIME_RULE_DB st) (LEAVE_DB st)
           (VACATION_DB st) (SALARY_DB st) (ATTEND_DB st) (LUNCH_DB st)
           (OPLOG_DB st) id (st_error st).

(** [st.error(msg)]. *)
Definition st_error_show (msg : str) (st : notion) : notion :=
  mknotion (OVERTIME_COUNT_DB st) (OVERTIME_RULE_DB st) (LEAVE_DB st)
           (VACATION_DB st) (SALARY_DB st) (ATTEND_DB st) (LUNCH_DB st)
           (OPLOG_DB st) (next_id st) (st_error st ++ [msg]).

(** [notion.pages.create] on the log collection.  The client
    sends the parent and the properties of its keyword arguments and drops
    every other keyword; the service refuses a page without a parent, which
    the client raises as an error: [None]. *)
Definition oplog_pages_create (parent : option str) (entry : log_entry)
  (st : notion) : option notion :=
  match parent with
  | Some _ => Some (set_OPLOG_DB (OPLOG_DB st ++ [entry]) st)
  | None => None
  end.

(** [log_action]: nothing when the log collection is not configured.
    Otherwise the line is built, blank fields as a dash, and handed to
    [notion.pages.create(database_id=OPLOG_DB_ID, properties=props)]: the
    call names the collection by a keyword the client drops and gives no
    parent, so it is refused, and [except Exception] returns.  The message
    of the refusal is shown only under the developer switch DEBUG_NOTION of
    the environment, which is taken as unset. *)
Definition log_action (employee_name action_type : str)
  (action_content : list log_part) (result : str) (st : notion) : notion :=
  if negb (truthy (OPLOG_DB_ID cfg)) then st
  else
    let emp := or_str (Some (strip employee_name)) DASH in
    let act := or_str (Some (strip action_type)) DASH in
    let res_txt := or_str (Some (strip result)) DASH in
    match oplog_pages_create None (mklog emp act action_content res_txt) st with
    | Some st' => st'
    | None => st
    end.

(** *** Numbers *)

Definition Qltb (a b : Q) : bool := negb (Qle_bool b a).

(** [max(a, b)] and [min(a, b)] of Python: the first argument unless the
    second is strictly larger (smaller). *)
Definition py_max (a b : Q) : Q := if Qltb a b then b else a.
Definition py_min (a b : Q) : Q := if Qltb b a then b else a.

(** [x or d] on a number that may be [None]: zero is falsy. *)
Definition or_float (x : option Q) (d : Q) : Q :=
  match x with
  | Some q => if Qeq_bool q 0 then d else q
  | None => d
  end.

(** [int(x)] on a float: truncation toward zero. *)
Definition py_int (x : Q) : Z := Z.quot (Qnum x) (Zpos (Qden x)).

(** Rounding to the nearest integer, ties to even. *)
Definition round_half_even (x : Q) : Z :=
  let f := Qfloor x in
  let d := (x - inject_Z f)%Q in
  if Qltb d (1 # 2) then f
  else if Qltb (1 # 2) d then f + 1
  else if Z.even f then f else f + 1.

(** [a + b + c + ...], summed from the left. *)
Definition sum_left (l : list Q) : Q :=
  match l with
  | [] => 0%Q
  | x :: t => fold_left Qplus t x
  end.

(** [sum(xs)]: from 0, left to right. *)
Definition py_sum (l : list Q) : Q := fold_left Qplus l 0%Q.

(** *** Duty roster: weekday appearances *)

(** A roster cell as the table editor hands it over. *)
Inductive cell := CNone | CInt (z : Z) | CStr (s : str) | CList (l : list str).

Definition row := dict cell.

(** The separators of [_parse_names_cell]:
    ["、", ",", "，", ";", "；", "\n", "\t"]. *)
Definition name_separators : list N :=
  [12289; 44; 65292; 59; 65307; 10; 9]%N.

Definition parse_names_str (s : str) : list str :=
  let s := strip s in
  if negb (truthy s) then []
  else
    let s := fold_left (fun s sep => replace1 sep SPACE s) name_separators s in
    filter truthy (map strip (split SPACE s)).

(** [_parse_names_cell(v)]; [None] is a missing cell. *)
Definition _parse_names_cell (v : option cell) : list str :=
  match v with
  | None | Some CNone => []
  | Some (CList l) => filter truthy (map strip l)
  | Some (CStr s) => parse_names_str s
  | Some (CInt z) => parse_names_str (str_of_Z z)
  end.

Definition skip_cols : list str := [K_DATE; K_WEEKDAY; K_NOTE].

(** The columns that hold names: those of the first row, the date, weekday
    and note columns apart. *)
Definition name_cols (rows : list row) : list str :=
  match rows with
  | [] => []
  | r0 :: _ => filter (fun c => negb (PyStr.mem c skip_cols)) (dict_keys r0)
  end.

(** [int(r.get("日期") or 0)], 0 when the conversion raises. *)
Definition row_day (r : row) : Z :=
  match dict_get K_DATE r with
  | None | Some CNone => 0
  | Some (CInt z) => z
  | Some (CStr s) =>
      if truthy s then match int_of_str s with Some z => z | None => 0 end
      else 0
  | Some (CList _) => 0
  end.

(** [counts[emp] = float(counts.get(emp, 0.0) + 1.0)], for a name that is
    not blank. *)
Definition count_name (counts : dict Q) (emp : str) : dict Q :=
  let emp := strip emp in
  if negb (truthy emp) then counts
  else dict_set emp (dict_get_default emp 0%Q counts + 1)%Q counts.

(** One turn of the loop over the rows. *)
Definition count_row (y m : Z) (cols : list str) (counts : dict Q) (r : row)
  : dict Q :=
  let d := row_day r in
  if d <=? 0 then counts
  else
    match make_date y m d with
    | None => counts
    | Some dt =>
        if 5 <=? weekday dt then counts
        else
          fold_left
            (fun counts col =>
               fold_left count_name (_parse_names_cell (dict_get col r)) counts)
            cols counts
    end.

Definition calc_overtime_hours_from_duty_rows (y m : Z) (rows : list row)
  : dict Q :=
  fold_left (count_row y m (name_cols rows)) rows [].

(** *** Overtime counts: keyed upsert *)

(** A dictionary display [{k1: v1, k2: v2, ...}]. *)
Definition dict_of {V : Type} (l : list (str * V)) : dict V :=
  fold_left (fun d kv => dict_set (fst kv) (snd kv) d) l [].

Definition overtime_keys (db : database) : str * str * str * str :=
  let props_meta := get_db_properties db in
  (or_str (resolve_title_prop db)
          (or_str (resolve_prop_key props_meta K_EMPLOYEE) K_EMPLOYEE),
   or_str (resolve_prop_key props_meta K_YEAR) K_YEAR,
   or_str (resolve_prop_key props_meta K_MONTH) K_MONTH,
   or_str (resolve_prop_key props_meta K_HOURS) K_HOURS).

Definition LOG_OVERWRITE : str := Eval vm_compute in utf8 "覆蓋：".
Definition LOG_CREATE : str := Eval vm_compute in utf8 "新增：".
Definition LOG_HOURS : str := Eval vm_compute in utf8 " 時數=".

Definition overtime_log_content (verb employee : str) (y m : Z) (hours : Q)
  : list log_part :=
  [LStr verb; LStr employee; LStr [SPACE]; LInt y; LStr [45%N]; LInt m;
   LStr LOG_HOURS; LNum hours].

Definition upsert_overtime_count_to_notion (employee : str) (y m : Z)
  (hours : Q) (actor : str) (st : notion) : option positive * notion :=
  let employee := strip employee in
  if negb (truthy (OVERTIME_COUNT_DB_ID cfg)) || negb (truthy employee)
  then (None, st)
  else
    let db := OVERTIME_COUNT_DB st in
    let '(k_emp, k_year, k_month, k_hours) := overtime_keys db in
    let flt :=
      FAnd [FNumberEq k_year y; FNumberEq k_month m; FTitleEq k_emp employee] in
    let results := query db flt 5 in
    let hours := or_float (Some hours) 0%Q in
    let props :=
      dict_of [(k_emp, VTitle employee);
               (k_year, VNumber (Some (inject_Z y)));
               (k_month, VNumber (Some (inject_Z m)));
               (k_hours, VNumber (Some hours))] in
    match results with
    | p :: _ =>
        let st := set_OVERTIME_COUNT_DB (pages_update db (page_id p) props) st in
        (Some (page_id p),
         log_action (or_str (Some actor) DASH) LOG_OVERTIME_COUNT
           (overtime_log_content LOG_OVERWRITE employee y m hours) RESULT_OK st)
    | [] =>
        let pid := next_id st in
        let st := set_next_id (Pos.succ pid)
                    (set_OVERTIME_COUNT_DB (pages_create db pid props) st) in
        (Some pid,
         log_action (or_str (Some actor) DASH) LOG_OVERTIME_COUNT
           (overtime_log_content LOG_CREATE employee y m hours) RESULT_OK st)
    end.

(** One turn of the loop of [sync_overtime_count_from_duty_rows]. *)
Definition sync_step (y m : Z) (actor : str) (acc : Z * Z * notion)
  (item : str * Q) : Z * Z * notion :=
  let '(ok, fail, st) := acc in
  let '(emp, hours) := item in
  match upsert_overtime_count_to_notion emp y m (or_float (Some hours) 0%Q)
                                        actor st with
  | (Some _, st) => (ok + 1, fail, st)
  | (None, st) => (ok, fail + 1, st)
  end.

Definition sync_overtime_count_from_duty_rows (y m : Z) (rows : list row)
  (actor : str) (st : notion) : Z * Z * notion :=
  if negb (truthy (OVERTIME_COUNT_DB_ID cfg)) then (0, 0, st)
  else
    let counts := calc_overtime_hours_from_duty_rows y m rows in
    fold_left (sync_step y m actor) counts (0, 0, st).

(** *** Floats *)

(** A Python float is an IEEE 754 binary64 number: a signed zero, a signed
    infinity, NaN, or a finite number [(-1)^s * m * 2^e]. *)
Definition float := spec_float.
Definition prec : Z := 53.
Definition emax : Z := 1024.

Definition fl_zero : float := S754_zero false.

(** [float(n)] for an integer: the nearest float, ties to even. *)
Definition fl_of_int (n : Z) : float := binary_normalize prec emax n 0 false.

(** [float(n)] raises [OverflowError] for an integer beyond the floats. *)
Definition fl_of_int_checked (n : Z) : option float :=
  match fl_of_int n with
  | S754_infinity _ => None
  | f => Some f
  end.

(** The float a decimal numeral denotes: the one nearest to [n / 10^k],
    ties to even, with the sign [s] (2.67 is [fl_decimal false 267 2]). *)
Definition fl_decimal (s : bool) (n : Z) (k : Z) : float :=
  match n with
  | Zpos p => SFdiv prec emax (S754_finite s p 0)
                    (S754_finite false (Z.to_pos (10 ^ k)) 0)
  | _ => S754_zero s
  end.

(** The number a float stands for; 0 for an infinity and for NaN. *)
Definition fl_value (x : float) : Q :=
  match x with
  | S754_finite s m e =>
      let n := if s then Zneg m else Zpos m in
      if 0 <=? e then inject_Z (n * 2 ^ e) else n # Z.to_pos (2 ^ (- e))
  | _ => 0%Q
  end.

(** [a <= b], [a < b]: false when one side is NaN. *)
Definition fl_leb (a b : float) : bool := SFleb a b.
Definition fl_ltb (a b : float) : bool := SFltb a b.

(** [bool(x)]: both zeros are falsy, NaN is truthy; [x or d]. *)
Definition fl_truthy (x : float) : bool := negb (SFeqb x fl_zero).

Definition fl_or (x : option float) (d : float) : float :=
  match x with
  | Some f => if fl_truthy f then f else d
  | None => d
  end.

(** [a / b]: [ZeroDivisionError] for a divisor that is zero. *)
Definition fl_truediv (a b : float) : option float :=
  if SFeqb b fl_zero then None else Some (SFdiv prec emax a b).

Definition fl_mul (a b : float) : float := SFmul prec emax a b.

(** [int(x)]: truncation toward zero; [ValueError] for NaN and
    [OverflowError] for an infinity. *)
Definition fl_int (x : float) : option Z :=
  match x with
  | S754_nan | S754_infinity _ => None
  | _ => Some (py_int (fl_value x))
  end.

(** [round(x, 2)]: the digits of [x] are rounded at the second decimal
    place, ties to even on the exact value of [x], and the decimal numeral
    is read back as a float; an infinity and NaN round to themselves. *)
Definition fl_round2 (x : float) : float :=
  match x with
  | S754_finite s _ _ =>
      fl_decimal s (round_half_even (Qabs (fl_value x) * 100)) 2
  | _ => x
  end.

(** [max(a, b)] and [min(a, b)]: the first argument unless the second is
    strictly larger (smaller). *)
Definition fl_max (a b : float) : float := if fl_ltb a b then b else a.
Definition fl_min (a b : float) : float := if fl_ltb b a then b else a.

(** *** Leave cash-out *)

Definition DEFAULT_HOURS_PER_DAY : float := Eval vm_compute in fl_of_int 8.

Record cashout := mkcashout {
  remaining_days : float; cashout_days : float; cashout_amount : float }.

(** [calc_cashout]; [None] is an exception: [int] of a quotient that is
    not finite. *)
Definition calc_cashout (remaining_hours hours_per_day cap_days
  amount_per_day : option float) (whole_days_only : bool) : option cashout :=
  let remaining_hours := fl_or remaining_hours fl_zero in
  let hours_per_day := fl_or hours_per_day DEFAULT_HOURS_PER_DAY in
  let cap_days := match cap_days with Some c => c | None => fl_zero end in
  let amount_per_day := fl_or amount_per_day fl_zero in
  let hours_per_day :=
    if fl_leb hours_per_day fl_zero then DEFAULT_HOURS_PER_DAY
    else hours_per_day in
  match fl_truediv remaining_hours hours_per_day with
  | None => None
  | Some remaining_days =>
      let raw :=
        if whole_days_only
        then match fl_int remaining_days with
             | Some n => fl_of_int_checked n
             | None => None
             end
        else Some (fl_round2 remaining_days) in
      match raw with
      | None => None
      | Some raw_days =>
          let cap_days := fl_max fl_zero cap_days in
          let cashout_days := fl_min raw_days cap_days in
          let cashout_amount := fl_mul cashout_days amount_per_day in
          Some (mkcashout remaining_days cashout_days cashout_amount)
      end
  end.

(** *** Vacation ledger *)

Definition K_STATUS : str := Eval vm_compute in utf8 "狀態".
Definition K_LEAVE_TYPE : str := Eval vm_compute in utf8 "假別".
Definition K_LEAVE_HOURS : str := Eval vm_compute in utf8 "請假時數".
Definition K_LEAVE_PERIOD : str := Eval vm_compute in utf8 "請假期間".
Definition ANNUAL_LEAVE : str := Eval vm_compute in utf8 "特休".
Definition APPROVED_DEFAULT : str := Eval vm_compute in utf8 "通過".
Definition approved_candidates : list str :=
  Eval vm_compute in
  map utf8 ["通過"; "已通過"; "核准"; "已核准"; "同意"; "Approved"]%string.

Definition K_VAC_YEAR : str := Eval vm_compute in utf8 "年度".
Definition K_VAC_TOTAL : str := Eval vm_compute in utf8 "本年度特休時數".
Definition K_VAC_USED : str := Eval vm_compute in utf8 "已使用特休時數".
Definition K_VAC_REMAINING : str := Eval vm_compute in utf8 "剩餘特休時數".

(** [props.get(name, {}).get("number")]. *)
Definition get_number (props : dict prop_value) (name : str) : option Q :=
  match dict_get name props with
  | Some (VNumber n) => n
  | _ => None
  end.

(** [props.get(name, {}).get("title", [])], first item. *)
Definition get_title (props : dict prop_value) (name : str) : str :=
  match dict_get name props with
  | Some (VTitle s) => s
  | _ => []
  end.

(** The start of [parse_notion_date(props, prop_name)]. *)
Definition parse_notion_date_start (props : dict prop_value) (prop_name : str)
  : option date :=
  match dict_get prop_name props with
  | Some (VDate start) => start
  | _ => None
  end.

(** The status label that stands for an approved request. *)
Definition approved_status (st : notion) : str :=
  let status_options := get_select_options (LEAVE_DB st) K_STATUS in
  or_str (find (fun c => PyStr.mem c status_options) approved_candidates)
         APPROVED_DEFAULT.

(** One turn of the summation loop of [calc_used_vacation_hours]. *)
Definition add_used (y : Z) (total : Q) (p : page) : Q :=
  match parse_notion_date_start (properties p) K_LEAVE_PERIOD with
  | None => total
  | Some start_dt =>
      if negb (year start_dt =? y) then total
      else (total + or_float (get_number (properties p) K_LEAVE_HOURS) 0)%Q
  end.

Definition used_filter (employee_name : str) (st : notion) : qfilter :=
  FAnd [FTitleEq K_EMPLOYEE employee_name;
        FSelectEq K_LEAVE_TYPE ANNUAL_LEAVE;
        FSelectEq K_STATUS (approved_status st)].

Definition calc_used_vacation_hours (employee_name : str) (y : Z) (st : notion)
  : Q :=
  let employee_name := strip employee_name in
  if negb (truthy employee_name) then 0%Q
  else
    let res := query (LEAVE_DB st) (used_filter employee_name st) 100 in
    fold_left (add_used y) res 0%Q.

(** Stable insertion sort of pages on a number property, descending; pages
    without a number go last. *)
Definition number_geb (k : str) (a b : page) : bool :=
  match get_number (properties a) k, get_number (properties b) k with
  | Some x, Some y => Qle_bool y x
  | Some _, None => true
  | None, Some _ => false
  | None, None => true
  end.

Fixpoint insert_by {A : Type} (leb : A -> A -> bool) (x : A) (l : list A)
  : list A :=
  match l with
  | [] => [x]
  | y :: l' => if leb x y then x :: l else y :: insert_by leb x l'
  end.

Definition sort_by {A : Type} (leb : A -> A -> bool) (l : list A) : list A :=
  fold_right (insert_by leb) [] l.

Record vacation_row := mkvrow {
  vr_page_id : positive; vr_name : str; vr_year : option Z;
  vr_total : Q; vr_used : Q; vr_remaining : Q }.

Definition vacation_row_of (p : page) : vacation_row :=
  let props := properties p in
  let total := or_float (get_number props K_VAC_TOTAL) 0 in
  let used := or_float (get_number props K_VAC_USED) 0 in
  let remaining :=
    match get_number props K_VAC_REMAINING with
    | Some r => r
    | None => py_max 0 (total - used)
    end in
  mkvrow (page_id p) (get_title props K_EMPLOYEE)
         (option_map py_int (get_number props K_VAC_YEAR))
         total used remaining.

Definition list_vacation_summary (is_admin : bool) (employee_name : str)
  (y : option Z) (limit : nat) (st : notion) : list vacation_row :=
  let filters :=
    (if negb is_admin then [FTitleEq K_EMPLOYEE employee_name] else [])
    ++ (match y with Some y => [FNumberEq K_VAC_YEAR y] | None => [] end) in
  let db := VACATION_DB st in
  let sorted := mkdb (db_properties db)
                     (sort_by (number_geb K_VAC_YEAR) (db_pages db)) in
  let flt := match filters with [f] => f | _ => FAnd filters end in
  map vacation_row_of (query sorted flt (Nat.min limit 100)).

Definition ensure_vacation_row (employee_name : str) (y : Z) (default_total : Q)
  (st : notion) : bool * notion :=
  let employee_name := strip employee_name in
  if negb (truthy employee_name) then (false, st)
  else
    let db := VACATION_DB st in
    let res := query db (FAnd [FTitleEq K_EMPLOYEE employee_name;
                               FNumberEq K_VAC_YEAR y]) 1 in
    match res with
    | _ :: _ => (true, st)
    | [] =>
        let pid := next_id st in
        let props :=
          dict_of [(K_EMPLOYEE, VTitle employee_name);
                   (K_VAC_YEAR, VNumber (Some (inject_Z y)));
                   (K_VAC_TOTAL, VNumber (Some default_total));
                   (K_VAC_USED, VNumber (Some 0%Q));
                   (K_VAC_REMAINING, VNumber (Some default_total))] in
        (true, set_next_id (Pos.succ pid)
                 (set_VACATION_DB (pages_create db pid props) st))
    end.

Record snapshot := mksnapshot {
  employee : str; snap_year : Z; total : Q; used : Q; remaining : Q;
  _page_id : positive }.

Definition get_employee_vacation_snapshot (employee_name : str) (y : Z)
  (st : notion) : option snapshot * notion :=
  let '(ok, st) := ensure_vacation_row employee_name y 0 st in
  if negb ok then (None, st)
  else
    match list_vacation_summary false employee_name (Some y) 5 st with
    | [] => (None, st)
    | row :: _ =>
        let used := calc_used_vacation_hours employee_name y st in
        let total := or_float (Some (vr_total row)) 0 in
        let remaining := py_max 0 (total - used) in
        (Some (mksnapshot employee_name y total used remaining
                          (vr_page_id row)), st)
    end.

(** *** Lunch settlement *)

Definition K_ATT_DATE : str := Eval vm_compute in utf8 "出勤日期".
Definition K_ATT_STATUS : str := Eval vm_compute in utf8 "出勤狀態".
Definition K_LUNCH_DATE : str := Eval vm_compute in utf8 "訂餐日期".
Definition K_LUNCH_AMOUNT : str := Eval vm_compute in utf8 "訂餐金額".
Definition ALL_EMPLOYEES : str := Eval vm_compute in utf8 "全部員工".

(** [_month_range(y, m)]: the first day of the month and of the next one;
    [None] when a [date] constructor raises. *)
Definition _month_range (y m : Z) : option (date * date) :=
  match make_date y m 1 with
  | None => None
  | Some start =>
      match (if m =? 12 then make_date (y + 1) 1 1 else make_date y (m + 1) 1) with
      | None => None
      | Some end_ => Some (start, end_)
      end
  end.

(** The employee filter, by the type the schema gives the name property. *)
Definition employee_filter (meta : dict prop_type) (k_emp employee_name : str)
  : qfilter :=
  match dict_get k_emp meta with
  | Some (TSelect _) => FSelectEq k_emp employee_name
  | Some TRichText => FRichTextEq k_emp employee_name
  | _ => FTitleEq k_emp employee_name
  end.

(** The status filter, by the type the schema gives the status property. *)
Definition status_filter (meta : dict prop_type) (k_status : str) : qfilter :=
  FOr (map (fun s =>
              match dict_get k_status meta with
              | Some TStatus => FStatusEq k_status s
              | Some TMultiSelect => FMultiSelectContains k_status s
              | _ => FSelectEq k_status s
              end)
           ATTEND_LUNCH_ELIGIBLE_STATUSES).

Definition attendance_filter (db : database) (employee_name : str)
  (start_d end_d : date) : qfilter :=
  let meta := get_db_properties db in
  let k_emp := or_str (resolve_prop_key meta K_EMPLOYEE) K_EMPLOYEE in
  let k_date := or_str (resolve_prop_key meta K_ATT_DATE) K_ATT_DATE in
  let k_status := or_str (resolve_prop_key meta K_ATT_STATUS) K_ATT_STATUS in
  FAnd [employee_filter meta k_emp employee_name;
        FDateOnOrAfter k_date start_d;
        FDateBefore k_date end_d;
        status_filter meta k_status].

(** The dates of one page of results; a page without a start date is
    skipped. *)
Definition dates_of (k_date : str) (results : list page) : list date :=
  flat_map (fun p => match parse_notion_date_start (properties p) k_date with
                     | Some d => [d]
                     | None => []
                     end) results.

(** The paging loop: [fuel] bounds the number of turns. *)
Fixpoint fetch_days (fuel : nat) (db : database) (flt : qfilter) (k_date : str)
  (cursor : nat) (days : list date) : list date :=
  match fuel with
  | O => days
  | S fuel' =>
      let '(results, has_more, next_cursor) := query_from db flt 100 cursor in
      let days := days ++ dates_of k_date results in
      if has_more then fetch_days fuel' db flt k_date next_cursor days
      else days
  end.

(** The body of [_list_lunch_eligible_attendance_days], which runs on the
    store when the read cache of the function has no live entry (the cache
    is [_list_lunch_eligible_attendance_days_cached]); the loop is given
    one turn more than the collection has pages, which is more than it can
    use. *)
Definition _list_lunch_eligible_attendance_days (employee_name : str)
  (start_d end_d : date) (st : notion) : list date :=
  if negb (truthy (ATTEND_DB_ID cfg)) then []
  else
    let employee_name := strip employee_name in
    if negb (truthy employee_name) then []
    else
      let db := ATTEND_DB st in
      let meta := get_db_properties db in
      let k_date := or_str (resolve_prop_key meta K_ATT_DATE) K_ATT_DATE in
      fetch_days (S (List.length (db_pages db))) db
                 (attendance_filter db employee_name start_d end_d)
                 k_date 0 [].

(** [calc_working_days_for_lunch] on the store: the number of days and
    their list. *)
Definition calc_working_days_for_lunch (employee_name : str) (y m : Z)
  (st : notion) : option (Z * list date) :=
  match _month_range y m with
  | None => None
  | Some (start_d, end_d) =>
      let eligible_days :=
        _list_lunch_eligible_attendance_days employee_name start_d end_d st in
      let working_list :=
        filter (fun d => existsb (Z.eqb (weekday d)) WORKDAY_WEEKDAYS
                         && (date_leb start_d d && date_ltb d end_d))
               (sort_by date_leb eligible_days) in
      Some (Z.of_nat (List.length working_list), working_list)
  end.

(** Descending order on a date property; pages without a date go last. *)
Definition date_geb (k : str) (a b : page) : bool :=
  match parse_notion_date_start (properties a) k,
        parse_notion_date_start (properties b) k with
  | Some x, Some y => date_leb y x
  | Some _, None => true
  | None, Some _ => false
  | None, None => true
  end.

Record lunch_row := mklunch {
  lunch_employee : str; lunch_date : option date; lunch_amount : Q }.

Definition lunch_row_of (k_emp k_date k_amt : str) (p : page) : lunch_row :=
  let props := properties p in
  mklunch
    (match dict_get k_emp props with
     | Some (VSelect (Some s)) => s
     | Some (VRichText s) => strip s
     | Some (VTitle s) => s
     | _ => []
     end)
    (parse_notion_date_start props k_date)
    (or_float (get_number props k_amt) 0).

Definition list_lunch_records (is_admin : bool) (employee_name : str)
  (start_d end_d : date) (limit : nat) (st : notion) : list lunch_row :=
  if negb (truthy (LUNCH_DB_ID cfg)) then []
  else
    let emp := strip employee_name in
    let db := LUNCH_DB st in
    let meta := get_db_properties db in
    let k_emp := or_str (resolve_prop_key meta K_EMPLOYEE) K_EMPLOYEE in
    let k_date := or_str (resolve_prop_key meta K_LUNCH_DATE) K_LUNCH_DATE in
    let k_amt := or_str (resolve_prop_key meta K_LUNCH_AMOUNT) K_LUNCH_AMOUNT in
    let filters :=
      (if truthy emp && negb (PyStr.eqb emp ALL_EMPLOYEES)
       then [employee_filter meta k_emp emp] else [])
      ++ [FDateOnOrAfter k_date start_d; FDateBefore k_date end_d] in
    let sorted := mkdb (db_properties db)
                       (sort_by (date_geb k_date) (db_pages db)) in
    map (lunch_row_of k_emp k_date k_amt)
        (query sorted (FAnd filters) (Nat.min limit 100)).

Record settlement := mksettlement {
  s_employee : str; s_year : Z; s_month : Z;
  eligible_days : Z;          (* 可領工餐天數(出席/遲到) *)
  entitlement : Q;            (* 應得午餐補助(可領×90) *)
  spent : Q;                  (* 已訂餐金額 *)
  diff : Q }.                 (* 差額(應得-已訂餐) *)

Definition calc_month_lunch_settlement (employee_name : str) (y m : Z)
  (is_admin : bool) (st : notion) : option settlement :=
  match _month_range y m, calc_working_days_for_lunch employee_name y m st with
  | Some (start_d, end_d), Some (eligible_days, _) =>
      let entitlement := eligible_days * LUNCH_ALLOWANCE_PER_DAY in
      let rows := list_lunch_records is_admin employee_name start_d end_d 500 st in
      let spent := py_sum (map (fun r => or_float (Some (lunch_amount r)) 0) rows) in
      let diff := (inject_Z entitlement - spent)%Q in
      Some (mksettlement employee_name y m eligible_days
                         (inject_Z entitlement) spent diff)
  | _, _ => None
  end.

(** [get_month_lunch_amount]: the difference of the settlement, 0 when a
    collection is not configured or the settlement raises. *)
Definition get_month_lunch_amount (employee_name : str) (y m : Z)
  (is_admin : bool) (st : notion) : Q :=
  if negb (truthy (LUNCH_DB_ID cfg)) || negb (truthy (ATTEND_DB_ID cfg)) then 0%Q
  else
    match calc_month_lunch_settlement employee_name y m is_admin st with
    | Some s => or_float (Some (diff s)) 0
    | None => 0%Q
    end.

(** *** Derived overtime pay *)

Record overtime_rule := mkrule { shift_hours : Q; hourly_rate : Q }.

Definition get_overtime_rule (y m : Z) (st : notion) : overtime_rule :=
  if negb (truthy (OVERTIME_RULE_DB_ID cfg)) then mkrule 0 0
  else
    match query (OVERTIME_RULE_DB st)
                (FAnd [FNumberEq K_YEAR y; FNumberEq K_MONTH m]) 5 with
    | [] => mkrule 0 0
    | p :: _ =>
        mkrule (or_float (get_number (properties p) K_SHIFT_HOURS) 0)
               (or_float (get_number (properties p) K_HOURLY_RATE) 0)
    end.

Definition get_overtime_count_hours (employee : str) (y m : Z) (st : notion)
  : Q :=
  let employee := strip employee in
  if negb (truthy (OVERTIME_COUNT_DB_ID cfg)) || negb (truthy employee) then 0%Q
  else
    let db := OVERTIME_COUNT_DB st in
    let '(k_emp, k_year, k_month, k_hours) := overtime_keys db in
    let flt :=
      FAnd [FNumberEq k_year y; FNumberEq k_month m; FTitleEq k_emp employee] in
    match query db flt 5 with
    | [] => 0%Q
    | p :: _ => or_float (get_number (properties p) k_hours) 0
    end.

Record weekday_ot := mkot { ot_hours : Q; ot_amount : Q; ot_rule : overtime_rule }.

Definition calc_weekday_ot_from_duty (employee : str) (y m : Z) (st : notion)
  : weekday_ot :=
  let employee := strip employee in
  let rule := get_overtime_rule y m st in
  let rate := or_float (Some (hourly_rate rule)) 0 in
  if negb (truthy employee) || Qle_bool rate 0
     || negb (truthy (OVERTIME_COUNT_DB_ID cfg))
  then mkot 0 0 rule
  else
    let hours := or_float (Some (get_overtime_count_hours employee y m st)) 0 in
    mkot hours (hours * rate)%Q rule.

(** *** Payroll records *)

Definition K_SAL_YEAR : str := Eval vm_compute in utf8 "薪資年份".
Definition K_SAL_MONTH : str := Eval vm_compute in utf8 "薪資月份".
Definition FIELD_MEAL : str := Eval vm_compute in utf8 "伙食津貼".
Definition FIELD_OT_WEEKDAY : str := Eval vm_compute in utf8 "平日(中晚)加班費".
Definition FIELD_GROSS : str := Eval vm_compute in utf8 "薪資總計".
Definition FIELD_DEDUCT : str := Eval vm_compute in utf8 "應扣總計".
Definition FIELD_NET : str := Eval vm_compute in utf8 "實發金額".

Definition add_keys : list str :=
  Eval vm_compute in
  map utf8 ["全薪"; "負責人職務津貼"; "職務津貼"; "績效獎金"; "交通津貼";
            "營業津貼"; "配合"; "全勤獎金"; "證照加給"; "伙食津貼";
            "平日(中晚)加班費"; "週六加班費"; "交際費"; "年終補助"]%string.

Definition deduct_keys : list str :=
  Eval vm_compute in
  map utf8 ["借支"; "病假請假"; "事假請假"; "借款利息"; "遲到/早退";
            "勞保費"; "健保費"; "其他"]%string.

Definition total_keys : list str := [FIELD_GROSS; FIELD_DEDUCT; FIELD_NET].

(** [_find_prop_key] and [_pick_key] of [get_salary_record]. *)
Definition _find_prop_key (props : dict prop_value) (prefix : str) : option str :=
  find (fun k => startswith k prefix) (dict_keys props).

Definition _pick_key (props : dict prop_value) (candidates : list str)
  (prefix : option str) : option str :=
  match find (fun k => dict_has k props) candidates with
  | Some k => Some k
  | None =>
      let k2 := match prefix with
                | Some p => if truthy p then _find_prop_key props p else None
                | None => None
                end in
      match k2 with
      | Some k => if truthy k then Some k else hd_error candidates
      | None => hd_error candidates
      end
  end.

(** The [get_number], [get_title] and [get_rich_text] of
    [get_salary_record]: a number that is missing or empty reads as 0.0. *)
Definition salary_get_number (props : dict prop_value) (name : str) : Q :=
  match _pick_key props [name] (Some name) with
  | None => 0%Q
  | Some k => or_float (get_number props k) 0
  end.

Definition salary_get_title (props : dict prop_value) (name : str) : str :=
  match _pick_key props [name] (Some name) with
  | None => []
  | Some k => get_title props k
  end.

Definition salary_get_rich_text (props : dict prop_value) (name : str) : str :=
  match _pick_key props [name] (Some name) with
  | None => []
  | Some k => match dict_get k props with Some (VRichText s) => s | _ => [] end
  end.

(** The dictionary [get_salary_record] returns: the identifying fields and
    one number for each pay item and total. *)
Record salary_record := mksalary {
  sr_page_id : positive; sr_name : str; sr_year : Z; sr_month : Z;
  sr_note : str; sr_values : dict Q }.

Definition salary_record_of (p : page) : salary_record :=
  let props := properties p in
  mksalary (page_id p)
           (salary_get_title props K_EMPLOYEE)
           (py_int (or_float (Some (salary_get_number props K_SAL_YEAR)) 0))
           (py_int (or_float (Some (salary_get_number props K_SAL_MONTH)) 0))
           (salary_get_rich_text props K_NOTE)
           (dict_of (map (fun k => (k, salary_get_number props k))
                         (add_keys ++ deduct_keys ++ total_keys))).

Definition get_salary_record (employee_name : str) (y m : Z) (st : notion)
  : option salary_record :=
  let employee_name := strip employee_name in
  if negb (truthy employee_name) then None
  else
    match query (SALARY_DB st)
                (FAnd [FTitleEq K_EMPLOYEE employee_name;
                       FNumberEq K_SAL_YEAR y;
                       FNumberEq K_SAL_MONTH m]) 1 with
    | [] => None
    | pg :: _ => Some (salary_record_of pg)
    end.

(** [existing.get(field)] on the record read back. *)
Definition existing_get (existing : option salary_record) (field : str)
  : option Q :=
  match existing with
  | Some e => dict_get field (sr_values e)
  | None => None
  end.

(** [_to_float(v, default)] of the payroll form, on a number or [None]. *)
Definition _to_float (v : option Q) (default : Q) : Q :=
  match v with None => default | Some q => q end.

(** The defaults the payroll form computes for the meal allowance and the
    weekday overtime pay before it shows its inputs. *)
Definition salary_form_defaults (target_employee : str) (y m : Z)
  (is_admin : bool) (st : notion) : Q * Q :=
  let existing := get_salary_record target_employee y m st in
  let auto_meal :=
    _to_float (Some (get_month_lunch_amount target_employee y m is_admin st)) 0 in
  let existing_meal_raw := existing_get existing FIELD_MEAL in
  let meal_allowance :=
    match existing_meal_raw with
    | Some _ => _to_float existing_meal_raw 0
    | None => auto_meal
    end in
  let ot_weekday :=
    match existing with
    | Some _ => _to_float (existing_get existing FIELD_OT_WEEKDAY) 0
    | None => 0%Q
    end in
  let calc := calc_weekday_ot_from_duty target_employee y m st in
  let suggested_ot_weekday := or_float (Some (ot_amount calc)) 0 in
  let existing_ot_raw := existing_get existing FIELD_OT_WEEKDAY in
  let ot_weekday :=
    match existing_ot_raw with
    | Some _ => ot_weekday
    | None => suggested_ot_weekday
    end in
  (meal_allowance, ot_weekday).

(** *** Payroll upsert *)

(** A value of the [data] payload. *)
Inductive dval := DNone | DNum (q : Q) | DStr (s : str).

(** The keyword arguments: the pay items by the field name the source
    attaches to each (an item that is not passed has its default 0.0), the
    three totals ([None] when not passed), the note and the actor. *)
Record salary_kwargs := mkkwargs {
  kw_items : dict Q;
  kw_gross_total : option Q;
  kw_deduct_total : option Q;
  kw_net_pay : option Q;
  kw_note : str;
  kw_actor : str }.

(** [isinstance(data, dict) and data]. *)
Definition data_given (data : option (dict dval)) : option (dict dval) :=
  match data with
  | Some (_ :: _ as d) => data
  | _ => None
  end.

(** [_as_float(v, default)] of [upsert_salary_record]. *)
Definition _as_float (v : dval) (default : Q) : Q :=
  match v with
  | DNone => default
  | DStr s =>
      if truthy s
      then match float_of_str s with Some q => q | None => default end
      else default
  | DNum q => q
  end.

(** [_f(x)]: [float(x or 0.0)]. *)
Definition _f (x : Q) : Q := or_float (Some x) 0.

(** The value of pay item [k] after the payload has been mapped in. *)
Definition item_value (data : option (dict dval)) (kw : salary_kwargs)
  (k : str) : Q :=
  let kwarg := dict_get_default k 0%Q (kw_items kw) in
  match data_given data with
  | Some d =>
      match dict_get k d with
      | Some v => _as_float v 0
      | None => kwarg
      end
  | None => kwarg
  end.

(** A total after the payload has been mapped in; [None] when it is
    supplied neither way. *)
Definition total_value (data : option (dict dval)) (k : str)
  (kwarg : option Q) : option Q :=
  match data_given data with
  | Some d =>
      match dict_get k d with
      | None => kwarg
      | Some DNone => None
      | Some v => Some (_as_float v 0)
      end
  | None => kwarg
  end.

(** [(data.get("員工姓名") or employee_name or "").strip()], and the final
    [strip]; [None] when the payload holds a number there, on which [strip]
    raises. *)
Definition effective_name (data : option (dict dval)) (employee_name : str)
  : option str :=
  match data_given data with
  | Some d =>
      match dict_get K_EMPLOYEE d with
      | Some (DStr s) =>
          Some (strip (strip (if truthy s then s else employee_name)))
      | Some (DNum q) =>
          if Qeq_bool q 0 then Some (strip (strip employee_name)) else None
      | Some DNone | None => Some (strip (strip employee_name))
      end
  | None => Some (strip employee_name)
  end.

(** [int(data.get(k, default))]; [None] when [int] raises. *)
Definition effective_int (data : option (dict dval)) (k : str) (default : Z)
  : option Z :=
  match data_given data with
  | Some d =>
      match dict_get k d with
      | None => Some default
      | Some DNone => None
      | Some (DNum q) => Some (py_int q)
      | Some (DStr s) => int_of_str s
      end
  | None => Some default
  end.

(** [str(data.get("備註", note) or "")]. *)
Definition effective_note (data : option (dict dval)) (note : str) : str :=
  match data_given data with
  | Some d =>
      match dict_get K_NOTE d with
      | None => note
      | Some DNone => []
      | Some (DStr s) => s
      | Some (DNum q) => if Qeq_bool q 0 then [] else str_of_float q
      end
  | None => note
  end.

Definition MSG_NAME_EMPTY : str := Eval vm_compute in utf8 "❌ 員工姓名不可為空".
Definition MSG_DB_UNSET : str := Eval vm_compute in utf8 "❌ SALARY_DB_ID 未設定".
Definition MSG_TITLE_MISSING : str :=
  Eval vm_compute in
  utf8 "❌ Notion 薪資表找不到 title 欄位『員工姓名』，請確認該欄位名稱是否正確。".
Definition LOG_SALARY : str := Eval vm_compute in utf8 "薪資管理".
Definition LOG_NAME_BLANK : str := Eval vm_compute in utf8 "儲存薪資失敗：員工姓名空白".
Definition LOG_DB_UNSET : str :=
  Eval vm_compute in utf8 "儲存薪資失敗：SALARY_DB_ID 未設定".
Definition LOG_TITLE_MISSING : str :=
  Eval vm_compute in utf8 "儲存薪資失敗：缺少『員工姓名』(title)".
Definition LOG_SAVED : str := Eval vm_compute in utf8 "儲存薪資：".

(** The three totals of a call: a total that is not supplied is computed
    from the items. *)
Definition gross_of (data : option (dict dval)) (kw : salary_kwargs) : Q :=
  match total_value data FIELD_GROSS (kw_gross_total kw) with
  | Some g => g
  | None => sum_left (map (fun k => _f (item_value data kw k)) add_keys)
  end.

Definition deduct_of (data : option (dict dval)) (kw : salary_kwargs) : Q :=
  match total_value data FIELD_DEDUCT (kw_deduct_total kw) with
  | Some d => d
  | None => sum_left (map (fun k => _f (item_value data kw k)) deduct_keys)
  end.

Definition net_of (data : option (dict dval)) (kw : salary_kwargs) : Q :=
  match total_value data FIELD_NET (kw_net_pay kw) with
  | Some n => n
  | None => (_f (gross_of data kw) - _f (deduct_of data kw))%Q
  end.

(** The properties the call writes, before the schema check: every entry
    is kept only if the collection has a property of that name. *)
Definition salary_entries (data : option (dict dval)) (kw : salary_kwargs)
  (employee_name : str) (y m : Z) : list (str * prop_value) :=
  [(K_EMPLOYEE, VTitle employee_name);
   (K_SAL_YEAR, VNumber (Some (inject_Z y)));
   (K_SAL_MONTH, VNumber (Some (inject_Z m)))]
  ++ map (fun k => (k, VNumber (Some (_f (item_value data kw k))))) add_keys
  ++ [(FIELD_GROSS, VNumber (Some (_f (gross_of data kw))))]
  ++ map (fun k => (k, VNumber (Some (_f (item_value data kw k))))) deduct_keys
  ++ [(FIELD_DEDUCT, VNumber (Some (_f (deduct_of data kw))));
      (FIELD_NET, VNumber (Some (_f (net_of data kw))));
      (K_NOTE, VRichText (strip (effective_note data (kw_note kw))))].

Definition salary_props (salary_props_meta : dict prop_type)
  (data : option (dict dval)) (kw : salary_kwargs) (employee_name : str)
  (y m : Z) : dict prop_value :=
  dict_of (filter (fun kv => dict_has (fst kv) salary_props_meta)
                  (salary_entries data kw employee_name y m)).

(** [upsert_salary_record]; the result is [None] when the mapping of the
    payload raises. *)
Definition upsert_salary_record (employee_name : str) (y m : Z)
  (data : option (dict dval)) (kw : salary_kwargs) (st : notion)
  : option bool * notion :=
  match effective_name data employee_name,
        effective_int data K_SAL_YEAR y,
        effective_int data K_SAL_MONTH m with
  | Some employee_name, Some y, Some m =>
      let actor := or_str (Some (kw_actor kw)) DASH in
      if negb (truthy employee_name) then
        (Some false,
         log_action actor LOG_SALARY [LStr LOG_NAME_BLANK] RESULT_FAIL
           (st_error_show MSG_NAME_EMPTY st))
      else if negb (truthy (SALARY_DB_ID cfg)) then
        (Some false,
         log_action actor LOG_SALARY [LStr LOG_DB_UNSET] RESULT_FAIL
           (st_error_show MSG_DB_UNSET st))
      else
        let existing := get_salary_record employee_name y m st in
        let salary_props_meta := get_db_properties (SALARY_DB st) in
        if negb (dict_has K_EMPLOYEE salary_props_meta) then
          (Some false,
           log_action actor LOG_SALARY [LStr LOG_TITLE_MISSING] RESULT_FAIL
             (st_error_show MSG_TITLE_MISSING st))
        else
          let props := salary_props salary_props_meta data kw employee_name y m in
          let st :=
            match existing with
            | Some e =>
                set_SALARY_DB (pages_update (SALARY_DB st) (sr_page_id e) props) st
            | None =>
                let pid := next_id st in
                set_next_id (Pos.succ pid)
                  (set_SALARY_DB (pages_create (SALARY_DB st) pid props) st)
            end in
          (Some true,
           log_action actor LOG_SALARY
             [LStr LOG_SAVED; LStr employee_name; LStr [SPACE]; LInt y;
              LStr [47%N]; LInt m] RESULT_OK st)
  | _, _, _ => (None, st)
  end.

(* ================================================================== *)
(** ** Specification-side definitions *)
(* ================================================================== *)

(** The second definitions below follow the words of the specification;
    the properties compare them with the code above. *)

(** *** Name lists *)

(** [sep.join(names)]. *)
Fixpoint join (sep : N) (names : list str) : str :=
  match names with
  | [] => []
  | n :: rest =>
      match rest with
      | [] => n
      | _ => n ++ sep :: join sep rest
      end
  end.

(** The characters that end a name: white space and the listed
    separators. *)
Definition is_separator (c : N) : bool :=
  existsb (N.eqb c) name_separators.

(** A name as it appears in a roster cell: not empty, without white space
    and without separator characters. *)
Definition clean_name (n : str) : bool :=
  truthy n && forallb (fun c => negb (isspace c) && negb (is_separator c)) n.

(** *** Weekday appearances *)

(** The number of times [emp] occurs in a list of names. *)
Definition occurrences (emp : str) (names : list str) : Z :=
  Z.of_nat (List.length (filter (PyStr.eqb emp) names)).

Definition Zsum (l : list Z) : Z := fold_right Z.add 0 l.

(** The day of the row is a date of month [m] of year [y] that falls on
    Monday to Friday. *)
Definition on_weekday (y m : Z) (r : row) : bool :=
  (0 <? row_day r)
  && match make_date y m (row_day r) with
     | Some dt => weekday dt <? 5
     | None => false
     end.

(** The occurrences of [emp] in the name columns of one row. *)
Definition row_occurrences (cols : list str) (emp : str) (r : row) : Z :=
  Zsum (map (fun col => occurrences emp (_parse_names_cell (dict_get col r)))
            cols).

(** One unit per occurrence of [emp] in each name column of each row that
    falls on a weekday; nothing for the other rows. *)
Definition weekday_appearances (y m : Z) (rows : list row) (emp : str) : Z :=
  Zsum (map (fun r => if on_weekday y m r
                      then row_occurrences (name_cols rows) emp r else 0)
            rows).

(** The shift columns of a row: its columns, the date, weekday and note
    columns apart. *)
Definition shift_columns (r : row) : list str :=
  filter (fun c => negb (PyStr.mem c skip_cols)) (dict_keys r).

(** A roster as the editor delivers it: every row has the columns of the
    first one. *)
Definition table (rows : list row) : Prop :=
  forall r0 r, hd_error rows = Some r0 -> In r rows ->
               dict_keys r = dict_keys r0.

(** One unit per occurrence of [emp] in each shift column of each row that
    falls on a weekday. *)
Definition shift_appearances (y m : Z) (rows : list row) (emp : str) : Z :=
  Zsum (map (fun r => if on_weekday y m r
                      then row_occurrences (shift_columns r) emp r else 0)
            rows).

(** A counter as the dictionary of counts holds it: no entry for 0. *)
Definition count_entry (n : Z) : option Q :=
  if n =? 0 then None else Some (inject_Z n).

(** A name as the splitter delivers it: stripped and not blank. *)
Definition stripped (n : str) : Prop := strip n = n /\ truthy n = true.

(** The dictionary [counts] holds the counter [k] of every name. *)
Definition counted (counts : dict Q) (k : str -> Z) : Prop :=
  forall emp, 0 <= k emp /\ dict_get emp counts = count_entry (k emp).

(** The roster of scenario 1: on 2026-02-02, a Monday, employee A is in
    the columns 檢驗線(中) and 收費員(晚). *)
Definition roster_scenario : list row :=
  [ [(K_DATE, CInt 2);
     (K_WEEKDAY, CStr (utf8 "一"));
     (utf8 "檢驗線(中)", CList [utf8 "A"]);
     (utf8 "檢驗線(晚)", CList []);
     (utf8 "收費員(中)", CList []);
     (utf8 "收費員(晚)", CList [utf8 "A"]);
     (utf8 "打掃工作", CList []);
     (K_NOTE, CStr [])] ].

(** *** Cash-out, in the words of the specification *)

(** The numbers of the specification: a finite float, and a finite float
    that is not negative (its sign bit is clear). *)
Definition fl_is_finite (x : float) : bool :=
  match x with
  | S754_zero _ => true
  | S754_finite _ m e => bounded prec emax m e
  | _ => false
  end.

Definition fl_nonneg (x : float) : bool :=
  match x with
  | S754_zero false => true
  | S754_finite false m e => bounded prec emax m e
  | _ => false
  end.

Definition fl_is_nan (x : float) : bool :=
  match x with S754_nan => true | _ => false end.

(** [hoursPerDay], replaced by 8 when it is not positive. *)
Definition spec_hours_per_day (hours_per_day : float) : float :=
  if fl_leb hours_per_day fl_zero then fl_of_int 8 else hours_per_day.

(** [remainingHours / hoursPerDay], the quotient of the floats. *)
Definition spec_remaining_days (remaining_hours hours_per_day : float)
  : float :=
  SFdiv prec emax remaining_hours (spec_hours_per_day hours_per_day).

(** [floor(x)] as a float. *)
Definition spec_floor (x : float) : float := fl_of_int (Qfloor (fl_value x)).

(** [n] is the integer nearest to [x], the even one of two: with [x] a
    hundredfold, [n] hundredths is [x] rounded to two decimals. *)
Definition nearest_even (x : Q) (n : Z) : Prop :=
  (Qabs (x - inject_Z n) <= 1 # 2)%Q
  /\ ((Qabs (x - inject_Z n) == 1 # 2)%Q -> Z.even n = true).

(** [min(a, b)] and [max(a, b)] by the order of the floats. *)
Definition spec_min (a b : float) : float := if fl_leb a b then a else b.
Definition spec_max (a b : float) : float := if fl_leb b a then a else b.

(** *** Used vacation hours, in the words of the specification *)

(** The approved annual-leave requests of an employee, all of them. *)
Definition approved_annual_requests (employee_name : str) (st : notion)
  : list page :=
  matching (LEAVE_DB st) (used_filter employee_name st).

(** The period of the request starts in year [y]. *)
Definition starts_in (y : Z) (p : page) : bool :=
  match parse_notion_date_start (properties p) K_LEAVE_PERIOD with
  | Some d => year d =? y
  | None => false
  end.

Definition leave_hours (p : page) : Q :=
  or_float (get_number (properties p) K_LEAVE_HOURS) 0.

(** The sum of the hours of the requests that start in year [y]. *)
Definition hours_in_year (y : Z) (requests : list page) : Q :=
  py_sum (map leave_hours (filter (starts_in y) requests)).

Definition spec_used_hours (employee_name : str) (y : Z) (st : notion) : Q :=
  hours_in_year y (approved_annual_requests (strip employee_name) st).

(** More pages at the end of the leave collection. *)
Definition add_leave_pages (extra : list page) (st : notion) : notion :=
  mknotion (OVERTIME_COUNT_DB st) (OVERTIME_RULE_DB st)
           (mkdb (db_properties (LEAVE_DB st))
                 (db_pages (LEAVE_DB st) ++ extra))
           (VACATION_DB st) (SALARY_DB st) (ATTEND_DB st) (LUNCH_DB st)
           (OPLOG_DB st) (next_id st) (st_error st).

(** *** Example data *)

Definition no_int : str -> option Z := fun _ => None.
Definition no_float : str -> option Q := fun _ => None.
Definition no_str : Q -> str := fun _ => [].

Definition example_cfg : config :=
  mkconfig (utf8 "overtime-count") (utf8 "overtime-rule") (utf8 "salary")
           (utf8 "attendance") (utf8 "lunch") (utf8 "oplog").

Definition empty_db : database := mkdb [] [].

Definition EMP_A : str := Eval vm_compute in utf8 "A".
Definition EMP_B : str := Eval vm_compute in utf8 "B".

Definition leave_schema : dict prop_type :=
  [(K_EMPLOYEE, TTitle);
   (K_LEAVE_TYPE, TSelect [ANNUAL_LEAVE; utf8 "病假"]);
   (K_LEAVE_HOURS, TNumber);
   (K_LEAVE_PERIOD, TDate);
   (K_STATUS, TSelect [utf8 "待審核"; APPROVED_DEFAULT])].

(** An approved annual-leave request of employee A. *)
Definition leave_request (id : positive) (start : date) (hours : Q) : page :=
  mkpage id [(K_EMPLOYEE, VTitle EMP_A);
             (K_LEAVE_TYPE, VSelect (Some ANNUAL_LEAVE));
             (K_LEAVE_HOURS, VNumber (Some hours));
             (K_LEAVE_PERIOD, VDate (Some start));
             (K_STATUS, VSelect (Some APPROVED_DEFAULT))].

(** [n] one-hour requests starting on the given date, numbered from
    [id]. *)
Fixpoint leave_requests (n : nat) (id : positive) (start : date) : list page :=
  match n with
  | O => []
  | S n' => leave_request id start 1 :: leave_requests n' (Pos.succ id) start
  end.

Definition vacation_schema : dict prop_type :=
  [(K_EMPLOYEE, TTitle); (K_VAC_YEAR, TNumber); (K_VAC_TOTAL, TNumber);
   (K_VAC_USED, TNumber); (K_VAC_REMAINING, TNumber)].

Definition vacation_page (id : positive) (y : Z) (total used remaining : Q)
  : page :=
  mkpage id [(K_EMPLOYEE, VTitle EMP_A);
             (K_VAC_YEAR, VNumber (Some (inject_Z y)));
             (K_VAC_TOTAL, VNumber (Some total));
             (K_VAC_USED, VNumber (Some used));
             (K_VAC_REMAINING, VNumber (Some remaining))].

Definition workspace (leave vacation : database) : notion :=
  mknotion empty_db empty_db leave vacation empty_db empty_db empty_db []
           1000%positive [].

(** 101 approved one-hour annual-leave requests of A, all starting on
    2026-03-02. *)
Definition st_101_requests : notion :=
  workspace (mkdb leave_schema (leave_requests 101 1 (mkdate 2026 3 2)))
            (mkdb vacation_schema [vacation_page 500 2026 200 0 200]).

(** 100 approved one-hour requests of A that start in 2025, then one of 8
    hours that starts on 2026-01-05; A is entitled to 80 hours in 2026. *)
Definition st_long_service : notion :=
  workspace (mkdb leave_schema
                  (leave_requests 100 1 (mkdate 2025 6 2)
                   ++ [leave_request 101 (mkdate 2026 1 5) 8]))
            (mkdb vacation_schema [vacation_page 500 2026 80 0 80]).

(** *** Lunch eligibility, in the words of the specification *)

(** An attendance record as the schema of the collection types it: the
    employee, the date and the status labels (one label, or several for a
    multi-select status). *)
Record attendance := mkatt {
  att_employee : option str; att_date : option date; att_statuses : list str }.

Definition attendance_of (db : database) (p : page) : attendance :=
  let meta := get_db_properties db in
  let k_emp := or_str (resolve_prop_key meta K_EMPLOYEE) K_EMPLOYEE in
  let k_date := or_str (resolve_prop_key meta K_ATT_DATE) K_ATT_DATE in
  let k_status := or_str (resolve_prop_key meta K_ATT_STATUS) K_ATT_STATUS in
  mkatt
    (match dict_get k_emp meta, dict_get k_emp (properties p) with
     | Some (TSelect _), Some (VSelect o) => o
     | Some (TSelect _), _ => None
     | Some TRichText, Some (VRichText s) => Some s
     | Some TRichText, _ => None
     | _, Some (VTitle s) => Some s
     | _, _ => None
     end)
    (parse_notion_date_start (properties p) k_date)
    (match dict_get k_status meta, dict_get k_status (properties p) with
     | Some TStatus, Some (VStatus (Some s)) => [s]
     | Some TStatus, _ => []
     | Some TMultiSelect, Some (VMultiSelect l) => l
     | Some TMultiSelect, _ => []
     | _, Some (VSelect (Some s)) => [s]
     | _, _ => []
     end).

(** The record is of the employee, its status is Present (出席) or Late
    (遲到), its date lies in [start_d, end_d) and is not a Sunday. *)
Definition lunch_eligible (employee_name : str) (start_d end_d : date)
  (a : attendance) : bool :=
  opt_str_eqb (att_employee a) employee_name
  && existsb (fun s => PyStr.mem s [ATTEND_PRESENT_STATUS; ATTEND_LATE_STATUS])
             (att_statuses a)
  && match att_date a with
     | Some d => date_leb start_d d && date_ltb d end_d && negb (weekday d =? 6)
     | None => false
     end.

Definition spec_eligible_days (employee_name : str) (start_d end_d : date)
  (st : notion) : Z :=
  Z.of_nat
    (List.length
       (filter (lunch_eligible employee_name start_d end_d)
               (map (attendance_of (ATTEND_DB st)) (db_pages (ATTEND_DB st))))).

(** *** Example data: scenario 2 *)

Definition attendance_schema : dict prop_type :=
  [(K_EMPLOYEE, TTitle); (K_ATT_DATE, TDate);
   (K_ATT_STATUS,
    TSelect [ATTEND_PRESENT_STATUS; ATTEND_LEAVE_STATUS; ATTEND_LATE_STATUS])].

Definition attendance_page (status : str) (id : positive) (d : Z) : page :=
  mkpage id [(K_EMPLOYEE, VTitle EMP_B);
             (K_ATT_DATE, VDate (Some (mkdate 2026 3 d)));
             (K_ATT_STATUS, VSelect (Some status))].

(** March 2026 of employee B: Present on 20 weekdays, on 2 Saturdays (7th,
    14th) and on 3 Sundays (1st, 8th, 15th), on Leave on Monday the 30th. *)
Definition march_attendance : list page :=
  map (fun d => attendance_page ATTEND_PRESENT_STATUS (Z.to_pos d) d)
      [2; 3; 4; 5; 6; 9; 10; 11; 12; 13; 16; 17; 18; 19; 20; 23; 24; 25; 26; 27]
  ++ map (fun d => attendance_page ATTEND_PRESENT_STATUS (Z.to_pos d) d) [7; 14]
  ++ map (fun d => attendance_page ATTEND_PRESENT_STATUS (Z.to_pos d) d) [1; 8; 15]
  ++ [attendance_page ATTEND_LEAVE_STATUS 30 30].

Definition lunch_schema : dict prop_type :=
  [(K_EMPLOYEE, TTitle); (K_LUNCH_DATE, TDate); (K_LUNCH_AMOUNT, TNumber)].

Definition lunch_page (id : positive) (d : Z) (amount : Q) : page :=
  mkpage id [(K_EMPLOYEE, VTitle EMP_B);
             (K_LUNCH_DATE, VDate (Some (mkdate 2026 3 d)));
             (K_LUNCH_AMOUNT, VNumber (Some amount))].

Definition st_march : notion :=
  mknotion empty_db empty_db empty_db empty_db empty_db
           (mkdb attendance_schema march_attendance)
           (mkdb lunch_schema [lunch_page 100 2 80; lunch_page 101 3 120])
           [] 1000%positive [].

(** *** Overtime count records *)

(** The records of the key (employee, year, month). *)
Definition of_key (k_emp k_year k_month : str) (y m : Z) (employee : str)
  : qfilter :=
  FAnd [FNumberEq k_year y; FNumberEq k_month m; FTitleEq k_emp employee].

Definition key_filter (db : database) (employee : str) (y m : Z) : qfilter :=
  let '(k_emp, k_year, k_month, _) := overtime_keys db in
  of_key k_emp k_year k_month y m employee.

Definition key_records (db : database) (employee : str) (y m : Z) : list page :=
  matching db (key_filter db employee y m).

(** The store hands out identifiers that are new: those in use are distinct
    and below the next one. *)
Definition fresh_ids (db : database) (next : positive) : Prop :=
  NoDup (map page_id (db_pages db))
  /\ Forall (fun p => (page_id p < next)%positive) (db_pages db).

(** The title property of the collection is not one of the properties
    that hold the year, the month and the hours. *)
Definition title_key_apart (db : database) : bool :=
  let '(k_emp, k_year, k_month, k_hours) := overtime_keys db in
  negb (PyStr.mem k_emp [k_year; k_month; k_hours]).

(** The properties one upsert writes. *)
Definition written (k_emp k_year k_month k_hours : str) (y m : Z)
  (employee : str) (hours : Q) : list (str * prop_value) :=
  [(k_emp, VTitle employee);
   (k_year, VNumber (Some (inject_Z y)));
   (k_month, VNumber (Some (inject_Z m)));
   (k_hours, VNumber (Some hours))].

Definition overtime_props (db : database) (employee : str) (y m : Z)
  (hours : Q) : dict prop_value :=
  let '(k_emp, k_year, k_month, k_hours) := overtime_keys db in
  dict_of (written k_emp k_year k_month k_hours y m employee hours).

(** The effect of one upsert on the collection and on the next
    identifier. *)
Definition upsert_db (y m : Z) (s : database * positive) (item : str * Q)
  : database * positive :=
  let '(db, next) := s in
  let '(employee, hours) := item in
  match find (fun p => eval_filter p (key_filter db employee y m))
             (db_pages db) with
  | Some p =>
      (pages_update db (page_id p) (overtime_props db employee y m hours), next)
  | None =>
      (pages_create db next (overtime_props db employee y m hours),
       Pos.succ next)
  end.

(** The first record of the key already holds what the upsert writes. *)
Definition settled (y m : Z) (db : database) (item : str * Q) : Prop :=
  exists p,
    find (fun p => eval_filter p (key_filter db (fst item) y m)) (db_pages db)
    = Some p
    /\ set_properties (overtime_props db (fst item) y m (snd item))
                      (properties p)
       = properties p.

(** The hours [float(hours or 0.0)] passes on unchanged. *)
Definition plain_hours (it : str * Q) : Prop :=
  or_float (Some (snd it)) 0%Q = snd it.

(** *** Example data: an overtime count collection *)

Definition overtime_schema : dict prop_type :=
  [(K_EMPLOYEE, TTitle); (K_YEAR, TNumber); (K_MONTH, TNumber);
   (K_HOURS, TNumber)].

Definition st_overtime_empty : notion :=
  mknotion (mkdb overtime_schema []) empty_db empty_db empty_db empty_db
           empty_db empty_db [] 1%positive [].

(** *** Payroll upsert *)

(** The collections and the identifier counter are the same in both
    states: only the operation log and the messages may differ. *)
Definition same_records (st st' : notion) : Prop :=
  OVERTIME_COUNT_DB st' = OVERTIME_COUNT_DB st
  /\ OVERTIME_RULE_DB st' = OVERTIME_RULE_DB st
  /\ LEAVE_DB st' = LEAVE_DB st
  /\ VACATION_DB st' = VACATION_DB st
  /\ SALARY_DB st' = SALARY_DB st
  /\ ATTEND_DB st' = ATTEND_DB st
  /\ LUNCH_DB st' = LUNCH_DB st
  /\ next_id st' = next_id st.

(** The sum of a list of numbers. *)
Definition Qsum (l : list Q) : Q := fold_right Qplus 0%Q l.

(** The last value a list of entries gives to a key. *)
Definition assoc_last {V : Type} (k : str) (l : list (str * V)) : option V :=
  fold_left (fun o kv => if PyStr.eqb k (fst kv) then Some (snd kv) else o)
            l None.

(** *** Example data: a payroll period *)

Definition salary_schema : dict prop_type :=
  [(K_EMPLOYEE, TTitle); (K_SAL_YEAR, TNumber); (K_SAL_MONTH, TNumber)]
  ++ map (fun k => (k, TNumber)) (add_keys ++ deduct_keys ++ total_keys)
  ++ [(K_NOTE, TRichText)].

(** The payroll record of A for February 2026: the full salary is filled
    in, the meal allowance and the weekday overtime pay are still empty. *)
Definition salary_page_empty_fields : page :=
  mkpage 1 [(K_EMPLOYEE, VTitle EMP_A);
            (K_SAL_YEAR, VNumber (Some 2026%Q));
            (K_SAL_MONTH, VNumber (Some 2%Q));
            (utf8 "全薪", VNumber (Some 30000%Q));
            (FIELD_MEAL, VNumber None);
            (FIELD_OT_WEEKDAY, VNumber None)].

Definition overtime_rule_page : page :=
  mkpage 2 [(K_YEAR, VNumber (Some 2026%Q));
            (K_MONTH, VNumber (Some 2%Q));
            (K_SHIFT_HOURS, VNumber (Some 1%Q));
            (K_HOURLY_RATE, VNumber (Some 200%Q))].

Definition overtime_count_page : page :=
  mkpage 3 [(K_EMPLOYEE, VTitle EMP_A);
            (K_YEAR, VNumber (Some 2026%Q));
            (K_MONTH, VNumber (Some 2%Q));
            (K_HOURS, VNumber (Some 3%Q))].

Definition attendance_page_A (id : positive) (d : Z) : page :=
  mkpage id [(K_EMPLOYEE, VTitle EMP_A);
             (K_ATT_DATE, VDate (Some (mkdate 2026 2 d)));
             (K_ATT_STATUS, VSelect (Some ATTEND_PRESENT_STATUS))].

(** February 2026: 3 overtime hours at 200 an hour and two days present
    without a lunch order, so that the suggestions are 600 and 180. *)
Definition st_payroll (salary_pages : list page) : notion :=
  mknotion (mkdb overtime_schema [overtime_count_page])
           (mkdb [(K_YEAR, TNumber); (K_MONTH, TNumber);
                  (K_SHIFT_HOURS, TNumber); (K_HOURLY_RATE, TNumber)]
                 [overtime_rule_page])
           empty_db empty_db
           (mkdb salary_schema salary_pages)
           (mkdb attendance_schema
                 [attendance_page_A 4 2; attendance_page_A 5 3])
           (mkdb lunch_schema [])
           [] 100%positive [].

(** *** Example data: inputs of the instances *)

(** A roster row of Sunday 2026-02-01 with employee A on duty. *)
Definition sunday_row : row :=
  [(K_DATE, CInt 1); (utf8 "檢驗線(中)", CList [EMP_A])].

(** A payroll call with a full salary of 30000, an advance of 1000 and no
    total supplied. *)
Definition example_kwargs : salary_kwargs :=
  mkkwargs [(utf8 "全薪", 30000%Q); (utf8 "借支", 1000%Q)] None None None
           [] (utf8 "admin").

(** *** Leave requests *)

Definition set_LEAVE_DB (db : database) (st : notion) : notion :=
  mknotion (OVERTIME_COUNT_DB st) (OVERTIME_RULE_DB st) db (VACATION_DB st)
           (SALARY_DB st) (ATTEND_DB st) (LUNCH_DB st) (OPLOG_DB st)
           (next_id st) (st_error st).

(** A [datetime] without time zone: the date and the seconds since
    midnight. *)
Record datetime := mkdatetime { dt_date : date; dt_seconds : Z }.

Definition date_eqb (a b : date) : bool :=
  (year a =? year b) && (month a =? month b) && (day a =? day b).

(** [a <= b] on [datetime] values. *)
Definition datetime_leb (a b : datetime) : bool :=
  date_ltb (dt_date a) (dt_date b)
  || date_eqb (dt_date a) (dt_date b) && (dt_seconds a <=? dt_seconds b).

Definition K_LEAVE_REASON : str := Eval vm_compute in utf8 "請假事由".
Definition STATUS_PENDING : str := Eval vm_compute in utf8 "待審核".
Definition LOG_LEAVE_REQUEST : str := Eval vm_compute in utf8 "請假申請".
Definition MSG_NO_LOGIN_NAME : str :=
  Eval vm_compute in utf8 "❌ 找不到登入者姓名，請重新登入".
Definition MSG_NO_TARGET : str :=
  Eval vm_compute in utf8 "❌ 請指定請假人（員工姓名）".
Definition MSG_HOURS_NOT_POSITIVE : str :=
  Eval vm_compute in utf8 "❌ 請假時數必須大於 0".
Definition MSG_END_NOT_AFTER_START : str :=
  Eval vm_compute in utf8 "❌ 結束時間必須晚於開始時間".
Definition LOG_NO_LOGIN_NAME : str := Eval vm_compute in utf8 "找不到登入者姓名".
Definition LOG_NO_TARGET : str := Eval vm_compute in utf8 "未指定請假人".
Definition LOG_HOURS_NOT_POSITIVE : str :=
  Eval vm_compute in utf8 "請假時數 <= 0".
Definition LOG_END_NOT_AFTER_START : str :=
  Eval vm_compute in utf8 "結束時間 <= 開始時間".
Definition LOG_APPLIES : str := Eval vm_compute in utf8 " 申請 ".
Definition LOG_HOURS_UNIT : str := Eval vm_compute in utf8 " 小時".

(** The status a new request is given: 待審核 when the status property
    offers it, the first option otherwise, 待審核 when there is none. *)
Definition default_leave_status (st : notion) : str :=
  let status_options := get_select_options (LEAVE_DB st) K_STATUS in
  if PyStr.mem STATUS_PENDING status_options then STATUS_PENDING
  else match status_options with
       | o :: _ => o
       | [] => STATUS_PENDING
       end.

(** The properties of a new request.  The period is held by its start
    date, as the store of this model holds every date value. *)
Definition leave_request_props (target_name leave_type : str) (hours : Z)
  (start_dt end_dt : datetime) (reason default_status : str)
  : dict prop_value :=
  dict_of [(K_EMPLOYEE, VTitle target_name);
           (K_LEAVE_TYPE, VSelect (Some leave_type));
           (K_LEAVE_HOURS, VNumber (Some (inject_Z hours)));
           (K_LEAVE_PERIOD, VDate (Some (dt_date start_dt)));
           (K_LEAVE_REASON, VRichText reason);
           (K_STATUS, VSelect (Some default_status))].

(** [create_leave_request]; [hours] is [None] for a missing value. *)
Definition create_leave_request (employee_name leave_type : str)
  (hours : option Z) (start_dt end_dt : datetime) (reason : str)
  (target_employee_name created_by : option str) (st : notion)
  : bool * notion :=
  let employee_name := strip employee_name in
  let leave_type := strip leave_type in
  let reason := strip reason in
  let target_name := strip (or_str target_employee_name employee_name) in
  let actor := strip (or_str created_by employee_name) in
  let refuse msg why :=
    (false,
     log_action (or_str (Some actor) DASH) LOG_LEAVE_REQUEST [LStr why]
                RESULT_FAIL (st_error_show msg st)) in
  if negb (truthy employee_name) then refuse MSG_NO_LOGIN_NAME LOG_NO_LOGIN_NAME
  else if negb (truthy target_name) then refuse MSG_NO_TARGET LOG_NO_TARGET
  else
    match hours with
    | None => refuse MSG_HOURS_NOT_POSITIVE LOG_HOURS_NOT_POSITIVE
    | Some h =>
        if h <=? 0 then refuse MSG_HOURS_NOT_POSITIVE LOG_HOURS_NOT_POSITIVE
        else if datetime_leb end_dt start_dt
        then refuse MSG_END_NOT_AFTER_START LOG_END_NOT_AFTER_START
        else
          let props :=
            leave_request_props target_name leave_type h start_dt end_dt
                                reason (default_leave_status st) in
          let pid := next_id st in
          let st :=
            set_next_id (Pos.succ pid)
              (set_LEAVE_DB (pages_create (LEAVE_DB st) pid props) st) in
          (true,
           log_action (or_str (Some actor) target_name) LOG_LEAVE_REQUEST
             [LStr target_name; LStr LOG_APPLIES; LStr leave_type;
              LStr [SPACE]; LInt h; LStr LOG_HOURS_UNIT] RESULT_OK st)
    end.

(** *** Vacation: the check before a request *)

Definition MSG_VACATION_READ_FAILED : str :=
  Eval vm_compute in utf8 "❌ 讀取年度特休資料失敗".
Definition MSG_VACATION_SHORT : str := Eval vm_compute in utf8 "❌ 特休不足：剩餘 ".
Definition MSG_VACATION_ASKED : str :=
  Eval vm_compute in utf8 " 小時，但你申請 ".

(** [validate_vacation_enough]: the verdict and the message, as the pieces
    of the formatted text. *)
Definition validate_vacation_enough (employee_name : str) (y : Z)
  (request_hours : Z) (st : notion) : bool * list log_part * notion :=
  match get_employee_vacation_snapshot employee_name y st with
  | (None, st) => (false, [LStr MSG_VACATION_READ_FAILED], st)
  | (Some snap, st) =>
      let remaining := remaining snap in
      if Qltb remaining (inject_Z request_hours)
      then (false,
            [LStr MSG_VACATION_SHORT; LNum remaining; LStr MSG_VACATION_ASKED;
             LInt request_hours; LStr LOG_HOURS_UNIT], st)
      else (true, [], st)
  end.

(** *** Attendance records *)

Definition set_ATTEND_DB (db : database) (st : notion) : notion :=
  mknotion (OVERTIME_COUNT_DB st) (OVERTIME_RULE_DB st) (LEAVE_DB st)
           (VACATION_DB st) (SALARY_DB st) db (LUNCH_DB st) (OPLOG_DB st)
           (next_id st) (st_error st).

Definition set_LUNCH_DB (db : database) (st : notion) : notion :=
  mknotion (OVERTIME_COUNT_DB st) (OVERTIME_RULE_DB st) (LEAVE_DB st)
           (VACATION_DB st) (SALARY_DB st) (ATTEND_DB st) db (OPLOG_DB st)
           (next_id st) (st_error st).

(** [d + timedelta(days=1)]; [None] stands for the [OverflowError] past
    the last day of year 9999. *)
Definition next_day (d : date) : option date :=
  if day d <? _days_in_month (year d) (month d)
  then Some (mkdate (year d) (month d) (day d + 1))
  else if month d <? 12 then Some (mkdate (year d) (month d + 1) 1)
  else if year d <? 9999 then Some (mkdate (year d + 1) 1 1)
  else None.

(** [_attend_day_range(attend_date)]: the day and the day after. *)
Definition _attend_day_range (attend_date : date) : option (date * date) :=
  option_map (fun end_d => (attend_date, end_d)) (next_day attend_date).

Definition MSG_ATTEND_DB_UNSET : str :=
  Eval vm_compute in utf8 "❌ 尚未設定 ATTEND_DB_ID（出勤記錄表 Database ID）".
Definition MSG_STATUS_UNKNOWN : str :=
  Eval vm_compute in utf8 "❌ 出勤狀態 Notion 選項不存在：".
Definition MSG_STATUS_ADVICE : str :=
  Eval vm_compute in utf8 "（請先在 Notion 建立選項）".
Definition LOG_ATTEND_UPDATE : str := Eval vm_compute in utf8 "出勤更新".
Definition LOG_ATTEND_CREATE : str := Eval vm_compute in utf8 "出勤新增".
Definition BAR : str := Eval vm_compute in utf8 "｜".

(** The pieces of [d.isoformat()]. *)
Definition isoformat (d : date) : list log_part :=
  [LInt (year d); LStr [45%N]; LInt (month d); LStr [45%N]; LInt (day d)].

(** [find_attendance_page]: the first record of the employee on the day. *)
Definition find_attendance_page (employee_name : str) (attend_date : date)
  (st : notion) : option positive :=
  if negb (truthy (ATTEND_DB_ID cfg)) then None
  else
    let employee_name := strip employee_name in
    if negb (truthy employee_name) then None
    else
      match _attend_day_range attend_date with
      | None => None
      | Some (start_iso, end_iso) =>
          match query (ATTEND_DB st)
                      (FAnd [FTitleEq K_EMPLOYEE employee_name;
                             FDateOnOrAfter K_ATT_DATE start_iso;
                             FDateBefore K_ATT_DATE end_iso]) 1 with
          | p :: _ => Some (page_id p)
          | [] => None
          end
      end.

(** The status labels a record may take: the options of the status
    property, or the three defaults when it lists none. *)
Definition attendance_status_options (db : database) : list str :=
  match get_select_options db K_ATT_STATUS with
  | [] => [ATTEND_PRESENT_STATUS; ATTEND_LEAVE_STATUS; ATTEND_LATE_STATUS]
  | options => options
  end.

(** The properties [upsert_attendance_record] sends: the name only for a
    new record, each one only if the schema has it. *)
Definition attendance_props (props_meta : dict prop_type)
  (page_id : option positive) (employee_name : str) (attend_date : date)
  (status : str) : dict prop_value :=
  let has_prop n := dict_has n props_meta in
  dict_of
    ((if has_prop K_EMPLOYEE
         && match page_id with None => true | Some _ => false end
      then [(K_EMPLOYEE, VTitle employee_name)] else [])
     ++ (if has_prop K_ATT_DATE
         then [(K_ATT_DATE, VDate (Some attend_date))] else [])
     ++ (if has_prop K_ATT_STATUS
         then [(K_ATT_STATUS, VSelect (Some status))] else [])).

Definition attendance_log (employee_name : str) (attend_date : date)
  (status : str) : list log_part :=
  [LStr employee_name; LStr BAR] ++ isoformat attend_date
  ++ [LStr BAR; LStr status].

Definition upsert_attendance_record (employee_name : str) (attend_date : date)
  (status actor : str) (st : notion) : bool * notion :=
  if negb (truthy (ATTEND_DB_ID cfg))
  then (false, st_error_show MSG_ATTEND_DB_UNSET st)
  else
    let employee_name := strip employee_name in
    let status := strip status in
    if negb (truthy employee_name)
    then (false, st_error_show MSG_NAME_EMPTY st)
    else
      let db := ATTEND_DB st in
      let props_meta := get_db_properties db in
      let options := attendance_status_options db in
      if negb (PyStr.mem status options)
      then (false,
            st_error_show (MSG_STATUS_UNKNOWN ++ status ++ MSG_STATUS_ADVICE)
                          st)
      else
        let page_id := find_attendance_page employee_name attend_date st in
        let props :=
          attendance_props props_meta page_id employee_name attend_date
                           status in
        match page_id with
        | Some id =>
            (true,
             log_action (or_str (Some actor) DASH) LOG_ATTEND_UPDATE
               (attendance_log employee_name attend_date status) RESULT_OK
               (set_ATTEND_DB (pages_update db id props) st))
        | None =>
            let pid := next_id st in
            (true,
             log_action (or_str (Some actor) DASH) LOG_ATTEND_CREATE
               (attendance_log employee_name attend_date status) RESULT_OK
               (set_next_id (Pos.succ pid)
                  (set_ATTEND_DB (pages_create db pid props) st)))
        end.

(** *** Lunch orders *)

Definition MSG_LUNCH_DB_UNSET : str :=
  Eval vm_compute in utf8 "❌ 尚未設定 LUNCH_DB_ID（午餐訂餐表 Database ID）".
Definition LOG_LUNCH : str := Eval vm_compute in utf8 "午餐訂餐".

Definition lunch_props (props_meta : dict prop_type) (employee_name : str)
  (lunch_date : date) (amount : Q) : dict prop_value :=
  let has_prop n := dict_has n props_meta in
  dict_of
    ((if has_prop K_EMPLOYEE
      then [(K_EMPLOYEE, VTitle employee_name)] else [])
     ++ (if has_prop K_LUNCH_AMOUNT
         then [(K_LUNCH_AMOUNT, VNumber (Some (or_float (Some amount) 0)))]
         else [])
     ++ (if has_prop K_LUNCH_DATE
         then [(K_LUNCH_DATE, VDate (Some lunch_date))] else [])).

Definition create_lunch_record (employee_name : str) (lunch_date : date)
  (amount : Q) (actor : str) (st : notion) : bool * notion :=
  if negb (truthy (LUNCH_DB_ID cfg))
  then (false, st_error_show MSG_LUNCH_DB_UNSET st)
  else
    let employee_name := strip employee_name in
    if negb (truthy employee_name)
    then (false, st_error_show MSG_NAME_EMPTY st)
    else
      let db := LUNCH_DB st in
      let props :=
        lunch_props (get_db_properties db) employee_name lunch_date amount in
      let pid := next_id st in
      (true,
       log_action (or_str (Some actor) employee_name) LOG_LUNCH
         ([LStr employee_name; LStr BAR] ++ isoformat lunch_date
          ++ [LStr BAR; LStr [36%N]; LNum (or_float (Some amount) 0)])
         RESULT_OK
         (set_next_id (Pos.succ pid)
            (set_LUNCH_DB (pages_create db pid props) st))).

(** 1 for a record that counts, 0 for one that does not. *)
Definition count_of (b : bool) : Z := if b then 1 else 0.

(** The lunch orders of an employee in [start_d, end_d), on a schema that
    types the name as a title. *)
Definition lunch_key (employee_name : str) (start_d end_d : date) : qfilter :=
  FAnd [FTitleEq K_EMPLOYEE employee_name;
        FDateOnOrAfter K_LUNCH_DATE start_d; FDateBefore K_LUNCH_DATE end_d].

(** *** Overtime rule: keyed upsert *)

Definition set_OVERTIME_RULE_DB (db : database) (st : notion) : notion :=
  mknotion (OVERTIME_COUNT_DB st) db (LEAVE_DB st) (VACATION_DB st)
           (SALARY_DB st) (ATTEND_DB st) (LUNCH_DB st) (OPLOG_DB st)
           (next_id st) (st_error st).

(** The values [upsert_overtime_rule_to_notion] hands to [_set]: an
    integer, a float or a text. *)
Inductive pyval := PInt (z : Z) | PFloat (q : Q) | PStr (s : str).

(** [str(val)]. *)
Definition str_of_pyval (v : pyval) : str :=
  match v with
  | PInt z => str_of_Z z
  | PFloat q => str_of_float q
  | PStr s => s
  end.

Definition _rt (v : pyval) : prop_value := VRichText (str_of_pyval v).
Definition _title (v : pyval) : prop_value := VTitle (str_of_pyval v).

(** [_num(val)]: an empty number when [float] raises. *)
Definition _num (v : pyval) : prop_value :=
  match v with
  | PInt z => VNumber (Some (inject_Z z))
  | PFloat q => VNumber (Some q)
  | PStr s => VNumber (float_of_str s)
  end.

Definition _ms (vals : list pyval) : prop_value :=
  VMultiSelect
    (map str_of_pyval
         (filter (fun v => truthy (strip (str_of_pyval v))) vals)).

Definition _sel (v : pyval) : prop_value :=
  if truthy (strip (str_of_pyval v)) then VSelect (Some (str_of_pyval v))
  else VSelect None.

(** [_set(name, value)]: the payload of the type the schema gives the
    property, a rich text for any other type and for a missing property. *)
Definition _set (props : dict prop_type) (name : str) (value : pyval)
  : prop_value :=
  match dict_get name props with
  | Some TTitle => _title value
  | Some TNumber => _num value
  | Some TRichText => _rt value
  | Some (TSelect _) => _sel value
  | Some TMultiSelect => _ms [value]
  | _ => _rt value
  end.

Definition K_RULE_NAME : str := Eval vm_compute in utf8 "名稱".

(** [f"{m:02d}"]. *)
Definition pad2 (m : Z) : str :=
  let s := str_of_Z m in
  if (List.length s <? 2)%nat then 48%N :: s else s.

Definition overtime_rule_entries (props : dict prop_type) (y m : Z)
  (shift_hours hourly_rate : Q) (note : str) : list (str * prop_value) :=
  let name := str_of_Z y ++ [45%N] ++ pad2 m in
  [(K_RULE_NAME, _set props K_RULE_NAME (PStr name));
   (K_YEAR, _set props K_YEAR (PInt y));
   (K_MONTH, _set props K_MONTH (PInt m));
   (K_SHIFT_HOURS, _set props K_SHIFT_HOURS (PFloat shift_hours));
   (K_HOURLY_RATE, _set props K_HOURLY_RATE (PFloat hourly_rate));
   (K_NOTE, _set props K_NOTE (PStr note))].

(** [upsert_overtime_rule_to_notion]: the page written; [None] stands for
    the [RuntimeError] of a collection that is not configured. *)
Definition upsert_overtime_rule_to_notion (y m : Z)
  (shift_hours hourly_rate : Q) (note : str) (st : notion)
  : option positive * notion :=
  if negb (truthy (OVERTIME_RULE_DB_ID cfg)) then (None, st)
  else
    let db := OVERTIME_RULE_DB st in
    let props := get_db_properties db in
    let payload :=
      dict_of (filter (fun kv => dict_has (fst kv) props)
                      (overtime_rule_entries props y m shift_hours
                                             hourly_rate note)) in
    match query db (FAnd [FNumberEq K_YEAR y; FNumberEq K_MONTH m]) 5 with
    | p :: _ =>
        (Some (page_id p),
         set_OVERTIME_RULE_DB (pages_update db (page_id p) payload) st)
    | [] =>
        let pid := next_id st in
        (Some pid,
         set_next_id (Pos.succ pid)
           (set_OVERTIME_RULE_DB (pages_create db pid payload) st))
    end.

(** The rule a page holds for the reader. *)
Definition holds_rule (y m : Z) (shift rate : Q) (q : page) : Prop :=
  eval_filter q (FAnd [FNumberEq K_YEAR y; FNumberEq K_MONTH m]) = true
  /\ get_number (properties q) K_SHIFT_HOURS = Some shift
  /\ get_number (properties q) K_HOURLY_RATE = Some rate.

(** *** Roster cells: the loader and the editor *)

(** The loop of [_split_names] that keeps the first occurrence of each
    name; [seen] holds the names met so far. *)
Fixpoint first_occurrences (seen parts : list str) : list str :=
  match parts with
  | [] => []
  | p :: rest =>
      if PyStr.mem p seen then first_occurrences seen rest
      else p :: first_occurrences (p :: seen) rest
  end.

(** [_split_names(s)] of [query_duty_month_to_horizontal_df]; [None] is a
    missing text. *)
Definition _split_names (s : option str) : list str :=
  let s := strip (or_str s []) in
  if negb (truthy s) then []
  else
    let s := fold_left (fun s sep => replace1 sep SPACE s) name_separators s in
    let parts := filter truthy (map strip (split SPACE s)) in
    first_occurrences [] parts.

(** The characters of the class [、,，/] of [normalize_multi_people_cell]. *)
Definition people_separators : list N := [12289; 44; 65292; 47]%N.

Definition is_people_separator (c : N) : bool :=
  existsb (N.eqb c) people_separators.

(** [re.split(r"[、,，/]+|\s+", s)]: a run of characters of the class, or a
    run of white space, ends a field; [r] tells which run the scan is
    in. *)
Inductive run := NoRun | SepRun | SpaceRun.

Fixpoint re_split_people (r : run) (s : str) : list str :=
  match s with
  | [] => [[]]
  | c :: s' =>
      if is_people_separator c then
        match r with
        | SepRun => re_split_people SepRun s'
        | _ => [] :: re_split_people SepRun s'
        end
      else if isspace c then
        match r with
        | SpaceRun => re_split_people SpaceRun s'
        | _ => [] :: re_split_people SpaceRun s'
        end
      else
        match re_split_people NoRun s' with
        | [] => [[c]]
        | w :: ws => (c :: w) :: ws
        end
  end.

(** [normalize_multi_people_cell(v)]; a missing value of the table is
    [None] or [CNone]. *)
Definition normalize_multi_people_cell (v : option cell) : list str :=
  match v with
  | None | Some CNone => []
  | Some (CList l) => filter truthy (map strip l)
  | Some (CStr s) =>
      let s := strip s in
      if negb (truthy s) then []
      else filter truthy (map strip (re_split_people NoRun s))
  | Some (CInt z) =>
      let s := strip (str_of_Z z) in
      if truthy s then [s] else []
  end.

(** *** The empty roster of a month *)

Definition WEEKDAY_MAP : list str :=
  Eval vm_compute in map utf8 ["一"; "二"; "三"; "四"; "五"; "六"; "日"]%string.

Definition SHIFT_INSPECT_MID : str := Eval vm_compute in utf8 "檢驗線(中)".
Definition SHIFT_INSPECT_NIGHT : str := Eval vm_compute in utf8 "檢驗線(晚)".
Definition SHIFT_CASHIER_MID : str := Eval vm_compute in utf8 "收費員(中)".
Definition SHIFT_CASHIER_NIGHT : str := Eval vm_compute in utf8 "收費員(晚)".
Definition SHIFT_CLEANING : str := Eval vm_compute in utf8 "打掃工作".

(** One row of [build_month_template]. *)
Definition template_row (y m d : Z) : row :=
  [(K_DATE, CInt d);
   (K_WEEKDAY,
    CStr (nth (Z.to_nat (weekday (mkdate y m d))) WEEKDAY_MAP []));
   (SHIFT_INSPECT_MID, CList []);
   (SHIFT_INSPECT_NIGHT, CList []);
   (SHIFT_CASHIER_MID, CList []);
   (SHIFT_CASHIER_NIGHT, CList []);
   (SHIFT_CLEANING, CStr []);
   (K_NOTE, CStr [])].

(** [build_month_template(y, m)]; [None] when [calendar.monthrange] or
    [datetime] raises. *)
Definition build_month_template (y m : Z) : option (list row) :=
  if negb ((1 <=? m) && (m <=? 12)) then None
  else
    let last_day := _days_in_month y m in
    if negb ((1 <=? y) && (y <=? 9999)) then None
    else Some (map (fun d => template_row y m (Z.of_nat d))
                   (seq 1 (Z.to_nat last_day))).

(** *** Table columns *)

Definition META_COLUMNS : list str :=
  Eval vm_compute in map utf8 ["建立時間"; "最後更新時間"]%string.

(** [strip_meta_columns(rows)]. *)
Definition strip_meta_columns {V : Type} (rows : option (list (dict V)))
  : list (dict V) :=
  match rows with
  | None => []
  | Some rows =>
      map (filter (fun kv : str * V => negb (PyStr.mem (fst kv) META_COLUMNS)))
          rows
  end.

(** A character that [_parse_names_cell] leaves inside a name: neither the
    half-width space nor a listed separator. *)
Definition name_char (c : N) : bool :=
  negb (c =? SPACE)%N && negb (is_separator c).

(** A character that [normalize_multi_people_cell] leaves inside a name:
    neither of the class [、,，/] nor white space. *)
Definition people_char (c : N) : bool :=
  negb (is_people_separator c) && negb (isspace c).

(** *** The read cache of the eligible days *)

(** The source decorates [_list_lunch_eligible_attendance_days] with
    [@st.cache_data(ttl=60)]: the cache maps the arguments of a call to the
    result of the body and the time it was computed, and an entry answers
    the calls made less than 60 seconds after that time.  No write of the
    program removes an entry.  Times are readings of the clock, in
    seconds. *)
Definition LUNCH_DAYS_TTL : Q := 60.

Record cache_entry := mkentry {
  ce_employee : str; ce_start : date; ce_end : date;
  ce_time : Q; ce_days : list date }.

Definition lunch_cache := list cache_entry.

Definition entry_for (employee_name : str) (start_d end_d : date)
  (e : cache_entry) : bool :=
  PyStr.eqb (ce_employee e) employee_name
  && date_eqb (ce_start e) start_d && date_eqb (ce_end e) end_d.

(** The entry of the arguments, if it has not expired. *)
Definition cache_read (c : lunch_cache) (employee_name : str)
  (start_d end_d : date) (now : Q) : option (list date) :=
  match find (entry_for employee_name start_d end_d) c with
  | Some e =>
      if Qltb now (ce_time e + LUNCH_DAYS_TTL) then Some (ce_days e) else None
  | None => None
  end.

(** The decorated function at the time [now]: the body runs only when the
    cache has no live entry, and its result is put in front of the older
    entries. *)
Definition _list_lunch_eligible_attendance_days_cached (employee_name : str)
  (start_d end_d : date) (now : Q) (c : lunch_cache) (st : notion)
  : list date * lunch_cache :=
  match cache_read c employee_name start_d end_d now with
  | Some days => (days, c)
  | None =>
      let days :=
        _list_lunch_eligible_attendance_days employee_name start_d end_d st in
      (days, mkentry employee_name start_d end_d now days :: c)
  end.

(** [calc_working_days_for_lunch] as the program runs it, reading the
    eligible days through the cache. *)
Definition calc_working_days_for_lunch_cached (employee_name : str) (y m : Z)
  (now : Q) (c : lunch_cache) (st : notion)
  : option (Z * list date) * lunch_cache :=
  match _month_range y m with
  | None => (None, c)
  | Some (start_d, end_d) =>
      let '(eligible_days, c') :=
        _list_lunch_eligible_attendance_days_cached employee_name start_d
                                                    end_d now c st in
      let working_list :=
        filter (fun d => existsb (Z.eqb (weekday d)) WORKDAY_WEEKDAYS
                         && (date_leb start_d d && date_ltb d end_d))
               (sort_by date_leb eligible_days) in
      (Some (Z.of_nat (List.length working_list), working_list), c')
  end.

(* ================================================================== *)
(** ** Properties *)
(* ================================================================== *)

(** *** Strings and dictionaries *)

Lemma eqb_eq (a b : str) : PyStr.eqb a b = true <-> a = b.
Proof.
  revert b; induction a as [|x a IH]; intros [|y b]; simpl;
    try (split; [discriminate | discriminate]); try prop_tauto.
  rewrite andb_true_iff, N.eqb_eq, IH.
  split; [intros [-> ->]; reflexivity | intros H; inversion H; auto].
Qed.

Lemma eqb_refl (a : str) : PyStr.eqb a a = true.
Proof. apply eqb_eq; reflexivity. Qed.

Lemma eqb_neq (a b : str) : PyStr.eqb a b = false <-> a <> b.
Proof.
  rewrite <- eqb_eq. destruct (PyStr.eqb a b); split; congruence.
Qed.

Lemma eqb_sym (a b : str) : PyStr.eqb a b = PyStr.eqb b a.
Proof.
  destruct (PyStr.eqb a b) eqn:E.
  - apply eqb_eq in E; subst; symmetry; apply eqb_refl.
  - symmetry; apply eqb_neq; apply eqb_neq in E; congruence.
Qed.

Lemma lstrip_head (s : str) :
  lstrip s = [] \/ exists c t, lstrip s = c :: t /\ isspace c = false.
Proof.
  induction s as [|c s IH]; simpl; [left; reflexivity|].
  destruct (isspace c) eqn:E; [exact IH|].
  right; exists c, s; split; [reflexivity | exact E].
Qed.

Lemma rstrip_head (c : N) (t : str) :
  isspace c = false -> exists r, rstrip (c :: t) = c :: r.
Proof.
  intros E; simpl. destruct (rstrip t) as [|x r].
  - rewrite E; exists []; reflexivity.
  - exists (x :: r); reflexivity.
Qed.

Lemma rstrip_cons (c : N) (s : str) :
  rstrip (c :: s) =
  match rstrip s with
  | [] => if isspace c then [] else [c]
  | r => c :: r
  end.
Proof. reflexivity. Qed.

Lemma rstrip_idem (s : str) : rstrip (rstrip s) = rstrip s.
Proof.
  induction s as [|c s IH]; [reflexivity|].
  rewrite rstrip_cons.
  destruct (rstrip s) as [|x r] eqn:E.
  - destruct (isspace c) eqn:Ec; [reflexivity|].
    rewrite rstrip_cons; simpl; rewrite Ec; reflexivity.
  - rewrite rstrip_cons, IH; reflexivity.
Qed.

Lemma strip_idem (s : str) : strip (strip s) = strip s.
Proof.
  unfold strip.
  destruct (lstrip_head s) as [E | (c & t & E & Hc)]; rewrite E.
  - reflexivity.
  - destruct (rstrip_head c t Hc) as [r Er]. rewrite Er.
    simpl lstrip. rewrite Hc. rewrite <- Er. apply rstrip_idem.
Qed.

Lemma dict_get_set_same {V : Type} (k : str) (v : V) (d : dict V) :
  dict_get k (dict_set k v d) = Some v.
Proof.
  induction d as [|[k' v'] d IH]; simpl.
  - rewrite eqb_refl; reflexivity.
  - destruct (PyStr.eqb k k') eqn:E; simpl; rewrite E; auto.
Qed.

Lemma dict_get_set_other {V : Type} (k k0 : str) (v : V) (d : dict V) :
  k0 <> k -> dict_get k0 (dict_set k v d) = dict_get k0 d.
Proof.
  intros Hne. induction d as [|[k' v'] d IH]; simpl.
  - apply eqb_neq in Hne; rewrite Hne; reflexivity.
  - destruct (PyStr.eqb k k') eqn:E; simpl.
    + apply eqb_eq in E; subst k'. apply eqb_neq in Hne; rewrite Hne.
      reflexivity.
    + destruct (PyStr.eqb k0 k'); auto.
Qed.

Lemma dict_get_set {V : Type} (k k0 : str) (v : V) (d : dict V) :
  dict_get k0 (dict_set k v d) = if PyStr.eqb k0 k then Some v else dict_get k0 d.
Proof.
  destruct (PyStr.eqb k0 k) eqn:E.
  - apply eqb_eq in E; subst; apply dict_get_set_same.
  - apply eqb_neq in E; apply dict_get_set_other; assumption.
Qed.

Lemma dict_keys_set {V : Type} (k : str) (v : V) (d : dict V) :
  dict_keys (dict_set k v d)
  = if dict_has k d then dict_keys d else dict_keys d ++ [k].
Proof.
  unfold dict_has, dict_keys. induction d as [|[k' v'] d IH]; simpl; [reflexivity|].
  destruct (PyStr.eqb k k') eqn:E; simpl; [reflexivity|].
  rewrite IH. destruct (dict_get k d); reflexivity.
Qed.

Lemma dict_get_none_keys {V : Type} (k : str) (d : dict V) :
  dict_get k d = None <-> ~ In k (dict_keys d).
Proof.
  induction d as [|[k' v'] d IH]; simpl; [prop_tauto|].
  destruct (PyStr.eqb k k') eqn:E.
  - apply eqb_eq in E; subst. split; [discriminate | intros H; exfalso; auto].
  - apply eqb_neq in E. rewrite IH. split.
    + intros H [H1 | H1]; [congruence | auto].
    + intros H H1; apply H; auto.
Qed.

(** *** The name splitter *)

Lemma lstrip_nonspace (c : N) (s : str) :
  isspace c = false -> lstrip (c :: s) = c :: s.
Proof. intros E; simpl; rewrite E; reflexivity. Qed.

Lemma rstrip_nonspace_last (s : str) (c : N) :
  isspace c = false -> rstrip (s ++ [c]) = s ++ [c].
Proof.
  intros E. induction s as [|x s IH]; simpl.
  - rewrite E; reflexivity.
  - rewrite IH. destruct (s ++ [c]) eqn:Es; [|reflexivity].
    destruct s; discriminate.
Qed.

Lemma rstrip_all_nonspace (s : str) :
  forallb (fun c => negb (isspace c)) s = true -> rstrip s = s.
Proof.
  induction s as [|x s IH]; simpl; [reflexivity|].
  rewrite andb_true_iff, negb_true_iff. intros [Hx Hs].
  rewrite (IH Hs). destruct s; [rewrite Hx|]; reflexivity.
Qed.

Lemma clean_name_chars (n : str) :
  clean_name n = true ->
  n <> [] /\ forallb (fun c => negb (isspace c)) n = true
  /\ forallb (fun c => negb (is_separator c)) n = true.
Proof.
  unfold clean_name. rewrite andb_true_iff. intros [Ht Hall].
  split; [destruct n; [discriminate | discriminate]|].
  rewrite forallb_forall in Hall.
  split; apply forallb_forall; intros c Hc; specialize (Hall c Hc);
    apply andb_true_iff in Hall; prop_tauto.
Qed.

Lemma strip_clean (n : str) : clean_name n = true -> strip n = n.
Proof.
  intros H. destruct (clean_name_chars n H) as (Hne & Hsp & _).
  unfold strip. destruct n as [|c n]; [congruence|].
  simpl in Hsp. apply andb_true_iff in Hsp. destruct Hsp as [Hc Hn].
  apply negb_true_iff in Hc. rewrite (lstrip_nonspace c n Hc).
  apply rstrip_all_nonspace. simpl. rewrite Hc, Hn. reflexivity.
Qed.

(** After the replacement loop every listed separator has become a space
    and the other characters are unchanged. *)
Definition sep_to_space (c : N) : N := if is_separator c then SPACE else c.

Lemma replace_separators (s : str) :
  fold_left (fun s sep => replace1 sep SPACE s) name_separators s
  = map sep_to_space s.
Proof.
  unfold name_separators, replace1; simpl fold_left.
  rewrite !map_map. apply map_ext. intros c.
  unfold sep_to_space, is_separator, name_separators, SPACE; simpl existsb.
  repeat match goal with
         | |- context [(c =? ?k)%N] =>
             destruct (N.eqb_spec c k); [subst c; reflexivity | simpl]
         end.
  reflexivity.
Qed.

Lemma split_no_sep (sep : N) (a : str) :
  forallb (fun c => negb (c =? sep)%N) a = true -> split sep a = [a].
Proof.
  induction a as [|x a IH]; simpl; [reflexivity|].
  rewrite andb_true_iff, negb_true_iff. intros [Hx Ha].
  rewrite Hx, (IH Ha). reflexivity.
Qed.

Lemma split_app_sep (sep : N) (a s : str) :
  forallb (fun c => negb (c =? sep)%N) a = true ->
  split sep (a ++ sep :: s) = a :: split sep s.
Proof.
  induction a as [|x a IH]; simpl.
  - intros _. rewrite N.eqb_refl. reflexivity.
  - rewrite andb_true_iff, negb_true_iff. intros [Hx Ha].
    rewrite Hx, (IH Ha). reflexivity.
Qed.

Lemma clean_no_space (n : str) :
  clean_name n = true -> forallb (fun c => negb (c =? SPACE)%N) n = true.
Proof.
  intros H. destruct (clean_name_chars n H) as (_ & Hsp & _).
  rewrite forallb_forall in *. intros c Hc. specialize (Hsp c Hc).
  destruct (N.eqb_spec c SPACE) as [->|]; [discriminate Hsp | reflexivity].
Qed.

Lemma clean_keeps_chars (n : str) :
  clean_name n = true -> map sep_to_space n = n.
Proof.
  intros H. destruct (clean_name_chars n H) as (_ & _ & Hsep).
  rewrite forallb_forall in Hsep.
  rewrite <- (map_id n) at 2. apply map_ext_in. intros c Hc.
  unfold sep_to_space. specialize (Hsep c Hc).
  apply negb_true_iff in Hsep. rewrite Hsep. reflexivity.
Qed.

Lemma join_cons (sep : N) (n : str) (rest : list str) :
  rest <> [] -> join sep (n :: rest) = n ++ sep :: join sep rest.
Proof. destruct rest; [congruence | reflexivity]. Qed.

Lemma join_spaced (sep : N) (names : list str) :
  In sep (SPACE :: name_separators) ->
  forallb clean_name names = true ->
  map sep_to_space (join sep names) = join SPACE names.
Proof.
  intros Hsep. induction names as [|n rest IH]; [reflexivity|].
  simpl forallb. rewrite andb_true_iff. intros [Hn Hrest].
  destruct rest as [|n' rest'].
  - simpl. apply clean_keeps_chars; assumption.
  - rewrite !join_cons by discriminate.
    rewrite map_app, map_cons, (clean_keeps_chars n Hn), (IH Hrest).
    replace (sep_to_space sep) with SPACE; [reflexivity|].
    simpl in Hsep.
    repeat (destruct Hsep as [<- | Hsep]; [reflexivity|]). contradiction.
Qed.

Lemma split_join (names : list str) :
  names <> [] -> forallb clean_name names = true ->
  split SPACE (join SPACE names) = names.
Proof.
  induction names as [|n rest IH]; [congruence|]. intros _.
  simpl forallb. rewrite andb_true_iff. intros [Hn Hrest].
  destruct rest as [|n' rest'].
  - simpl. apply split_no_sep, clean_no_space; assumption.
  - rewrite join_cons by discriminate.
    rewrite split_app_sep by (apply clean_no_space; assumption).
    rewrite IH; [reflexivity | discriminate | assumption].
Qed.

Lemma join_first (sep : N) (names : list str) :
  names <> [] -> forallb clean_name names = true ->
  exists c t, join sep names = c :: t /\ isspace c = false.
Proof.
  destruct names as [|n rest]; [congruence|]. intros _.
  simpl forallb. rewrite andb_true_iff. intros [Hn _].
  destruct (clean_name_chars n Hn) as (Hne & Hsp & _).
  destruct n as [|c n]; [congruence|].
  simpl in Hsp. apply andb_true_iff in Hsp. destruct Hsp as [Hc _].
  apply negb_true_iff in Hc.
  destruct rest; [exists c, n | eexists c, _]; split; try reflexivity; assumption.
Qed.

Lemma join_last (sep : N) (names : list str) :
  names <> [] -> forallb clean_name names = true ->
  exists u d, join sep names = u ++ [d] /\ isspace d = false.
Proof.
  induction names as [|n rest IH]; [congruence|]. intros _.
  simpl forallb. rewrite andb_true_iff. intros [Hn Hrest].
  destruct rest as [|n' rest'].
  - destruct (clean_name_chars n Hn) as (Hne & Hsp & _).
    destruct (exists_last Hne) as (u & d & ->).
    exists u, d. split; [reflexivity|].
    rewrite forallb_app in Hsp. apply andb_true_iff in Hsp.
    destruct Hsp as [_ Hd]. simpl in Hd. rewrite andb_true_r in Hd.
    apply negb_true_iff in Hd. assumption.
  - destruct IH as (u & d & E & Hd); [discriminate | assumption |].
    rewrite join_cons by discriminate. rewrite E.
    exists (n ++ sep :: u), d. split; [|assumption].
    rewrite <- app_assoc. reflexivity.
Qed.

Lemma strip_join (sep : N) (names : list str) :
  names <> [] -> forallb clean_name names = true ->
  strip (join sep names) = join sep names.
Proof.
  intros Hne Hall.
  destruct (join_first sep names Hne Hall) as (c & t & E1 & Hc).
  destruct (join_last sep names Hne Hall) as (u & d & E2 & Hd).
  unfold strip. rewrite E1, (lstrip_nonspace c t Hc), <- E1, E2.
  apply rstrip_nonspace_last; assumption.
Qed.

Lemma map_strip_clean (names : list str) :
  forallb clean_name names = true ->
  filter truthy (map strip names) = names.
Proof.
  induction names as [|n rest IH]; [reflexivity|].
  simpl forallb. rewrite andb_true_iff. intros [Hn Hrest].
  simpl. rewrite (strip_clean n Hn), (IH Hrest).
  unfold clean_name in Hn. apply andb_true_iff in Hn. destruct Hn as [-> _].
  reflexivity.
Qed.

Lemma parse_names_join (sep : N) (names : list str) :
  In sep (SPACE :: name_separators) ->
  names <> [] -> forallb clean_name names = true ->
  parse_names_str (join sep names) = names.
Proof.
  intros Hsep Hne Hall. unfold parse_names_str.
  rewrite (strip_join sep names Hne Hall).
  destruct (join_first sep names Hne Hall) as (c & t & E1 & _).
  replace (truthy (join sep names)) with true by (rewrite E1; reflexivity).
  cbv beta iota zeta. simpl negb. cbv iota.
  rewrite replace_separators, (join_spaced sep names Hsep Hall).
  rewrite (split_join names Hne Hall).
  apply map_strip_clean; assumption.
Qed.

(** C9, as amended: the separators between the names of a roster cell are
    the ideographic comma, the half-width and full-width comma, the
    half-width and full-width semicolon, the newline, the tab and the
    half-width space; names joined by any one of them are split apart.  The
    slash, the middle dot and the full-width space are not separators: a
    text such as A/B is one name. *)
Theorem parse_names_cell_separators :
  (forall (sep : N) (names : list str),
      In sep (SPACE :: name_separators) ->
      names <> [] -> forallb clean_name names = true ->
      _parse_names_cell (Some (CStr (join sep names))) = names)
  /\ name_separators = utf8 "、,，;；" ++ [10%N; 9%N]
  /\ _parse_names_cell (Some (CStr (utf8 "A、B"))) = [utf8 "A"; utf8 "B"]
  /\ _parse_names_cell (Some (CStr (utf8 "A/B"))) = [utf8 "A/B"]
  /\ _parse_names_cell (Some (CStr (utf8 "A·B"))) = [utf8 "A·B"]
  /\ _parse_names_cell (Some (CStr (utf8 "A　B"))) = [utf8 "A　B"].
Proof.
  split; [|repeat split; vm_compute; reflexivity].
  intros sep names Hsep Hne Hall. simpl.
  apply parse_names_join; assumption.
Qed.

(** *** Weekday appearances *)

Lemma filter_strip_stripped (l : list str) :
  Forall stripped (filter truthy (map strip l)).
Proof.
  induction l as [|x l IH]; simpl; [constructor|].
  destruct (truthy (strip x)) eqn:E; [|exact IH].
  constructor; [split; [apply strip_idem | exact E] | exact IH].
Qed.

Lemma parse_names_stripped (v : option cell) :
  Forall stripped (_parse_names_cell v).
Proof.
  assert (H : forall s, Forall stripped (parse_names_str s)).
  { intros s. unfold parse_names_str.
    destruct (negb (truthy (strip s))); [constructor|].
    apply filter_strip_stripped. }
  destruct v as [[| z | s | l]|]; simpl; auto using filter_strip_stripped.
Qed.

Lemma inject_Z_succ (n : Z) : (inject_Z n + 1)%Q = inject_Z (n + 1).
Proof. unfold Qplus, inject_Z; simpl. f_equal. ring. Qed.

Lemma count_name_counted (counts : dict Q) (k : str -> Z) (n : str) :
  stripped n -> counted counts k ->
  counted (count_name counts n) (fun emp => k emp + occurrences emp [n]).
Proof.
  intros [Hs Ht] Hc emp. destruct (Hc emp) as [Hk Hg].
  unfold count_name. rewrite Hs, Ht. simpl negb. cbv iota.
  unfold occurrences. simpl filter.
  rewrite dict_get_set. destruct (PyStr.eqb emp n) eqn:E.
  - apply eqb_eq in E; subst n. simpl List.length.
    split; [lia|]. unfold dict_get_default. rewrite Hg. unfold count_entry.
    destruct (Z.eqb_spec (k emp) 0) as [E0|E0].
    + rewrite E0. reflexivity.
    + destruct (Z.eqb_spec (k emp + Z.of_nat 1) 0); [lia|].
      rewrite inject_Z_succ. reflexivity.
  - simpl List.length. rewrite Z.add_0_r. split; assumption.
Qed.

Lemma occurrences_app (emp : str) (a b : list str) :
  occurrences emp (a ++ b) = occurrences emp a + occurrences emp b.
Proof.
  unfold occurrences. rewrite filter_app, length_app. lia.
Qed.

Lemma occurrences_nonneg (emp : str) (l : list str) : 0 <= occurrences emp l.
Proof. unfold occurrences; lia. Qed.

Lemma counted_ext (counts : dict Q) (k k' : str -> Z) :
  (forall emp, k emp = k' emp) -> counted counts k -> counted counts k'.
Proof. intros E H emp. rewrite <- E. apply H. Qed.

Lemma count_names_counted (names : list str) :
  forall (counts : dict Q) (k : str -> Z),
    Forall stripped names -> counted counts k ->
    counted (fold_left count_name names counts)
            (fun emp => k emp + occurrences emp names).
Proof.
  induction names as [|n names IH]; intros counts k Hall Hc.
  - simpl. eapply counted_ext; [|exact Hc]. intros emp.
    unfold occurrences; simpl; lia.
  - inversion Hall as [|? ? Hn Hrest]; subst. simpl fold_left.
    eapply counted_ext;
      [|apply (IH _ _ Hrest (count_name_counted counts k n Hn Hc))].
    intros emp. cbv beta.
    change (n :: names) with ([n] ++ names). rewrite occurrences_app. lia.
Qed.

Lemma count_cols_counted (r : row) (cols : list str) :
  forall (counts : dict Q) (k : str -> Z),
    counted counts k ->
    counted
      (fold_left
         (fun counts col =>
            fold_left count_name (_parse_names_cell (dict_get col r)) counts)
         cols counts)
      (fun emp => k emp + row_occurrences cols emp r).
Proof.
  induction cols as [|col cols IH]; intros counts k Hc.
  - simpl. eapply counted_ext; [|exact Hc]. intros emp.
    unfold row_occurrences; simpl; lia.
  - simpl fold_left.
    eapply counted_ext;
      [|apply IH, count_names_counted; [apply parse_names_stripped | exact Hc]].
    intros emp. cbv beta. unfold row_occurrences. simpl. lia.
Qed.

(** A row that does not fall on a weekday leaves the counts as they are. *)
Lemma count_row_off_weekday (y m : Z) (cols : list str) (counts : dict Q)
  (r : row) :
  on_weekday y m r = false -> count_row y m cols counts r = counts.
Proof.
  unfold on_weekday, count_row. intros H.
  destruct (Z.leb_spec (row_day r) 0) as [|Hd]; [reflexivity|].
  replace (0 <? row_day r) with true in H by (symmetry; apply Z.ltb_lt; lia).
  simpl in H. destruct (make_date y m (row_day r)) as [dt|]; [|reflexivity].
  destruct (Z.leb_spec 5 (weekday dt)); [reflexivity|].
  apply Z.ltb_ge in H. lia.
Qed.

Lemma count_row_on_weekday (y m : Z) (cols : list str) (counts : dict Q)
  (r : row) :
  on_weekday y m r = true ->
  count_row y m cols counts r
  = fold_left
      (fun counts col =>
         fold_left count_name (_parse_names_cell (dict_get col r)) counts)
      cols counts.
Proof.
  unfold on_weekday, count_row. rewrite andb_true_iff, Z.ltb_lt.
  intros [Hd H].
  destruct (Z.leb_spec (row_day r) 0); [lia|].
  destruct (make_date y m (row_day r)) as [dt|]; [|discriminate].
  apply Z.ltb_lt in H.
  destruct (Z.leb_spec 5 (weekday dt)); [lia | reflexivity].
Qed.

Lemma count_row_counted (y m : Z) (cols : list str) (counts : dict Q)
  (k : str -> Z) (r : row) :
  counted counts k ->
  counted (count_row y m cols counts r)
          (fun emp => k emp + (if on_weekday y m r
                               then row_occurrences cols emp r else 0)).
Proof.
  intros Hc. destruct (on_weekday y m r) eqn:E.
  - rewrite count_row_on_weekday by assumption.
    apply count_cols_counted; assumption.
  - rewrite count_row_off_weekday by assumption.
    eapply counted_ext; [|exact Hc]. intros; lia.
Qed.

Lemma count_rows_counted (y m : Z) (cols : list str) (rows : list row) :
  forall (counts : dict Q) (k : str -> Z),
    counted counts k ->
    counted (fold_left (count_row y m cols) rows counts)
            (fun emp =>
               k emp + Zsum (map (fun r => if on_weekday y m r
                                           then row_occurrences cols emp r
                                           else 0) rows)).
Proof.
  induction rows as [|r rows IH]; intros counts k Hc.
  - simpl. eapply counted_ext; [|exact Hc]. intros; lia.
  - simpl fold_left.
    eapply counted_ext; [|apply IH, count_row_counted; exact Hc].
    intros emp. cbv beta. simpl. lia.
Qed.

Lemma calc_overtime_hours_counted (y m : Z) (rows : list row) (emp : str) :
  dict_get emp (calc_overtime_hours_from_duty_rows y m rows)
  = count_entry (weekday_appearances y m rows emp).
Proof.
  assert (H0 : counted ([] : dict Q) (fun _ => 0)).
  { intros e. split; [lia | reflexivity]. }
  pose proof (count_rows_counted y m (name_cols rows) rows [] _ H0 emp)
    as [_ H].
  unfold calc_overtime_hours_from_duty_rows, weekday_appearances.
  rewrite H. reflexivity.
Qed.

(** C1: for every year, month and roster, the count of an employee is one
    unit per occurrence of the name in each name column of each row whose
    day falls on a Monday to Friday of that month, without any same-day
    de-duplication, the name columns being the shift columns of each row
    when the roster is a table; a row on a Saturday or Sunday leaves the
    counts as they are; and in scenario 1 employee A is counted twice. *)
Theorem calc_overtime_hours_counts_appearances :
  (forall (y m : Z) (rows : list row) (emp : str),
      dict_get emp (calc_overtime_hours_from_duty_rows y m rows)
      = count_entry (weekday_appearances y m rows emp))
  /\ (forall (y m : Z) (rows : list row) (emp : str),
         table rows ->
         dict_get emp (calc_overtime_hours_from_duty_rows y m rows)
         = count_entry (shift_appearances y m rows emp))
  /\ (forall (y m : Z) (cols : list str) (counts : dict Q) (r : row)
             (dt : date),
         make_date y m (row_day r) = Some dt -> 5 <= weekday dt ->
         count_row y m cols counts r = counts)
  /\ weekday (mkdate 2026 2 2) = 0
  /\ dict_get (utf8 "A")
              (calc_overtime_hours_from_duty_rows 2026 2 roster_scenario)
     = Some 2%Q.
Proof.
  split; [|split; [|split; [|split]]].
  - apply calc_overtime_hours_counted.
  - intros y m rows emp Ht. rewrite calc_overtime_hours_counted.
    unfold weekday_appearances, shift_appearances. do 2 f_equal.
    apply map_ext_in. intros r Hr.
    destruct rows as [|r0 rows]; [destruct Hr|].
    unfold name_cols, shift_columns.
    rewrite (Ht r0 r eq_refl Hr). reflexivity.
  - intros y m cols counts r dt Hd Hw.
    apply count_row_off_weekday. unfold on_weekday. rewrite Hd.
    replace (weekday dt <? 5) with false by (symmetry; apply Z.ltb_ge; lia).
    apply andb_false_r.
  - reflexivity.
  - vm_compute. reflexivity.
Qed.

(** *** Cash-out *)

Local Open Scope Q_scope.


Lemma Qltb_lt (a b : Q) : Qltb a b = true <-> a < b.
Proof.
  unfold Qltb. rewrite negb_true_iff. split.
  - intros H. apply Qnot_le_lt. intros Hle.
    apply Qle_bool_iff in Hle. congruence.
  - intros H. destruct (Qle_bool b a) eqn:E; [|reflexivity].
    apply Qle_bool_iff in E. exfalso. apply (Qlt_not_le _ _ H E).
Qed.

Lemma Qltb_ge (a b : Q) : Qltb a b = false <-> b <= a.
Proof.
  unfold Qltb. rewrite negb_false_iff. apply Qle_bool_iff.
Qed.

Lemma py_min_Qmin (a b : Q) : py_min a b == Qmin a b.
Proof.
  unfold py_min. destruct (Qltb b a) eqn:E.
  - apply Qltb_lt in E. symmetry. apply Q.min_r. apply Qlt_le_weak; assumption.
  - apply Qltb_ge in E. symmetry. apply Q.min_l; assumption.
Qed.

Lemma py_max_Qmax (a b : Q) : py_max a b == Qmax a b.
Proof.
  unfold py_max. destruct (Qltb a b) eqn:E.
  - apply Qltb_lt in E. symmetry. apply Q.max_r. apply Qlt_le_weak; assumption.
  - apply Qltb_ge in E. symmetry. apply Q.max_l; assumption.
Qed.

(** On a number that is not negative, truncation toward zero is the
    floor. *)
Lemma py_int_floor (x : Q) : 0 <= x -> py_int x = Qfloor x.
Proof.
  destruct x as [n d]. unfold Qle, py_int, Qfloor; simpl.
  intros H. apply Z.quot_div_nonneg; lia.
Qed.

Local Close Scope Q_scope.

(** *** Cash-out: the floats *)

(** *** The order of the floats *)

Lemma SFcompare_antisym (a b : float) :
  SFcompare b a = option_map CompOpp (SFcompare a b).
Proof.
  destruct a as [sa|sa| |sa ma ea], b as [sb|sb| |sb mb eb];
    try reflexivity;
    try (destruct sa; reflexivity); try (destruct sb; reflexivity);
    try (destruct sa, sb; reflexivity).
  cbn [SFcompare option_map].
  destruct sa, sb; try reflexivity.
  - rewrite (Z.compare_antisym ea eb).
    destruct (ea ?= eb); cbn [CompOpp]; try reflexivity.
    rewrite (Pos.compare_cont_antisym ma mb Eq). reflexivity.
  - rewrite (Z.compare_antisym ea eb).
    destruct (ea ?= eb); cbn [CompOpp]; try reflexivity.
    rewrite (Pos.compare_cont_antisym ma mb Eq). cbn [CompOpp].
    reflexivity.
Qed.

Lemma fl_leb_ltb (a b : float) :
  fl_is_nan a = false -> fl_is_nan b = false ->
  fl_leb a b = negb (fl_ltb b a).
Proof.
  intros Ha Hb. unfold fl_leb, fl_ltb, SFleb, SFltb.
  rewrite (SFcompare_antisym a b).
  destruct a, b; try discriminate; cbn [SFcompare option_map];
    repeat match goal with |- context [if ?s then _ else _] => destruct s end;
    try reflexivity;
    repeat match goal with
      | |- context [match ?c with Eq => _ | Lt => _ | Gt => _ end] =>
          destruct c; cbn [CompOpp]
      end; reflexivity.
Qed.

Lemma fl_leb_refl (a : float) : fl_is_nan a = false -> fl_leb a a = true.
Proof.
  intros Ha. unfold fl_leb, SFleb.
  destruct a as [s|s| |s m e]; try discriminate; try (destruct s; reflexivity).
  cbn [SFcompare]. rewrite Z.compare_refl.
  assert (E : Pos.compare_cont Eq m m = Eq) by apply Pos.compare_refl.
  rewrite E. destruct s; reflexivity.
Qed.

Lemma fl_leb_not_nan (a b : float) :
  fl_leb a b = true -> fl_is_nan a = false /\ fl_is_nan b = false.
Proof.
  unfold fl_leb, SFleb. destruct a, b; cbn; try discriminate; auto.
Qed.

(** Both zeros compare alike. *)
Lemma fl_leb_zero_sign (a : float) (s s' : bool) :
  fl_leb a (S754_zero s) = fl_leb a (S754_zero s').
Proof. destruct a; reflexivity. Qed.

(** *** Rounding never yields NaN, and keeps the sign *)

Lemma iter_pos_inv {A : Type} (P : A -> Prop) (f : A -> A) :
  (forall x, P x -> P (f x)) ->
  forall (p : positive) (x : A), P x -> P (iter_pos f p x).
Proof.
  intros Hf. induction p as [p IH|p IH|]; intros x Hx; cbn [iter_pos].
  - apply IH, IH, Hf, Hx.
  - apply IH, IH, Hx.
  - apply Hf, Hx.
Qed.

Lemma shr_1_nonneg (mrs : shr_record) : 0 <= shr_m mrs -> 0 <= shr_m (shr_1 mrs).
Proof.
  destruct mrs as [m r s]. cbn [shr_m]. intros H.
  destruct m as [|[p|p|]|p]; cbn; lia.
Qed.

Lemma shr_fexp_nonneg (m e : Z) (l : location) :
  0 <= m -> 0 <= shr_m (fst (shr_fexp prec emax m e l)).
Proof.
  intros H. unfold shr_fexp, shr.
  assert (H0 : 0 <= shr_m (shr_record_of_loc m l))
    by (destruct l as [|[]]; exact H).
  destruct (fexp prec emax (Zdigits2 m + e) - e) as [|p|p]; cbn [fst];
    try exact H0.
  apply (iter_pos_inv (fun r => 0 <= shr_m r)); [apply shr_1_nonneg | exact H0].
Qed.

Lemma round_nearest_even_nonneg (m : Z) (l : location) :
  0 <= m -> 0 <= round_nearest_even m l.
Proof.
  intros H. unfold round_nearest_even.
  destruct l as [|[]]; try destruct (Z.even m); lia.
Qed.

(** The result of a rounding: a zero, a finite number or an infinity of
    the sign given. *)
Lemma binary_round_aux_shape (s : bool) (m e : Z) (l : location) :
  0 <= m ->
  let r := binary_round_aux prec emax s m e l in
  r = S754_zero s \/ r = S754_infinity s
  \/ exists m' e', r = S754_finite s m' e'.
Proof.
  intros H. cbv zeta. unfold binary_round_aux.
  pose proof (shr_fexp_nonneg m e l H) as H1.
  destruct (shr_fexp prec emax m e l) as [mrs' e']. cbn [fst] in H1.
  pose proof (shr_fexp_nonneg
                (round_nearest_even (shr_m mrs') (loc_of_shr_record mrs'))
                e' loc_Exact
                (round_nearest_even_nonneg _ _ H1)) as H2.
  destruct (shr_fexp prec emax _ e' loc_Exact) as [mrs'' e'']. cbn [fst] in H2.
  destruct (shr_m mrs'') as [|p|p].
  - left. reflexivity.
  - destruct (e'' <=? emax - prec).
    + right. right. exists p, e''. reflexivity.
    + right. left. reflexivity.
  - lia.
Qed.

Lemma SFdiv_core_nonneg (m1 m2 : positive) (e1 e2 : Z) :
  0 <= fst (fst (SFdiv_core_binary prec emax (Zpos m1) e1 (Zpos m2) e2)).
Proof.
  unfold SFdiv_core_binary.
  set (s := e1 - e2 - _).
  set (m' := match s with Z0 => Zpos m1 | Zpos _ => Z.shiftl (Zpos m1) s
                     | Zneg _ => 0 end).
  assert (Hm : 0 <= m').
  { subst m'. destruct s; try lia. apply Z.shiftl_nonneg. lia. }
  pose proof (Z_div_mod m' (Zpos m2) eq_refl) as Hd.
  destruct (Z.div_eucl m' (Zpos m2)) as [q r]. cbn [fst].
  destruct Hd as [Hq Hr]. nia.
Qed.

(** The quotient of two finite numbers of a clear sign. *)
Lemma SFdiv_shape (m1 m2 : positive) (e1 e2 : Z) :
  let r := SFdiv prec emax (S754_finite false m1 e1) (S754_finite false m2 e2) in
  r = S754_zero false \/ r = S754_infinity false
  \/ exists m' e', r = S754_finite false m' e'.
Proof.
  cbv zeta. cbn [SFdiv xorb].
  pose proof (SFdiv_core_nonneg m1 m2 e1 e2) as H.
  destruct (SFdiv_core_binary prec emax (Zpos m1) e1 (Zpos m2) e2)
    as [[mz ez] lz]. cbn [fst] in H.
  apply binary_round_aux_shape. exact H.
Qed.

(** *** The integral part of a float is a float *)

Lemma iter_pos_iter {A : Type} (f : A -> A) (p : positive) :
  forall x : A, iter_pos f p x = Pos.iter f x p.
Proof.
  induction p as [p IH|p IH|]; intros x; cbn [iter_pos Pos.iter].
  - rewrite !IH. rewrite !Pos.iter_swap. reflexivity.
  - rewrite !IH. reflexivity.
  - reflexivity.
Qed.

Lemma shr_exact (m k : positive) :
  iter_pos shr_1 k (Build_shr_record (Zpos (Pos.iter xO m k)) false false)
  = Build_shr_record (Zpos m) false false.
Proof.
  rewrite iter_pos_iter. induction k as [|k IH] using Pos.peano_ind.
  - reflexivity.
  - rewrite (Pos.iter_succ k _ xO m). rewrite Pos.iter_succ_r.
    cbn [shr_1 orb]. exact IH.
Qed.

Lemma digits_shifted (m k : positive) :
  Zpos (digits2_pos (Pos.iter xO m k)) = Zpos (digits2_pos m) + Zpos k.
Proof.
  induction k as [|k IH] using Pos.peano_ind.
  - cbn [Pos.iter digits2_pos]. lia.
  - rewrite (Pos.iter_succ k _ xO m). cbn [digits2_pos]. lia.
Qed.

Lemma shifted_value (m k : positive) :
  Zpos (Pos.iter xO m k) = Zpos m * 2 ^ Zpos k.
Proof.
  induction k as [|k IH] using Pos.peano_ind.
  - cbn [Pos.iter]. lia.
  - rewrite (Pos.iter_succ k _ xO m), Pos2Z.inj_succ, Z.pow_succ_r by lia.
    rewrite Pos2Z.inj_xO, IH. ring.
Qed.

Lemma digits_size (p : positive) : digits2_pos p = Pos.size p.
Proof. induction p; cbn [digits2_pos Pos.size]; congruence. Qed.

Lemma digits_le (p q : positive) :
  (p <= q)%positive -> Zpos (digits2_pos p) <= Zpos (digits2_pos q).
Proof.
  intros H. rewrite !digits_size.
  pose proof (Pos.size_le p) as H1. pose proof (Pos.size_gt q) as H2.
  apply Pos2Z.pos_le_pos in H1. apply Pos2Z.pos_lt_pos in H2.
  rewrite Pos2Z.inj_pow in H1, H2.
  destruct (Z.le_gt_cases (Zpos (Pos.size p)) (Zpos (Pos.size q)))
    as [Hle|Hgt]; [exact Hle|exfalso].
  assert (H3 : 2 ^ (Zpos (Pos.size q) + 1) <= 2 ^ Zpos (Pos.size p))
    by (apply Z.pow_le_mono_r; lia).
  rewrite Z.pow_add_r, Z.pow_1_r in H3 by lia. lia.
Qed.

Lemma fexp_eq (x : Z) : fexp prec emax x = Z.max (x - 53) (-1074).
Proof. reflexivity. Qed.

(** A mantissa at its own exponent is not rounded. *)
Lemma binary_round_aux_exact (s : bool) (m : positive) (e : Z) :
  fexp prec emax (Zpos (digits2_pos m) + e) = e -> e <= 971 ->
  binary_round_aux prec emax s (Zpos m) e loc_Exact = S754_finite s m e.
Proof.
  intros Hc He. unfold binary_round_aux, shr_fexp.
  cbn [Zdigits2 shr_record_of_loc]. rewrite Hc, Z.sub_diag.
  cbn [shr shr_m loc_of_shr_record round_nearest_even Zdigits2
       shr_record_of_loc].
  rewrite Hc, Z.sub_diag. cbn [shr shr_m].
  assert (E : (e <=? emax - prec) = true) by (apply Z.leb_le; exact He).
  rewrite E. reflexivity.
Qed.

Lemma fl_of_int_small (p : positive) :
  Zpos (digits2_pos p) <= 53 ->
  exists (m : positive) (e : Z), fl_of_int (Zpos p) = S754_finite false m e.
Proof.
  intros Hd. unfold fl_of_int, binary_normalize, binary_round.
  rewrite fexp_eq, Z.add_0_r.
  assert (Hpos : 0 < Zpos (digits2_pos p)) by lia.
  rewrite Z.max_l by lia.
  unfold shl_align. rewrite Z.sub_0_r.
  destruct (Zpos (digits2_pos p) - 53) as [|k|k] eqn:Ek; try lia.
  - exists p, 0. apply binary_round_aux_exact; [|lia].
    rewrite fexp_eq, Z.add_0_r. lia.
  - exists (Pos.iter xO p k), (Zneg k). apply binary_round_aux_exact; [|lia].
    rewrite fexp_eq, digits_shifted. lia.
Qed.

Lemma fl_of_int_shifted (m k : positive) :
  Zpos (digits2_pos m) = 53 -> Zpos k <= 971 ->
  fl_of_int (Zpos (Pos.iter xO m k)) = S754_finite false m (Zpos k).
Proof.
  intros Hd Hk. unfold fl_of_int, binary_normalize, binary_round.
  rewrite fexp_eq, Z.add_0_r, digits_shifted, Hd.
  rewrite Z.max_l by lia.
  unfold shl_align. replace (53 + Zpos k - 53 - 0) with (Zpos k) by lia.
  unfold binary_round_aux, shr_fexp.
  cbn [Zdigits2 shr_record_of_loc]. rewrite fexp_eq, Z.add_0_r, digits_shifted, Hd.
  rewrite Z.max_l by lia.
  replace (53 + Zpos k - 53 - 0) with (Zpos k) by lia.
  cbn [shr]. rewrite shr_exact.
  cbn [shr_m loc_of_shr_record round_nearest_even Zdigits2 shr_record_of_loc].
  rewrite fexp_eq, Hd, Z.add_0_l.
  rewrite Z.max_l by lia.
  replace (53 + Zpos k - 53 - Zpos k) with 0 by lia.
  cbn [shr shr_m].
  assert (E : (Zpos k <=? emax - prec) = true) by (apply Z.leb_le; exact Hk).
  rewrite E. reflexivity.
Qed.

(** The bounds of a finite float. *)
Lemma bounded_inv (m : positive) (e : Z) :
  bounded prec emax m e = true ->
  Zpos (digits2_pos m) <= 53 /\ e <= 971
  /\ (0 <= e -> Zpos (digits2_pos m) = 53).
Proof.
  unfold bounded, canonical_mantissa. rewrite fexp_eq.
  intros H. apply andb_true_iff in H. destruct H as [Hc He].
  apply Z.eqb_eq in Hc. apply Z.leb_le in He.
  change (emax - prec) with 971 in He. lia.
Qed.

(** The value of a float of a clear sign is not negative. *)
Lemma fl_value_nonneg (x : float) : fl_nonneg x = true -> (0 <= fl_value x)%Q.
Proof.
  destruct x as [s|s| |s m e]; cbn [fl_value]; try (intros _; apply Qle_refl).
  destruct s; [discriminate|]. intros _.
  destruct (0 <=? e) eqn:E.
  - apply Z.leb_le in E.
    assert (0 < 2 ^ e) by (apply Z.pow_pos_nonneg; lia).
    unfold Qle. cbn [Qnum Qden inject_Z]. nia.
  - unfold Qle. cbn [Qnum Qden]. lia.
Qed.

(** [float(int(x))] of a finite float that is not negative: the floor of
    [x], which is a float. *)
Lemma fl_of_int_floor_shape (x : float) :
  fl_nonneg x = true ->
  spec_floor x = S754_zero false
  \/ exists m e, spec_floor x = S754_finite false m e.
Proof.
  unfold spec_floor.
  destruct x as [s|s| |s m e]; try discriminate; intros Hb.
  - left. destruct s; [discriminate|reflexivity].
  - destruct s; [discriminate|]. cbn [fl_nonneg] in Hb. destruct (bounded_inv m e Hb) as (Hd & He & Hn).
    cbn [fl_value]. destruct (0 <=? e) eqn:E.
    + apply Z.leb_le in E. rewrite Qfloor_Z. right.
      destruct e as [|k|k]; try lia.
      * rewrite Z.mul_1_r. apply fl_of_int_small. exact Hd.
      * rewrite <- shifted_value. exists m, (Zpos k).
        apply fl_of_int_shifted; [apply Hn; lia | exact He].
    + apply Z.leb_gt in E. unfold Qfloor.
      set (d := Z.to_pos (2 ^ (- e))).
      assert (H0 : 0 <= Zpos m / Zpos d) by (apply Z.div_pos; lia).
      assert (H1 : Zpos m / Zpos d <= Zpos m).
      { apply Z.div_le_upper_bound; nia. }
      destruct (Zpos m / Zpos d) as [|p|p] eqn:En; try lia.
      * left. reflexivity.
      * right. apply fl_of_int_small.
        eapply Z.le_trans; [apply digits_le|exact Hd]. lia.
Qed.

Lemma fl_floor_code (x : float) :
  fl_nonneg x = true ->
  match fl_int x with
  | Some n => fl_of_int_checked n
  | None => None
  end = Some (spec_floor x)
  /\ fl_is_nan (spec_floor x) = false.
Proof.
  intros Hx.
  assert (Hi : fl_int x = Some (Qfloor (fl_value x))).
  { unfold fl_int. rewrite (py_int_floor _ (fl_value_nonneg x Hx)).
    destruct x as [s|s| |s m e]; try discriminate; reflexivity. }
  rewrite Hi. unfold fl_of_int_checked. fold (spec_floor x).
  destruct (fl_of_int_floor_shape x Hx) as [E|(m & e & E)]; rewrite E;
    split; reflexivity.
Qed.

(** *** Rounding to the nearest integer *)

Lemma round_half_even_nearest (x : Q) : nearest_even x (round_half_even x).
Proof.
  unfold nearest_even, round_half_even.
  pose proof (Qfloor_le x) as Hlo. pose proof (Qlt_floor x) as Hhi.
  rewrite inject_Z_plus in Hhi. change (inject_Z 1) with 1%Q in Hhi.
  set (f := Qfloor x) in *.
  assert (Hq : forall a b, Qltb a b = true <-> (a < b)%Q).
  { intros a b. unfold Qltb. rewrite negb_true_iff.
    split; intros H.
    - apply Qnot_le_lt. intros H'. apply Qle_bool_iff in H'. congruence.
    - destruct (Qle_bool b a) eqn:E; [|reflexivity].
      apply Qle_bool_iff in E. exfalso. lra. }
  destruct (Qltb (x - inject_Z f) (1 # 2)) eqn:E1.
  - apply Hq in E1. split.
    + apply Qabs_Qle_condition. split; lra.
    + intros H. rewrite Qabs_pos in H by lra. lra.
  - destruct (Qltb (1 # 2) (x - inject_Z f)) eqn:E2.
    + apply Hq in E2. rewrite inject_Z_plus. change (inject_Z 1) with 1%Q.
      split.
      * apply Qabs_Qle_condition. split; lra.
      * intros H. rewrite Qabs_neg in H by lra. lra.
    + assert (Hd : (x - inject_Z f == 1 # 2)%Q).
      { destruct (Qlt_le_dec (x - inject_Z f) (1 # 2)) as [H|H];
          [apply Hq in H; congruence|].
        destruct (Qlt_le_dec (1 # 2) (x - inject_Z f)) as [H'|H'];
          [apply Hq in H'; congruence|]. lra. }
      destruct (Z.even f) eqn:Ev.
      * split; [|intros _; exact Ev].
        apply Qabs_Qle_condition. split; lra.
      * rewrite inject_Z_plus. change (inject_Z 1) with 1%Q. split.
        -- apply Qabs_Qle_condition. split; lra.
        -- intros _. rewrite Z.even_add, Ev. reflexivity.
Qed.

(** *** Cash-out *)

Lemma nearest_even_comp (x y : Q) (n : Z) :
  (x == y)%Q -> nearest_even x n -> nearest_even y n.
Proof.
  intros E [H1 H2]. unfold nearest_even. rewrite <- E. split; assumption.
Qed.

Lemma fl_or_nonneg (x : float) :
  fl_nonneg x = true -> fl_or (Some x) fl_zero = x.
Proof.
  destruct x as [s|s| |s m e]; try discriminate; destruct s; try discriminate;
    reflexivity.
Qed.

(** The divisor of [calc_cashout] is the hours per day of the
    specification; it is NaN, the positive infinity or a positive
    number. *)
Lemma hours_per_day_effective (hpd : float) :
  let h := fl_or (Some hpd) DEFAULT_HOURS_PER_DAY in
  (if fl_leb h fl_zero then DEFAULT_HOURS_PER_DAY else h)
  = spec_hours_per_day hpd
  /\ SFeqb (spec_hours_per_day hpd) fl_zero = false
  /\ (spec_hours_per_day hpd = S754_nan
      \/ spec_hours_per_day hpd = S754_infinity false
      \/ exists m e, spec_hours_per_day hpd = S754_finite false m e).
Proof.
  unfold spec_hours_per_day.
  change (fl_of_int 8) with DEFAULT_HOURS_PER_DAY.
  destruct hpd as [s|s| |s m e]; try destruct s; cbn; auto 6.
  all: repeat split; try reflexivity.
  all: right; right; eexists; eexists; reflexivity.
Qed.

(** The quotient of hours that are not negative by the hours per day, when
    it is finite, is not negative. *)
Lemma remaining_days_nonneg (rh hpd : float) :
  fl_nonneg rh = true ->
  fl_is_finite (spec_remaining_days rh hpd) = true ->
  fl_nonneg (spec_remaining_days rh hpd) = true.
Proof.
  intros Hrh. unfold spec_remaining_days.
  destruct (hours_per_day_effective hpd) as (_ & _ & [E|[E|(m & e & E)]]);
    rewrite E; clear E;
    destruct rh as [s|s| |s mr er]; try discriminate;
    destruct s; try discriminate; try (intros H; exact H).
  destruct (SFdiv_shape mr m er e) as [E|[E|(m' & e' & E)]];
    rewrite E; intros H; exact H.
Qed.

Lemma fl_decimal_not_nan (n k : Z) : fl_is_nan (fl_decimal false n k) = false.
Proof.
  unfold fl_decimal. destruct n as [|p|p]; try reflexivity.
  destruct (SFdiv_shape p (Z.to_pos (10 ^ k)) 0 0) as [E|[E|(m' & e' & E)]];
    rewrite E; reflexivity.
Qed.

Lemma fl_min_spec (a b : float) :
  fl_is_nan a = false -> fl_is_nan b = false -> fl_min a b = spec_min a b.
Proof.
  intros Ha Hb. unfold fl_min, spec_min. rewrite (fl_leb_ltb a b Ha Hb).
  destruct (fl_ltb b a); reflexivity.
Qed.

Lemma fl_max_spec (a b : float) :
  fl_is_nan a = false -> fl_is_nan b = false -> fl_max a b = spec_max a b.
Proof.
  intros Ha Hb. unfold fl_max, spec_max. rewrite (fl_leb_ltb b a Hb Ha).
  destruct (fl_ltb a b); reflexivity.
Qed.

Lemma spec_max_not_nan (a b : float) :
  fl_is_nan a = false -> fl_is_nan b = false ->
  fl_is_nan (spec_max a b) = false.
Proof. intros Ha Hb. unfold spec_max. destruct (fl_leb b a); assumption. Qed.

(** The smaller of a number and max(0, cap) is at most a cap that is not
    negative. *)
Lemma capped (raw cap : float) :
  fl_leb fl_zero cap = true ->
  fl_leb (spec_min raw (spec_max fl_zero cap)) cap = true.
Proof.
  intros Hcap. destruct (fl_leb_not_nan _ _ Hcap) as [_ Hn].
  unfold spec_max. destruct (fl_leb cap fl_zero) eqn:E.
  - assert (Ez : exists s, cap = S754_zero s).
    { destruct cap as [s|s| |s m e]; try discriminate; [eauto| |];
        destruct s; discriminate. }
    destruct Ez as [s ->]. unfold spec_min.
    destruct (fl_leb raw fl_zero) eqn:E1.
    + rewrite (fl_leb_zero_sign raw s false). exact E1.
    + reflexivity.
  - unfold spec_min. destruct (fl_leb raw cap) eqn:E1; [exact E1|].
    apply fl_leb_refl. exact Hn.
Qed.

(** C4: for remaining hours and an amount per day that are finite floats
    and not negative, any hours per day and a cap that is not NaN, whenever
    the quotient of the hours by the hours per day (8 when that is not
    positive) is finite, [calc_cashout] returns: as remaining days that
    quotient; as cash-out days the smaller of the raw days and max(0, cap),
    the raw days being the floor of the remaining days when only whole days
    count and otherwise the float written with the hundredths nearest, ties
    to even, to the remaining days; and as amount the product of the days
    and the amount per day.  For a cap that is not negative the days never
    exceed it, and cashout(37, 8, 5, 1000, True) gives 4.625 days left, 4
    days cashed out and an amount of 4000. *)
Theorem calc_cashout_spec :
  (forall (rh hpd cap amt : float) (whole : bool),
      fl_nonneg rh = true -> fl_nonneg amt = true -> fl_is_nan cap = false ->
      let q := spec_remaining_days rh hpd in
      fl_is_finite q = true ->
      exists c : cashout,
        calc_cashout (Some rh) (Some hpd) (Some cap) (Some amt) whole = Some c
        /\ remaining_days c = q
        /\ (whole = true ->
            cashout_days c = spec_min (spec_floor q) (spec_max fl_zero cap))
        /\ (whole = false ->
            exists n : Z,
              nearest_even (fl_value q * 100) n
              /\ cashout_days c
                 = spec_min (fl_decimal false n 2) (spec_max fl_zero cap))
        /\ cashout_amount c = fl_mul (cashout_days c) amt
        /\ (fl_leb fl_zero cap = true -> fl_leb (cashout_days c) cap = true))
  /\ calc_cashout (Some (fl_of_int 37)) (Some (fl_of_int 8))
                  (Some (fl_of_int 5)) (Some (fl_of_int 1000)) true
     = Some (mkcashout (fl_decimal false 4625 3) (fl_of_int 4)
                       (fl_of_int 4000)).
Proof.
  split; [|vm_compute; reflexivity].
  intros rh hpd cap amt whole Hrh Hamt Hcap q Hq.
  pose proof (remaining_days_nonneg rh hpd Hrh Hq) as Hnn. fold q in Hnn.
  destruct (hours_per_day_effective hpd) as (Eh & Ez & _).
  cbv zeta in Eh.
  assert (Hmax : fl_max fl_zero cap = spec_max fl_zero cap)
    by (apply fl_max_spec; [reflexivity | exact Hcap]).
  assert (Hmn : fl_is_nan (spec_max fl_zero cap) = false)
    by (apply spec_max_not_nan; [reflexivity | exact Hcap]).
  unfold calc_cashout.
  rewrite (fl_or_nonneg rh Hrh), (fl_or_nonneg amt Hamt), Eh.
  unfold fl_truediv. rewrite Ez. fold (spec_remaining_days rh hpd). fold q.
  rewrite Hmax.
  destruct whole.
  - destruct (fl_floor_code q Hnn) as [Ef Hf]. rewrite Ef.
    rewrite (fl_min_spec _ _ Hf Hmn).
    eexists. split; [reflexivity|]. cbn [remaining_days cashout_days
                                         cashout_amount].
    split; [reflexivity|]. split; [reflexivity|].
    split; [discriminate|]. split; [reflexivity|]. apply capped.
  - set (n := match q with
              | S754_finite _ _ _ => round_half_even (Qabs (fl_value q) * 100)
              | _ => 0
              end).
    assert (Er : fl_round2 q = fl_decimal false n 2).
    { subst n. unfold fl_round2.
      destruct q as [s|s| |s m e]; try discriminate;
        destruct s; try discriminate; reflexivity. }
    assert (Hn : nearest_even (fl_value q * 100) n).
    { subst n. destruct q as [s|s| |s m e]; try discriminate.
      - split; [vm_compute; discriminate | reflexivity].
      - apply (nearest_even_comp (Qabs (fl_value (S754_finite s m e)) * 100)).
        + rewrite Qabs_pos by (apply fl_value_nonneg; exact Hnn). reflexivity.
        + apply round_half_even_nearest. }
    rewrite Er.
    rewrite (fl_min_spec _ _ (fl_decimal_not_nan n 2) Hmn).
    eexists. split; [reflexivity|]. cbn [remaining_days cashout_days
                                         cashout_amount].
    split; [reflexivity|]. split; [discriminate|].
    split; [intros _; exists n; split; [exact Hn | reflexivity]|].
    split; [reflexivity|]. apply capped.
Qed.


(** *** Used vacation hours *)

Lemma fold_add_used (y : Z) (res : list page) :
  forall acc : Q,
    fold_left (add_used y) res acc
    = fold_left Qplus (map leave_hours (filter (starts_in y) res)) acc.
Proof.
  induction res as [|p res IH]; intros acc; [reflexivity|].
  simpl fold_left. rewrite IH. unfold add_used, starts_in at 2. simpl filter.
  unfold starts_in at 2.
  destruct (parse_notion_date_start (properties p) K_LEAVE_PERIOD) as [d|];
    [|reflexivity].
  destruct (year d =? y); reflexivity.
Qed.

Lemma calc_used_first_page (employee_name : str) (y : Z) (st : notion) :
  calc_used_vacation_hours employee_name y st
  = if truthy (strip employee_name)
    then hours_in_year y
           (firstn 100 (approved_annual_requests (strip employee_name) st))
    else 0%Q.
Proof.
  unfold calc_used_vacation_hours.
  destruct (truthy (strip employee_name)); [|reflexivity].
  simpl negb. cbv iota. unfold query, query_from. simpl fst.
  rewrite fold_add_used. reflexivity.
Qed.

Lemma approved_status_add_leave (extra : list page) (st : notion) :
  approved_status (add_leave_pages extra st) = approved_status st.
Proof. reflexivity. Qed.

Lemma approved_requests_add_leave (employee_name : str) (extra : list page)
  (st : notion) :
  approved_annual_requests employee_name (add_leave_pages extra st)
  = approved_annual_requests employee_name st
    ++ filter (fun p => eval_filter p (used_filter employee_name st)) extra.
Proof.
  unfold approved_annual_requests, matching. simpl db_pages.
  rewrite filter_app. reflexivity.
Qed.

(** C10: the used hours are the sum over the requests of the first result
    page, at most 100 of them, of a single query of the approved
    annual-leave requests of the employee, restricted to those that start in
    the year; requests after the first 100 matching ones do not enter the
    sum, as with 101 one-hour requests, where the result is 100. *)
Theorem calc_used_vacation_hours_first_page :
  (forall (employee_name : str) (y : Z) (st : notion),
      calc_used_vacation_hours employee_name y st
      = if truthy (strip employee_name)
        then hours_in_year y
               (firstn 100 (approved_annual_requests (strip employee_name) st))
        else 0%Q)
  /\ (forall (employee_name : str) (y : Z) (st : notion),
         (List.length
            (firstn 100 (approved_annual_requests (strip employee_name) st))
          <= 100)%nat)
  /\ (forall (employee_name : str) (y : Z) (st : notion) (extra : list page),
         (100 <= List.length
                   (approved_annual_requests (strip employee_name) st))%nat ->
         calc_used_vacation_hours employee_name y (add_leave_pages extra st)
         = calc_used_vacation_hours employee_name y st)
  /\ (List.length (approved_annual_requests EMP_A st_101_requests) = 101%nat
      /\ spec_used_hours EMP_A 2026 st_101_requests = 101%Q
      /\ calc_used_vacation_hours EMP_A 2026 st_101_requests = 100%Q).
Proof.
  split; [exact calc_used_first_page|]. split; [|split].
  - intros. apply firstn_le_length.
  - intros employee_name y st extra Hlen.
    rewrite !calc_used_first_page.
    destruct (truthy (strip employee_name)); [|reflexivity].
    rewrite approved_requests_add_leave.
    rewrite firstn_app.
    replace (100 - List.length
                     (approved_annual_requests (strip employee_name) st))%nat
      with 0%nat by lia.
    simpl firstn. rewrite app_nil_r. reflexivity.
  - repeat split; vm_compute; reflexivity.
Qed.

(** *** Vacation snapshot *)

Lemma py_max_nonneg (x : Q) : (0 <= py_max 0 x)%Q.
Proof.
  unfold py_max. destruct (Qltb 0 x) eqn:E.
  - apply Qltb_lt in E. apply Qlt_le_weak; assumption.
  - apply Qle_refl.
Qed.

Lemma ensure_vacation_row_leave (employee_name : str) (y : Z) (d : Q)
  (st : notion) :
  LEAVE_DB (snd (ensure_vacation_row employee_name y d st)) = LEAVE_DB st.
Proof.
  unfold ensure_vacation_row.
  destruct (negb (truthy (strip employee_name))); [reflexivity|].
  destruct (query _ _ _); reflexivity.
Qed.

Lemma calc_used_depends_on_leave (employee_name : str) (y : Z)
  (st st' : notion) :
  LEAVE_DB st' = LEAVE_DB st ->
  calc_used_vacation_hours employee_name y st'
  = calc_used_vacation_hours employee_name y st.
Proof.
  intros E. unfold calc_used_vacation_hours, used_filter, approved_status.
  rewrite E. reflexivity.
Qed.

(** What the snapshot does guarantee: the remaining hours are
    max(0, entitled - used) and never negative, and the used hours are those
    [calc_used_vacation_hours] computes from the leave collection alone, so
    the used hours stored in the vacation collection play no part. *)
Lemma snapshot_balance (employee_name : str) (y : Z) (st st' : notion)
  (s : snapshot) :
  get_employee_vacation_snapshot employee_name y st = (Some s, st') ->
  remaining s = py_max 0 (total s - used s)
  /\ (0 <= remaining s)%Q
  /\ used s = calc_used_vacation_hours employee_name y st
  /\ (forall st2, LEAVE_DB st2 = LEAVE_DB st ->
                  calc_used_vacation_hours employee_name y st2 = used s).
Proof.
  unfold get_employee_vacation_snapshot.
  pose proof (ensure_vacation_row_leave employee_name y 0 st) as Hl.
  destruct (ensure_vacation_row employee_name y 0 st) as [ok st1].
  simpl in Hl. destruct ok; simpl negb; cbv iota; [|discriminate].
  destruct (list_vacation_summary false employee_name (Some y) 5 st1)
    as [|row rows]; [discriminate|].
  intros H. inversion H; subst; clear H. simpl.
  split; [reflexivity|]. split; [apply py_max_nonneg|].
  split; [apply calc_used_depends_on_leave; assumption|].
  intros st2 E.
  rewrite (calc_used_depends_on_leave employee_name y st st2 E).
  symmetry. apply calc_used_depends_on_leave. assumption.
Qed.

(** C3 at a store the code can meet: employee A has 100 approved
    annual-leave requests that start in 2025 and, after them, one of 8 hours
    that starts in 2026.  The approved requests that start in 2026 sum to 8
    hours, yet the snapshot for 2026 reports 0 hours used and all 80
    entitled hours remaining: the single query page of 100 requests ends
    before the request of 2026. *)
Theorem vacation_snapshot_drops_requests_after_first_page :
  spec_used_hours EMP_A 2026 st_long_service = 8%Q
  /\ option_map (fun s => (total s, used s, remaining s))
                (fst (get_employee_vacation_snapshot EMP_A 2026 st_long_service))
     = Some (80%Q, 0%Q, 80%Q).
Proof. split; vm_compute; reflexivity. Qed.

(** *** Lunch settlement *)

Lemma fetch_days_step (fuel : nat) (db : database) (flt : qfilter)
  (k_date : str) (cursor : nat) (days : list date) :
  fetch_days (S fuel) db flt k_date cursor days
  = let rest := skipn cursor (matching db flt) in
    let days' := days ++ dates_of k_date (firstn 100 rest) in
    if Nat.ltb 100 (List.length rest)
    then fetch_days fuel db flt k_date (cursor + 100) days'
    else days'.
Proof. reflexivity. Qed.

(** With enough turns the paging loop delivers every matching page. *)
Lemma fetch_days_all (db : database) (flt : qfilter) (k_date : str) :
  forall (fuel cursor : nat) (days : list date),
    (List.length (skipn cursor (matching db flt)) < fuel)%nat ->
    fetch_days fuel db flt k_date cursor days
    = days ++ dates_of k_date (skipn cursor (matching db flt)).
Proof.
  induction fuel as [|fuel IH]; intros cursor days Hfuel; [lia|].
  rewrite fetch_days_step. cbv zeta.
  assert (Hskip : skipn (cursor + 100) (matching db flt)
                  = skipn 100 (skipn cursor (matching db flt)))
    by (rewrite Nat.add_comm, <- skipn_skipn; reflexivity).
  set (rest := skipn cursor (matching db flt)) in *.
  destruct (Nat.ltb_spec 100 (List.length rest)) as [Hmore|Hlast].
  - rewrite IH.
    + rewrite <- app_assoc. f_equal. rewrite Hskip.
      unfold dates_of. rewrite <- flat_map_app, firstn_skipn. reflexivity.
    + rewrite Hskip, length_skipn. lia.
  - rewrite firstn_all2 by lia. reflexivity.
Qed.

Lemma list_lunch_days_all (employee_name : str) (start_d end_d : date)
  (st : notion) :
  truthy (ATTEND_DB_ID cfg) = true -> truthy (strip employee_name) = true ->
  _list_lunch_eligible_attendance_days employee_name start_d end_d st
  = dates_of
      (or_str (resolve_prop_key (get_db_properties (ATTEND_DB st)) K_ATT_DATE)
              K_ATT_DATE)
      (matching (ATTEND_DB st)
                (attendance_filter (ATTEND_DB st) (strip employee_name)
                                   start_d end_d)).
Proof.
  intros Hcfg Hname. unfold _list_lunch_eligible_attendance_days.
  rewrite Hcfg, Hname. simpl negb. cbv iota.
  rewrite fetch_days_all; [reflexivity|].
  simpl skipn. unfold matching.
  pose proof (filter_length_le
                (fun p => eval_filter p
                            (attendance_filter (ATTEND_DB st)
                               (strip employee_name) start_d end_d))
                (db_pages (ATTEND_DB st))).
  lia.
Qed.

(** Sorting does not change how many elements pass a test. *)
Lemma filter_insert_by_length {A : Type} (leb : A -> A -> bool)
  (f : A -> bool) (x : A) (l : list A) :
  List.length (filter f (insert_by leb x l)) = List.length (filter f (x :: l)).
Proof.
  induction l as [|y l IH]; [reflexivity|].
  simpl insert_by. destruct (leb x y); [reflexivity|].
  simpl in *. destruct (f y), (f x); simpl in *; lia.
Qed.

Lemma filter_sort_by_length {A : Type} (leb : A -> A -> bool)
  (f : A -> bool) (l : list A) :
  List.length (filter f (sort_by leb l)) = List.length (filter f l).
Proof.
  induction l as [|x l IH]; [reflexivity|].
  unfold sort_by in *. simpl fold_right. rewrite filter_insert_by_length.
  simpl. destruct (f x); simpl; rewrite IH; reflexivity.
Qed.

Lemma filter_dates_of_length (k : str) (f : date -> bool) (l : list page) :
  List.length (filter f (dates_of k l))
  = List.length
      (filter (fun p => match parse_notion_date_start (properties p) k with
                        | Some d => f d
                        | None => false
                        end) l).
Proof.
  induction l as [|p l IH]; [reflexivity|].
  unfold dates_of in *. simpl.
  destruct (parse_notion_date_start (properties p) k) as [d|]; simpl;
    [destruct (f d); simpl|]; rewrite IH; reflexivity.
Qed.

Lemma filter_filter_length {A : Type} (f g : A -> bool) (l : list A) :
  List.length (filter f (filter g l))
  = List.length (filter (fun x => g x && f x) l).
Proof.
  induction l as [|x l IH]; [reflexivity|].
  simpl. destruct (g x); simpl; [destruct (f x); simpl|]; rewrite IH;
    reflexivity.
Qed.

Lemma filter_map_length {A B : Type} (f : B -> bool) (g : A -> B)
  (l : list A) :
  List.length (filter f (map g l))
  = List.length (filter (fun x => f (g x)) l).
Proof.
  induction l as [|x l IH]; [reflexivity|].
  simpl. destruct (f (g x)); simpl; rewrite IH; reflexivity.
Qed.

Lemma weekday_range (d : date) : 0 <= weekday d < 7.
Proof. unfold weekday. apply Z.mod_pos_bound. lia. Qed.

Lemma workday_not_sunday (d : date) :
  existsb (Z.eqb (weekday d)) WORKDAY_WEEKDAYS = negb (weekday d =? 6).
Proof.
  pose proof (weekday_range d) as H. unfold WORKDAY_WEEKDAYS. simpl.
  assert (C : weekday d = 0 \/ weekday d = 1 \/ weekday d = 2 \/ weekday d = 3
              \/ weekday d = 4 \/ weekday d = 5 \/ weekday d = 6) by lia.
  destruct C as [E|[E|[E|[E|[E|[E|E]]]]]]; rewrite E; reflexivity.
Qed.

(** The filters sent to the store read a page as [attendance_of] does. *)
Lemma employee_filter_spec (db : database) (p : page) (employee_name : str) :
  let meta := get_db_properties db in
  let k_emp := or_str (resolve_prop_key meta K_EMPLOYEE) K_EMPLOYEE in
  eval_filter p (employee_filter meta k_emp employee_name)
  = opt_str_eqb (att_employee (attendance_of db p)) employee_name.
Proof.
  intros meta k_emp. unfold attendance_of, employee_filter.
  fold meta. fold k_emp. cbn [att_employee].
  destruct (dict_get k_emp meta) as [[]|];
    destruct (dict_get k_emp (properties p)) as [[]|] eqn:E;
    simpl; rewrite ?E; reflexivity.
Qed.

Lemma existsb_pointwise {A : Type} (f g : A -> bool) (l : list A) :
  (forall x, f x = g x) -> existsb f l = existsb g l.
Proof.
  intros E. induction l as [|x l IH]; [reflexivity|].
  simpl. rewrite E, IH. reflexivity.
Qed.

Lemma existsb_orb {A : Type} (f g : A -> bool) (l : list A) :
  existsb (fun x => f x || g x) l = existsb f l || existsb g l.
Proof.
  induction l as [|x l IH]; [reflexivity|].
  simpl. rewrite IH. destruct (f x), (g x), (existsb f l); reflexivity.
Qed.

Lemma status_filter_spec (db : database) (p : page) :
  let meta := get_db_properties db in
  let k_status := or_str (resolve_prop_key meta K_ATT_STATUS) K_ATT_STATUS in
  eval_filter p (status_filter meta k_status)
  = existsb (fun s => PyStr.mem s [ATTEND_PRESENT_STATUS; ATTEND_LATE_STATUS])
            (att_statuses (attendance_of db p)).
Proof.
  intros meta k_status. unfold attendance_of, status_filter.
  fold meta. fold k_status. cbn [att_statuses].
  unfold ATTEND_LUNCH_ELIGIBLE_STATUSES. simpl map. simpl eval_filter.
  destruct (dict_get k_status meta) as [[]|];
    destruct (dict_get k_status (properties p)) as [[| | | [s|] | [s|] | l |]|]
      eqn:E; simpl; rewrite ?E; simpl; rewrite ?orb_false_r; try reflexivity.
  transitivity (existsb (PyStr.eqb ATTEND_PRESENT_STATUS) l
                || existsb (PyStr.eqb ATTEND_LATE_STATUS) l).
  - unfold PyStr.mem. reflexivity.
  - rewrite <- existsb_orb. apply existsb_pointwise. intros s.
    unfold PyStr.mem. simpl. rewrite orb_false_r.
    rewrite (eqb_sym s ATTEND_PRESENT_STATUS), (eqb_sym s ATTEND_LATE_STATUS).
    reflexivity.
Qed.

Lemma attendance_filter_spec (db : database) (p : page) (employee_name : str)
  (start_d end_d : date) :
  let k_date := or_str (resolve_prop_key (get_db_properties db) K_ATT_DATE)
                       K_ATT_DATE in
  eval_filter p (attendance_filter db employee_name start_d end_d)
  && match parse_notion_date_start (properties p) k_date with
     | Some d => existsb (Z.eqb (weekday d)) WORKDAY_WEEKDAYS
                 && (date_leb start_d d && date_ltb d end_d)
     | None => false
     end
  = lunch_eligible employee_name start_d end_d (attendance_of db p).
Proof.
  intros k_date. unfold attendance_filter.
  change (eval_filter p (FAnd ?l)) with (forallb (eval_filter p) l).
  cbn [forallb].
  rewrite (employee_filter_spec db p employee_name).
  rewrite (status_filter_spec db p).
  unfold lunch_eligible. fold k_date.
  change (att_date (attendance_of db p))
    with (parse_notion_date_start (properties p) k_date).
  cbn [eval_filter]. unfold parse_notion_date_start.
  destruct (opt_str_eqb (att_employee (attendance_of db p)) employee_name);
    [|reflexivity].
  destruct (existsb _ (att_statuses (attendance_of db p)));
    [|rewrite !andb_false_r; reflexivity].
  destruct (dict_get k_date (properties p)) as [[| | | | | |[d|]]|];
    try reflexivity.
  rewrite workday_not_sunday.
  destruct (date_leb start_d d), (date_ltb d end_d), (weekday d =? 6);
    reflexivity.
Qed.

Lemma filter_pointwise_length {A : Type} (f g : A -> bool) (l : list A) :
  (forall x, f x = g x) ->
  List.length (filter f l) = List.length (filter g l).
Proof. intros E. rewrite (filter_ext f g E). reflexivity. Qed.

Lemma calc_working_days_count (employee_name : str) (y m : Z) (st : notion)
  (start_d end_d : date) :
  truthy (ATTEND_DB_ID cfg) = true -> truthy (strip employee_name) = true ->
  _month_range y m = Some (start_d, end_d) ->
  option_map fst (calc_working_days_for_lunch employee_name y m st)
  = Some (spec_eligible_days (strip employee_name) start_d end_d st).
Proof.
  intros Hcfg Hname Hrange. unfold calc_working_days_for_lunch.
  rewrite Hrange. cbn [option_map fst]. f_equal. unfold spec_eligible_days.
  f_equal.
  rewrite filter_sort_by_length, (list_lunch_days_all _ _ _ _ Hcfg Hname).
  rewrite filter_dates_of_length. unfold matching.
  rewrite filter_filter_length, filter_map_length.
  apply filter_pointwise_length. intros p.
  apply attendance_filter_spec.
Qed.

(** C5: for every employee, year and month, with the attendance collection
    configured and a name that is not blank, the settlement counts as
    eligible days every attendance record of the employee whose date lies in
    [monthStart, monthEnd), whose status is Present (出席) or Late (遲到) and
    whose date is not a Sunday, each record on its own, so that duplicates of
    a day count each time; the entitlement is 90 per eligible day and the
    difference is the entitlement less the amount spent; and in scenario 2
    the eligible days are 22 and the entitlement is 1980. *)
Theorem lunch_settlement_counts_eligible_records :
  (forall (employee_name : str) (y m : Z) (is_admin : bool) (st : notion)
          (start_d end_d : date),
      truthy (ATTEND_DB_ID cfg) = true ->
      truthy (strip employee_name) = true ->
      _month_range y m = Some (start_d, end_d) ->
      exists s : settlement,
        calc_month_lunch_settlement employee_name y m is_admin st = Some s
        /\ eligible_days s
           = spec_eligible_days (strip employee_name) start_d end_d st
        /\ entitlement s = inject_Z (eligible_days s * 90)
        /\ diff s = (entitlement s - spent s)%Q)
  /\ (truthy (ATTEND_DB_ID cfg) = true ->
      option_map (fun s => (eligible_days s, entitlement s))
                 (calc_month_lunch_settlement EMP_B 2026 3 false st_march)
      = Some (22, 1980%Q)).
Proof.
  assert (G : forall (employee_name : str) (y m : Z) (is_admin : bool)
                     (st : notion) (start_d end_d : date),
             truthy (ATTEND_DB_ID cfg) = true ->
             truthy (strip employee_name) = true ->
             _month_range y m = Some (start_d, end_d) ->
             exists s : settlement,
               calc_month_lunch_settlement employee_name y m is_admin st
               = Some s
               /\ eligible_days s
                  = spec_eligible_days (strip employee_name) start_d end_d st
               /\ entitlement s = inject_Z (eligible_days s * 90)
               /\ diff s = (entitlement s - spent s)%Q).
  { intros employee_name y m is_admin st start_d end_d Hcfg Hname Hrange.
    pose proof (calc_working_days_count employee_name y m st start_d end_d
                  Hcfg Hname Hrange) as Hcount.
    unfold calc_month_lunch_settlement. rewrite Hrange.
    destruct (calc_working_days_for_lunch employee_name y m st)
      as [[n working_list]|]; [|discriminate Hcount].
    cbn [option_map fst] in Hcount. injection Hcount as Hn.
    eexists. split; [reflexivity|]. cbn [eligible_days entitlement diff spent].
    split; [exact Hn|]. split; reflexivity. }
  split; [exact G|].
  intros Hcfg.
  destruct (G EMP_B 2026 3 false st_march (mkdate 2026 3 1) (mkdate 2026 4 1)
              Hcfg eq_refl eq_refl) as (s & Es & Hd & He & _).
  rewrite Es. cbn [option_map]. rewrite He, Hd. reflexivity.
Qed.

(** *** Overtime counts: the upsert is idempotent *)

(** The keys the field resolver returns normalise like the names asked
    for. *)
Lemma resolve_prop_key_norm {V : Type} (props_meta : dict V) (want k : str) :
  resolve_prop_key props_meta want = Some k ->
  _norm_prop_name k = _norm_prop_name want.
Proof.
  unfold resolve_prop_key. destruct props_meta as [|kv meta]; [discriminate|].
  destruct (dict_has want (kv :: meta)).
  - intros H; inversion H; reflexivity.
  - intros H. apply find_some in H. apply eqb_eq. prop_tauto.
Qed.

Lemma resolved_key_norm {V : Type} (props_meta : dict V) (want : str) :
  _norm_prop_name (or_str (resolve_prop_key props_meta want) want)
  = _norm_prop_name want.
Proof.
  unfold or_str. destruct (resolve_prop_key props_meta want) as [k|] eqn:E;
    [|reflexivity].
  destruct (truthy k); [|reflexivity].
  apply (resolve_prop_key_norm props_meta); assumption.
Qed.

Lemma overtime_keys_distinct (db : database) (ke ky km kh : str) :
  overtime_keys db = (ke, ky, km, kh) -> title_key_apart db = true ->
  ke <> ky /\ ke <> km /\ ke <> kh /\ ky <> km /\ ky <> kh /\ km <> kh.
Proof.
  intros K Hapart. unfold title_key_apart in Hapart. rewrite K in Hapart.
  unfold overtime_keys in K. inversion K as [[Ke Ky Km Kh]]. clear K.
  pose proof (resolved_key_norm (get_db_properties db) K_YEAR) as Ny.
  pose proof (resolved_key_norm (get_db_properties db) K_MONTH) as Nm.
  pose proof (resolved_key_norm (get_db_properties db) K_HOURS) as Nh.
  rewrite Ky in Ny. rewrite Km in Nm. rewrite Kh in Nh.
  apply negb_true_iff in Hapart. simpl in Hapart.
  rewrite orb_false_r in Hapart. apply orb_false_iff in Hapart.
  destruct Hapart as [H1 H23]. apply orb_false_iff in H23.
  destruct H23 as [H2 H3].
  apply eqb_neq in H1, H2, H3. rewrite Ke, Ky, Km, Kh.
  repeat split; try assumption; intros E;
    match goal with
    | Na : _norm_prop_name ?a = _, Nb : _norm_prop_name ?b = _,
      E : ?a = ?b |- _ =>
        rewrite E in Na; rewrite Na in Nb; vm_compute in Nb; discriminate Nb
    end.
Qed.

Lemma dict_set_same_value {V : Type} (k : str) (v : V) (d : dict V) :
  dict_get k d = Some v -> dict_set k v d = d.
Proof.
  induction d as [|[k' v'] d IH]; simpl; [discriminate|].
  destruct (PyStr.eqb k k') eqn:E.
  - intros H; inversion H; reflexivity.
  - intros H. rewrite (IH H). reflexivity.
Qed.

Lemma page_eta (p : page) : mkpage (page_id p) (properties p) = p.
Proof. destruct p; reflexivity. Qed.

Lemma same_id_same_page (l : list page) (p q : page) :
  NoDup (map page_id l) -> In p l -> In q l -> page_id q = page_id p -> q = p.
Proof.
  induction l as [|x l IH]; simpl; [prop_tauto|].
  intros Hnd Hp Hq E. inversion Hnd as [|? ? Hx Hl]; subst.
  destruct Hp as [<-|Hp], Hq as [<-|Hq]; auto.
  - exfalso. apply Hx. rewrite <- E. apply in_map; assumption.
  - exfalso. apply Hx. rewrite E. apply in_map; assumption.
Qed.

(** The first page that passes [f] stays the first one under a map [g]
    that keeps failing pages failing and passing pages passing. *)
Lemma find_map_first (f : page -> bool) (g : page -> page) (l : list page)
  (p : page) :
  (forall q, In q l -> f q = false -> f (g q) = false) ->
  f (g p) = true ->
  find f l = Some p -> find f (map g l) = Some (g p).
Proof.
  induction l as [|x l IH]; simpl; [discriminate|].
  intros Hkeep Hp Hfind. destruct (f x) eqn:Ex.
  - inversion Hfind; subst. rewrite Hp. reflexivity.
  - rewrite (Hkeep x (or_introl eq_refl) Ex).
    apply IH; auto.
Qed.

Lemma find_none_filter {A : Type} (f : A -> bool) (l : list A) :
  find f l = None <-> filter f l = [].
Proof.
  induction l as [|x l IH]; simpl; [prop_tauto|].
  destruct (f x); [split; discriminate | exact IH].
Qed.

Lemma find_app_found {A : Type} (f : A -> bool) (l l' : list A) (p : A) :
  find f l = Some p -> find f (l ++ l') = Some p.
Proof.
  induction l as [|x l IH]; simpl; [discriminate|].
  destruct (f x); auto.
Qed.

Lemma find_app_none {A : Type} (f : A -> bool) (l l' : list A) :
  find f l = None -> find f (l ++ l') = find f l'.
Proof.
  induction l as [|x l IH]; simpl; [reflexivity|].
  destruct (f x); [discriminate | auto].
Qed.

(** The head of the first result page is the first matching page. *)
Lemma query_head (db : database) (flt : qfilter) (n : nat) :
  hd_error (query db flt (S n))
  = find (fun p => eval_filter p flt) (db_pages db).
Proof.
  unfold query, query_from, matching. simpl fst. simpl skipn.
  induction (db_pages db) as [|x l IH]; [reflexivity|].
  simpl. destruct (eval_filter x flt); [reflexivity | exact IH].
Qed.

Section OvertimeKeys.

Variables ke ky km kh : str.
Variables y m : Z.
Hypothesis ke_ky : ke <> ky.
Hypothesis ke_km : ke <> km.
Hypothesis ke_kh : ke <> kh.
Hypothesis ky_km : ky <> km.
Hypothesis ky_kh : ky <> kh.
Hypothesis km_kh : km <> kh.

Local Notation "'wr' e h" := (written ke ky km kh y m e h)
  (at level 10, e at level 9, h at level 9).
Local Notation "'key' e" := (of_key ke ky km y m e) (at level 10, e at level 9).

Lemma dict_of_written (e : str) (h : Q) : dict_of (wr e h) = wr e h.
Proof using ke_ky ke_km ke_kh ky_km ky_kh km_kh.
  unfold dict_of, written. simpl.
  pose proof (proj2 (eqb_neq _ _) ke_ky) as E1.
  pose proof (proj2 (eqb_neq _ _) ke_km) as E2.
  pose proof (proj2 (eqb_neq _ _) ke_kh) as E3.
  pose proof (proj2 (eqb_neq _ _) ky_km) as E4.
  pose proof (proj2 (eqb_neq _ _) ky_kh) as E5.
  pose proof (proj2 (eqb_neq _ _) km_kh) as E6.
  rewrite (eqb_sym ky ke), E1. simpl.
  rewrite (eqb_sym km ke), E2, (eqb_sym km ky), E4. simpl.
  rewrite (eqb_sym kh ke), E3, (eqb_sym kh ky), E5, (eqb_sym kh km), E6.
  reflexivity.
Qed.

Lemma written_get (e : str) (h : Q) (old : dict prop_value) :
  let props := set_properties (wr e h) old in
  dict_get ke props = Some (VTitle e)
  /\ dict_get ky props = Some (VNumber (Some (inject_Z y)))
  /\ dict_get km props = Some (VNumber (Some (inject_Z m)))
  /\ dict_get kh props = Some (VNumber (Some h)).
Proof using ke_ky ke_km ke_kh ky_km ky_kh km_kh.
  unfold set_properties, written. simpl fold_left.
  rewrite !dict_get_set, !eqb_refl.
  rewrite (proj2 (eqb_neq _ _) ke_ky), (proj2 (eqb_neq _ _) ke_km),
    (proj2 (eqb_neq _ _) ke_kh), (proj2 (eqb_neq _ _) ky_km),
    (proj2 (eqb_neq _ _) ky_kh), (proj2 (eqb_neq _ _) km_kh).
  repeat split; reflexivity.
Qed.

Lemma written_idem (e : str) (h : Q) (old : dict prop_value) :
  set_properties (wr e h) (set_properties (wr e h) old)
  = set_properties (wr e h) old.
Proof using ke_ky ke_km ke_kh ky_km ky_kh km_kh.
  destruct (written_get e h old) as (Ge & Gy & Gm & Gh).
  set (props := set_properties (wr e h) old) in *.
  unfold set_properties at 1, written. simpl fold_left.
  rewrite (dict_set_same_value ke _ props Ge).
  rewrite (dict_set_same_value ky _ props Gy).
  rewrite (dict_set_same_value km _ props Gm).
  rewrite (dict_set_same_value kh _ props Gh).
  reflexivity.
Qed.

Lemma written_matches (id : positive) (e e' : str) (h : Q)
  (old : dict prop_value) :
  eval_filter (mkpage id (set_properties (wr e h) old)) (key e')
  = PyStr.eqb e e'.
Proof using ke_ky ke_km ke_kh ky_km ky_kh km_kh.
  destruct (written_get e h old) as (Ge & Gy & Gm & _).
  unfold of_key. cbn [eval_filter forallb properties].
  rewrite Ge, Gy, Gm, !Qeq_bool_refl. simpl.
  apply andb_true_r.
Qed.

Lemma of_key_title (p : page) (e : str) :
  eval_filter p (key e) = true ->
  dict_get ke (properties p) = Some (VTitle e).
Proof.
  unfold of_key. cbn [eval_filter forallb].
  rewrite !andb_true_iff. intros (_ & _ & H & _).
  destruct (dict_get ke (properties p)) as [[t| | | | | |]|]; try discriminate.
  apply eqb_eq in H. subst; reflexivity.
Qed.

Lemma of_key_disjoint (p : page) (e e' : str) :
  eval_filter p (key e) = true -> eval_filter p (key e') = true ->
  e = e'.
Proof.
  intros H H'. apply of_key_title in H, H'. congruence.
Qed.

End OvertimeKeys.

Lemma key_filter_keys (db : database) (ke ky km kh : str) (e : str) (y m : Z) :
  overtime_keys db = (ke, ky, km, kh) ->
  key_filter db e y m = of_key ke ky km y m e.
Proof. intros K. unfold key_filter. rewrite K. reflexivity. Qed.

Lemma overtime_props_keys (db : database) (ke ky km kh : str) (e : str)
  (y m : Z) (h : Q) :
  overtime_keys db = (ke, ky, km, kh) -> title_key_apart db = true ->
  overtime_props db e y m h = written ke ky km kh y m e h.
Proof.
  intros K Hapart.
  destruct (overtime_keys_distinct db ke ky km kh K Hapart)
    as (D1 & D2 & D3 & D4 & D5 & D6).
  unfold overtime_props. rewrite K. apply dict_of_written; assumption.
Qed.

Lemma db_eta (db : database) : mkdb (db_properties db) (db_pages db) = db.
Proof. destruct db; reflexivity. Qed.

Lemma map_id_in {A : Type} (g : A -> A) (l : list A) :
  (forall x, In x l -> g x = x) -> map g l = l.
Proof.
  intros H. induction l as [|x l IH]; [reflexivity|].
  simpl. rewrite H by (left; reflexivity). rewrite IH; [reflexivity|].
  intros z Hz. apply H. right; assumption.
Qed.

(** Writing to a page again what it already holds changes nothing. *)
Lemma pages_update_settled (db : database) (p : page)
  (props : dict prop_value) :
  NoDup (map page_id (db_pages db)) -> In p (db_pages db) ->
  set_properties props (properties p) = properties p ->
  pages_update db (page_id p) props = db.
Proof.
  intros Hnd Hin Hset. unfold pages_update.
  rewrite map_id_in; [apply db_eta|].
  intros q Hq. destruct (Pos.eqb_spec (page_id q) (page_id p)) as [E|];
    [|reflexivity].
  rewrite (same_id_same_page _ p q Hnd Hin Hq E), Hset. apply page_eta.
Qed.

Lemma upsert_db_settled_id (y m : Z) (db : database) (next : positive)
  (item : str * Q) :
  fresh_ids db next -> settled y m db item ->
  upsert_db y m (db, next) item = (db, next).
Proof.
  intros [Hnd _] (p & Hfind & Hset). destruct item as [e h].
  unfold upsert_db. simpl fst in *. simpl snd in *. rewrite Hfind.
  apply find_some in Hfind. destruct Hfind as [Hin _].
  rewrite (pages_update_settled db p _ Hnd Hin Hset). reflexivity.
Qed.

Lemma upsert_db_fresh (y m : Z) (db : database) (next : positive)
  (item : str * Q) :
  fresh_ids db next ->
  fresh_ids (fst (upsert_db y m (db, next) item))
            (snd (upsert_db y m (db, next) item)).
Proof.
  intros [Hnd Hlt]. destruct item as [e h]. unfold upsert_db.
  destruct (find _ (db_pages db)) as [p|]; simpl fst; simpl snd.
  - unfold fresh_ids, pages_update. simpl db_pages. split.
    + rewrite map_map.
      rewrite (map_ext _ page_id); [assumption|].
      intros q. destruct (Pos.eqb (page_id q) (page_id p)); reflexivity.
    + apply Forall_map. eapply Forall_impl; [|exact Hlt].
      intros q Hq. destruct (Pos.eqb (page_id q) (page_id p)); exact Hq.
  - unfold fresh_ids, pages_create. simpl db_pages. split.
    + rewrite map_app. simpl map.
      apply NoDup_app; [assumption | repeat constructor; simpl; prop_tauto|].
      intros x Hx [<-|[]]. rewrite in_map_iff in Hx.
      destruct Hx as (q & Eq & Hq). rewrite Forall_forall in Hlt.
      specialize (Hlt q Hq). rewrite Eq in Hlt. lia.
    + apply Forall_app. split.
      * eapply Forall_impl; [|exact Hlt]. intros q Hq. simpl in *. lia.
      * repeat constructor. simpl. lia.
Qed.

Lemma upsert_db_keys (y m : Z) (db : database) (next : positive)
  (item : str * Q) :
  overtime_keys (fst (upsert_db y m (db, next) item)) = overtime_keys db
  /\ title_key_apart (fst (upsert_db y m (db, next) item))
     = title_key_apart db.
Proof.
  destruct item as [e h]. unfold upsert_db.
  destruct (find _ (db_pages db)); split; reflexivity.
Qed.

Lemma upsert_db_settles (y m : Z) (db : database) (next : positive) (e : str)
  (h : Q) :
  fresh_ids db next -> title_key_apart db = true ->
  settled y m (fst (upsert_db y m (db, next) (e, h))) (e, h).
Proof.
  intros [Hnd Hlt] Hapart.
  destruct (overtime_keys db) as [[[ke ky] km] kh] eqn:K.
  destruct (overtime_keys_distinct db ke ky km kh K Hapart)
    as (D1 & D2 & D3 & D4 & D5 & D6).
  unfold upsert_db.
  rewrite (key_filter_keys db ke ky km kh e y m K),
    (overtime_props_keys db ke ky km kh e y m h K Hapart).
  destruct (find _ (db_pages db)) as [p|] eqn:Hfind; cbn [fst];
    unfold settled; cbn [fst snd].
  - rewrite (key_filter_keys (pages_update db _ _) ke ky km kh e y m K),
      (overtime_props_keys (pages_update db _ _) ke ky km kh e y m h K Hapart).
    set (g := fun p0 : page =>
                if Pos.eqb (page_id p0) (page_id p)
                then mkpage (page_id p0)
                       (set_properties (written ke ky km kh y m e h)
                                       (properties p0))
                else p0).
    exists (g p). split.
    + unfold pages_update. cbn [db_pages]. fold g.
      apply find_map_first; [| |assumption].
      * intros q Hq Hfalse. unfold g.
        destruct (Pos.eqb_spec (page_id q) (page_id p)) as [E|];
          [|assumption].
        apply find_some in Hfind. destruct Hfind as [Hin Hp].
        rewrite (same_id_same_page _ p q Hnd Hin Hq E) in Hfalse. congruence.
      * unfold g. rewrite Pos.eqb_refl.
        rewrite written_matches by assumption. apply eqb_refl.
    + unfold g. rewrite Pos.eqb_refl. cbn [properties].
      apply written_idem; assumption.
  - rewrite (key_filter_keys (pages_create db _ _) ke ky km kh e y m K),
      (overtime_props_keys (pages_create db _ _) ke ky km kh e y m h K Hapart).
    assert (EW : set_properties (written ke ky km kh y m e h) []
                 = written ke ky km kh y m e h)
      by (apply dict_of_written; assumption).
    exists (mkpage next (written ke ky km kh y m e h)). split.
    + unfold pages_create. cbn [db_pages].
      rewrite find_app_none by assumption. cbn [find].
      replace (eval_filter (mkpage next (written ke ky km kh y m e h))
                           (of_key ke ky km y m e)) with true; [reflexivity|].
      symmetry. rewrite <- EW. rewrite written_matches by assumption.
      apply eqb_refl.
    + cbn [properties].
      transitivity (set_properties (written ke ky km kh y m e h)
                      (set_properties (written ke ky km kh y m e h) [])).
      * rewrite EW. reflexivity.
      * rewrite written_idem by assumption. exact EW.
Qed.

Lemma upsert_db_keeps_settled (y m : Z) (db : database) (next : positive)
  (e e' : str) (h h' : Q) :
  e <> e' -> fresh_ids db next -> title_key_apart db = true ->
  settled y m db (e, h) ->
  settled y m (fst (upsert_db y m (db, next) (e', h'))) (e, h).
Proof.
  intros Hne [Hnd Hlt] Hapart (p & Hfind & Hset).
  destruct (overtime_keys db) as [[[ke ky] km] kh] eqn:K.
  destruct (overtime_keys_distinct db ke ky km kh K Hapart)
    as (D1 & D2 & D3 & D4 & D5 & D6).
  cbn [fst snd] in Hfind, Hset.
  rewrite (key_filter_keys db ke ky km kh e y m K) in Hfind.
  unfold upsert_db.
  rewrite (key_filter_keys db ke ky km kh e' y m K),
    (overtime_props_keys db ke ky km kh e' y m h' K Hapart).
  pose proof (find_some _ _ Hfind) as [Hin Hp].
  destruct (find (fun p0 => eval_filter p0 (of_key ke ky km y m e'))
                 (db_pages db)) as [p'|] eqn:Hfind'; cbn [fst];
    unfold settled; cbn [fst snd].
  - rewrite (key_filter_keys (pages_update db _ _) ke ky km kh e y m K).
    change (overtime_props (pages_update db (page_id p')
                              (written ke ky km kh y m e' h')) e y m h)
      with (overtime_props db e y m h).
    pose proof (find_some _ _ Hfind') as [Hin' Hp'].
    set (g := fun p0 : page =>
                if Pos.eqb (page_id p0) (page_id p')
                then mkpage (page_id p0)
                       (set_properties (written ke ky km kh y m e' h')
                                       (properties p0))
                else p0).
    assert (Hgp : g p = p).
    { unfold g. destruct (Pos.eqb_spec (page_id p) (page_id p')) as [E|];
        [|reflexivity].
      exfalso. apply Hne.
      rewrite (same_id_same_page _ p' p Hnd Hin' Hin E) in Hp.
      apply (of_key_disjoint ke ky km y m p'); assumption. }
    exists p. split; [|assumption].
    unfold pages_update. cbn [db_pages]. fold g.
    replace (Some p) with (Some (g p)) by (rewrite Hgp; reflexivity).
    apply find_map_first; [| |assumption].
    + intros q Hq Hfalse. unfold g.
      destruct (Pos.eqb (page_id q) (page_id p')); [|assumption].
      rewrite written_matches by assumption.
      apply eqb_neq. congruence.
    + rewrite Hgp. assumption.
  - rewrite (key_filter_keys (pages_create db _ _) ke ky km kh e y m K).
    exists p. split; [|assumption].
    unfold pages_create. cbn [db_pages]. apply find_app_found. assumption.
Qed.

(** The records of a key: one more when the key had none, as many as
    before otherwise, and the records of the other keys are untouched. *)
Lemma filter_map_same_length {A : Type} (f : A -> bool) (g : A -> A)
  (l : list A) :
  (forall x, In x l -> f (g x) = f x) ->
  List.length (filter f (map g l)) = List.length (filter f l).
Proof.
  intros H. induction l as [|x l IH]; [reflexivity|].
  simpl. rewrite H by (left; reflexivity).
  destruct (f x); simpl; rewrite IH; auto; intros z Hz; apply H; right;
    assumption.
Qed.

Lemma upsert_db_key_count (y m : Z) (db : database) (next : positive)
  (e e' : str) (h' : Q) :
  fresh_ids db next -> title_key_apart db = true ->
  List.length (key_records (fst (upsert_db y m (db, next) (e', h'))) e y m)
  = if PyStr.eqb e e'
    then Nat.max 1 (List.length (key_records db e y m))
    else List.length (key_records db e y m).
Proof.
  intros [Hnd Hlt] Hapart.
  destruct (overtime_keys db) as [[[ke ky] km] kh] eqn:K.
  destruct (overtime_keys_distinct db ke ky km kh K Hapart)
    as (D1 & D2 & D3 & D4 & D5 & D6).
  unfold upsert_db, key_records, matching.
  rewrite (key_filter_keys db ke ky km kh e' y m K),
    (key_filter_keys db ke ky km kh e y m K),
    (overtime_props_keys db ke ky km kh e' y m h' K Hapart).
  destruct (find (fun p0 => eval_filter p0 (of_key ke ky km y m e'))
                 (db_pages db)) as [p'|] eqn:Hfind'; cbn [fst].
  - rewrite (key_filter_keys (pages_update db _ _) ke ky km kh e y m K).
    pose proof (find_some _ _ Hfind') as [Hin' Hp'].
    unfold pages_update. cbn [db_pages].
    rewrite filter_map_same_length.
    + destruct (PyStr.eqb e e') eqn:Ee; [|reflexivity].
      apply eqb_eq in Ee. subst e'.
      destruct (filter _ (db_pages db)) as [|x l] eqn:Ef; [|simpl; lia].
      exfalso.
      assert (Hx : In p' (filter
                            (fun p => eval_filter p (of_key ke ky km y m e))
                            (db_pages db)))
        by (apply filter_In; split; assumption).
      rewrite Ef in Hx. destruct Hx.
    + intros q Hq.
      destruct (Pos.eqb_spec (page_id q) (page_id p')) as [E|]; [|reflexivity].
      rewrite (same_id_same_page _ p' q Hnd Hin' Hq E).
      rewrite written_matches by assumption.
      destruct (PyStr.eqb e' e) eqn:Ee.
      * apply eqb_eq in Ee. subst e'. symmetry. assumption.
      * symmetry. destruct (eval_filter p' (of_key ke ky km y m e)) eqn:Ep;
          [|reflexivity].
        exfalso. apply eqb_neq in Ee. apply Ee.
        apply (of_key_disjoint ke ky km y m p'); assumption.
  - rewrite (key_filter_keys (pages_create db _ _) ke ky km kh e y m K).
    unfold pages_create. cbn [db_pages].
    assert (EW : set_properties (written ke ky km kh y m e' h') []
                 = written ke ky km kh y m e' h')
      by (apply dict_of_written; assumption).
    rewrite filter_app, length_app. cbn [filter].
    rewrite <- EW, written_matches by assumption. rewrite (eqb_sym e' e).
    destruct (PyStr.eqb e e') eqn:Ee; cbn [List.length]; [|lia].
    apply eqb_eq in Ee. subst e'.
    apply find_none_filter in Hfind'. rewrite Hfind'. reflexivity.
Qed.

(** A whole run of upserts, on the collection and the next identifier. *)
Lemma run_fresh (y m : Z) (counts : list (str * Q)) :
  forall (db : database) (next : positive),
    fresh_ids db next -> title_key_apart db = true ->
    fresh_ids (fst (fold_left (upsert_db y m) counts (db, next)))
              (snd (fold_left (upsert_db y m) counts (db, next)))
    /\ title_key_apart (fst (fold_left (upsert_db y m) counts (db, next)))
       = true.
Proof.
  induction counts as [|it counts IH]; intros db next Hf Ha; [split; assumption|].
  cbn [fold_left].
  pose proof (upsert_db_fresh y m db next it Hf) as Hf1.
  destruct (upsert_db_keys y m db next it) as [_ Ha1].
  destruct (upsert_db y m (db, next) it) as [db1 next1].
  cbn [fst snd] in *.
  apply IH; [exact Hf1 | rewrite <- Ha; exact Ha1].
Qed.

Lemma run_settles (y m : Z) (counts : list (str * Q)) :
  forall (db : database) (next : positive) (done : list (str * Q)),
    fresh_ids db next -> title_key_apart db = true ->
    NoDup (map fst counts) ->
    (forall it, In it done -> settled y m db it) ->
    (forall it, In it done -> ~ In (fst it) (map fst counts)) ->
    forall it, In it (done ++ counts) ->
               settled y m (fst (fold_left (upsert_db y m) counts (db, next)))
                       it.
Proof.
  induction counts as [|[e h] counts IH];
    intros db next done Hf Ha Hnd Hdone Hdisj it Hit.
  - rewrite app_nil_r in Hit. apply Hdone; assumption.
  - cbn [fold_left].
    pose proof (upsert_db_fresh y m db next (e, h) Hf) as Hf1.
    destruct (upsert_db_keys y m db next (e, h)) as [_ Ha1].
    pose proof (upsert_db_settles y m db next e h Hf Ha) as Hs1.
    assert (Hk1 : forall it0, In it0 done ->
                    settled y m (fst (upsert_db y m (db, next) (e, h))) it0).
    { intros [e0 h0] H0. apply upsert_db_keeps_settled; auto.
      intros ->. apply (Hdisj (e, h0) H0). left; reflexivity. }
    destruct (upsert_db y m (db, next) (e, h)) as [db1 next1].
    cbn [fst snd] in *. inversion Hnd as [|? ? Hnotin Hnd']; subst.
    apply (IH db1 next1 (done ++ [(e, h)])); auto.
    + rewrite <- Ha; exact Ha1.
    + intros it0 H0. apply in_app_iff in H0. destruct H0 as [H0|[<-|[]]];
        auto.
    + intros it0 H0. apply in_app_iff in H0. destruct H0 as [H0|[<-|[]]].
      * intros Hin. apply (Hdisj it0 H0). right; assumption.
      * exact Hnotin.
    + rewrite <- app_assoc. exact Hit.
Qed.

Lemma run_settled_id (y m : Z) (counts : list (str * Q)) (db : database)
  (next : positive) :
  fresh_ids db next ->
  (forall it, In it counts -> settled y m db it) ->
  fold_left (upsert_db y m) counts (db, next) = (db, next).
Proof.
  intros Hf. induction counts as [|it counts IH]; intros Hs; [reflexivity|].
  cbn [fold_left].
  rewrite (upsert_db_settled_id y m db next it Hf)
    by (apply Hs; left; reflexivity).
  apply IH. intros it0 H0. apply Hs. right; assumption.
Qed.

Lemma run_key_count (y m : Z) (e : str) (counts : list (str * Q)) :
  forall (db : database) (next : positive),
    fresh_ids db next -> title_key_apart db = true ->
    List.length
      (key_records (fst (fold_left (upsert_db y m) counts (db, next))) e y m)
    = if PyStr.mem e (map fst counts)
      then Nat.max 1 (List.length (key_records db e y m))
      else List.length (key_records db e y m).
Proof.
  induction counts as [|[e1 h1] counts IH]; intros db next Hf Ha;
    [reflexivity|].
  cbn [fold_left].
  pose proof (upsert_db_fresh y m db next (e1, h1) Hf) as Hf1.
  destruct (upsert_db_keys y m db next (e1, h1)) as [_ Ha1].
  pose proof (upsert_db_key_count y m db next e e1 h1 Hf Ha) as Hc.
  destruct (upsert_db y m (db, next) (e1, h1)) as [db1 next1].
  cbn [fst snd] in *.
  rewrite (IH db1 next1 Hf1) by (rewrite <- Ha; exact Ha1).
  rewrite Hc. unfold PyStr.mem. cbn [map fst existsb].
  destruct (PyStr.eqb e e1); cbn [orb];
    destruct (existsb (PyStr.eqb e) (map fst counts)); lia.
Qed.

(** [log_action] leaves the collections, the identifier counter and the
    messages as they are. *)
Lemma log_action_keeps (a t : str) (c : list log_part) (r : str) (st : notion) :
  let st' := log_action a t c r st in
  OVERTIME_COUNT_DB st' = OVERTIME_COUNT_DB st
  /\ OVERTIME_RULE_DB st' = OVERTIME_RULE_DB st
  /\ LEAVE_DB st' = LEAVE_DB st
  /\ VACATION_DB st' = VACATION_DB st
  /\ SALARY_DB st' = SALARY_DB st
  /\ ATTEND_DB st' = ATTEND_DB st
  /\ LUNCH_DB st' = LUNCH_DB st
  /\ next_id st' = next_id st
  /\ st_error st' = st_error st.
Proof.
  unfold log_action. destruct (negb (truthy (OPLOG_DB_ID cfg)));
    repeat split; reflexivity.
Qed.

(** One upsert of the program acts on the collection as [upsert_db], on
    the hours as [float(hours or 0.0)] reads them. *)
Lemma upsert_overtime_count_db (e : str) (y m : Z) (h : Q) (actor : str)
  (st : notion) :
  truthy (OVERTIME_COUNT_DB_ID cfg) = true -> stripped e ->
  let r := upsert_overtime_count_to_notion e y m h actor st in
  (exists pid, fst r = Some pid)
  /\ (OVERTIME_COUNT_DB (snd r), next_id (snd r))
     = upsert_db y m (OVERTIME_COUNT_DB st, next_id st)
                 (e, or_float (Some h) 0%Q).
Proof.
  intros Hcfg [Hs Ht]. unfold upsert_overtime_count_to_notion, upsert_db.
  rewrite Hs, Hcfg, Ht. cbn [negb orb].
  unfold key_filter, overtime_props, written, of_key.
  destruct (overtime_keys (OVERTIME_COUNT_DB st)) as [[[ke ky] km] kh].
  rewrite <- query_head with (n := 4%nat).
  destruct (query (OVERTIME_COUNT_DB st) _ 5) as [|p results];
    cbn [hd_error fst snd]; (split; [eexists; reflexivity|]);
    match goal with
    | |- context [log_action ?a ?t ?c ?r ?s] =>
        destruct (log_action_keeps a t c r s)
          as (E1 & _ & _ & _ & _ & _ & _ & E2 & _)
    end;
    rewrite E1, E2; reflexivity.
Qed.

Lemma or_float_idem (h : Q) :
  or_float (Some (or_float (Some h) 0%Q)) 0%Q = or_float (Some h) 0%Q.
Proof.
  unfold or_float. destruct (Qeq_bool h 0) eqn:E; [reflexivity|].
  rewrite E. reflexivity.
Qed.

Lemma sync_fold_db (y m : Z) (actor : str) (counts : list (str * Q)) :
  truthy (OVERTIME_COUNT_DB_ID cfg) = true ->
  Forall stripped (map fst counts) ->
  Forall plain_hours counts ->
  forall (ok fail : Z) (st : notion),
    let r := fold_left (sync_step y m actor) counts (ok, fail, st) in
    (OVERTIME_COUNT_DB (snd r), next_id (snd r))
    = fold_left (upsert_db y m) counts (OVERTIME_COUNT_DB st, next_id st)
    /\ fst r = (ok + Z.of_nat (List.length counts), fail).
Proof.
  intros Hcfg. induction counts as [|[e h] counts IH];
    intros Hall Hplain ok fail st.
  - cbn [fold_left snd fst List.length]. split; [reflexivity|].
    f_equal. simpl. lia.
  - inversion Hall as [|? ? He Hrest]; subst.
    inversion Hplain as [|? ? Hh Hprest]; subst.
    unfold plain_hours in Hh. cbn [snd] in Hh. cbn [fold_left].
    destruct (upsert_overtime_count_db e y m (or_float (Some h) 0%Q) actor st
                Hcfg He) as [[pid Hpid] Hdb].
    assert (Hstep : sync_step y m actor (ok, fail, st) (e, h)
                    = (ok + 1, fail,
                       snd (upsert_overtime_count_to_notion
                              e y m (or_float (Some h) 0%Q) actor st))).
    { unfold sync_step.
      destruct (upsert_overtime_count_to_notion
                  e y m (or_float (Some h) 0%Q) actor st) as [o st1].
      cbn [fst snd] in Hpid |- *. subst o. reflexivity. }
    rewrite Hstep. clear Hstep Hpid.
    set (r := upsert_overtime_count_to_notion _ _ _ _ _ _) in *.
    clearbody r. rewrite or_float_idem, Hh in Hdb. rewrite <- Hdb.
    destruct (IH Hrest Hprest (ok + 1) fail (snd r)) as [E1 E2].
    split; [exact E1|]. rewrite E2. f_equal. cbn [List.length]. lia.
Qed.

Lemma count_name_keys (counts : dict Q) (n : str) :
  NoDup (dict_keys counts) /\ Forall stripped (dict_keys counts) ->
  NoDup (dict_keys (count_name counts n))
  /\ Forall stripped (dict_keys (count_name counts n)).
Proof.
  intros [Hnd Hall]. unfold count_name.
  destruct (truthy (strip n)) eqn:Et; cbn [negb]; [|split; assumption].
  rewrite dict_keys_set. unfold dict_has.
  destruct (dict_get (strip n) counts) eqn:Eg; [split; assumption|].
  apply dict_get_none_keys in Eg. split.
  - apply NoDup_app; [assumption | repeat constructor; simpl; prop_tauto|].
    intros x Hx [<-|[]]. contradiction.
  - apply Forall_app. split; [assumption|].
    repeat constructor; [apply strip_idem | exact Et].
Qed.

Lemma calc_overtime_hours_keys (y m : Z) (rows : list row) :
  NoDup (dict_keys (calc_overtime_hours_from_duty_rows y m rows))
  /\ Forall stripped (dict_keys (calc_overtime_hours_from_duty_rows y m rows)).
Proof.
  unfold calc_overtime_hours_from_duty_rows.
  generalize (name_cols rows). intros cols.
  assert (H0 : NoDup (dict_keys ([] : dict Q))
               /\ Forall stripped (dict_keys ([] : dict Q)))
    by (split; constructor).
  revert H0. generalize ([] : dict Q).
  induction rows as [|r rows IH]; intros counts H; [exact H|].
  cbn [fold_left]. apply IH. unfold count_row.
  destruct (row_day r <=? 0); [exact H|].
  destruct (make_date y m (row_day r)) as [dt|]; [|exact H].
  destruct (5 <=? weekday dt); [exact H|].
  clear IH. revert counts H.
  induction cols as [|col cols IHc]; intros counts H; [exact H|].
  cbn [fold_left]. apply IHc.
  generalize (_parse_names_cell (dict_get col r)). intros names.
  revert counts H. induction names as [|n names IHn]; intros counts H;
    [exact H|].
  cbn [fold_left]. apply IHn. apply count_name_keys. exact H.
Qed.

Lemma dict_get_in {V : Type} (k : str) (v : V) (d : dict V) :
  dict_get k d = Some v -> In (k, v) d.
Proof.
  induction d as [|[k' v'] d IH]; simpl; [discriminate|].
  destruct (PyStr.eqb k k') eqn:E.
  - apply eqb_eq in E. intros H; inversion H; subst. left; reflexivity.
  - intros H. right. apply IH; assumption.
Qed.

Lemma dict_in_get {V : Type} (k : str) (v : V) (d : dict V) :
  NoDup (dict_keys d) -> In (k, v) d -> dict_get k d = Some v.
Proof.
  unfold dict_keys. induction d as [|[k' v'] d IH]; simpl; [intros _ []|].
  intros Hnd [H|H].
  - inversion H; subst. rewrite eqb_refl. reflexivity.
  - inversion Hnd as [|? ? Hnot Hrest]; subst.
    destruct (PyStr.eqb k k') eqn:E; [|apply IH; assumption].
    apply eqb_eq in E. subst k'. exfalso. apply Hnot.
    apply in_map_iff. exists (k, v). split; [reflexivity | assumption].
Qed.

Lemma get_hours_settled (e : str) (y m : Z) (h : Q) (st : notion) :
  truthy (OVERTIME_COUNT_DB_ID cfg) = true -> stripped e ->
  title_key_apart (OVERTIME_COUNT_DB st) = true ->
  settled y m (OVERTIME_COUNT_DB st) (e, h) ->
  get_overtime_count_hours e y m st = or_float (Some h) 0.
Proof.
  intros Hcfg [Hs Ht] Hapart (p & Hfind & Hset).
  cbn [fst snd] in Hfind, Hset.
  destruct (overtime_keys (OVERTIME_COUNT_DB st)) as [[[ke ky] km] kh] eqn:K.
  destruct (overtime_keys_distinct _ ke ky km kh K Hapart)
    as (D1 & D2 & D3 & D4 & D5 & D6).
  rewrite (key_filter_keys _ ke ky km kh e y m K) in Hfind.
  rewrite (overtime_props_keys _ ke ky km kh e y m h K Hapart) in Hset.
  unfold get_overtime_count_hours. rewrite Hs, Hcfg, Ht, K. cbn [negb orb].
  rewrite <- query_head with (n := 4%nat) in Hfind.
  unfold of_key in Hfind.
  destruct (query (OVERTIME_COUNT_DB st) _ 5) as [|p0 results];
    [discriminate Hfind|].
  cbn [hd_error] in Hfind. inversion Hfind; subst p0.
  destruct (written_get ke ky km kh y m D1 D2 D3 D4 D5 D6 e h (properties p))
    as (_ & _ & _ & Gh).
  rewrite Hset in Gh. unfold get_number. rewrite Gh. reflexivity.
Qed.

Lemma count_entry_some (n : Z) (h : Q) :
  count_entry n = Some h -> or_float (Some h) 0 = h.
Proof.
  unfold count_entry. destruct (Z.eqb_spec n 0) as [|Hn]; [discriminate|].
  intros H; inversion H; subst. unfold or_float.
  destruct (Qeq_bool (inject_Z n) 0) eqn:E; [|reflexivity].
  apply Qeq_bool_eq in E. exfalso. apply Hn.
  unfold Qeq, inject_Z in E. simpl in E. lia.
Qed.

(** C6: on a store whose identifiers are fresh and whose title property is
    apart from the year, month and hours properties, running the sync a
    second time with the same year, month and roster rows leaves the
    overtime count collection exactly as the first run left it, creates no
    page, and for every employee of the roster the record read back by the
    key holds the count, the key having one record if it had none before the
    first run and as many as it had otherwise. *)
Theorem sync_overtime_count_idempotent :
  forall (y m : Z) (rows : list row) (actor actor' : str) (st : notion),
    fresh_ids (OVERTIME_COUNT_DB st) (next_id st) ->
    title_key_apart (OVERTIME_COUNT_DB st) = true ->
    let counts := calc_overtime_hours_from_duty_rows y m rows in
    let s1 := snd (sync_overtime_count_from_duty_rows y m rows actor st) in
    let s2 := snd (sync_overtime_count_from_duty_rows y m rows actor' s1) in
    OVERTIME_COUNT_DB s2 = OVERTIME_COUNT_DB s1
    /\ next_id s2 = next_id s1
    /\ (truthy (OVERTIME_COUNT_DB_ID cfg) = true ->
        forall (emp : str) (hours : Q),
          dict_get emp counts = Some hours ->
          get_overtime_count_hours emp y m s1 = hours
          /\ get_overtime_count_hours emp y m s2 = hours
          /\ List.length (key_records (OVERTIME_COUNT_DB s2) emp y m)
             = Nat.max 1 (List.length
                            (key_records (OVERTIME_COUNT_DB st) emp y m))).
Proof.
  intros y m rows actor actor' st Hf Ha counts s1 s2.
  unfold sync_overtime_count_from_duty_rows in s1, s2.
  destruct (truthy (OVERTIME_COUNT_DB_ID cfg)) eqn:Hcfg; cbn [negb] in s1, s2;
    [|repeat split; try reflexivity; discriminate].
  fold counts in s1, s2.
  destruct (calc_overtime_hours_keys y m rows) as [Hnd Hall].
  fold counts in Hnd, Hall.
  assert (Hplain : Forall plain_hours counts).
  { apply Forall_forall. intros [e h] Hin. unfold plain_hours. cbn [snd].
    apply (count_entry_some (weekday_appearances y m rows e)).
    rewrite <- calc_overtime_hours_counted. fold counts.
    apply dict_in_get; assumption. }
  fold counts in Hnd, Hall. unfold dict_keys in Hnd, Hall.
  destruct (sync_fold_db y m actor counts Hcfg Hall Hplain 0 0 st) as [E1 _].
  destruct (sync_fold_db y m actor' counts Hcfg Hall Hplain 0 0 s1)
    as [E2 _].
  cbv zeta in E1, E2. fold s1 in E1. fold s2 in E2.
  destruct (run_fresh y m counts _ _ Hf Ha) as [Hf1 Ha1].
  rewrite <- E1 in Hf1, Ha1. cbn [fst snd] in Hf1, Ha1.
  assert (Hsettled : forall it, In it counts ->
                       settled y m (OVERTIME_COUNT_DB s1) it).
  { intros it Hit.
    pose proof (run_settles y m counts _ _ [] Hf Ha Hnd
                  (fun _ F => match F with end)
                  (fun _ F => match F with end) it Hit) as H.
    rewrite <- E1 in H. exact H. }
  rewrite (run_settled_id y m counts _ _ Hf1 Hsettled) in E2.
  injection E2 as Edb Enext.
  split; [exact Edb|]. split; [exact Enext|]. intros _ emp hours Hget.
  assert (Hst : stripped emp).
  { rewrite Forall_forall in Hall. apply Hall.
    apply in_map_iff. exists (emp, hours). split; [reflexivity|].
    apply dict_get_in; assumption. }
  assert (Hh : or_float (Some hours) 0 = hours).
  { apply (count_entry_some (weekday_appearances y m rows emp)).
    rewrite <- calc_overtime_hours_counted. exact Hget. }
  assert (H1 : get_overtime_count_hours emp y m s1 = hours).
  { transitivity (or_float (Some hours) 0); [|exact Hh].
    apply get_hours_settled; auto.
    apply Hsettled, dict_get_in; assumption. }
  split; [exact H1|]. split.
  - transitivity (or_float (Some hours) 0); [|exact Hh].
    apply get_hours_settled; auto.
    + rewrite Edb; assumption.
    + rewrite Edb. apply Hsettled, dict_get_in; assumption.
  - rewrite Edb.
    pose proof (run_key_count y m emp counts _ _ Hf Ha) as Hc.
    rewrite <- E1 in Hc. cbn [fst] in Hc. rewrite Hc.
    replace (PyStr.mem emp (map fst counts)) with true; [reflexivity|].
    symmetry. unfold PyStr.mem. apply existsb_exists. exists emp.
    split; [|apply eqb_refl].
    apply in_map_iff. exists (emp, hours). split; [reflexivity|].
    apply dict_get_in; assumption.
Qed.

(** *** Payroll upsert: failures write nothing *)

Lemma log_action_refused (a t : str) (c : list log_part) (r : str)
  (st : notion) :
  log_action a t c r st = st.
Proof.
  unfold log_action, oplog_pages_create.
  destruct (negb (truthy (OPLOG_DB_ID cfg))); reflexivity.
Qed.

Lemma failed_save (actor reason msg : str) (st : notion) :
  let st' := log_action (or_str (Some actor) DASH) LOG_SALARY [LStr reason]
                        RESULT_FAIL (st_error_show msg st) in
  same_records st st'
  /\ OPLOG_DB st' = OPLOG_DB st
  /\ st_error st' = st_error st ++ [msg]
  /\ st' = st_error_show msg st.
Proof.
  cbv zeta. rewrite log_action_refused. unfold same_records.
  repeat split; reflexivity.
Qed.

(** C8: when the employee name of the call is empty after trimming, or the
    payroll collection has no property 員工姓名, the upsert returns failure
    and writes nothing: every collection, the identifier counter and the
    operation log are as they were, and the state differs from the one
    before the call by the message shown, which names what is missing. *)
Theorem upsert_salary_record_fails_without_write :
  (forall (employee_name : str) (y m y' m' : Z) (data : option (dict dval))
          (kw : salary_kwargs) (st : notion),
      effective_name data employee_name = Some [] ->
      effective_int data K_SAL_YEAR y = Some y' ->
      effective_int data K_SAL_MONTH m = Some m' ->
      let r := upsert_salary_record employee_name y m data kw st in
      fst r = Some false
      /\ same_records st (snd r)
      /\ OPLOG_DB (snd r) = OPLOG_DB st
      /\ st_error (snd r) = st_error st ++ [MSG_NAME_EMPTY]
      /\ snd r = st_error_show MSG_NAME_EMPTY st)
  /\ (forall (employee_name name : str) (y m y' m' : Z)
             (data : option (dict dval)) (kw : salary_kwargs) (st : notion),
         effective_name data employee_name = Some name ->
         truthy name = true ->
         effective_int data K_SAL_YEAR y = Some y' ->
         effective_int data K_SAL_MONTH m = Some m' ->
         truthy (SALARY_DB_ID cfg) = true ->
         dict_has K_EMPLOYEE (get_db_properties (SALARY_DB st)) = false ->
         let r := upsert_salary_record employee_name y m data kw st in
         fst r = Some false
         /\ same_records st (snd r)
         /\ OPLOG_DB (snd r) = OPLOG_DB st
         /\ st_error (snd r) = st_error st ++ [MSG_TITLE_MISSING]
         /\ snd r = st_error_show MSG_TITLE_MISSING st)
  /\ (forall (employee_name : str) (y m : Z) (kw : salary_kwargs)
             (st : notion),
         strip employee_name = [] ->
         let r := upsert_salary_record employee_name y m None kw st in
         fst r = Some false
         /\ same_records st (snd r)
         /\ OPLOG_DB (snd r) = OPLOG_DB st
         /\ snd r = st_error_show MSG_NAME_EMPTY st).
Proof.
  split; [|split].
  - intros employee_name y m y' m' data kw st Hn Hy Hm r. subst r.
    unfold upsert_salary_record. rewrite Hn, Hy, Hm. cbn [truthy negb fst snd].
    split; [reflexivity|]. apply failed_save.
  - intros employee_name name y m y' m' data kw st Hn Ht Hy Hm Hcfg Hhas r.
    subst r. unfold upsert_salary_record.
    rewrite Hn, Hy, Hm, Ht, Hcfg, Hhas. cbn [negb fst snd].
    split; [reflexivity|]. apply failed_save.
  - intros employee_name y m kw st Hn r. subst r.
    unfold upsert_salary_record, effective_name, effective_int.
    cbn [data_given]. rewrite Hn. cbn [truthy negb fst snd].
    split; [reflexivity|].
    destruct (failed_save (kw_actor kw) LOG_NAME_BLANK MSG_NAME_EMPTY st)
      as (H1 & H2 & _ & H4).
    split; [exact H1|]. split; [exact H2 | exact H4].
Qed.

(** *** Payroll upsert: the totals *)

Lemma fold_set_get {V : Type} (k : str) (l : list (str * V)) :
  forall acc : dict V,
    dict_get k (fold_left (fun d kv => dict_set (fst kv) (snd kv) d) l acc)
    = fold_left (fun o kv => if PyStr.eqb k (fst kv) then Some (snd kv) else o)
                l (dict_get k acc).
Proof.
  induction l as [|[k' v'] l IH]; intros acc; [reflexivity|].
  cbn [fold_left fst snd]. rewrite IH, dict_get_set. reflexivity.
Qed.

Lemma dict_of_get {V : Type} (k : str) (l : list (str * V)) :
  dict_get k (dict_of l) = assoc_last k l.
Proof. unfold dict_of, assoc_last. rewrite fold_set_get. reflexivity. Qed.

Lemma fold_last_filter {V : Type} (k : str) (f : str -> bool)
  (l : list (str * V)) :
  forall o : option V,
    fold_left (fun o kv => if PyStr.eqb k (fst kv) then Some (snd kv) else o)
              (filter (fun kv => f (fst kv)) l) o
    = if f k
      then fold_left
             (fun o kv => if PyStr.eqb k (fst kv) then Some (snd kv) else o)
             l o
      else o.
Proof.
  induction l as [|[k' v'] l IH]; intros o.
  - simpl. destruct (f k); reflexivity.
  - cbn [filter fst]. destruct (f k') eqn:Ek'.
    + cbn [fold_left fst snd]. rewrite IH.
      destruct (f k) eqn:Ek; [reflexivity|].
      destruct (PyStr.eqb k k') eqn:E; [|reflexivity].
      apply eqb_eq in E. subst. congruence.
    + rewrite IH. destruct (f k) eqn:Ek; [|reflexivity].
      cbn [fold_left fst snd].
      destruct (PyStr.eqb k k') eqn:E; [|reflexivity].
      apply eqb_eq in E. subst. congruence.
Qed.

Lemma dict_set_nodup {V : Type} (k : str) (v : V) (d : dict V) :
  NoDup (dict_keys d) -> NoDup (dict_keys (dict_set k v d)).
Proof.
  intros H. rewrite dict_keys_set. unfold dict_has.
  destruct (dict_get k d) eqn:E; [assumption|].
  apply dict_get_none_keys in E.
  apply NoDup_app; [assumption | repeat constructor; simpl; prop_tauto|].
  intros x Hx [<-|[]]. contradiction.
Qed.

Lemma dict_of_nodup {V : Type} (l : list (str * V)) :
  NoDup (dict_keys (dict_of l)).
Proof.
  unfold dict_of.
  assert (H : NoDup (dict_keys ([] : dict V))) by constructor.
  revert H. generalize ([] : dict V).
  induction l as [|kv l IH]; intros acc H; [exact H|].
  cbn [fold_left]. apply IH, dict_set_nodup, H.
Qed.

Lemma fold_last_dict {V : Type} (k : str) (d : dict V) :
  NoDup (dict_keys d) ->
  forall o : option V,
    fold_left (fun o kv => if PyStr.eqb k (fst kv) then Some (snd kv) else o)
              d o
    = match dict_get k d with Some v => Some v | None => o end.
Proof.
  induction d as [|[k' v'] d IH]; intros Hnd o; [reflexivity|].
  inversion Hnd as [|? ? Hnotin Hnd']; subst.
  cbn [fold_left fst snd dict_get]. rewrite (IH Hnd').
  destruct (PyStr.eqb k k') eqn:E; [|reflexivity].
  apply eqb_eq in E. subst k'.
  apply dict_get_none_keys in Hnotin. rewrite Hnotin. reflexivity.
Qed.

(** What a page holds for key [k] after the properties of a call have been
    written to it. *)
Lemma written_property (k : str) (f : str -> bool)
  (entries : list (str * prop_value)) (old : dict prop_value)
  (v : prop_value) :
  assoc_last k entries = Some v -> f k = true ->
  dict_get k
    (set_properties (dict_of (filter (fun kv => f (fst kv)) entries)) old)
  = Some v.
Proof.
  intros Hlast Hf. unfold set_properties. rewrite fold_set_get.
  rewrite fold_last_dict by apply dict_of_nodup.
  rewrite dict_of_get. unfold assoc_last.
  rewrite fold_last_filter, Hf. fold (assoc_last k entries).
  rewrite Hlast. reflexivity.
Qed.


Lemma fold_Qplus_Qsum (l : list Q) :
  forall acc : Q, (fold_left Qplus l acc == acc + Qsum l)%Q.
Proof.
  induction l as [|x l IH]; intros acc; simpl.
  - rewrite Qplus_0_r. reflexivity.
  - rewrite IH. rewrite Qplus_assoc. reflexivity.
Qed.



Lemma in_firstn {A : Type} (n : nat) (l : list A) (x : A) :
  In x (firstn n l) -> In x l.
Proof.
  revert l. induction n as [|n IH]; intros [|y l]; simpl; try prop_tauto.
  intros [H|H]; [left; assumption | right; apply IH; assumption].
Qed.






(** *** The defaults of the payroll form *)

Lemma salary_record_values (p : page) (k : str) :
  In k (add_keys ++ deduct_keys ++ total_keys) ->
  dict_get k (sr_values (salary_record_of p))
  = Some (salary_get_number (properties p) k).
Proof.
  intros H. unfold salary_record_of. cbn [sr_values].
  rewrite dict_of_get.
  cbn [add_keys deduct_keys total_keys app In] in H.
  repeat (destruct H as [<-|H]; [reflexivity|]). destruct H.
Qed.

(** Without a stored record both suggestions are taken as they are. *)
Lemma salary_form_defaults_new (target_employee : str) (y m : Z)
  (is_admin : bool) (st : notion) :
  get_salary_record target_employee y m st = None ->
  salary_form_defaults target_employee y m is_admin st
  = (get_month_lunch_amount target_employee y m is_admin st,
     or_float (Some (ot_amount (calc_weekday_ot_from_duty target_employee y m
                                                          st))) 0).
Proof.
  intros H. unfold salary_form_defaults. rewrite H. reflexivity.
Qed.

(** With a stored record both fields are what the record reads as, whatever
    the suggestions are; a field that is stored empty reads as 0.0. *)
Lemma salary_form_defaults_existing (target_employee : str) (y m : Z)
  (is_admin : bool) (st : notion) (pg : page) :
  truthy (strip target_employee) = true ->
  hd_error (query (SALARY_DB st)
              (FAnd [FTitleEq K_EMPLOYEE (strip target_employee);
                     FNumberEq K_SAL_YEAR y; FNumberEq K_SAL_MONTH m]) 1)
  = Some pg ->
  salary_form_defaults target_employee y m is_admin st
  = (salary_get_number (properties pg) FIELD_MEAL,
     salary_get_number (properties pg) FIELD_OT_WEEKDAY).
Proof.
  intros Ht Hq. unfold salary_form_defaults, get_salary_record.
  rewrite Ht. cbn [negb].
  destruct (query (SALARY_DB st) _ 1) as [|pg0 results]; [discriminate|].
  cbn [hd_error] in Hq. inversion Hq; subst pg0.
  unfold existing_get.
  rewrite !salary_record_values
    by (cbn [add_keys deduct_keys total_keys app In]; prop_tauto).
  reflexivity.
Qed.

Lemma salary_get_number_stored (props : dict prop_value) (k : str)
  (v : option Q) :
  dict_get k props = Some (VNumber v) ->
  salary_get_number props k = or_float v 0.
Proof.
  intros H. unfold salary_get_number, _pick_key. cbn [find].
  unfold dict_has. rewrite H. unfold get_number. rewrite H. reflexivity.
Qed.

(** *** The vacation row of a year *)

Lemma Qeq_bool_same (q : Q) : Qeq_bool q q = true.
Proof. apply Qeq_bool_iff. reflexivity. Qed.

Lemma query_nil_matching (db : database) (flt : qfilter) (n : nat) :
  query db flt (S n) = [] <-> matching db flt = [].
Proof.
  unfold query, query_from. cbn [fst skipn].
  destruct (matching db flt); simpl; split; congruence.
Qed.

Lemma matching_create (db : database) (id : positive)
  (props : dict prop_value) (flt : qfilter) :
  matching (pages_create db id props) flt
  = matching db flt
    ++ (if eval_filter (mkpage id props) flt then [mkpage id props] else []).
Proof.
  unfold matching, pages_create. cbn [db_pages]. rewrite filter_app.
  reflexivity.
Qed.

Lemma vacation_row_matches (name : str) (y : Z) (d : Q) (id : positive) :
  eval_filter
    (mkpage id (dict_of [(K_EMPLOYEE, VTitle name);
                         (K_VAC_YEAR, VNumber (Some (inject_Z y)));
                         (K_VAC_TOTAL, VNumber (Some d));
                         (K_VAC_USED, VNumber (Some 0%Q));
                         (K_VAC_REMAINING, VNumber (Some d))]))
    (FAnd [FTitleEq K_EMPLOYEE name; FNumberEq K_VAC_YEAR y]) = true.
Proof.
  cbn [eval_filter forallb properties]. rewrite !dict_of_get.
  cbv [assoc_last fold_left fst snd].
  change (PyStr.eqb K_EMPLOYEE K_EMPLOYEE) with true.
  change (PyStr.eqb K_EMPLOYEE K_VAC_YEAR) with false.
  change (PyStr.eqb K_EMPLOYEE K_VAC_TOTAL) with false.
  change (PyStr.eqb K_EMPLOYEE K_VAC_USED) with false.
  change (PyStr.eqb K_EMPLOYEE K_VAC_REMAINING) with false.
  change (PyStr.eqb K_VAC_YEAR K_EMPLOYEE) with false.
  change (PyStr.eqb K_VAC_YEAR K_VAC_YEAR) with true.
  change (PyStr.eqb K_VAC_YEAR K_VAC_TOTAL) with false.
  change (PyStr.eqb K_VAC_YEAR K_VAC_USED) with false.
  change (PyStr.eqb K_VAC_YEAR K_VAC_REMAINING) with false.
  cbv iota. rewrite eqb_refl, Qeq_bool_same. reflexivity.
Qed.

Lemma ensure_vacation_row_effect :
  forall (employee_name : str) (y : Z) (default_total : Q) (st : notion),
    truthy (strip employee_name) = true ->
    let key := FAnd [FTitleEq K_EMPLOYEE (strip employee_name);
                     FNumberEq K_VAC_YEAR y] in
    let r := ensure_vacation_row employee_name y default_total st in
    fst r = true
    /\ matching (VACATION_DB (snd r)) key <> []
    /\ (matching (VACATION_DB st) key <> [] -> snd r = st)
    /\ (matching (VACATION_DB st) key = [] ->
        exists row : page,
          db_pages (VACATION_DB (snd r)) = db_pages (VACATION_DB st) ++ [row]
          /\ matching (VACATION_DB (snd r)) key = [row]
          /\ page_id row = next_id st
          /\ get_title (properties row) K_EMPLOYEE = strip employee_name
          /\ get_number (properties row) K_VAC_YEAR = Some (inject_Z y)
          /\ get_number (properties row) K_VAC_TOTAL = Some default_total
          /\ get_number (properties row) K_VAC_USED = Some 0%Q
          /\ get_number (properties row) K_VAC_REMAINING = Some default_total)
    /\ (forall d : Q,
           ensure_vacation_row employee_name y d (snd r) = (true, snd r))
    /\ OVERTIME_COUNT_DB (snd r) = OVERTIME_COUNT_DB st
    /\ OVERTIME_RULE_DB (snd r) = OVERTIME_RULE_DB st
    /\ LEAVE_DB (snd r) = LEAVE_DB st
    /\ SALARY_DB (snd r) = SALARY_DB st
    /\ ATTEND_DB (snd r) = ATTEND_DB st
    /\ LUNCH_DB (snd r) = LUNCH_DB st
    /\ OPLOG_DB (snd r) = OPLOG_DB st.
Proof.
  intros employee_name y default_total st Hname key r.
  assert (Hagain : forall (d : Q) (s : notion),
             matching (VACATION_DB s) key <> [] ->
             ensure_vacation_row employee_name y d s = (true, s)).
  { intros d s Hs. unfold ensure_vacation_row. rewrite Hname. cbn [negb].
    fold key. destruct (query (VACATION_DB s) key 1) eqn:Eq; [|reflexivity].
    apply query_nil_matching in Eq. contradiction. }
  set (props := dict_of [(K_EMPLOYEE, VTitle (strip employee_name));
                         (K_VAC_YEAR, VNumber (Some (inject_Z y)));
                         (K_VAC_TOTAL, VNumber (Some default_total));
                         (K_VAC_USED, VNumber (Some 0%Q));
                         (K_VAC_REMAINING, VNumber (Some default_total))]).
  set (row := mkpage (next_id st) props).
  assert (Hnew : matching (VACATION_DB st) key = [] ->
                 r = (true,
                      set_next_id (Pos.succ (next_id st))
                        (set_VACATION_DB
                           (pages_create (VACATION_DB st) (next_id st) props)
                           st))).
  { intros E. subst r. unfold ensure_vacation_row. rewrite Hname. cbn [negb].
    fold key. apply (query_nil_matching _ _ 0) in E. rewrite E.
    reflexivity. }
  destruct (matching (VACATION_DB st) key) as [|p rest] eqn:Em.
  - rewrite (Hnew eq_refl). clear Hnew. cbn [fst snd].
    assert (Hm : matching
                   (VACATION_DB
                      (set_next_id (Pos.succ (next_id st))
                         (set_VACATION_DB
                            (pages_create (VACATION_DB st) (next_id st) props)
                            st))) key
                 = [row]).
    { cbn [VACATION_DB set_next_id set_VACATION_DB].
      rewrite matching_create, Em. subst row props. unfold key.
      rewrite vacation_row_matches. reflexivity. }
    split; [reflexivity|]. split; [rewrite Hm; discriminate|].
    split; [intros H; contradiction|]. split.
    + intros _. exists row. split; [reflexivity|]. split; [exact Hm|].
      split; [reflexivity|].
      subst row props. unfold get_title, get_number. cbn [properties].
      rewrite !dict_of_get. repeat split; reflexivity.
    + split; [|repeat split; reflexivity].
      intros d. apply Hagain. rewrite Hm. discriminate.
  - assert (Hne : matching (VACATION_DB st) key <> [])
      by (rewrite Em; discriminate).
    subst r. rewrite (Hagain default_total st Hne). cbn [fst snd].
    split; [reflexivity|]. split; [exact Hne|].
    split; [reflexivity|]. split; [intros E; discriminate|].
    split; [intros d; apply Hagain; exact Hne|]. repeat split; reflexivity.
Qed.

(** X1: for a name that is not blank, [ensure_vacation_row] answers True
    and leaves a row of the employee and the year in the vacation
    collection; a row that exists is left as it is, with the whole store; a
    missing row is added at the end with the default total, nothing used
    and the default total remaining; a second call changes nothing; the
    other collections are never written. *)
Theorem ensure_vacation_row_keeps_one_row :
  forall (employee_name : str) (y : Z) (default_total : Q) (st : notion),
    truthy (strip employee_name) = true ->
    let key := FAnd [FTitleEq K_EMPLOYEE (strip employee_name);
                     FNumberEq K_VAC_YEAR y] in
    let r := ensure_vacation_row employee_name y default_total st in
    fst r = true
    /\ matching (VACATION_DB (snd r)) key <> []
    /\ (matching (VACATION_DB st) key <> [] -> snd r = st)
    /\ (matching (VACATION_DB st) key = [] ->
        exists row : page,
          db_pages (VACATION_DB (snd r)) = db_pages (VACATION_DB st) ++ [row]
          /\ matching (VACATION_DB (snd r)) key = [row]
          /\ page_id row = next_id st
          /\ get_title (properties row) K_EMPLOYEE = strip employee_name
          /\ get_number (properties row) K_VAC_YEAR = Some (inject_Z y)
          /\ get_number (properties row) K_VAC_TOTAL = Some default_total
          /\ get_number (properties row) K_VAC_USED = Some 0%Q
          /\ get_number (properties row) K_VAC_REMAINING = Some default_total)
    /\ (forall d : Q,
           ensure_vacation_row employee_name y d (snd r) = (true, snd r))
    /\ OVERTIME_COUNT_DB (snd r) = OVERTIME_COUNT_DB st
    /\ OVERTIME_RULE_DB (snd r) = OVERTIME_RULE_DB st
    /\ LEAVE_DB (snd r) = LEAVE_DB st
    /\ SALARY_DB (snd r) = SALARY_DB st
    /\ ATTEND_DB (snd r) = ATTEND_DB st
    /\ LUNCH_DB (snd r) = LUNCH_DB st
    /\ OPLOG_DB (snd r) = OPLOG_DB st.
Proof. exact ensure_vacation_row_effect. Qed.

(** *** The vacation snapshot and the check before a request *)

Lemma insert_by_in {A : Type} (leb : A -> A -> bool) (x y : A) (l : list A) :
  In y (insert_by leb x l) <-> y = x \/ In y l.
Proof.
  induction l as [|z l IH]; simpl.
  - split; intros [H|H]; auto.
  - destruct (leb x z); simpl; [split; intros [H|H]; auto|].
    rewrite IH. split; intros H; intuition auto.
Qed.

Lemma sort_by_in {A : Type} (leb : A -> A -> bool) (y : A) (l : list A) :
  In y (sort_by leb l) <-> In y l.
Proof.
  unfold sort_by. induction l as [|x l IH]; simpl; [reflexivity|].
  rewrite insert_by_in, IH. split; intros [H|H]; auto.
Qed.

Lemma or_float_or_float (x : option Q) :
  or_float (Some (or_float x 0%Q)) 0%Q = or_float x 0%Q.
Proof.
  destruct x as [q|]; [apply or_float_idem | reflexivity].
Qed.

(** The rows the summary returns for one employee and one year are those
    of the key, the first five of them in the order of the sort. *)
Lemma list_vacation_summary_key (name : str) (y : Z) (n : nat) (st : notion) :
  list_vacation_summary false name (Some y) n st
  = map vacation_row_of
        (firstn (Nat.min n 100)
           (filter (fun p => eval_filter p
                               (FAnd [FTitleEq K_EMPLOYEE name;
                                      FNumberEq K_VAC_YEAR y]))
                   (sort_by (number_geb K_VAC_YEAR)
                            (db_pages (VACATION_DB st))))).
Proof. reflexivity. Qed.

Lemma vacation_snapshot_some (name : str) (y : Z) (st : notion) :
  stripped name ->
  let key := FAnd [FTitleEq K_EMPLOYEE name; FNumberEq K_VAC_YEAR y] in
  let st1 := snd (ensure_vacation_row name y 0 st) in
  exists (s : snapshot) (row : page),
    get_employee_vacation_snapshot name y st = (Some s, st1)
    /\ In row (matching (VACATION_DB st1) key)
    /\ _page_id s = page_id row
    /\ total s = or_float (get_number (properties row) K_VAC_TOTAL) 0
    /\ employee s = name /\ snap_year s = y
    /\ used s = calc_used_vacation_hours name y st
    /\ remaining s = py_max 0 (total s - used s)
    /\ (matching (VACATION_DB st) key = [] ->
        total s = 0%Q /\ _page_id s = next_id st).
Proof.
  intros [Hs Ht] key st1.
  assert (Hname : truthy (strip name) = true) by (rewrite Hs; exact Ht).
  destruct (ensure_vacation_row_effect name y 0 st Hname)
    as (Hok & Hne & _ & Hnew & _ & _ & _ & Hleave & _).
  rewrite Hs in Hne, Hnew. fold key in Hne, Hnew.
  fold st1 in Hne, Hnew, Hleave.
  unfold get_employee_vacation_snapshot.
  destruct (ensure_vacation_row name y 0 st) as [ok st1'] eqn:Ee.
  cbn [fst snd] in Hok. subst ok. cbn [negb].
  assert (E1 : st1 = st1') by reflexivity.
  clearbody st1. subst st1'.
  rewrite list_vacation_summary_key. fold key.
  set (sorted := filter (fun p => eval_filter p key)
                        (sort_by (number_geb K_VAC_YEAR)
                                 (db_pages (VACATION_DB st1)))).
  assert (Hin : forall p, In p sorted <-> In p (matching (VACATION_DB st1) key)).
  { intros p. unfold sorted, matching. rewrite !filter_In, sort_by_in.
    reflexivity. }
  destruct sorted as [|row rest] eqn:Esorted.
  - exfalso. destruct (matching (VACATION_DB st1) key) as [|p l] eqn:Em;
      [apply Hne; reflexivity|].
    apply (Hin p). left. reflexivity.
  - cbn [Nat.min firstn map].
    eexists. exists row. split; [reflexivity|].
    cbn [_page_id total employee snap_year used remaining vacation_row_of
         vr_page_id vr_total].
    split; [apply Hin; left; reflexivity|]. split; [reflexivity|].
    split; [apply or_float_or_float|]. split; [reflexivity|].
    split; [reflexivity|].
    split; [apply calc_used_depends_on_leave; exact Hleave|].
    split; [reflexivity|].
    intros Hnone.
    destruct (Hnew Hnone) as (row' & _ & Hm & Hid & _ & _ & Htot & _).
    assert (Hrow : row = row').
    { assert (H : In row (matching (VACATION_DB st1) key))
        by (apply Hin; left; reflexivity).
      rewrite Hm in H. destruct H as [H|[]]. symmetry. exact H. }
    subst row'. rewrite or_float_or_float, Htot. split; [reflexivity|].
    exact Hid.
Qed.

Lemma key_title (p : page) (name : str) (fs : list qfilter) :
  eval_filter p (FAnd (FTitleEq K_EMPLOYEE name :: fs)) = true ->
  get_title (properties p) K_EMPLOYEE = name.
Proof.
  cbn [eval_filter forallb]. rewrite andb_true_iff. intros [H _].
  unfold get_title. destruct (dict_get K_EMPLOYEE (properties p)) as [[]|];
    try discriminate.
  apply eqb_eq. exact H.
Qed.

(** X2: the vacation snapshot.  A blank name gives no snapshot and writes
    nothing.  For a name without surrounding white space there is always
    a snapshot: the row of the year is created when it is missing, the
    total is the entitlement of a row of the employee and the year (0 for a
    row just created), the used hours are those computed from the leave
    collection, and the remaining hours are max(0, total - used), never
    negative.  A name with surrounding white space that no row has as its
    title gives no snapshot, although the row of the stripped name is
    there afterwards. *)
Theorem vacation_snapshot_reads_entitlement_and_requests :
  (forall (name : str) (y : Z) (st : notion),
      truthy (strip name) = false ->
      get_employee_vacation_snapshot name y st = (None, st))
  /\ (forall (name : str) (y : Z) (st : notion),
         stripped name ->
         let key := FAnd [FTitleEq K_EMPLOYEE name; FNumberEq K_VAC_YEAR y] in
         let st1 := snd (ensure_vacation_row name y 0 st) in
         exists (s : snapshot) (row : page),
           get_employee_vacation_snapshot name y st = (Some s, st1)
           /\ In row (matching (VACATION_DB st1) key)
           /\ _page_id s = page_id row
           /\ total s = or_float (get_number (properties row) K_VAC_TOTAL) 0
           /\ employee s = name /\ snap_year s = y
           /\ used s = calc_used_vacation_hours name y st
           /\ remaining s = py_max 0 (total s - used s)
           /\ (0 <= remaining s)%Q
           /\ (matching (VACATION_DB st) key = [] ->
               total s = 0%Q /\ _page_id s = next_id st))
  /\ (forall (name : str) (y : Z) (st : notion),
         truthy (strip name) = true -> strip name <> name ->
         (forall p, In p (db_pages (VACATION_DB st)) ->
                    get_title (properties p) K_EMPLOYEE <> name) ->
         let r := get_employee_vacation_snapshot name y st in
         fst r = None
         /\ matching (VACATION_DB (snd r))
                     (FAnd [FTitleEq K_EMPLOYEE (strip name);
                            FNumberEq K_VAC_YEAR y]) <> []).
Proof.
  split; [|split].
  - intros name y st Hb. unfold get_employee_vacation_snapshot,
      ensure_vacation_row. rewrite Hb. reflexivity.
  - intros name y st Hn key st1.
    destruct (vacation_snapshot_some name y st Hn)
      as (s & row & E & Hin & Hid & Htot & He & Hy & Hu & Hr & Hnew).
    exists s, row. repeat (split; [assumption|]).
    split; [rewrite Hr; apply py_max_nonneg | exact Hnew].
  - intros name y st Hname Hraw Hnone r.
    destruct (ensure_vacation_row_effect name y 0 st Hname)
      as (Hok & Hne & Hsame & Hnew & _).
    subst r. unfold get_employee_vacation_snapshot.
    destruct (ensure_vacation_row name y 0 st) as [ok st1] eqn:Ee.
    cbn [fst snd] in *. subst ok. cbn [negb].
    rewrite list_vacation_summary_key.
    assert (Hempty : filter
                       (fun p => eval_filter p
                                   (FAnd [FTitleEq K_EMPLOYEE name;
                                          FNumberEq K_VAC_YEAR y]))
                       (sort_by (number_geb K_VAC_YEAR)
                                (db_pages (VACATION_DB st1))) = []).
    { destruct (filter _ _) as [|p l] eqn:Ef; [reflexivity|]. exfalso.
      assert (Hp : In p (p :: l)) by (left; reflexivity).
      rewrite <- Ef in Hp. apply filter_In in Hp. destruct Hp as [Hp Hk].
      apply sort_by_in in Hp. apply key_title in Hk.
      destruct (matching (VACATION_DB st)
                  (FAnd [FTitleEq K_EMPLOYEE (strip name);
                         FNumberEq K_VAC_YEAR y])) eqn:Em.
      - destruct (Hnew eq_refl) as (row & Hpages & _ & _ & Htitle & _).
        rewrite Hpages in Hp. apply in_app_or in Hp.
        destruct Hp as [Hp|[Hp|[]]].
        + apply (Hnone p Hp Hk).
        + subst p. congruence.
      - rewrite Hsame in Hp by discriminate. apply (Hnone p Hp Hk). }
    rewrite Hempty. cbn [firstn map Nat.min fst snd].
    split; [reflexivity | exact Hne].
Qed.

(** X3: [validate_vacation_enough].  A blank name is refused with the
    read-failure message and nothing is written.  For a name without
    surrounding white space the request passes exactly when the hours asked
    for do not exceed the remaining hours of the snapshot, in which case
    the message is empty; a request of zero or fewer hours always passes;
    and when the employee has no row for the year the check itself creates
    one with no entitlement, so that, with no negative hours used, every
    request of at least one hour is refused. *)
Theorem validate_vacation_enough_checks_remaining :
  (forall (name : str) (y req : Z) (st : notion),
      truthy (strip name) = false ->
      validate_vacation_enough name y req st
      = (false, [LStr MSG_VACATION_READ_FAILED], st))
  /\ (forall (name : str) (y req : Z) (st : notion),
         stripped name ->
         let v := validate_vacation_enough name y req st in
         exists s : snapshot,
           fst (get_employee_vacation_snapshot name y st) = Some s
           /\ fst (fst v) = Qle_bool (inject_Z req) (remaining s)
           /\ snd v = snd (ensure_vacation_row name y 0 st)
           /\ (fst (fst v) = true -> snd (fst v) = [])
           /\ (req <= 0 -> fst (fst v) = true)
           /\ (matching (VACATION_DB st)
                        (FAnd [FTitleEq K_EMPLOYEE name;
                               FNumberEq K_VAC_YEAR y]) = [] ->
               (0 <= calc_used_vacation_hours name y st)%Q ->
               0 < req -> fst (fst v) = false)).
Proof.
  split.
  - intros name y req st Hb. unfold validate_vacation_enough,
      get_employee_vacation_snapshot, ensure_vacation_row.
    rewrite Hb. reflexivity.
  - intros name y req st Hn v.
    destruct (vacation_snapshot_some name y st Hn)
      as (s & row & E & _ & _ & _ & _ & _ & Hu & Hr & Hnew).
    exists s. subst v. unfold validate_vacation_enough. rewrite E.
    cbn [fst]. split; [reflexivity|].
    assert (Hv : Qltb (remaining s) (inject_Z req)
                 = negb (Qle_bool (inject_Z req) (remaining s)))
      by reflexivity.
    rewrite Hv.
    destruct (Qle_bool (inject_Z req) (remaining s)) eqn:Ele; cbn [negb fst snd].
    + split; [reflexivity|]. split; [reflexivity|]. split; [reflexivity|].
      split; [reflexivity|]. intros Hnone Hused Hreq. exfalso.
      destruct (Hnew Hnone) as [Htot _].
      apply Qle_bool_iff in Ele. rewrite Hr, Htot, Hu in Ele.
      assert (Hz : (py_max 0 (0 - calc_used_vacation_hours name y st) == 0)%Q).
      { unfold py_max. destruct (Qltb 0 _) eqn:El; [|reflexivity].
        apply Qltb_lt in El. exfalso.
        apply (Qlt_irrefl 0). eapply Qlt_le_trans; [exact El|].
        setoid_replace (0 - calc_used_vacation_hours name y st)%Q
          with (- calc_used_vacation_hours name y st)%Q by ring.
        apply (Qopp_le_compat 0) in Hused. exact Hused. }
      rewrite Hz in Ele. unfold Qle, inject_Z in Ele. simpl in Ele. lia.
    + split; [reflexivity|]. split; [reflexivity|].
      split; [discriminate|]. split; [|reflexivity].
      intros Hreq. exfalso.
      assert (Hle : (inject_Z req <= remaining s)%Q).
      { eapply Qle_trans; [|rewrite Hr; apply py_max_nonneg].
        unfold Qle, inject_Z. simpl. lia. }
      apply Qle_bool_iff in Hle. congruence.
Qed.

(** *** Leave requests *)

(** A refusal shows its message: the collections and the identifier
    counter stay as they are. *)
Lemma refused_keeps (a t : str) (c : list log_part) (r msg : str)
  (st : notion) :
  let st' := log_action a t c r (st_error_show msg st) in
  same_records st st' /\ st_error st' = st_error st ++ [msg].
Proof.
  cbv zeta.
  destruct (log_action_keeps a t c r (st_error_show msg st))
    as (E1 & E2 & E3 & E4 & E5 & E6 & E7 & E8 & E9).
  unfold same_records. rewrite E1, E2, E3, E4, E5, E6, E7, E8, E9.
  repeat split; reflexivity.
Qed.

Lemma approved_not_pending (st : notion) :
  PyStr.eqb STATUS_PENDING (approved_status st) = false.
Proof.
  unfold approved_status.
  destruct (find _ approved_candidates) as [c|] eqn:Ef; [|reflexivity].
  apply find_some in Ef. destruct Ef as [Hin _].
  cbn [approved_candidates In] in Hin.
  repeat (destruct Hin as [<-|Hin]; [reflexivity|]). destruct Hin.
Qed.

Lemma approved_status_schema (st st' : notion) :
  db_properties (LEAVE_DB st') = db_properties (LEAVE_DB st) ->
  approved_status st' = approved_status st.
Proof.
  intros E. unfold approved_status, get_select_options, get_db_properties.
  rewrite E. reflexivity.
Qed.

(** X4: [create_leave_request] refuses, with False, a message and no
    write to any collection, a call whose login name is blank, whose
    person on leave is blank after stripping, whose hours are missing or
    not positive, or whose end is not after its start. *)
Theorem create_leave_request_refuses_bad_input :
  forall (employee_name leave_type : str) (hours : option Z)
         (start_dt end_dt : datetime) (reason : str)
         (target_employee_name created_by : option str) (st : notion),
    truthy (strip employee_name) = false
    \/ truthy (strip (or_str target_employee_name (strip employee_name)))
       = false
    \/ match hours with Some h => h <= 0 | None => True end
    \/ datetime_leb end_dt start_dt = true ->
    let r := create_leave_request employee_name leave_type hours start_dt
                                  end_dt reason target_employee_name
                                  created_by st in
    fst r = false
    /\ same_records st (snd r)
    /\ exists msg : str,
         In msg [MSG_NO_LOGIN_NAME; MSG_NO_TARGET; MSG_HOURS_NOT_POSITIVE;
                 MSG_END_NOT_AFTER_START]
         /\ st_error (snd r) = st_error st ++ [msg].
Proof.
  intros employee_name leave_type hours start_dt end_dt reason
         target_employee_name created_by st H r.
  assert (R : forall a t c res msg,
             In msg [MSG_NO_LOGIN_NAME; MSG_NO_TARGET; MSG_HOURS_NOT_POSITIVE;
                     MSG_END_NOT_AFTER_START] ->
             let x := (false, log_action a t c res (st_error_show msg st)) in
             fst x = false /\ same_records st (snd x)
             /\ exists msg0 : str,
                  In msg0 [MSG_NO_LOGIN_NAME; MSG_NO_TARGET;
                           MSG_HOURS_NOT_POSITIVE; MSG_END_NOT_AFTER_START]
                  /\ st_error (snd x) = st_error st ++ [msg0]).
  { intros a t c res msg Hmsg x. subst x. cbn [fst snd].
    destruct (refused_keeps a t c res msg st) as [Hs He].
    split; [reflexivity|]. split; [exact Hs|]. exists msg. split; assumption. }
  subst r. unfold create_leave_request.
  destruct (truthy (strip employee_name)) eqn:E1; cbn [negb];
    [|apply R; simpl; prop_tauto].
  destruct (truthy (strip (or_str target_employee_name (strip employee_name))))
    eqn:E2; cbn [negb]; [|apply R; simpl; prop_tauto].
  destruct hours as [h|]; [|apply R; simpl; prop_tauto].
  destruct (Z.leb_spec h 0) as [Hh|Hh]; [apply R; simpl; prop_tauto|].
  destruct (datetime_leb end_dt start_dt) eqn:E4;
    [apply R; simpl; prop_tauto|].
  exfalso. destruct H as [H|[H|[H|H]]]; try discriminate. lia.
Qed.

(** X5: a call of [create_leave_request] that passes the checks answers
    True and adds exactly one request at the end of the leave collection,
    of the person on leave, with the type, the hours, the start date and
    the reason of the call and with the default status: 待審核 when the
    status property offers it or offers nothing.  Such a request is not an
    approved one, so the used vacation hours of every employee and year
    are what they were before. *)
Theorem create_leave_request_adds_pending_request :
  forall (employee_name leave_type : str) (h : Z)
         (start_dt end_dt : datetime) (reason : str)
         (target_employee_name created_by : option str) (st : notion),
    truthy (strip employee_name) = true ->
    truthy (strip (or_str target_employee_name (strip employee_name)))
    = true ->
    0 < h -> datetime_leb end_dt start_dt = false ->
    let target_name :=
      strip (or_str target_employee_name (strip employee_name)) in
    let r := create_leave_request employee_name leave_type (Some h) start_dt
                                  end_dt reason target_employee_name
                                  created_by st in
    let options := get_select_options (LEAVE_DB st) K_STATUS in
    fst r = true
    /\ (exists req : page,
           db_pages (LEAVE_DB (snd r)) = db_pages (LEAVE_DB st) ++ [req]
           /\ page_id req = next_id st
           /\ dict_get K_EMPLOYEE (properties req) = Some (VTitle target_name)
           /\ dict_get K_LEAVE_TYPE (properties req)
              = Some (VSelect (Some (strip leave_type)))
           /\ dict_get K_LEAVE_HOURS (properties req)
              = Some (VNumber (Some (inject_Z h)))
           /\ dict_get K_LEAVE_PERIOD (properties req)
              = Some (VDate (Some (dt_date start_dt)))
           /\ dict_get K_LEAVE_REASON (properties req)
              = Some (VRichText (strip reason))
           /\ dict_get K_STATUS (properties req)
              = Some (VSelect (Some (default_leave_status st))))
    /\ next_id (snd r) = Pos.succ (next_id st)
    /\ VACATION_DB (snd r) = VACATION_DB st
    /\ (PyStr.mem STATUS_PENDING options = true \/ options = [] ->
        default_leave_status st = STATUS_PENDING
        /\ forall (e : str) (y : Z),
             calc_used_vacation_hours e y (snd r)
             = calc_used_vacation_hours e y st).
Proof.
  intros employee_name leave_type h start_dt end_dt reason
         target_employee_name created_by st E1 E2 Hh E4 target_name r options.
  subst r. unfold create_leave_request. rewrite E1, E2, E4. cbn [negb].
  replace (h <=? 0) with false by (symmetry; apply Z.leb_gt; exact Hh).
  fold target_name. cbn [fst snd].
  set (props := leave_request_props _ _ _ _ _ _ _).
  match goal with
  | |- context [log_action ?a ?t ?c ?res ?s] =>
      destruct (log_action_keeps a t c res s)
        as (_ & _ & L3 & L4 & _ & _ & _ & L8 & _);
      set (st' := log_action a t c res s) in *
  end.
  cbn [LEAVE_DB VACATION_DB next_id set_next_id set_LEAVE_DB] in L3, L4, L8.
  split; [reflexivity|]. split.
  { exists (mkpage (next_id st) props). rewrite L3. cbn [db_pages pages_create].
    split; [reflexivity|]. split; [reflexivity|].
    subst props. unfold leave_request_props. cbn [properties].
    rewrite !dict_of_get. repeat split; reflexivity. }
  split; [exact L8|]. split; [exact L4|].
  intros Hopt.
  assert (Hd : default_leave_status st = STATUS_PENDING).
  { unfold default_leave_status. fold options.
    destruct Hopt as [Hm| ->]; [rewrite Hm|]; reflexivity. }
  split; [exact Hd|]. intros e y.
  unfold calc_used_vacation_hours.
  destruct (negb (truthy (strip e))); [reflexivity|].
  f_equal. unfold query, query_from. cbn [fst skipn]. f_equal.
  assert (Ha : approved_status st' = approved_status st)
    by (apply approved_status_schema; rewrite L3; reflexivity).
  unfold used_filter. rewrite Ha, L3, matching_create.
  replace (eval_filter _ _) with false; [apply app_nil_r|].
  symmetry. cbn [eval_filter forallb properties].
  subst props. unfold leave_request_props. rewrite !dict_of_get.
  replace (assoc_last K_STATUS _)
    with (Some (VSelect (Some (default_leave_status st)))) by reflexivity.
  rewrite Hd. cbn [opt_str_eqb]. rewrite approved_not_pending.
  rewrite !andb_false_r. reflexivity.
Qed.

(** *** Attendance records *)

Lemma date_ltb_irrefl (d : date) : date_ltb d d = false.
Proof.
  unfold date_ltb. rewrite !Z.ltb_irrefl, !Z.eqb_refl. reflexivity.
Qed.

Lemma date_leb_refl (d : date) : date_leb d d = true.
Proof. unfold date_leb. rewrite date_ltb_irrefl. reflexivity. Qed.

Lemma next_day_after (d e : date) : next_day d = Some e -> date_ltb d e = true.
Proof.
  unfold next_day, date_ltb.
  destruct (Z.ltb_spec (day d) (_days_in_month (year d) (month d))).
  - intros E; inversion E; subst; clear E. cbn [year month day].
    rewrite !Z.eqb_refl, !Z.ltb_irrefl.
    replace (day d <? day d + 1) with true by (symmetry; apply Z.ltb_lt; lia).
    reflexivity.
  - destruct (Z.ltb_spec (month d) 12).
    + intros E; inversion E; subst; clear E. cbn [year month day].
      rewrite Z.eqb_refl, Z.ltb_irrefl.
      replace (month d <? month d + 1) with true
        by (symmetry; apply Z.ltb_lt; lia).
      reflexivity.
    + destruct (Z.ltb_spec (year d) 9999); [|discriminate].
      intros E; inversion E; subst; clear E. cbn [year month day].
      replace (year d <? year d + 1) with true
        by (symmetry; apply Z.ltb_lt; lia).
      reflexivity.
Qed.

Lemma resolve_exact {V : Type} (meta : dict V) (k : str) :
  dict_has k meta = true -> or_str (resolve_prop_key meta k) k = k.
Proof.
  intros H. unfold resolve_prop_key.
  destruct meta as [|kv meta]; [discriminate H|]. rewrite H.
  unfold or_str. destruct (truthy k); reflexivity.
Qed.

(** The key of an attendance record: the employee and the day. *)
Lemma find_attendance_page_key (name : str) (d e : date) (st : notion) :
  truthy (ATTEND_DB_ID cfg) = true -> truthy (strip name) = true ->
  next_day d = Some e ->
  find_attendance_page name d st
  = option_map page_id
      (hd_error (matching (ATTEND_DB st)
                   (FAnd [FTitleEq K_EMPLOYEE (strip name);
                          FDateOnOrAfter K_ATT_DATE d;
                          FDateBefore K_ATT_DATE e]))).
Proof.
  intros Hcfg Hname He. unfold find_attendance_page, _attend_day_range.
  rewrite Hcfg, Hname, He. cbn [negb option_map].
  unfold query, query_from. cbn [fst skipn].
  destruct (matching _ _); reflexivity.
Qed.

Lemma set_properties_get (props old : dict prop_value) (k : str) :
  dict_get k (set_properties props old)
  = fold_left (fun o kv => if PyStr.eqb k (fst kv) then Some (snd kv) else o)
              props (dict_get k old).
Proof. unfold set_properties. apply fold_set_get. Qed.

Lemma pages_update_in (db : database) (id : positive)
  (props : dict prop_value) (p : page) :
  In p (db_pages db) -> page_id p = id ->
  In (mkpage id (set_properties props (properties p)))
     (db_pages (pages_update db id props)).
Proof.
  intros Hin Hid. unfold pages_update. cbn [db_pages].
  apply in_map_iff. exists p. rewrite Hid, Pos.eqb_refl. split; auto.
Qed.

Lemma matching_in (db : database) (flt : qfilter) (p : page) :
  In p (db_pages db) -> eval_filter p flt = true ->
  matching db flt <> [].
Proof.
  intros Hin He E.
  assert (H : In p (matching db flt)) by (apply filter_In; split; assumption).
  rewrite E in H. destruct H.
Qed.

(** X6: [upsert_attendance_record] refuses, with False, a message and no
    write at all, a call made while the attendance collection is not
    configured, a blank employee name, and a status that is not one of the
    options of the status property (出席, 請假, 遲到 when the property
    lists none). *)
Theorem upsert_attendance_record_refuses :
  forall (employee_name : str) (attend_date : date) (status actor : str)
         (st : notion),
    truthy (ATTEND_DB_ID cfg) = false
    \/ truthy (strip employee_name) = false
    \/ PyStr.mem (strip status) (attendance_status_options (ATTEND_DB st))
       = false ->
    let r := upsert_attendance_record employee_name attend_date status actor
                                      st in
    fst r = false
    /\ same_records st (snd r)
    /\ OPLOG_DB (snd r) = OPLOG_DB st
    /\ exists msg : str,
         In msg [MSG_ATTEND_DB_UNSET; MSG_NAME_EMPTY;
                 MSG_STATUS_UNKNOWN ++ strip status ++ MSG_STATUS_ADVICE]
         /\ st_error (snd r) = st_error st ++ [msg].
Proof.
  intros employee_name attend_date status actor st H r.
  assert (R : forall msg,
             In msg [MSG_ATTEND_DB_UNSET; MSG_NAME_EMPTY;
                     MSG_STATUS_UNKNOWN ++ strip status ++ MSG_STATUS_ADVICE] ->
             let x := (false, st_error_show msg st) in
             fst x = false /\ same_records st (snd x)
             /\ OPLOG_DB (snd x) = OPLOG_DB st
             /\ exists msg0 : str,
                  In msg0 [MSG_ATTEND_DB_UNSET; MSG_NAME_EMPTY;
                           MSG_STATUS_UNKNOWN ++ strip status
                           ++ MSG_STATUS_ADVICE]
                  /\ st_error (snd x) = st_error st ++ [msg0]).
  { intros msg Hmsg x. subst x. cbn [fst snd].
    split; [reflexivity|]. split; [repeat split; reflexivity|].
    split; [reflexivity|]. exists msg. split; [assumption | reflexivity]. }
  subst r. unfold upsert_attendance_record.
  destruct (truthy (ATTEND_DB_ID cfg)) eqn:E1; cbn [negb];
    [|apply R; simpl; prop_tauto].
  destruct (truthy (strip employee_name)) eqn:E2; cbn [negb];
    [|apply R; simpl; prop_tauto].
  destruct (PyStr.mem (strip status)
              (attendance_status_options (ATTEND_DB st))) eqn:E3; cbn [negb];
    [|apply R; simpl; prop_tauto].
  exfalso. destruct H as [H|[H|H]]; discriminate.
Qed.

(** What one accepted upsert does to the attendance collection. *)
Lemma upsert_attendance_effect (name : str) (d e : date) (status actor : str)
  (st : notion) :
  truthy (ATTEND_DB_ID cfg) = true -> truthy (strip name) = true ->
  PyStr.mem (strip status) (attendance_status_options (ATTEND_DB st)) = true ->
  next_day d = Some e ->
  let key := FAnd [FTitleEq K_EMPLOYEE (strip name);
                   FDateOnOrAfter K_ATT_DATE d; FDateBefore K_ATT_DATE e] in
  let r := upsert_attendance_record name d status actor st in
  let props := fun pid =>
    attendance_props (get_db_properties (ATTEND_DB st)) pid (strip name) d
                     (strip status) in
  fst r = true
  /\ LUNCH_DB (snd r) = LUNCH_DB st
  /\ LEAVE_DB (snd r) = LEAVE_DB st
  /\ VACATION_DB (snd r) = VACATION_DB st
  /\ SALARY_DB (snd r) = SALARY_DB st
  /\ match hd_error (matching (ATTEND_DB st) key) with
     | Some p =>
         ATTEND_DB (snd r)
         = pages_update (ATTEND_DB st) (page_id p) (props (Some (page_id p)))
         /\ next_id (snd r) = next_id st
     | None =>
         ATTEND_DB (snd r)
         = pages_create (ATTEND_DB st) (next_id st) (props None)
         /\ next_id (snd r) = Pos.succ (next_id st)
     end.
Proof.
  intros Hcfg Hname Hstatus He key r props. subst r.
  unfold upsert_attendance_record. rewrite Hcfg, Hname, Hstatus. cbn [negb].
  assert (Hfind : find_attendance_page (strip name) d st
                  = option_map page_id (hd_error (matching (ATTEND_DB st) key))).
  { rewrite (find_attendance_page_key (strip name) d e st Hcfg)
      by (rewrite ?strip_idem; assumption).
    rewrite strip_idem. reflexivity. }
  rewrite Hfind.
  destruct (hd_error (matching (ATTEND_DB st) key)) as [p|];
    cbn [option_map fst snd];
    match goal with
    | |- context [log_action ?a ?t ?c ?res ?s] =>
        destruct (log_action_keeps a t c res s)
          as (_ & _ & L3 & L4 & L5 & L6 & L7 & L8 & _);
        rewrite L3, L4, L5, L6, L7, L8
    end;
    repeat split; reflexivity.
Qed.

Lemma attendance_options_schema (db db' : database) :
  db_properties db' = db_properties db ->
  attendance_status_options db' = attendance_status_options db.
Proof.
  intros E. unfold attendance_status_options, get_select_options,
    get_db_properties. rewrite E. reflexivity.
Qed.

(** The properties of a record the upsert has created or rewritten. *)
Lemma attendance_props_new (meta : dict prop_type) (name : str) (d : date)
  (status : str) :
  let props := attendance_props meta None name d status in
  dict_get K_EMPLOYEE props
  = (if dict_has K_EMPLOYEE meta then Some (VTitle name) else None)
  /\ dict_get K_ATT_DATE props
     = (if dict_has K_ATT_DATE meta then Some (VDate (Some d)) else None)
  /\ dict_get K_ATT_STATUS props
     = (if dict_has K_ATT_STATUS meta then Some (VSelect (Some status))
        else None).
Proof.
  unfold attendance_props.
  destruct (dict_has K_EMPLOYEE meta), (dict_has K_ATT_DATE meta),
    (dict_has K_ATT_STATUS meta); repeat split; reflexivity.
Qed.

Lemma attendance_props_update (meta : dict prop_type) (name : str) (d : date)
  (status : str) (id : positive) (old : dict prop_value) :
  let props :=
    set_properties (attendance_props meta (Some id) name d status) old in
  dict_get K_EMPLOYEE props = dict_get K_EMPLOYEE old
  /\ dict_get K_ATT_DATE props
     = (if dict_has K_ATT_DATE meta then Some (VDate (Some d))
        else dict_get K_ATT_DATE old)
  /\ dict_get K_ATT_STATUS props
     = (if dict_has K_ATT_STATUS meta then Some (VSelect (Some status))
        else dict_get K_ATT_STATUS old).
Proof.
  cbv zeta. rewrite !set_properties_get. unfold attendance_props.
  rewrite andb_false_r.
  destruct (dict_has K_ATT_DATE meta), (dict_has K_ATT_STATUS meta);
    repeat split; reflexivity.
Qed.

(** A record the upsert has written answers to the key of its day. *)
Lemma attendance_created_matches (meta : dict prop_type) (name : str)
  (d e : date) (status : str) (id : positive) :
  dict_has K_EMPLOYEE meta = true -> dict_has K_ATT_DATE meta = true ->
  next_day d = Some e ->
  eval_filter (mkpage id (attendance_props meta None name d status))
              (FAnd [FTitleEq K_EMPLOYEE name; FDateOnOrAfter K_ATT_DATE d;
                     FDateBefore K_ATT_DATE e]) = true.
Proof.
  intros H1 H2 He.
  destruct (attendance_props_new meta name d status) as (G1 & G2 & _).
  cbn [eval_filter forallb properties]. rewrite G1, G2, H1, H2.
  rewrite eqb_refl, date_leb_refl, (next_day_after d e He). reflexivity.
Qed.

Lemma attendance_updated_matches (meta : dict prop_type) (name : str)
  (d e : date) (status : str) (id id' : positive) (old : dict prop_value) :
  next_day d = Some e ->
  eval_filter (mkpage id old)
              (FAnd [FTitleEq K_EMPLOYEE name; FDateOnOrAfter K_ATT_DATE d;
                     FDateBefore K_ATT_DATE e]) = true ->
  eval_filter
    (mkpage id (set_properties
                  (attendance_props meta (Some id') name d status) old))
    (FAnd [FTitleEq K_EMPLOYEE name; FDateOnOrAfter K_ATT_DATE d;
           FDateBefore K_ATT_DATE e]) = true.
Proof.
  intros He.
  destruct (attendance_props_update meta name d status id' old)
    as (G1 & G2 & _).
  cbn [eval_filter forallb properties]. rewrite G1, G2.
  destruct (dict_has K_ATT_DATE meta); [|exact (fun H => H)].
  rewrite date_leb_refl, (next_day_after d e He).
  rewrite !andb_true_iff. intros (Ht & _). rewrite Ht. repeat split.
Qed.

(** X7: one attendance record per employee and day.  An accepted
    [upsert_attendance_record], on a schema that has the name and the date
    property, answers True; when the employee has no record on the day it
    adds one at the end of the collection, otherwise it rewrites the first
    record of the day and adds none; afterwards the employee has a record on
    the day, so that a further accepted upsert for the same employee and
    day, whatever its status, adds no record and hands out no
    identifier. *)
Theorem upsert_attendance_record_one_per_day :
  forall (name : str) (d e : date) (status actor : str) (st : notion),
    truthy (ATTEND_DB_ID cfg) = true -> truthy (strip name) = true ->
    PyStr.mem (strip status) (attendance_status_options (ATTEND_DB st))
    = true ->
    next_day d = Some e ->
    dict_has K_EMPLOYEE (get_db_properties (ATTEND_DB st)) = true ->
    dict_has K_ATT_DATE (get_db_properties (ATTEND_DB st)) = true ->
    let key := FAnd [FTitleEq K_EMPLOYEE (strip name);
                     FDateOnOrAfter K_ATT_DATE d; FDateBefore K_ATT_DATE e] in
    let r := upsert_attendance_record name d status actor st in
    fst r = true
    /\ (matching (ATTEND_DB st) key = [] ->
        exists rec : page,
          db_pages (ATTEND_DB (snd r)) = db_pages (ATTEND_DB st) ++ [rec]
          /\ page_id rec = next_id st
          /\ next_id (snd r) = Pos.succ (next_id st))
    /\ (matching (ATTEND_DB st) key <> [] ->
        List.length (db_pages (ATTEND_DB (snd r)))
        = List.length (db_pages (ATTEND_DB st))
        /\ next_id (snd r) = next_id st)
    /\ matching (ATTEND_DB (snd r)) key <> []
    /\ (forall status' actor' : str,
           PyStr.mem (strip status') (attendance_status_options (ATTEND_DB st))
           = true ->
           let r2 := upsert_attendance_record name d status' actor' (snd r) in
           fst r2 = true
           /\ List.length (db_pages (ATTEND_DB (snd r2)))
              = List.length (db_pages (ATTEND_DB (snd r)))
           /\ next_id (snd r2) = next_id (snd r)).
Proof.
  intros name d e status actor st Hcfg Hname Hstatus He H1 H2 key r.
  destruct (upsert_attendance_effect name d e status actor st Hcfg Hname
              Hstatus He) as (Hok & _ & _ & _ & _ & Heff).
  fold key in Heff. fold r in Hok, Heff.
  assert (Hafter : matching (ATTEND_DB (snd r)) key <> []).
  { destruct (matching (ATTEND_DB st) key) as [|p rest] eqn:Em;
      cbn [hd_error] in Heff; destruct Heff as [Hdb _]; rewrite Hdb.
    - rewrite matching_create, Em. unfold key.
      rewrite (attendance_created_matches _ _ d e _ _ H1 H2 He).
      discriminate.
    - assert (Hp : In p (matching (ATTEND_DB st) key))
        by (rewrite Em; left; reflexivity).
      apply filter_In in Hp. destruct Hp as [Hin Hk].
      eapply matching_in.
      + apply (pages_update_in _ _ _ p Hin eq_refl).
      + apply attendance_updated_matches; [exact He|].
        destruct p as [id old]. exact Hk. }
  split; [exact Hok|]. split; [|split; [|split; [exact Hafter|]]].
  - intros Em. rewrite Em in Heff. cbn [hd_error] in Heff.
    destruct Heff as [Hdb Hid]. eexists. rewrite Hdb.
    cbn [db_pages pages_create]. split; [reflexivity|].
    split; [reflexivity | exact Hid].
  - intros Em. destruct (matching (ATTEND_DB st) key) as [|p rest];
      [congruence|]. cbn [hd_error] in Heff. destruct Heff as [Hdb Hid].
    rewrite Hdb. unfold pages_update. cbn [db_pages]. rewrite length_map.
    split; [reflexivity | exact Hid].
  - intros status' actor' Hstatus' r2.
    assert (Hschema : db_properties (ATTEND_DB (snd r))
                      = db_properties (ATTEND_DB st)).
    { destruct (hd_error (matching (ATTEND_DB st) key));
        destruct Heff as [Hdb _]; rewrite Hdb; reflexivity. }
    rewrite <- (attendance_options_schema _ _ Hschema) in Hstatus'.
    destruct (upsert_attendance_effect name d e status' actor' (snd r) Hcfg
                Hname Hstatus' He) as (Hok2 & _ & _ & _ & _ & Heff2).
    fold key in Heff2. fold r2 in Hok2, Heff2.
    split; [exact Hok2|].
    destruct (matching (ATTEND_DB (snd r)) key) as [|p rest];
      [congruence|]. cbn [hd_error] in Heff2. destruct Heff2 as [Hdb Hid].
    rewrite Hdb. unfold pages_update. cbn [db_pages]. rewrite length_map.
    split; [reflexivity | exact Hid].
Qed.

(** How an attendance record reads on a schema that types the name as a
    title and the status as a select. *)
Lemma attendance_of_typed (db : database) (opts : list str) (p : page) :
  dict_get K_EMPLOYEE (get_db_properties db) = Some TTitle ->
  dict_get K_ATT_DATE (get_db_properties db) = Some TDate ->
  dict_get K_ATT_STATUS (get_db_properties db) = Some (TSelect opts) ->
  attendance_of db p
  = mkatt (match dict_get K_EMPLOYEE (properties p) with
           | Some (VTitle s) => Some s
           | _ => None
           end)
          (parse_notion_date_start (properties p) K_ATT_DATE)
          (match dict_get K_ATT_STATUS (properties p) with
           | Some (VSelect (Some s)) => [s]
           | _ => []
           end).
Proof.
  intros H1 H2 H3. unfold attendance_of.
  rewrite !resolve_exact by (unfold dict_has; rewrite ?H1, ?H2, ?H3; reflexivity).
  rewrite H1, H3. reflexivity.
Qed.

(** Rewriting the one page that has an identifier moves a count by that
    page alone. *)
Lemma filter_update_count (f : page -> bool) (g : page -> page) (p0 : page)
  (l : list page) :
  NoDup (map page_id l) -> In p0 l ->
  let upd := fun p => if Pos.eqb (page_id p) (page_id p0) then g p else p in
  Z.of_nat (List.length (filter f (map upd l)))
  = Z.of_nat (List.length (filter f l)) - count_of (f p0) + count_of (f (g p0)).
Proof.
  intros Hnd Hin upd. induction l as [|x l IH]; [destruct Hin|].
  cbn [map page_id] in Hnd. inversion Hnd as [|? ? Hx Hrest]; subst.
  destruct Hin as [->|Hin].
  - assert (Hl : map upd l = l).
    { apply map_id_in. intros z Hz. unfold upd.
      destruct (Pos.eqb_spec (page_id z) (page_id p0)) as [E|]; [|reflexivity].
      exfalso. apply Hx. rewrite <- E. apply in_map. exact Hz. }
    cbn [map]. rewrite Hl. unfold upd at 1. rewrite Pos.eqb_refl.
    cbn [filter]. unfold count_of.
    destruct (f p0), (f (g p0)); cbn [List.length]; lia.
  - assert (Hne : upd x = x).
    { unfold upd.
      destruct (Pos.eqb_spec (page_id x) (page_id p0)) as [E|]; [|reflexivity].
      exfalso. apply Hx. rewrite E. apply in_map. exact Hin. }
    cbn [map]. rewrite Hne. cbn [filter].
    specialize (IH Hrest Hin).
    destruct (f x); cbn [List.length]; lia.
Qed.

(** What an accepted [upsert_attendance_record] does to the eligible days
    the body of [calc_working_days_for_lunch] computes from the store, on a
    collection whose pages have distinct identifiers and whose schema
    types the name as a title, the date as a date and the status as a
    select: they change by the record of the day alone. *)
Lemma upsert_attendance_eligible_days :
  forall (name : str) (d e : date) (status actor : str) (st : notion)
         (y m : Z) (start_d end_d : date) (opts : list str),
    truthy (ATTEND_DB_ID cfg) = true -> truthy (strip name) = true ->
    PyStr.mem (strip status) (attendance_status_options (ATTEND_DB st))
    = true ->
    next_day d = Some e ->
    dict_get K_EMPLOYEE (get_db_properties (ATTEND_DB st)) = Some TTitle ->
    dict_get K_ATT_DATE (get_db_properties (ATTEND_DB st)) = Some TDate ->
    dict_get K_ATT_STATUS (get_db_properties (ATTEND_DB st))
    = Some (TSelect opts) ->
    NoDup (map page_id (db_pages (ATTEND_DB st))) ->
    _month_range y m = Some (start_d, end_d) ->
    let key := FAnd [FTitleEq K_EMPLOYEE (strip name);
                     FDateOnOrAfter K_ATT_DATE d; FDateBefore K_ATT_DATE e] in
    let st1 := snd (upsert_attendance_record name d status actor st) in
    let now :=
      PyStr.mem (strip status) [ATTEND_PRESENT_STATUS; ATTEND_LATE_STATUS]
      && (date_leb start_d d && date_ltb d end_d && negb (weekday d =? 6)) in
    let before :=
      match hd_error (matching (ATTEND_DB st) key) with
      | Some p => lunch_eligible (strip name) start_d end_d
                                 (attendance_of (ATTEND_DB st) p)
      | None => false
      end in
    exists n : Z,
      option_map fst (calc_working_days_for_lunch name y m st) = Some n
      /\ option_map fst (calc_working_days_for_lunch name y m st1)
         = Some (n - count_of before + count_of now)
      /\ LUNCH_DB st1 = LUNCH_DB st.
Proof.
  intros name d e status actor st y m start_d end_d opts Hcfg Hname Hstatus
         He T1 T2 T3 Hnd Hrange key st1 now before.
  destruct (upsert_attendance_effect name d e status actor st Hcfg Hname
              Hstatus He) as (_ & Hlunch & _ & _ & _ & Heff).
  fold key in Heff. fold st1 in Hlunch, Heff.
  exists (spec_eligible_days (strip name) start_d end_d st).
  split; [apply calc_working_days_count; assumption|].
  split; [|exact Hlunch].
  rewrite (calc_working_days_count name y m st1 start_d end_d Hcfg Hname
             Hrange).
  f_equal. unfold spec_eligible_days. rewrite !filter_map_length.
  set (g := fun db p => lunch_eligible (strip name) start_d end_d
                                       (attendance_of db p)).
  change (Z.of_nat (List.length (filter (g (ATTEND_DB st1))
                                        (db_pages (ATTEND_DB st1))))
          = Z.of_nat (List.length (filter (g (ATTEND_DB st))
                                          (db_pages (ATTEND_DB st))))
            - count_of before + count_of now).
  assert (Hg : forall props,
             dict_get K_EMPLOYEE props = Some (VTitle (strip name)) ->
             dict_get K_ATT_DATE props = Some (VDate (Some d)) ->
             dict_get K_ATT_STATUS props = Some (VSelect (Some (strip status))) ->
             forall id, g (ATTEND_DB st) (mkpage id props) = now).
  { intros props G1 G2 G3 id. unfold g.
    rewrite (attendance_of_typed _ opts _ T1 T2 T3).
    unfold lunch_eligible, parse_notion_date_start.
    cbn [att_employee att_statuses att_date properties].
    rewrite G1, G2, G3. cbn [opt_str_eqb existsb]. rewrite eqb_refl.
    rewrite orb_false_r. reflexivity. }
  assert (D1 : dict_has K_EMPLOYEE (get_db_properties (ATTEND_DB st)) = true)
    by (unfold dict_has; rewrite T1; reflexivity).
  assert (D2 : dict_has K_ATT_DATE (get_db_properties (ATTEND_DB st)) = true)
    by (unfold dict_has; rewrite T2; reflexivity).
  assert (D3 : dict_has K_ATT_STATUS (get_db_properties (ATTEND_DB st)) = true)
    by (unfold dict_has; rewrite T3; reflexivity).
  subst before.
  destruct (matching (ATTEND_DB st) key) as [|p0 rest] eqn:Em;
    cbn [hd_error] in Heff |- *; destruct Heff as [Hdb _]; rewrite Hdb.
  - cbn [db_pages pages_create]. rewrite filter_app, length_app.
    change (g (pages_create (ATTEND_DB st) (next_id st)
                 (attendance_props (get_db_properties (ATTEND_DB st)) None
                    (strip name) d (strip status))))
      with (g (ATTEND_DB st)).
    cbn [filter].
    destruct (attendance_props_new (get_db_properties (ATTEND_DB st))
                (strip name) d (strip status)) as (G1 & G2 & G3).
    rewrite D1 in G1. rewrite D2 in G2. rewrite D3 in G3.
    rewrite (Hg _ G1 G2 G3). unfold count_of.
    destruct now; cbn [List.length]; lia.
  - assert (Hp : In p0 (matching (ATTEND_DB st) key))
      by (rewrite Em; left; reflexivity).
    apply filter_In in Hp. destruct Hp as [Hin Hk].
    unfold pages_update. cbn [db_pages].
    change (g (mkdb (db_properties (ATTEND_DB st)) ?l))
      with (g (ATTEND_DB st)).
    rewrite (filter_update_count (g (ATTEND_DB st))
               (fun p => mkpage (page_id p)
                           (set_properties
                              (attendance_props
                                 (get_db_properties (ATTEND_DB st))
                                 (Some (page_id p0)) (strip name) d
                                 (strip status))
                              (properties p)))
               p0 _ Hnd Hin).
    destruct (attendance_props_update (get_db_properties (ATTEND_DB st))
                (strip name) d (strip status) (page_id p0) (properties p0))
      as (G1 & G2 & G3).
    rewrite D2 in G2. rewrite D3 in G3.
    assert (G1' : dict_get K_EMPLOYEE (properties p0)
                  = Some (VTitle (strip name))).
    { unfold key in Hk. cbn [eval_filter forallb] in Hk.
      apply andb_true_iff in Hk. destruct Hk as [Hk _].
      destruct (dict_get K_EMPLOYEE (properties p0)) as [[]|];
        try discriminate Hk.
      apply eqb_eq in Hk. subst. reflexivity. }
    rewrite G1' in G1. rewrite (Hg _ G1 G2 G3). reflexivity.
Qed.

(** *** Lunch orders *)

Lemma Qsum_app (a b : list Q) : (Qsum (a ++ b) == Qsum a + Qsum b)%Q.
Proof.
  induction a as [|x a IH]; simpl.
  - rewrite Qplus_0_l. reflexivity.
  - rewrite IH, Qplus_assoc. reflexivity.
Qed.

Lemma py_sum_Qsum (l : list Q) : (py_sum l == Qsum l)%Q.
Proof. unfold py_sum. rewrite fold_Qplus_Qsum, Qplus_0_l. reflexivity. Qed.

Lemma Qsum_filter_insert_by {A : Type} (leb : A -> A -> bool) (f : A -> bool)
  (G : A -> Q) (x : A) (l : list A) :
  (Qsum (map G (filter f (insert_by leb x l)))
   == Qsum (map G (filter f (x :: l))))%Q.
Proof.
  induction l as [|z l IH]; [reflexivity|].
  cbn [insert_by]. destruct (leb x z); [reflexivity|].
  cbn [filter] in *. destruct (f z), (f x); cbn [map Qsum fold_right] in *;
    rewrite ?IH; try reflexivity.
  rewrite !Qplus_assoc, (Qplus_comm (G z)). reflexivity.
Qed.

(** Sorting does not change the sum over the elements that pass a test. *)
Lemma Qsum_filter_sort_by {A : Type} (leb : A -> A -> bool) (f : A -> bool)
  (G : A -> Q) (l : list A) :
  (Qsum (map G (filter f (sort_by leb l))) == Qsum (map G (filter f l)))%Q.
Proof.
  induction l as [|x l IH]; [reflexivity|].
  unfold sort_by in *. cbn [fold_right]. rewrite Qsum_filter_insert_by.
  cbn [filter]. destruct (f x); cbn [map Qsum fold_right]; rewrite IH;
    reflexivity.
Qed.

(** The lunch orders of one employee, as [list_lunch_records] reads them on
    a schema with the three properties, the name being a title. *)
Lemma list_lunch_records_key (is_admin : bool) (name : str)
  (start_d end_d : date) (limit : nat) (st : notion) :
  truthy (LUNCH_DB_ID cfg) = true -> truthy (strip name) = true ->
  PyStr.eqb (strip name) ALL_EMPLOYEES = false ->
  dict_get K_EMPLOYEE (get_db_properties (LUNCH_DB st)) = Some TTitle ->
  dict_has K_LUNCH_DATE (get_db_properties (LUNCH_DB st)) = true ->
  dict_has K_LUNCH_AMOUNT (get_db_properties (LUNCH_DB st)) = true ->
  list_lunch_records is_admin name start_d end_d limit st
  = map (lunch_row_of K_EMPLOYEE K_LUNCH_DATE K_LUNCH_AMOUNT)
        (firstn (Nat.min limit 100)
           (filter (fun p => eval_filter p
                               (lunch_key (strip name) start_d end_d))
                   (sort_by (date_geb K_LUNCH_DATE)
                            (db_pages (LUNCH_DB st))))).
Proof.
  intros Hcfg Hname Hall T1 H2 H3. unfold list_lunch_records.
  rewrite Hcfg, Hname, Hall. cbn [negb andb app].
  rewrite !resolve_exact
    by (try assumption; unfold dict_has; rewrite T1; reflexivity).
  unfold employee_filter. rewrite T1. reflexivity.
Qed.

Lemma calc_working_days_attend (name : str) (y m : Z) (st st' : notion) :
  ATTEND_DB st' = ATTEND_DB st ->
  calc_working_days_for_lunch name y m st'
  = calc_working_days_for_lunch name y m st.
Proof.
  intros E. unfold calc_working_days_for_lunch,
    _list_lunch_eligible_attendance_days. rewrite E. reflexivity.
Qed.

(** X9: an order recorded by [create_lunch_record] for a day of the month
    raises the amount spent of the month's settlement by the amount of the
    order (0 for an amount of 0) and lowers the difference by as much, the
    eligible days and the entitlement staying as they are: on a schema that
    has the name as a title, the date and the amount, for an employee with
    fewer than 100 orders in the month. *)
Theorem create_lunch_record_adds_to_spent :
  forall (name : str) (lunch_date : date) (amount : Q) (actor : str)
         (st : notion) (y m : Z) (start_d end_d : date) (is_admin : bool),
    truthy (LUNCH_DB_ID cfg) = true -> truthy (strip name) = true ->
    PyStr.eqb (strip name) ALL_EMPLOYEES = false ->
    dict_get K_EMPLOYEE (get_db_properties (LUNCH_DB st)) = Some TTitle ->
    dict_has K_LUNCH_DATE (get_db_properties (LUNCH_DB st)) = true ->
    dict_has K_LUNCH_AMOUNT (get_db_properties (LUNCH_DB st)) = true ->
    _month_range y m = Some (start_d, end_d) ->
    date_leb start_d lunch_date = true -> date_ltb lunch_date end_d = true ->
    (List.length (matching (LUNCH_DB st) (lunch_key (strip name) start_d end_d))
     < 100)%nat ->
    let r := create_lunch_record name lunch_date amount actor st in
    fst r = true
    /\ exists s s' : settlement,
         calc_month_lunch_settlement name y m is_admin st = Some s
         /\ calc_month_lunch_settlement name y m is_admin (snd r) = Some s'
         /\ eligible_days s' = eligible_days s
         /\ entitlement s' = entitlement s
         /\ (spent s' == spent s + or_float (Some amount) 0)%Q
         /\ (diff s' == diff s - or_float (Some amount) 0)%Q.
Proof.
  intros name lunch_date amount actor st y m start_d end_d is_admin Hcfg Hname
         Hall T1 H2 H3 Hrange Hlo Hhi Hfew r.
  assert (H1 : dict_has K_EMPLOYEE (get_db_properties (LUNCH_DB st)) = true)
    by (unfold dict_has; rewrite T1; reflexivity).
  set (props := lunch_props (get_db_properties (LUNCH_DB st)) (strip name)
                            lunch_date amount).
  assert (Hr : fst r = true
               /\ LUNCH_DB (snd r)
                  = pages_create (LUNCH_DB st) (next_id st) props
               /\ ATTEND_DB (snd r) = ATTEND_DB st).
  { subst r. unfold create_lunch_record. rewrite Hcfg, Hname. cbn [negb fst snd].
    match goal with
    | |- context [log_action ?a ?t ?c ?res ?s] =>
        destruct (log_action_keeps a t c res s)
          as (_ & _ & _ & _ & _ & L6 & L7 & _);
        rewrite L6, L7
    end.
    repeat split; reflexivity. }
  destruct Hr as (Hok & Hdb & Hatt). split; [exact Hok|].
  assert (G : dict_get K_EMPLOYEE props = Some (VTitle (strip name))
              /\ dict_get K_LUNCH_DATE props = Some (VDate (Some lunch_date))
              /\ dict_get K_LUNCH_AMOUNT props
                 = Some (VNumber (Some (or_float (Some amount) 0)))).
  { subst props. unfold lunch_props. rewrite H1, H2, H3.
    repeat split; reflexivity. }
  destruct G as (G1 & G2 & G3).
  unfold calc_month_lunch_settlement. rewrite Hrange.
  rewrite (calc_working_days_attend name y m st (snd r) Hatt).
  destruct (calc_working_days_for_lunch name y m st) as [[n wl]|] eqn:Ew.
  2:{ unfold calc_working_days_for_lunch in Ew. rewrite Hrange in Ew.
      discriminate. }
  do 2 eexists. split; [reflexivity|]. split; [reflexivity|].
  cbn [eligible_days entitlement spent diff].
  split; [reflexivity|]. split; [reflexivity|].
  rewrite !list_lunch_records_key
    by (try assumption; rewrite Hdb; assumption).
  set (f := fun p => eval_filter p (lunch_key (strip name) start_d end_d)).
  set (G := fun p => or_float
                       (Some (lunch_amount
                                (lunch_row_of K_EMPLOYEE K_LUNCH_DATE
                                              K_LUNCH_AMOUNT p))) 0%Q).
  rewrite !map_map. fold G.
  assert (Hnew : f (mkpage (next_id st) props) = true).
  { unfold f, lunch_key. cbn [eval_filter forallb properties].
    rewrite G1, G2, eqb_refl, Hlo, Hhi. reflexivity. }
  assert (HG : G (mkpage (next_id st) props) = or_float (Some amount) 0).
  { unfold G, lunch_row_of, get_number. cbn [lunch_amount properties].
    rewrite G3. rewrite !or_float_idem. reflexivity. }
  assert (Hlen : forall l, List.length (filter f (sort_by (date_geb K_LUNCH_DATE) l))
                           = List.length (filter f l))
    by (intros; apply filter_sort_by_length).
  assert (Hspent :
            (py_sum (map G (firstn (Nat.min 500 100)
                              (filter f (sort_by (date_geb K_LUNCH_DATE)
                                           (db_pages (LUNCH_DB (snd r)))))))
             == py_sum (map G (firstn (Nat.min 500 100)
                                 (filter f (sort_by (date_geb K_LUNCH_DATE)
                                              (db_pages (LUNCH_DB st))))))
                + or_float (Some amount) 0)%Q).
  { change (Nat.min 500 100) with 100%nat.
    rewrite !firstn_all2.
    - rewrite !py_sum_Qsum, !Qsum_filter_sort_by, Hdb.
      cbn [db_pages pages_create]. rewrite filter_app, map_app, Qsum_app.
      cbn [filter]. rewrite Hnew. cbn [map Qsum fold_right].
      rewrite HG, Qplus_0_r. reflexivity.
    - rewrite Hlen. unfold matching in Hfew. fold f in Hfew. lia.
    - rewrite Hlen, Hdb. cbn [db_pages pages_create].
      rewrite filter_app, length_app. cbn [filter]. rewrite Hnew.
      unfold matching in Hfew. fold f in Hfew. cbn [List.length]. lia. }
  split; [exact Hspent|]. rewrite Hspent. ring.
Qed.

(** *** Overtime rule: keyed upsert *)

Lemma find_map_update (P : page -> Prop) (f : page -> bool)
  (g : page -> page) (id : positive) (l : list page) (p0 : page) :
  find f l = Some p0 -> page_id p0 = id ->
  (forall x, page_id x = id -> f (g x) = true /\ P (g x)) ->
  exists q,
    find f (map (fun p => if Pos.eqb (page_id p) id then g p else p) l)
    = Some q /\ P q.
Proof.
  intros Hfind Hid Hg. induction l as [|x l IH]; [discriminate|].
  cbn [map find] in *.
  destruct (Pos.eqb_spec (page_id x) id) as [E|E].
  - destruct (Hg x E) as [Hf HP]. rewrite Hf. exists (g x). split; auto.
  - destruct (f x) eqn:Ex.
    + inversion Hfind; subst. contradiction.
    + apply IH. exact Hfind.
Qed.

Lemma dict_of_filter_get {V : Type} (k : str) (f : str -> bool)
  (entries : list (str * V)) :
  dict_get k (dict_of (filter (fun kv => f (fst kv)) entries))
  = if f k then assoc_last k entries else None.
Proof.
  rewrite dict_of_get. unfold assoc_last. apply fold_last_filter.
Qed.

Lemma holds_rule_props (y m : Z) (shift rate : Q) (id : positive)
  (props : dict prop_value) :
  dict_get K_YEAR props = Some (VNumber (Some (inject_Z y))) ->
  dict_get K_MONTH props = Some (VNumber (Some (inject_Z m))) ->
  dict_get K_SHIFT_HOURS props = Some (VNumber (Some shift)) ->
  dict_get K_HOURLY_RATE props = Some (VNumber (Some rate)) ->
  holds_rule y m shift rate (mkpage id props).
Proof.
  intros G1 G2 G3 G4. unfold holds_rule, get_number.
  cbn [eval_filter forallb properties].
  rewrite G1, G2, G3, G4, !Qeq_bool_same. repeat split.
Qed.

Lemma get_overtime_rule_first (y m : Z) (shift rate : Q) (st : notion)
  (q : page) :
  truthy (OVERTIME_RULE_DB_ID cfg) = true ->
  find (fun p => eval_filter p (FAnd [FNumberEq K_YEAR y; FNumberEq K_MONTH m]))
       (db_pages (OVERTIME_RULE_DB st)) = Some q ->
  holds_rule y m shift rate q ->
  get_overtime_rule y m st
  = mkrule (or_float (Some shift) 0) (or_float (Some rate) 0).
Proof.
  intros Hcfg Hfind (_ & G3 & G4). unfold get_overtime_rule.
  rewrite Hcfg. cbn [negb]. rewrite <- query_head with (n := 4%nat) in Hfind.
  destruct (query _ _ 5) as [|p l]; [discriminate|].
  cbn [hd_error] in Hfind. inversion Hfind; subst p.
  rewrite G3, G4. reflexivity.
Qed.

Lemma upsert_overtime_rule_effect (y m : Z) (shift rate : Q) (note : str)
  (st : notion) :
  truthy (OVERTIME_RULE_DB_ID cfg) = true ->
  dict_get K_YEAR (get_db_properties (OVERTIME_RULE_DB st)) = Some TNumber ->
  dict_get K_MONTH (get_db_properties (OVERTIME_RULE_DB st)) = Some TNumber ->
  dict_get K_SHIFT_HOURS (get_db_properties (OVERTIME_RULE_DB st))
  = Some TNumber ->
  dict_get K_HOURLY_RATE (get_db_properties (OVERTIME_RULE_DB st))
  = Some TNumber ->
  let key := FAnd [FNumberEq K_YEAR y; FNumberEq K_MONTH m] in
  let r := upsert_overtime_rule_to_notion y m shift rate note st in
  (exists q,
      find (fun p => eval_filter p key) (db_pages (OVERTIME_RULE_DB (snd r)))
      = Some q
      /\ holds_rule y m shift rate q /\ fst r = Some (page_id q))
  /\ db_properties (OVERTIME_RULE_DB (snd r))
     = db_properties (OVERTIME_RULE_DB st)
  /\ (matching (OVERTIME_RULE_DB st) key = [] ->
      (exists rule : page,
          db_pages (OVERTIME_RULE_DB (snd r))
          = db_pages (OVERTIME_RULE_DB st) ++ [rule])
      /\ next_id (snd r) = Pos.succ (next_id st))
  /\ (matching (OVERTIME_RULE_DB st) key <> [] ->
      List.length (db_pages (OVERTIME_RULE_DB (snd r)))
      = List.length (db_pages (OVERTIME_RULE_DB st))
      /\ next_id (snd r) = next_id st).
Proof.
  intros Hcfg T1 T2 T3 T4 key r.
  set (meta := get_db_properties (OVERTIME_RULE_DB st)) in *.
  set (entries := overtime_rule_entries meta y m shift rate note).
  set (has := fun k => dict_has k meta).
  set (payload := dict_of (filter (fun kv => has (fst kv)) entries)).
  assert (A : assoc_last K_YEAR entries = Some (VNumber (Some (inject_Z y)))
              /\ assoc_last K_MONTH entries
                 = Some (VNumber (Some (inject_Z m)))
              /\ assoc_last K_SHIFT_HOURS entries
                 = Some (VNumber (Some shift))
              /\ assoc_last K_HOURLY_RATE entries
                 = Some (VNumber (Some rate))).
  { subst entries. unfold overtime_rule_entries, _set.
    rewrite T1, T2, T3, T4. repeat split; reflexivity. }
  destruct A as (A1 & A2 & A3 & A4).
  assert (B : has K_YEAR = true /\ has K_MONTH = true
              /\ has K_SHIFT_HOURS = true /\ has K_HOURLY_RATE = true).
  { unfold has, dict_has. rewrite T1, T2, T3, T4. repeat split. }
  destruct B as (B1 & B2 & B3 & B4).
  assert (Hupd : forall x,
             eval_filter (mkpage (page_id x)
                            (set_properties payload (properties x))) key
             = true
             /\ holds_rule y m shift rate
                  (mkpage (page_id x) (set_properties payload (properties x)))).
  { intros x.
    assert (H : holds_rule y m shift rate
                  (mkpage (page_id x)
                          (set_properties payload (properties x)))).
    { apply holds_rule_props; subst payload;
        apply written_property; assumption. }
    split; [apply H | exact H]. }
  assert (Hnew : forall id, holds_rule y m shift rate (mkpage id payload)).
  { intros id. apply holds_rule_props; subst payload;
      rewrite dict_of_filter_get; rewrite ?B1, ?B2, ?B3, ?B4; assumption. }
  subst r. unfold upsert_overtime_rule_to_notion. rewrite Hcfg. cbn [negb].
  fold meta. fold entries. fold key.
  change (dict_of (filter (fun kv : str * prop_value => dict_has (fst kv) meta)
                          entries)) with payload.
  pose proof (query_head (OVERTIME_RULE_DB st) key 4) as Hq.
  unfold matching.
  destruct (query (OVERTIME_RULE_DB st) key 5) as [|p0 rest];
    cbn [hd_error] in Hq; symmetry in Hq; cbn [fst snd].
  - cbn [OVERTIME_RULE_DB next_id set_next_id set_OVERTIME_RULE_DB
         db_pages db_properties pages_create].
    split; [|split; [reflexivity|split]].
    + exists (mkpage (next_id st) payload).
      rewrite find_app_none by exact Hq.
      cbn [find]. destruct (Hnew (next_id st)) as (Hk & Hrest).
      fold key in Hk. rewrite Hk.
      split; [reflexivity|]. split; [|reflexivity].
      split; [exact Hk | exact Hrest].
    + intros _. split; [eexists; reflexivity | reflexivity].
    + intros Hne. exfalso. apply Hne. apply find_none_filter. exact Hq.
  - cbn [OVERTIME_RULE_DB next_id set_OVERTIME_RULE_DB db_pages db_properties
         pages_update].
    split; [|split; [reflexivity|split]].
    + destruct (find_map_update
                  (fun q => holds_rule y m shift rate q
                            /\ page_id q = page_id p0)
                  (fun p => eval_filter p key)
                  (fun x => mkpage (page_id x)
                              (set_properties payload (properties x)))
                  (page_id p0) (db_pages (OVERTIME_RULE_DB st)) p0 Hq eq_refl)
        as (q & Hfq & Hgood & Hid).
      * intros x Hx. destruct (Hupd x) as [Hk Hh].
        split; [exact Hk|]. split; [exact Hh | exact Hx].
      * exists q. rewrite Hid. auto.
    + intros E. apply find_none_filter in E. congruence.
    + intros _. rewrite length_map. split; reflexivity.
Qed.

(** X10: the rule of a month.  Without a configured rule collection
    [upsert_overtime_rule_to_notion] raises and writes nothing.  On a
    schema that has the year, the month, the shift hours and the hourly
    rate as numbers it answers the page it wrote, and [get_overtime_rule]
    for the month then reads the shift hours and the hourly rate of the
    call; a month without a rule gets one new page, a month with a rule
    has its first page rewritten and gets none; so a second upsert for the
    month adds no page and its values are the ones read afterwards. *)
Theorem upsert_overtime_rule_then_get :
  (forall (y m : Z) (shift rate : Q) (note : str) (st : notion),
      truthy (OVERTIME_RULE_DB_ID cfg) = false ->
      upsert_overtime_rule_to_notion y m shift rate note st = (None, st))
  /\ (forall (y m : Z) (shift rate : Q) (note : str) (st : notion),
         truthy (OVERTIME_RULE_DB_ID cfg) = true ->
         dict_get K_YEAR (get_db_properties (OVERTIME_RULE_DB st))
         = Some TNumber ->
         dict_get K_MONTH (get_db_properties (OVERTIME_RULE_DB st))
         = Some TNumber ->
         dict_get K_SHIFT_HOURS (get_db_properties (OVERTIME_RULE_DB st))
         = Some TNumber ->
         dict_get K_HOURLY_RATE (get_db_properties (OVERTIME_RULE_DB st))
         = Some TNumber ->
         let key := FAnd [FNumberEq K_YEAR y; FNumberEq K_MONTH m] in
         let r := upsert_overtime_rule_to_notion y m shift rate note st in
         (exists id : positive, fst r = Some id)
         /\ get_overtime_rule y m (snd r)
            = mkrule (or_float (Some shift) 0) (or_float (Some rate) 0)
         /\ (matching (OVERTIME_RULE_DB st) key = [] ->
             (exists rule : page,
                 db_pages (OVERTIME_RULE_DB (snd r))
                 = db_pages (OVERTIME_RULE_DB st) ++ [rule])
             /\ next_id (snd r) = Pos.succ (next_id st))
         /\ (matching (OVERTIME_RULE_DB st) key <> [] ->
             List.length (db_pages (OVERTIME_RULE_DB (snd r)))
             = List.length (db_pages (OVERTIME_RULE_DB st))
             /\ next_id (snd r) = next_id st)
         /\ (forall (shift' rate' : Q) (note' : str),
                let r2 := upsert_overtime_rule_to_notion y m shift' rate' note'
                                                         (snd r) in
                List.length (db_pages (OVERTIME_RULE_DB (snd r2)))
                = List.length (db_pages (OVERTIME_RULE_DB (snd r)))
                /\ next_id (snd r2) = next_id (snd r)
                /\ get_overtime_rule y m (snd r2)
                   = mkrule (or_float (Some shift') 0)
                            (or_float (Some rate') 0))).
Proof.
  split.
  - intros y m shift rate note st Hcfg.
    unfold upsert_overtime_rule_to_notion. rewrite Hcfg. reflexivity.
  - intros y m shift rate note st Hcfg T1 T2 T3 T4 key r.
    destruct (upsert_overtime_rule_effect y m shift rate note st Hcfg T1 T2 T3
                T4) as ((q & Hfind & Hrule & Hid) & Hschema & Hnew & Hold).
    fold key in Hfind, Hnew, Hold. fold r in Hfind, Hid, Hschema, Hnew, Hold.
    split; [eexists; exact Hid|].
    split; [eapply get_overtime_rule_first; eassumption|].
    split; [exact Hnew|]. split; [exact Hold|].
    intros shift' rate' note' r2.
    unfold get_db_properties in T1, T2, T3, T4.
    rewrite <- Hschema in T1, T2, T3, T4.
    destruct (upsert_overtime_rule_effect y m shift' rate' note' (snd r) Hcfg
                T1 T2 T3 T4) as ((q2 & Hfind2 & Hrule2 & _) & _ & _ & Hold2).
    fold key in Hfind2, Hold2. fold r2 in Hfind2, Hold2.
    assert (Hne : matching (OVERTIME_RULE_DB (snd r)) key <> []).
    { intros E. apply find_none_filter in E. congruence. }
    destruct (Hold2 Hne) as [Hlen Hnext].
    split; [exact Hlen|]. split; [exact Hnext|].
    eapply get_overtime_rule_first; eassumption.
Qed.

(** *** Overtime counts: what the sync reports and what it touches *)

Lemma calc_overtime_hours_plain (y m : Z) (rows : list row) :
  Forall plain_hours (calc_overtime_hours_from_duty_rows y m rows).
Proof.
  destruct (calc_overtime_hours_keys y m rows) as [Hnd _].
  apply Forall_forall. intros [e h] Hin. unfold plain_hours. cbn [snd].
  apply (count_entry_some (weekday_appearances y m rows e)).
  rewrite <- calc_overtime_hours_counted. apply dict_in_get; assumption.
Qed.

(** An upsert of a count touches the count collection and the identifier
    counter, nothing else. *)
Lemma upsert_overtime_count_frame (e : str) (y m : Z) (h : Q) (actor : str)
  (st : notion) :
  let st' := snd (upsert_overtime_count_to_notion e y m h actor st) in
  OVERTIME_RULE_DB st' = OVERTIME_RULE_DB st
  /\ LEAVE_DB st' = LEAVE_DB st
  /\ VACATION_DB st' = VACATION_DB st
  /\ SALARY_DB st' = SALARY_DB st
  /\ ATTEND_DB st' = ATTEND_DB st
  /\ LUNCH_DB st' = LUNCH_DB st
  /\ st_error st' = st_error st.
Proof.
  cbv zeta. unfold upsert_overtime_count_to_notion.
  destruct (negb (truthy (OVERTIME_COUNT_DB_ID cfg)) || negb (truthy (strip e)));
    [repeat split; reflexivity|].
  destruct (overtime_keys (OVERTIME_COUNT_DB st)) as [[[ke ky] km] kh].
  destruct (query (OVERTIME_COUNT_DB st) _ 5) as [|p results]; cbn [snd];
    match goal with
    | |- context [log_action ?a ?t ?c ?r ?s] =>
        destruct (log_action_keeps a t c r s)
          as (_ & E2 & E3 & E4 & E5 & E6 & E7 & _ & E9);
        rewrite E2, E3, E4, E5, E6, E7, E9
    end;
    repeat split; reflexivity.
Qed.

Lemma sync_fold_frame (y m : Z) (actor : str) (counts : list (str * Q)) :
  forall (acc : Z * Z * notion),
    let st := snd acc in
    let st' := snd (fold_left (sync_step y m actor) counts acc) in
    OVERTIME_RULE_DB st' = OVERTIME_RULE_DB st
    /\ LEAVE_DB st' = LEAVE_DB st
    /\ VACATION_DB st' = VACATION_DB st
    /\ SALARY_DB st' = SALARY_DB st
    /\ ATTEND_DB st' = ATTEND_DB st
    /\ LUNCH_DB st' = LUNCH_DB st
    /\ st_error st' = st_error st.
Proof.
  induction counts as [|[e h] counts IH]; intros [[ok fail] st];
    [repeat split; reflexivity|].
  cbn [fold_left snd].
  pose proof (upsert_overtime_count_frame e y m (or_float (Some h) 0%Q) actor
                st) as F.
  cbv zeta in F.
  assert (Hs : snd (sync_step y m actor (ok, fail, st) (e, h))
               = snd (upsert_overtime_count_to_notion
                        e y m (or_float (Some h) 0%Q) actor st)).
  { unfold sync_step.
    destruct (upsert_overtime_count_to_notion _ _ _ _ _ _) as [[pid|] st1];
      reflexivity. }
  specialize (IH (sync_step y m actor (ok, fail, st) (e, h))).
  cbv zeta in IH. rewrite Hs in IH.
  destruct IH as (I2 & I3 & I4 & I5 & I6 & I7 & I9).
  destruct F as (F2 & F3 & F4 & F5 & F6 & F7 & F9).
  rewrite I2, I3, I4, I5, I6, I7, I9. repeat split; assumption.
Qed.

Lemma sync_frame (y m : Z) (rows : list row) (actor : str) (st : notion) :
  let st' := snd (sync_overtime_count_from_duty_rows y m rows actor st) in
  OVERTIME_RULE_DB st' = OVERTIME_RULE_DB st
  /\ LEAVE_DB st' = LEAVE_DB st
  /\ VACATION_DB st' = VACATION_DB st
  /\ SALARY_DB st' = SALARY_DB st
  /\ ATTEND_DB st' = ATTEND_DB st
  /\ LUNCH_DB st' = LUNCH_DB st
  /\ st_error st' = st_error st.
Proof.
  cbv zeta. unfold sync_overtime_count_from_duty_rows.
  destruct (negb (truthy (OVERTIME_COUNT_DB_ID cfg)));
    [repeat split; reflexivity|].
  apply (sync_fold_frame y m actor _ (0, 0, st)).
Qed.

(** X11: without a configured count collection
    [sync_overtime_count_from_duty_rows] reports (0, 0) and leaves the
    store as it is.  With one, it reports one success for each employee the
    roster counts and no failure, and it writes to the count collection
    only: the rule, leave, vacation, payroll, attendance and lunch
    collections and the messages shown stay as they are. *)
Theorem sync_overtime_count_reports_every_employee :
  (forall (y m : Z) (rows : list row) (actor : str) (st : notion),
      truthy (OVERTIME_COUNT_DB_ID cfg) = false ->
      sync_overtime_count_from_duty_rows y m rows actor st = (0, 0, st))
  /\ (forall (y m : Z) (rows : list row) (actor : str) (st : notion),
         truthy (OVERTIME_COUNT_DB_ID cfg) = true ->
         let r := sync_overtime_count_from_duty_rows y m rows actor st in
         fst r
         = (Z.of_nat
              (List.length (calc_overtime_hours_from_duty_rows y m rows)), 0)
         /\ OVERTIME_RULE_DB (snd r) = OVERTIME_RULE_DB st
         /\ LEAVE_DB (snd r) = LEAVE_DB st
         /\ VACATION_DB (snd r) = VACATION_DB st
         /\ SALARY_DB (snd r) = SALARY_DB st
         /\ ATTEND_DB (snd r) = ATTEND_DB st
         /\ LUNCH_DB (snd r) = LUNCH_DB st
         /\ st_error (snd r) = st_error st).
Proof.
  split.
  - intros y m rows actor st Hcfg. unfold sync_overtime_count_from_duty_rows.
    rewrite Hcfg. reflexivity.
  - intros y m rows actor st Hcfg r.
    split; [|apply sync_frame].
    subst r. unfold sync_overtime_count_from_duty_rows. rewrite Hcfg.
    cbn [negb].
    destruct (calc_overtime_hours_keys y m rows) as [_ Hall].
    destruct (sync_fold_db y m actor _ Hcfg Hall
                (calc_overtime_hours_plain y m rows) 0 0 st) as [_ Hcount].
    cbv zeta in Hcount. rewrite Hcount. reflexivity.
Qed.

Lemma get_overtime_rule_db (y m : Z) (st st' : notion) :
  OVERTIME_RULE_DB st' = OVERTIME_RULE_DB st ->
  get_overtime_rule y m st' = get_overtime_rule y m st.
Proof. intros E. unfold get_overtime_rule. rewrite E. reflexivity. Qed.

(** The count the sync has stored is the count read back. *)
Lemma sync_get_hours (y m : Z) (rows : list row) (actor : str) (st : notion)
  (emp : str) (hours : Q) :
  truthy (OVERTIME_COUNT_DB_ID cfg) = true ->
  fresh_ids (OVERTIME_COUNT_DB st) (next_id st) ->
  title_key_apart (OVERTIME_COUNT_DB st) = true ->
  dict_get emp (calc_overtime_hours_from_duty_rows y m rows) = Some hours ->
  get_overtime_count_hours emp y m
    (snd (sync_overtime_count_from_duty_rows y m rows actor st)) = hours.
Proof.
  intros Hcfg Hf Ha Hget.
  set (counts := calc_overtime_hours_from_duty_rows y m rows) in *.
  unfold sync_overtime_count_from_duty_rows. rewrite Hcfg. cbn [negb].
  fold counts.
  destruct (calc_overtime_hours_keys y m rows) as [Hnd Hall].
  fold counts in Hnd, Hall.
  destruct (sync_fold_db y m actor counts Hcfg Hall
              (calc_overtime_hours_plain y m rows) 0 0 st) as [E1 _].
  cbv zeta in E1.
  set (s1 := snd (fold_left (sync_step y m actor) counts (0, 0, st))) in *.
  destruct (run_fresh y m counts _ _ Hf Ha) as [_ Ha1].
  rewrite <- E1 in Ha1. cbn [fst] in Ha1.
  assert (Hst : stripped emp).
  { rewrite Forall_forall in Hall. apply Hall.
    apply in_map_iff. exists (emp, hours). split; [reflexivity|].
    apply dict_get_in; assumption. }
  assert (Hh : or_float (Some hours) 0 = hours).
  { pose proof (calc_overtime_hours_plain y m rows) as Hp.
    rewrite Forall_forall in Hp.
    apply (Hp (emp, hours)). apply dict_get_in; assumption. }
  transitivity (or_float (Some hours) 0); [|exact Hh].
  apply get_hours_settled; auto.
  pose proof (run_settles y m counts _ _ [] Hf Ha Hnd
                (fun _ F => match F with end)
                (fun _ F => match F with end) (emp, hours)
                (dict_get_in _ _ _ Hget)) as H.
  rewrite <- E1 in H. exact H.
Qed.

(** X12: from the roster to the pay.  After a sync of the roster of a month
    into a count collection with fresh identifiers, the weekday overtime
    of an employee of the roster is computed, under a positive hourly rate
    of the month's rule, from as many hours as the employee has weekday
    appearances, and the amount is those hours times the rate; under a
    rate that is not positive, or without a rule, hours and amount are 0.
    The rule reported is the one stored before the sync. *)
Theorem sync_then_weekday_overtime_pay :
  forall (y m : Z) (rows : list row) (actor : str) (st : notion)
         (emp : str) (hours : Q),
    truthy (OVERTIME_COUNT_DB_ID cfg) = true ->
    fresh_ids (OVERTIME_COUNT_DB st) (next_id st) ->
    title_key_apart (OVERTIME_COUNT_DB st) = true ->
    dict_get emp (calc_overtime_hours_from_duty_rows y m rows) = Some hours ->
    let s1 := snd (sync_overtime_count_from_duty_rows y m rows actor st) in
    let rule := get_overtime_rule y m st in
    let ot := calc_weekday_ot_from_duty emp y m s1 in
    ot_rule ot = rule
    /\ hours = inject_Z (weekday_appearances y m rows emp)
    /\ ((0 < hourly_rate rule)%Q ->
        ot_hours ot = hours
        /\ ot_amount ot = (hours * hourly_rate rule)%Q)
    /\ (~ (0 < hourly_rate rule)%Q ->
        ot_hours ot = 0%Q /\ ot_amount ot = 0%Q).
Proof.
  intros y m rows actor st emp hours Hcfg Hf Ha Hget s1 rule ot.
  pose proof (sync_get_hours y m rows actor st emp hours Hcfg Hf Ha Hget)
    as Hhours.
  fold s1 in Hhours.
  assert (Hrule : get_overtime_rule y m s1 = rule).
  { apply get_overtime_rule_db.
    destruct (sync_frame y m rows actor st) as [E _]. exact E. }
  assert (Hst : stripped emp).
  { destruct (calc_overtime_hours_keys y m rows) as [_ Hall].
    rewrite Forall_forall in Hall. apply Hall.
    apply in_map_iff. exists (emp, hours). split; [reflexivity|].
    apply dict_get_in; assumption. }
  destruct Hst as [Hs Ht].
  assert (Hh : or_float (Some hours) 0 = hours).
  { pose proof (calc_overtime_hours_plain y m rows) as Hp.
    rewrite Forall_forall in Hp.
    apply (Hp (emp, hours)). apply dict_get_in; assumption. }
  assert (Happ : hours = inject_Z (weekday_appearances y m rows emp)).
  { rewrite calc_overtime_hours_counted in Hget. unfold count_entry in Hget.
    destruct (weekday_appearances y m rows emp =? 0); [discriminate|].
    inversion Hget. reflexivity. }
  subst ot. unfold calc_weekday_ot_from_duty.
  rewrite Hs, Ht, Hcfg, Hrule, Hhours, Hh. cbn [negb orb].
  split; [destruct (Qle_bool _ 0); reflexivity|]. split; [exact Happ|].
  unfold or_float. split.
  - intros Hpos.
    assert (E0 : Qeq_bool (hourly_rate rule) 0 = false).
    { destruct (Qeq_bool (hourly_rate rule) 0) eqn:E; [|reflexivity].
      apply Qeq_bool_iff in E. rewrite E in Hpos.
      exfalso. apply (Qlt_irrefl 0). exact Hpos. }
    rewrite E0.
    assert (E1 : Qle_bool (hourly_rate rule) 0 = false).
    { destruct (Qle_bool (hourly_rate rule) 0) eqn:E; [|reflexivity].
      apply Qle_bool_iff in E. exfalso.
      apply (Qlt_irrefl 0). eapply Qlt_le_trans; eassumption. }
    rewrite E1. split; reflexivity.
  - intros Hneg.
    assert (E1 : Qle_bool (if Qeq_bool (hourly_rate rule) 0 then 0%Q
                           else hourly_rate rule) 0 = true).
    { destruct (Qeq_bool (hourly_rate rule) 0); [reflexivity|].
      apply Qle_bool_iff. apply Qnot_lt_le. exact Hneg. }
    rewrite E1. split; reflexivity.
Qed.

(** *** The range of a month *)

(** X13: [_month_range(y, m)] is defined for the months 1 to 12 of the
    years 1 to 9999, December 9999 apart, whose end would be a date of
    year 10000; its start is the first day of the month and its end the
    first day of the next one; and a date lies in [start, end) exactly when
    it is a date of that year and month. *)
Theorem month_range_covers_the_month :
  (forall y m : Z,
      _month_range y m
      = if (1 <=? y) && (y <=? 9999) && (1 <=? m) && (m <=? 12)
           && negb ((y =? 9999) && (m =? 12))
        then Some (mkdate y m 1,
                   if m =? 12 then mkdate (y + 1) 1 1 else mkdate y (m + 1) 1)
        else None)
  /\ (forall (y m : Z) (start_d end_d d : date),
         _month_range y m = Some (start_d, end_d) ->
         valid_ymd (year d) (month d) (day d) = true ->
         date_leb start_d d && date_ltb d end_d
         = (year d =? y) && (month d =? m)).
Proof.
  assert (R : forall y m : Z,
             _month_range y m
             = if (1 <=? y) && (y <=? 9999) && (1 <=? m) && (m <=? 12)
                  && negb ((y =? 9999) && (m =? 12))
               then Some (mkdate y m 1,
                          if m =? 12 then mkdate (y + 1) 1 1
                          else mkdate y (m + 1) 1)
               else None).
  { intros y m. unfold _month_range, make_date, valid_ymd.
    assert (D : forall yy mm, 1 <= mm <= 12 -> 1 <= _days_in_month yy mm).
    { intros yy mm Hm. unfold _days_in_month.
      destruct ((mm =? 2) && _is_leap yy); [lia|].
      assert (C : mm = 1 \/ mm = 2 \/ mm = 3 \/ mm = 4 \/ mm = 5 \/ mm = 6
                  \/ mm = 7 \/ mm = 8 \/ mm = 9 \/ mm = 10 \/ mm = 11
                  \/ mm = 12) by lia.
      destruct C as [->|[->|[->|[->|[->|[->|[->|[->|[->|[->|[->| ->]]]]]]]]]]];
        simpl; lia. }
    destruct (Z.leb_spec 1 y), (Z.leb_spec y 9999), (Z.leb_spec 1 m),
      (Z.leb_spec m 12); cbn [andb]; try reflexivity.
    assert (Hdim : (1 <=? _days_in_month y m) = true)
      by (apply Z.leb_le, D; lia).
    rewrite Hdim. cbn [andb].
    destruct (Z.eqb_spec m 12) as [->|Hm].
    - destruct (Z.eqb_spec y 9999) as [->|Hy]; cbn [andb negb];
        [reflexivity|].
      replace (1 <=? y + 1) with true by (symmetry; apply Z.leb_le; lia).
      replace (y + 1 <=? 9999) with true by (symmetry; apply Z.leb_le; lia).
      reflexivity.
    - rewrite andb_false_r. cbn [negb].
      replace (1 <=? y) with true by (symmetry; apply Z.leb_le; lia).
      replace (y <=? 9999) with true by (symmetry; apply Z.leb_le; lia).
      replace (1 <=? m + 1) with true by (symmetry; apply Z.leb_le; lia).
      replace (m + 1 <=? 12) with true by (symmetry; apply Z.leb_le; lia).
      replace (1 <=? _days_in_month y (m + 1)) with true
        by (symmetry; apply Z.leb_le, D; lia).
      reflexivity. }
  split; [exact R|].
  intros y m start_d end_d d Hrange Hvalid. rewrite R in Hrange.
  destruct ((1 <=? y) && (y <=? 9999) && (1 <=? m) && (m <=? 12)
            && negb ((y =? 9999) && (m =? 12))) eqn:Hok; [|discriminate].
  inversion Hrange; subst start_d end_d; clear Hrange.
  unfold valid_ymd in Hvalid.
  repeat (apply andb_true_iff in Hvalid; destruct Hvalid as [Hvalid ?]).
  repeat (apply andb_true_iff in Hok; destruct Hok as [Hok ?]).
  unfold date_leb, date_ltb. destruct d as [yd md dd]. cbn [year month day] in *.
  destruct (Z.eqb_spec m 12) as [->|Hm]; cbn [year month day].
  - destruct (Z.ltb_spec yd y), (Z.eqb_spec yd y), (Z.ltb_spec md 12),
      (Z.eqb_spec md 12), (Z.ltb_spec dd 1), (Z.ltb_spec yd (y + 1)),
      (Z.eqb_spec yd (y + 1)), (Z.ltb_spec md 1), (Z.eqb_spec md 1);
      cbn [andb orb negb]; try reflexivity; lia.
  - destruct (Z.ltb_spec yd y), (Z.eqb_spec yd y), (Z.ltb_spec md m),
      (Z.eqb_spec md m), (Z.ltb_spec dd 1), (Z.ltb_spec md (m + 1)),
      (Z.eqb_spec md (m + 1)); cbn [andb orb negb]; try reflexivity; lia.
Qed.

(** *** Table columns *)

Lemma dict_get_filter {V : Type} (f : str -> bool) (k : str) (d : dict V) :
  dict_get k (filter (fun kv : str * V => f (fst kv)) d)
  = if f k then dict_get k d else None.
Proof.
  induction d as [|[k' v'] d IH]; cbn [filter fst dict_get].
  - destruct (f k); reflexivity.
  - destruct (f k') eqn:Ek'; cbn [dict_get]; rewrite IH;
      destruct (PyStr.eqb k k') eqn:E; try reflexivity;
      apply eqb_eq in E; subst k'; rewrite Ek'; reflexivity.
Qed.

Lemma filter_twice {A : Type} (f : A -> bool) (l : list A) :
  filter f (filter f l) = filter f l.
Proof.
  induction l as [|x l IH]; [reflexivity|].
  cbn [filter]. destruct (f x) eqn:E; [|exact IH].
  cbn [filter]. rewrite E, IH. reflexivity.
Qed.

(** X14: [strip_meta_columns] gives no row for missing rows; otherwise it
    gives one row for each row, in order, in which the columns 建立時間
    and 最後更新時間 are gone and every other column keeps its place and
    its value; applied to its own result it changes nothing. *)
Theorem strip_meta_columns_drops_only_meta :
  forall (V : Type),
    strip_meta_columns (@None (list (dict V))) = []
    /\ forall rows : list (dict V),
         let out := strip_meta_columns (Some rows) in
         List.length out = List.length rows
         /\ (forall (i : nat) (r : dict V),
                nth_error rows i = Some r ->
                exists r' : dict V,
                  nth_error out i = Some r'
                  /\ dict_keys r'
                     = filter (fun k => negb (PyStr.mem k META_COLUMNS))
                              (dict_keys r)
                  /\ forall k : str,
                       dict_get k r'
                       = if PyStr.mem k META_COLUMNS then None
                         else dict_get k r)
         /\ strip_meta_columns (Some out) = out.
Proof.
  intros V. split; [reflexivity|]. intros rows out. subst out.
  unfold strip_meta_columns. split; [apply length_map|]. split.
  - intros i r Hi.
    exists (filter (fun kv : str * V => negb (PyStr.mem (fst kv) META_COLUMNS))
                   r).
    split; [apply map_nth_error; exact Hi|]. split.
    + unfold dict_keys. clear Hi. induction r as [|[k v] r IH]; [reflexivity|].
      cbn [filter map fst]. destruct (PyStr.mem k META_COLUMNS);
        cbn [negb map fst]; rewrite IH; reflexivity.
    + intros k.
      rewrite (dict_get_filter (fun k => negb (PyStr.mem k META_COLUMNS))).
      destruct (PyStr.mem k META_COLUMNS); reflexivity.
  - rewrite map_map. apply map_ext. intros r. apply filter_twice.
Qed.

(** *** Roster cells: the loader and the editor *)

Lemma mem_in (x : str) (l : list str) : PyStr.mem x l = true <-> In x l.
Proof.
  unfold PyStr.mem. rewrite existsb_exists. split.
  - intros (y & Hy & E). apply eqb_eq in E. subst. exact Hy.
  - intros H. exists x. split; [exact H | apply eqb_refl].
Qed.

Lemma first_occurrences_spec (parts : list str) :
  forall seen : list str,
    NoDup (first_occurrences seen parts)
    /\ forall n, In n (first_occurrences seen parts)
                 <-> In n parts /\ ~ In n seen.
Proof.
  induction parts as [|p rest IH]; intros seen; cbn [first_occurrences].
  - split; [constructor|]. intros n. simpl. prop_tauto.
  - destruct (PyStr.mem p seen) eqn:Em.
    + apply mem_in in Em. destruct (IH seen) as [Hnd Hin].
      split; [exact Hnd|]. intros n. rewrite Hin. simpl. split.
      * intros [H1 H2]. auto.
      * intros [[->|H1] H2]; [contradiction | auto].
    + assert (Hp : ~ In p seen).
      { intros H. apply mem_in in H. congruence. }
      destruct (IH (p :: seen)) as [Hnd Hin]. split.
      * constructor; [|exact Hnd]. rewrite Hin. simpl. intros [_ H].
        apply H. left. reflexivity.
      * intros n. simpl. rewrite Hin. simpl. split.
        -- intros [<-|[H1 H2]]; [auto|]. split; [auto|].
           intros H. apply H2. right. exact H.
        -- intros [[<-|H1] H2]; [left; reflexivity|].
           destruct (PyStr.eqb p n) eqn:E.
           ++ apply eqb_eq in E. left. exact E.
           ++ apply eqb_neq in E. right. split; [exact H1|].
              intros [H|H]; [congruence | auto].
Qed.

Lemma first_occurrences_nodup (parts : list str) :
  forall seen : list str,
    NoDup parts -> (forall n, In n parts -> ~ In n seen) ->
    first_occurrences seen parts = parts.
Proof.
  induction parts as [|p rest IH]; intros seen Hnd Hseen; [reflexivity|].
  cbn [first_occurrences]. inversion Hnd as [|? ? Hp Hrest]; subst.
  destruct (PyStr.mem p seen) eqn:Em.
  - apply mem_in in Em. exfalso. apply (Hseen p); [left; reflexivity | exact Em].
  - f_equal. apply IH; [exact Hrest|].
    intros n Hn [<-|H]; [contradiction|].
    apply (Hseen n); [right; exact Hn | exact H].
Qed.

Lemma occurrences_nodup (e : str) (l : list str) :
  NoDup l -> occurrences e l = if PyStr.mem e l then 1 else 0.
Proof.
  unfold occurrences, PyStr.mem. induction l as [|x l IH]; [reflexivity|].
  intros Hnd. inversion Hnd as [|? ? Hx Hrest]; subst.
  cbn [filter existsb]. destruct (PyStr.eqb e x) eqn:E; cbn [orb].
  - apply eqb_eq in E. subst x.
    assert (Hnone : existsb (PyStr.eqb e) l = false).
    { destruct (existsb (PyStr.eqb e) l) eqn:Ex; [|reflexivity].
      exfalso. apply Hx. apply mem_in. exact Ex. }
    specialize (IH Hrest). rewrite Hnone in IH.
    cbn [List.length]. lia.
  - apply IH. exact Hrest.
Qed.

(** X15: the loader of a stored roster cell, [_split_names], returns the
    names [_parse_names_cell] returns for the same text with the
    repetitions dropped: each name once, at the place of its first
    occurrence.  The two agree when no name is repeated; a name written
    several times in one cell, which the weekday count takes once for each
    time, is one name after the cell has been loaded. *)
Theorem split_names_keeps_first_occurrences :
  _split_names None = []
  /\ forall s : str,
       let names := _parse_names_cell (Some (CStr s)) in
       let loaded := _split_names (Some s) in
       loaded = first_occurrences [] names
       /\ NoDup loaded
       /\ (forall n, In n loaded <-> In n names)
       /\ (NoDup names -> loaded = names)
       /\ (forall e, occurrences e loaded
                      = if PyStr.mem e names then 1 else 0).
Proof.
  split; [reflexivity|]. intros s names loaded.
  assert (E : loaded = first_occurrences [] names).
  { subst loaded names. unfold _split_names, _parse_names_cell,
      parse_names_str, or_str.
    destruct s as [|c s]; [reflexivity|]. cbn [truthy].
    destruct (negb (truthy (strip (c :: s)))); reflexivity. }
  destruct (first_occurrences_spec names []) as [Hnd Hin].
  rewrite <- E in Hnd, Hin.
  split; [exact E|]. split; [exact Hnd|].
  assert (Hsame : forall n, In n loaded <-> In n names).
  { intros n. rewrite Hin. simpl. prop_tauto. }
  split; [exact Hsame|]. split.
  - intros H. rewrite E. apply first_occurrences_nodup; auto.
  - intros e. rewrite (occurrences_nodup e loaded Hnd).
    destruct (PyStr.mem e names) eqn:Em.
    + replace (PyStr.mem e loaded) with true; [reflexivity|].
      symmetry. apply mem_in, Hsame, mem_in. exact Em.
    + replace (PyStr.mem e loaded) with false; [reflexivity|].
      symmetry. destruct (PyStr.mem e loaded) eqn:El; [|reflexivity].
      apply mem_in, Hsame, mem_in in El. congruence.
Qed.

Lemma forallb_lstrip (P : N -> bool) (s : str) :
  forallb P s = true -> forallb P (lstrip s) = true.
Proof.
  induction s as [|c s IH]; [reflexivity|].
  cbn [forallb lstrip]. rewrite andb_true_iff. intros [Hc Hs].
  destruct (isspace c); [auto|]. cbn [forallb]. rewrite Hc, Hs. reflexivity.
Qed.

Lemma forallb_rstrip (P : N -> bool) (s : str) :
  forallb P s = true -> forallb P (rstrip s) = true.
Proof.
  induction s as [|c s IH]; [reflexivity|].
  cbn [forallb]. rewrite andb_true_iff. intros [Hc Hs].
  rewrite rstrip_cons. specialize (IH Hs).
  destruct (rstrip s) as [|x r].
  - destruct (isspace c); [reflexivity|]. cbn [forallb]. rewrite Hc.
    reflexivity.
  - cbn [forallb] in *. rewrite Hc, IH. reflexivity.
Qed.

Lemma forallb_strip (P : N -> bool) (s : str) :
  forallb P s = true -> forallb P (strip s) = true.
Proof. intros H. apply forallb_rstrip, forallb_lstrip, H. Qed.

Lemma rstrip_last (s u : str) (d : N) :
  rstrip s = u ++ [d] -> isspace d = false.
Proof.
  revert u. induction s as [|c s IH]; intros u; [destruct u; discriminate|].
  rewrite rstrip_cons. destruct (rstrip s) as [|x r] eqn:Er.
  - destruct (isspace c) eqn:Ec; [destruct u; discriminate|].
    destruct u as [|a u]; [|destruct u; discriminate].
    intros E. inversion E. subst. exact Ec.
  - destruct u as [|a u].
    + intros E. inversion E.
    + intros E. inversion E. apply (IH u). assumption.
Qed.

(** A name without surrounding white space begins and ends with a
    character that is not white space. *)
Lemma stripped_ends (n : str) :
  stripped n ->
  (exists c t, n = c :: t /\ isspace c = false)
  /\ (exists u d, n = u ++ [d] /\ isspace d = false).
Proof.
  intros [Hs Ht]. unfold strip in Hs. split.
  - destruct (lstrip_head n) as [E|(c & t & E & Hc)].
    + rewrite E in Hs. simpl in Hs. subst n. discriminate.
    + rewrite E in Hs. destruct (rstrip_head c t Hc) as [r Er].
      rewrite Er in Hs. exists c, r. split; [symmetry; exact Hs | exact Hc].
  - assert (Hne : n <> []) by (destruct n; [discriminate | discriminate]).
    destruct (exists_last Hne) as (u & d & E). exists u, d.
    split; [exact E|]. apply (rstrip_last (lstrip n) u). congruence.
Qed.

Lemma strip_ends (s : str) :
  (exists c t, s = c :: t /\ isspace c = false) ->
  (exists u d, s = u ++ [d] /\ isspace d = false) ->
  strip s = s.
Proof.
  intros (c & t & E1 & Hc) (u & d & E2 & Hd).
  unfold strip. rewrite E1, (lstrip_nonspace c t Hc), <- E1, E2.
  apply rstrip_nonspace_last. exact Hd.
Qed.

Lemma join_ends (sep : N) (names : list str) :
  names <> [] -> Forall stripped names ->
  (exists c t, join sep names = c :: t /\ isspace c = false)
  /\ (exists u d, join sep names = u ++ [d] /\ isspace d = false).
Proof.
  induction names as [|n rest IH]; [congruence|]. intros _ Hall.
  inversion Hall as [|? ? Hn Hrest]; subst.
  destruct (stripped_ends n Hn) as [(c & t & E1 & Hc) (u & d & E2 & Hd)].
  destruct rest as [|n' rest'].
  - cbn [join]. split; [exists c, t | exists u, d]; auto.
  - rewrite join_cons by discriminate. split.
    + rewrite E1. exists c. eexists. split; [reflexivity | exact Hc].
    + destruct IH as [_ (u' & d' & E' & Hd')]; [discriminate | exact Hrest|].
      rewrite E'. exists (n ++ sep :: u'), d'. split; [|exact Hd'].
      rewrite <- app_assoc. reflexivity.
Qed.

Lemma map_strip_stripped (names : list str) :
  Forall stripped names -> filter truthy (map strip names) = names.
Proof.
  induction names as [|n rest IH]; [reflexivity|]. intros Hall.
  inversion Hall as [|? ? [Hs Ht] Hrest]; subst.
  cbn [map filter]. rewrite Hs, Ht, (IH Hrest). reflexivity.
Qed.

(** The fields of a split hold the characters of the text that are not the
    separator. *)
Lemma split_fields (P : N -> bool) (sep : N) (s : str) :
  (forall c, In c s -> c <> sep -> P c = true) ->
  Forall (fun w => forallb P w = true) (split sep s).
Proof.
  induction s as [|c s IH]; intros H; [repeat constructor|].
  cbn [split]. assert (IH' := IH (fun x Hx => H x (or_intror Hx))).
  destruct (N.eqb_spec c sep) as [E|E].
  - constructor; [reflexivity | exact IH'].
  - destruct (split sep s) as [|w ws]; [repeat constructor; simpl|].
    + rewrite (H c (or_introl eq_refl) E). reflexivity.
    + inversion IH' as [|? ? Hw Hws]; subst. constructor; [|exact Hws].
      cbn [forallb]. rewrite (H c (or_introl eq_refl) E), Hw. reflexivity.
Qed.

Lemma name_char_parts (c : N) :
  name_char c = true -> (c =? SPACE)%N = false /\ is_separator c = false.
Proof.
  unfold name_char. rewrite andb_true_iff, !negb_true_iff. prop_tauto.
Qed.

Lemma parse_names_chars (s : str) :
  Forall (fun n => forallb name_char n = true) (parse_names_str s).
Proof.
  unfold parse_names_str. destruct (negb (truthy (strip s))); [constructor|].
  rewrite replace_separators.
  assert (H : Forall (fun w => forallb name_char w = true)
                     (split SPACE (map sep_to_space (strip s)))).
  { apply split_fields. intros c Hc Hne. apply in_map_iff in Hc.
    destruct Hc as (c0 & <- & _). unfold name_char, sep_to_space in *.
    destruct (is_separator c0) eqn:E0; [congruence|].
    rewrite E0. apply N.eqb_neq in Hne. rewrite Hne. reflexivity. }
  induction H as [|w ws Hw Hws IH]; [constructor|].
  cbn [map filter]. destruct (truthy (strip w)); [|exact IH].
  constructor; [apply forallb_strip; exact Hw | exact IH].
Qed.

Lemma join_spaced_chars (sep : N) (names : list str) :
  In sep (SPACE :: name_separators) ->
  Forall (fun n => forallb name_char n = true) names ->
  map sep_to_space (join sep names) = join SPACE names.
Proof.
  intros Hsep. induction names as [|n rest IH]; [reflexivity|]. intros Hall.
  inversion Hall as [|? ? Hn Hrest]; subst.
  assert (En : map sep_to_space n = n).
  { rewrite <- (map_id n) at 2. apply map_ext_in. intros c Hc.
    rewrite forallb_forall in Hn. destruct (name_char_parts c (Hn c Hc)) as [_ E].
    unfold sep_to_space. rewrite E. reflexivity. }
  destruct rest as [|n' rest'].
  - exact En.
  - rewrite !join_cons by discriminate.
    rewrite map_app, map_cons, En, (IH Hrest).
    replace (sep_to_space sep) with SPACE; [reflexivity|].
    simpl in Hsep.
    repeat (destruct Hsep as [<- | Hsep]; [reflexivity|]). contradiction.
Qed.

Lemma split_join_chars (names : list str) :
  names <> [] -> Forall (fun n => forallb name_char n = true) names ->
  split SPACE (join SPACE names) = names.
Proof.
  induction names as [|n rest IH]; [congruence|]. intros _ Hall.
  inversion Hall as [|? ? Hn Hrest]; subst.
  assert (Hsp : forallb (fun c => negb (c =? SPACE)%N) n = true).
  { rewrite forallb_forall in *. intros c Hc.
    destruct (name_char_parts c (Hn c Hc)) as [E _]. rewrite E. reflexivity. }
  destruct rest as [|n' rest'].
  - cbn [join]. apply split_no_sep. exact Hsp.
  - rewrite join_cons by discriminate.
    rewrite split_app_sep by exact Hsp.
    rewrite IH; [reflexivity | discriminate | exact Hrest].
Qed.

Lemma parse_names_join_again (sep : N) (names : list str) :
  In sep (SPACE :: name_separators) ->
  Forall stripped names ->
  Forall (fun n => forallb name_char n = true) names ->
  parse_names_str (join sep names) = names.
Proof.
  intros Hsep Hst Hch. destruct names as [|n rest]; [reflexivity|].
  assert (Hne : n :: rest <> []) by discriminate.
  destruct (join_ends sep (n :: rest) Hne Hst) as [Hfirst Hlast].
  unfold parse_names_str. rewrite (strip_ends _ Hfirst Hlast).
  destruct Hfirst as (c & t & E1 & _).
  replace (truthy (join sep (n :: rest))) with true
    by (rewrite E1; reflexivity).
  cbn [negb]. rewrite replace_separators, (join_spaced_chars sep _ Hsep Hch).
  rewrite (split_join_chars _ Hne Hch). apply map_strip_stripped. exact Hst.
Qed.

(** X16: the names [_parse_names_cell] returns are never blank and have
    no white space around them; those it takes from a text hold neither a
    half-width space nor a listed separator.  Its results are stable:
    handed back as a list, or joined by any listed separator or by a space
    and split again, they come out as they went in. *)
Theorem parse_names_cell_is_stable :
  (forall v : option cell, Forall stripped (_parse_names_cell v))
  /\ (forall s : str,
         Forall (fun n => forallb name_char n = true)
                (_parse_names_cell (Some (CStr s))))
  /\ (forall v : option cell,
         _parse_names_cell (Some (CList (_parse_names_cell v)))
         = _parse_names_cell v)
  /\ (forall (s : str) (sep : N),
         In sep (SPACE :: name_separators) ->
         _parse_names_cell
           (Some (CStr (join sep (_parse_names_cell (Some (CStr s))))))
         = _parse_names_cell (Some (CStr s))).
Proof.
  split; [exact parse_names_stripped|]. split; [|split].
  - intros s. apply parse_names_chars.
  - intros v. pose proof (parse_names_stripped v) as H.
    set (l := _parse_names_cell v) in *.
    change (filter truthy (map strip l) = l).
    apply map_strip_stripped. exact H.
  - intros s sep Hsep.
    pose proof (parse_names_stripped (Some (CStr s))) as H1.
    pose proof (parse_names_chars s) as H2.
    change (_parse_names_cell (Some (CStr s))) with (parse_names_str s) in *.
    set (l := parse_names_str s) in *.
    change (parse_names_str (join sep l) = l).
    apply parse_names_join_again; assumption.
Qed.

Lemma people_char_parts (c : N) :
  people_char c = true -> is_people_separator c = false /\ isspace c = false.
Proof.
  unfold people_char. rewrite andb_true_iff, !negb_true_iff. prop_tauto.
Qed.

Lemma re_split_fields (s : str) :
  forall r : run,
    Forall (fun w => forallb people_char w = true) (re_split_people r s).
Proof.
  induction s as [|c s IH]; intros r; [repeat constructor|].
  cbn [re_split_people].
  destruct (is_people_separator c) eqn:E1.
  - destruct r; try (constructor; [reflexivity|]); apply IH.
  - destruct (isspace c) eqn:E2.
    + destruct r; try (constructor; [reflexivity|]); apply IH.
    + specialize (IH NoRun).
      assert (Hc : people_char c = true)
        by (unfold people_char; rewrite E1, E2; reflexivity).
      destruct (re_split_people NoRun s) as [|w ws].
      * repeat constructor. cbn [forallb]. rewrite Hc. reflexivity.
      * inversion IH as [|? ? Hw Hws]; subst. constructor; [|exact Hws].
        cbn [forallb]. rewrite Hc, Hw. reflexivity.
Qed.

Lemma strip_people_chars (w : str) :
  forallb people_char w = true -> strip w = w.
Proof.
  intros H.
  assert (Hsp : forallb (fun c => negb (isspace c)) w = true).
  { rewrite forallb_forall in *. intros c Hc.
    destruct (people_char_parts c (H c Hc)) as [_ E]. rewrite E. reflexivity. }
  unfold strip. destruct w as [|c w]; [reflexivity|].
  cbn [forallb] in Hsp. apply andb_true_iff in Hsp. destruct Hsp as [Hc Hw].
  apply negb_true_iff in Hc. rewrite (lstrip_nonspace c w Hc).
  apply rstrip_all_nonspace. cbn [forallb]. rewrite Hc, Hw. reflexivity.
Qed.

Lemma people_names (l : list str) :
  Forall (fun w => forallb people_char w = true) l ->
  filter truthy (map strip l) = filter truthy l
  /\ Forall stripped (filter truthy l)
  /\ Forall (fun w => forallb people_char w = true) (filter truthy l).
Proof.
  induction 1 as [|w ws Hw Hws (IH1 & IH2 & IH3)];
    [repeat split; constructor|].
  cbn [map filter]. rewrite (strip_people_chars w Hw), IH1.
  destruct (truthy w) eqn:Et; repeat split; try assumption;
    constructor; try assumption.
  split; [apply strip_people_chars; exact Hw | exact Et].
Qed.

Lemma re_split_plain (n : str) :
  forallb people_char n = true ->
  forall r : run, re_split_people r n = [n].
Proof.
  induction n as [|c n IH]; intros H r; [reflexivity|].
  cbn [forallb] in H. apply andb_true_iff in H. destruct H as [Hc Hn].
  destruct (people_char_parts c Hc) as [E1 E2].
  cbn [re_split_people]. rewrite E1, E2, (IH Hn NoRun). reflexivity.
Qed.

Lemma re_split_plain_sep (n t : str) (sep : N) :
  forallb people_char n = true -> is_people_separator sep = true ->
  re_split_people NoRun (n ++ sep :: t) = n :: re_split_people SepRun t.
Proof.
  intros Hn Hsep. induction n as [|c n IH].
  - cbn [app re_split_people]. rewrite Hsep. reflexivity.
  - cbn [forallb] in Hn. apply andb_true_iff in Hn. destruct Hn as [Hc Hn].
    destruct (people_char_parts c Hc) as [E1 E2].
    cbn [app re_split_people]. rewrite E1, E2, (IH Hn). reflexivity.
Qed.

Lemma re_split_first_plain (c : N) (t : str) (r : run) :
  people_char c = true ->
  re_split_people r (c :: t) = re_split_people NoRun (c :: t).
Proof.
  intros Hc. destruct (people_char_parts c Hc) as [E1 E2].
  cbn [re_split_people]. rewrite E1, E2. reflexivity.
Qed.

Lemma re_split_join (names : list str) :
  names <> [] ->
  Forall (fun w => forallb people_char w = true) names ->
  Forall (fun w => truthy w = true) names ->
  re_split_people NoRun (join 12289 names) = names.
Proof.
  induction names as [|n rest IH]; [congruence|]. intros _ Hch Hne.
  inversion Hch as [|? ? Hn Hrest]; subst.
  inversion Hne as [|? ? Tn Trest]; subst.
  destruct rest as [|n' rest'].
  - cbn [join]. apply re_split_plain. exact Hn.
  - rewrite join_cons by discriminate.
    rewrite re_split_plain_sep by (try exact Hn; reflexivity).
    f_equal.
    assert (IH' := IH ltac:(discriminate) Hrest Trest).
    inversion Hrest as [|? ? Hn' _]; subst.
    inversion Trest as [|? ? Tn' _]; subst.
    destruct n' as [|c n']; [discriminate Tn'|].
    assert (Hc : people_char c = true).
    { cbn [forallb] in Hn'. apply andb_true_iff in Hn'. apply Hn'. }
    etransitivity; [|exact IH'].
    destruct rest'; cbn [join app]; apply re_split_first_plain; exact Hc.
Qed.

Lemma join_people_chars (names : list str) :
  Forall (fun w => forallb people_char w = true) names ->
  forallb (fun c => negb (isspace c)) (join 12289 names) = true.
Proof.
  induction names as [|n rest IH]; [reflexivity|]. intros Hall.
  inversion Hall as [|? ? Hn Hrest]; subst.
  assert (Hsp : forallb (fun c => negb (isspace c)) n = true).
  { rewrite forallb_forall in *. intros c Hc.
    destruct (people_char_parts c (Hn c Hc)) as [_ E]. rewrite E. reflexivity. }
  destruct rest as [|n' rest'].
  - exact Hsp.
  - rewrite join_cons by discriminate. rewrite forallb_app, Hsp.
    cbn [forallb andb]. apply (IH Hrest).
Qed.

(** What the editor's splitter returns for a text. *)
Lemma normalize_text (s : str) :
  let names := normalize_multi_people_cell (Some (CStr s)) in
  Forall stripped names
  /\ Forall (fun w => forallb people_char w = true) names
  /\ Forall (fun w => truthy w = true) names.
Proof.
  cbv zeta. cbn [normalize_multi_people_cell].
  destruct (negb (truthy (strip s))); [repeat split; constructor|].
  destruct (people_names _ (re_split_fields (strip s) NoRun))
    as (E & H1 & H2).
  rewrite E. split; [exact H1|]. split; [exact H2|].
  apply Forall_forall. intros w Hw. apply filter_In in Hw. apply Hw.
Qed.

(** X17: the names [normalize_multi_people_cell] returns are never blank
    and have no white space around them; those it takes from a text hold no
    white space and none of the characters 、 , ， and /, so that the slash,
    which [_parse_names_cell] keeps inside a name, separates names here.
    Its results are stable: handed back as a list, or joined by 、 as the
    spreadsheet export writes them and split again, they come out as they
    went in. *)
Theorem normalize_multi_people_cell_is_stable :
  (forall v : option cell, Forall stripped (normalize_multi_people_cell v))
  /\ (forall s : str,
         Forall (fun w => forallb people_char w = true)
                (normalize_multi_people_cell (Some (CStr s))))
  /\ (forall v : option cell,
         normalize_multi_people_cell
           (Some (CList (normalize_multi_people_cell v)))
         = normalize_multi_people_cell v)
  /\ (forall s : str,
         normalize_multi_people_cell
           (Some (CStr (join 12289
                          (normalize_multi_people_cell (Some (CStr s))))))
         = normalize_multi_people_cell (Some (CStr s)))
  /\ normalize_multi_people_cell (Some (CStr (utf8 "A/B")))
     = [utf8 "A"; utf8 "B"].
Proof.
  assert (S : forall v, Forall stripped (normalize_multi_people_cell v)).
  { intros [[| z | s | l]|]; try constructor.
    - cbn [normalize_multi_people_cell].
      destruct (truthy (strip (str_of_Z z))) eqn:E; constructor;
        [|constructor]. split; [apply strip_idem | exact E].
    - apply (normalize_text s).
    - apply filter_strip_stripped. }
  split; [exact S|]. split; [intros s; apply (normalize_text s)|].
  split; [|split; [|vm_compute; reflexivity]].
  - intros v. pose proof (S v) as H.
    set (l := normalize_multi_people_cell v) in *.
    change (filter truthy (map strip l) = l).
    apply map_strip_stripped. exact H.
  - intros s. destruct (normalize_text s) as (H1 & H2 & H3).
    set (l := normalize_multi_people_cell (Some (CStr s))) in *.
    clearbody l. destruct l as [|n rest]; [reflexivity|].
    assert (Hne : n :: rest <> []) by discriminate.
    cbn [normalize_multi_people_cell].
    assert (Hj : strip (join 12289 (n :: rest)) = join 12289 (n :: rest)).
    { pose proof (join_people_chars _ H2) as Hsp.
      unfold strip. destruct (join 12289 (n :: rest)) as [|c t];
        [reflexivity|].
      cbn [forallb] in Hsp. apply andb_true_iff in Hsp.
      destruct Hsp as [Hc Ht]. apply negb_true_iff in Hc.
      rewrite (lstrip_nonspace c t Hc). apply rstrip_all_nonspace.
      cbn [forallb]. rewrite Hc, Ht. reflexivity. }
    rewrite Hj.
    assert (Ht : truthy (join 12289 (n :: rest)) = true).
    { inversion H3 as [|? ? Tn _]; subst.
      destruct n; [discriminate|]. destruct rest; reflexivity. }
    rewrite Ht. cbn [negb].
    rewrite (re_split_join _ Hne H2 H3). apply map_strip_stripped. exact H1.
Qed.

(** *** The empty roster of a month *)

Lemma days_in_month_range (y m : Z) :
  1 <= m <= 12 -> 28 <= _days_in_month y m <= 31.
Proof.
  intros Hm. unfold _days_in_month.
  destruct ((m =? 2) && _is_leap y); [lia|].
  assert (C : m = 1 \/ m = 2 \/ m = 3 \/ m = 4 \/ m = 5 \/ m = 6 \/ m = 7
              \/ m = 8 \/ m = 9 \/ m = 10 \/ m = 11 \/ m = 12) by lia.
  destruct C as [->|[->|[->|[->|[->|[->|[->|[->|[->|[->|[->| ->]]]]]]]]]]];
    simpl; lia.
Qed.

Lemma count_row_template (y m d : Z) (counts : dict Q) :
  count_row y m [SHIFT_INSPECT_MID; SHIFT_INSPECT_NIGHT; SHIFT_CASHIER_MID;
                 SHIFT_CASHIER_NIGHT; SHIFT_CLEANING] counts
            (template_row y m d) = counts.
Proof.
  unfold count_row.
  destruct (row_day (template_row y m d) <=? 0); [reflexivity|].
  destruct (make_date y m (row_day (template_row y m d))) as [dt|];
    [|reflexivity].
  destruct (5 <=? weekday dt); reflexivity.
Qed.

(** X18: [build_month_template] raises for a month outside 1 to 12 and
    for a year outside 1 to 9999.  Otherwise it gives one row for each day
    of the month, in order, each with the day number, a date of the month,
    and empty shift cells; the rows have the same columns, the name columns
    are the five shift columns, and the weekday count of this roster is
    empty. *)
Theorem build_month_template_is_an_empty_roster :
  (forall y m : Z,
      m < 1 \/ 12 < m \/ y < 1 \/ 9999 < y -> build_month_template y m = None)
  /\ (forall y m : Z,
         1 <= y <= 9999 -> 1 <= m <= 12 ->
         exists rows : list row,
           build_month_template y m = Some rows
           /\ Z.of_nat (List.length rows) = _days_in_month y m
           /\ (forall d : Z,
                  1 <= d <= _days_in_month y m ->
                  nth_error rows (Z.to_nat (d - 1)) = Some (template_row y m d)
                  /\ row_day (template_row y m d) = d
                  /\ make_date y m d = Some (mkdate y m d))
           /\ table rows
           /\ name_cols rows
              = [SHIFT_INSPECT_MID; SHIFT_INSPECT_NIGHT; SHIFT_CASHIER_MID;
                 SHIFT_CASHIER_NIGHT; SHIFT_CLEANING]
           /\ calc_overtime_hours_from_duty_rows y m rows = []).
Proof.
  split.
  - intros y m H. unfold build_month_template.
    destruct (Z.leb_spec 1 m), (Z.leb_spec m 12); cbn [andb negb];
      try reflexivity.
    destruct (Z.leb_spec 1 y), (Z.leb_spec y 9999); cbn [andb negb];
      try reflexivity.
    lia.
  - intros y m Hy Hm. pose proof (days_in_month_range y m Hm) as Hd.
    unfold build_month_template.
    replace (1 <=? m) with true by (symmetry; apply Z.leb_le; lia).
    replace (m <=? 12) with true by (symmetry; apply Z.leb_le; lia).
    replace (1 <=? y) with true by (symmetry; apply Z.leb_le; lia).
    replace (y <=? 9999) with true by (symmetry; apply Z.leb_le; lia).
    cbn [andb negb].
    set (n := Z.to_nat (_days_in_month y m)).
    set (rows := map (fun d => template_row y m (Z.of_nat d)) (seq 1 n)).
    assert (Hin : forall r, In r rows -> exists d, r = template_row y m d).
    { intros r Hr. apply in_map_iff in Hr. destruct Hr as (k & <- & _).
      eexists. reflexivity. }
    exists rows. split; [reflexivity|]. split; [|split; [|split; [|split]]].
    + subst rows. rewrite length_map, length_seq. subst n. lia.
    + intros d Hdd. split; [|split].
      * subst rows.
        assert (E : template_row y m d
                    = template_row y m (Z.of_nat (Z.to_nat d)))
          by (rewrite Z2Nat.id by lia; reflexivity).
        rewrite E.
        apply (map_nth_error (fun k => template_row y m (Z.of_nat k))).
        rewrite (nth_error_nth' _ 0%nat)
          by (rewrite length_seq; subst n; lia).
        rewrite seq_nth by (subst n; lia). f_equal. lia.
      * reflexivity.
      * unfold make_date, valid_ymd.
        replace (1 <=? y) with true by (symmetry; apply Z.leb_le; lia).
        replace (y <=? 9999) with true by (symmetry; apply Z.leb_le; lia).
        replace (1 <=? m) with true by (symmetry; apply Z.leb_le; lia).
        replace (m <=? 12) with true by (symmetry; apply Z.leb_le; lia).
        replace (1 <=? d) with true by (symmetry; apply Z.leb_le; lia).
        replace (d <=? _days_in_month y m) with true
          by (symmetry; apply Z.leb_le; lia).
        reflexivity.
    + intros r0 r H0 Hr.
      assert (Hr0 : In r0 rows).
      { destruct rows as [|x l]; [discriminate|]. inversion H0. left.
        reflexivity. }
      destruct (Hin r Hr) as [d ->]. destruct (Hin r0 Hr0) as [d0 ->].
      reflexivity.
    + subst rows. destruct n as [|n'] eqn:En; [subst n; lia|]. reflexivity.
    + unfold calc_overtime_hours_from_duty_rows.
      assert (Hcols : name_cols rows
                      = [SHIFT_INSPECT_MID; SHIFT_INSPECT_NIGHT;
                         SHIFT_CASHIER_MID; SHIFT_CASHIER_NIGHT;
                         SHIFT_CLEANING]).
      { subst rows. destruct n as [|n'] eqn:En; [subst n; lia|]. reflexivity. }
      rewrite Hcols. clear Hcols.
      generalize ([] : dict Q). induction rows as [|r rows IH];
        intros counts; [reflexivity|].
      cbn [fold_left]. destruct (Hin r (or_introl eq_refl)) as [d ->].
      rewrite count_row_template. apply IH.
      intros r' Hr'. apply Hin. right. exact Hr'.
Qed.

(** *** The field resolver *)

Lemma dict_has_in {V : Type} (k : str) (d : dict V) :
  dict_has k d = true <-> In k (dict_keys d).
Proof.
  unfold dict_has. destruct (dict_get k d) as [v|] eqn:E.
  - split; [intros _|reflexivity].
    destruct (in_dec (list_eq_dec N.eq_dec) k (dict_keys d)) as [H|H];
      [exact H|].
    apply dict_get_none_keys in H. congruence.
  - split; [discriminate|]. intros H. apply dict_get_none_keys in E.
    contradiction.
Qed.

(** X19: [resolve_prop_key] answers the name asked for when the schema
    has a property of exactly that name; otherwise the first property, in
    the order of the schema, whose name has the normal form of the name
    asked for (parentheses and spaces of full width taken as half width,
    spaces dropped, letters in lower case); and nothing when no property
    has that normal form.  Its answer is always a property of the schema
    with the normal form of the name asked for, and for names that are not
    properties themselves it depends on their normal form only. *)
Theorem resolve_prop_key_finds_the_key :
  forall (V : Type) (props_meta : dict V) (want : str),
    (dict_has want props_meta = true ->
     resolve_prop_key props_meta want = Some want)
    /\ (dict_has want props_meta = false ->
        resolve_prop_key props_meta want
        = find (fun k => PyStr.eqb (_norm_prop_name k) (_norm_prop_name want))
               (dict_keys props_meta))
    /\ (forall k : str,
           resolve_prop_key props_meta want = Some k ->
           In k (dict_keys props_meta)
           /\ _norm_prop_name k = _norm_prop_name want)
    /\ (resolve_prop_key props_meta want = None <->
        forall k : str,
          In k (dict_keys props_meta) ->
          _norm_prop_name k <> _norm_prop_name want)
    /\ (forall want' : str,
           dict_has want props_meta = false ->
           dict_has want' props_meta = false ->
           _norm_prop_name want' = _norm_prop_name want ->
           resolve_prop_key props_meta want'
           = resolve_prop_key props_meta want).
Proof.
  intros V props_meta want.
  assert (H1 : dict_has want props_meta = true ->
               resolve_prop_key props_meta want = Some want).
  { intros H. unfold resolve_prop_key.
    destruct props_meta; [discriminate H|]. rewrite H. reflexivity. }
  assert (H2 : forall w, dict_has w props_meta = false ->
               resolve_prop_key props_meta w
               = find (fun k => PyStr.eqb (_norm_prop_name k)
                                          (_norm_prop_name w))
                      (dict_keys props_meta)).
  { intros w H. unfold resolve_prop_key.
    destruct props_meta; [reflexivity|]. rewrite H. reflexivity. }
  split; [exact H1|]. split; [apply H2|]. split; [|split].
  - intros k Hk. split; [|apply (resolve_prop_key_norm props_meta); exact Hk].
    destruct (dict_has want props_meta) eqn:Eh.
    + rewrite (H1 eq_refl) in Hk. inversion Hk; subst.
      apply dict_has_in. exact Eh.
    + rewrite (H2 want Eh) in Hk. apply find_some in Hk. apply Hk.
  - split.
    + intros Hnone k Hin E.
      destruct (dict_has want props_meta) eqn:Eh;
        [rewrite (H1 eq_refl) in Hnone; discriminate|].
      rewrite (H2 want Eh) in Hnone.
      pose proof (find_none _ _ Hnone k Hin) as Hf. cbv beta in Hf.
      rewrite E, eqb_refl in Hf. discriminate.
    + intros Hall.
      destruct (dict_has want props_meta) eqn:Eh.
      * exfalso. apply (Hall want); [apply dict_has_in; exact Eh | reflexivity].
      * rewrite (H2 want Eh).
        destruct (find _ (dict_keys props_meta)) as [k|] eqn:Ef;
          [|reflexivity].
        apply find_some in Ef. destruct Ef as [Hin E]. apply eqb_eq in E.
        exfalso. apply (Hall k Hin E).
  - intros want' Hw Hw' E. rewrite (H2 want Hw), (H2 want' Hw'), E.
    reflexivity.
Qed.

(** *** What the lists show *)

Lemma py_int_of_eq (q : Q) (z : Z) :
  Qeq_bool q (inject_Z z) = true -> py_int q = z.
Proof.
  intros H. apply Qeq_bool_iff in H. unfold Qeq, inject_Z in H. simpl in H.
  unfold py_int. rewrite Z.mul_1_r in H. rewrite H.
  apply Z.quot_mul. discriminate.
Qed.

Lemma key_year (p : page) (k : str) (z : Z) :
  eval_filter p (FNumberEq k z) = true ->
  option_map py_int (get_number (properties p) k) = Some z.
Proof.
  cbn [eval_filter]. unfold get_number.
  destruct (dict_get k (properties p)) as [[| | [q|] | | | |]|];
    try discriminate.
  intros H. cbn [option_map]. rewrite (py_int_of_eq q z H). reflexivity.
Qed.

(** X20: [list_vacation_summary] returns rows of the vacation collection,
    at most 100 and at most the limit asked for.  For a caller who is not
    an administrator every row is a row of the employee named; with a year
    given every row is a row of that year; an administrator who gives no
    year gets the first rows of the whole collection, in the order of the
    sort. *)
Theorem list_vacation_summary_shows_own_rows :
  forall (is_admin : bool) (name : str) (y : option Z) (limit : nat)
         (st : notion),
    let rows := list_vacation_summary is_admin name y limit st in
    (List.length rows <= Nat.min limit 100)%nat
    /\ (forall r, In r rows ->
                  exists p, In p (db_pages (VACATION_DB st))
                            /\ r = vacation_row_of p)
    /\ (is_admin = false -> forall r, In r rows -> vr_name r = name)
    /\ (forall yy, y = Some yy -> forall r, In r rows -> vr_year r = Some yy)
    /\ (is_admin = true -> y = None ->
        rows = map vacation_row_of
                   (firstn (Nat.min limit 100)
                           (sort_by (number_geb K_VAC_YEAR)
                                    (db_pages (VACATION_DB st))))).
Proof.
  intros is_admin name y limit st rows. subst rows.
  unfold list_vacation_summary.
  set (flt := match _ ++ _ with [f] => f | _ => FAnd _ end).
  set (sorted := mkdb _ _).
  assert (Hq : forall r, In r (map vacation_row_of
                                   (query sorted flt (Nat.min limit 100))) ->
               exists p, In p (db_pages (VACATION_DB st))
                         /\ eval_filter p flt = true
                         /\ r = vacation_row_of p).
  { intros r Hr. apply in_map_iff in Hr. destruct Hr as (p & <- & Hp).
    unfold query, query_from, matching in Hp. cbn [fst skipn] in Hp.
    apply in_firstn in Hp. apply filter_In in Hp. destruct Hp as [Hp Hf].
    subst sorted. cbn [db_pages] in Hp. apply sort_by_in in Hp.
    exists p. auto. }
  split; [|split; [|split; [|split]]].
  - rewrite length_map. unfold query, query_from. cbn [fst].
    apply firstn_le_length.
  - intros r Hr. destruct (Hq r Hr) as (p & Hp & _ & E). exists p. auto.
  - intros -> r Hr. destruct (Hq r Hr) as (p & _ & Hf & ->).
    unfold vacation_row_of. cbn [vr_name]. subst flt. cbn [negb app] in Hf.
    destruct y as [yy|]; cbn [app] in Hf.
    + apply (key_title p name _ Hf).
    + apply (key_title p name []). cbn [eval_filter forallb] in *.
      rewrite Hf. reflexivity.
  - intros yy -> r Hr. destruct (Hq r Hr) as (p & _ & Hf & ->).
    unfold vacation_row_of. cbn [vr_year]. subst flt.
    destruct is_admin; cbn [negb app] in Hf.
    + apply key_year. exact Hf.
    + apply key_year. cbn [eval_filter forallb] in Hf.
      apply andb_true_iff in Hf. destruct Hf as [_ Hf].
      apply andb_true_iff in Hf. apply Hf.
  - intros -> ->. subst flt sorted. cbn [negb app].
    unfold query, query_from, matching. cbn [fst skipn db_pages].
    f_equal. f_equal. apply forallb_filter_id. apply forallb_forall.
    intros p _. reflexivity.
Qed.

(** X21: [list_lunch_records] returns nothing while the lunch collection
    is not configured, and never consults the administrator flag.  On a
    schema that has the name as a title, the date and the amount, the rows
    it returns for an employee are orders of that employee whose date lies
    in [start, end), at most 100 and at most the limit asked for, each
    with the amount stored, 0 for an empty amount. *)
Theorem list_lunch_records_shows_own_orders :
  (forall (is_admin : bool) (name : str) (start_d end_d : date) (limit : nat)
          (st : notion),
      truthy (LUNCH_DB_ID cfg) = false ->
      list_lunch_records is_admin name start_d end_d limit st = [])
  /\ (forall (name : str) (start_d end_d : date) (limit : nat) (st : notion),
         list_lunch_records true name start_d end_d limit st
         = list_lunch_records false name start_d end_d limit st)
  /\ (forall (is_admin : bool) (name : str) (start_d end_d : date)
             (limit : nat) (st : notion),
         truthy (LUNCH_DB_ID cfg) = true -> truthy (strip name) = true ->
         PyStr.eqb (strip name) ALL_EMPLOYEES = false ->
         dict_get K_EMPLOYEE (get_db_properties (LUNCH_DB st)) = Some TTitle ->
         dict_has K_LUNCH_DATE (get_db_properties (LUNCH_DB st)) = true ->
         dict_has K_LUNCH_AMOUNT (get_db_properties (LUNCH_DB st)) = true ->
         let rows := list_lunch_records is_admin name start_d end_d limit st in
         (List.length rows <= Nat.min limit 100)%nat
         /\ forall r, In r rows ->
              exists (p : page) (d : date),
                In p (db_pages (LUNCH_DB st))
                /\ dict_get K_EMPLOYEE (properties p)
                   = Some (VTitle (strip name))
                /\ lunch_employee r = strip name
                /\ lunch_date r = Some d
                /\ date_leb start_d d = true
                /\ date_ltb d end_d = true
                /\ lunch_amount r
                   = or_float (get_number (properties p) K_LUNCH_AMOUNT) 0).
Proof.
  split; [|split].
  - intros is_admin name start_d end_d limit st Hcfg.
    unfold list_lunch_records. rewrite Hcfg. reflexivity.
  - reflexivity.
  - intros is_admin name start_d end_d limit st Hcfg Hname Hall T1 H2 H3 rows.
    subst rows. rewrite (list_lunch_records_key is_admin name start_d end_d
                           limit st Hcfg Hname Hall T1 H2 H3).
    split; [rewrite length_map; apply firstn_le_length|].
    intros r Hr. apply in_map_iff in Hr. destruct Hr as (p & <- & Hp).
    apply in_firstn in Hp. apply filter_In in Hp. destruct Hp as [Hp Hf].
    apply sort_by_in in Hp.
    unfold lunch_key in Hf. cbn [eval_filter forallb] in Hf.
    apply andb_true_iff in Hf. destruct Hf as [Ht Hf].
    apply andb_true_iff in Hf. destruct Hf as [Hlo Hf].
    apply andb_true_iff in Hf. destruct Hf as [Hhi _].
    unfold lunch_row_of, parse_notion_date_start.
    cbn [lunch_employee lunch_date lunch_amount].
    destruct (dict_get K_EMPLOYEE (properties p)) as [[]|] eqn:Ee;
      try discriminate Ht.
    apply eqb_eq in Ht. subst.
    destruct (dict_get K_LUNCH_DATE (properties p)) as [[| | | | | |[d|]]|];
      try discriminate Hlo.
    exists p, d. repeat split; auto.
Qed.

(** *** The eligible days behind the read cache *)

Lemma date_eqb_refl (d : date) : date_eqb d d = true.
Proof. unfold date_eqb. rewrite !Z.eqb_refl. reflexivity. Qed.

Lemma cache_read_fresh (c : lunch_cache) (name : str) (start_d end_d : date)
  (t now : Q) (days : list date) :
  cache_read (mkentry name start_d end_d t days :: c) name start_d end_d now
  = if Qltb now (t + LUNCH_DAYS_TTL) then Some days else None.
Proof.
  unfold cache_read. cbn [find]. unfold entry_for at 1.
  cbn [ce_employee ce_start ce_end].
  rewrite eqb_refl, !date_eqb_refl. reflexivity.
Qed.

(** A read that finds no live entry runs the body on the store. *)
Lemma calc_working_days_cache_miss (name : str) (y m : Z) (now : Q)
  (c : lunch_cache) (st : notion) (start_d end_d : date) :
  _month_range y m = Some (start_d, end_d) ->
  cache_read c name start_d end_d now = None ->
  calc_working_days_for_lunch_cached name y m now c st
  = (calc_working_days_for_lunch name y m st,
     mkentry name start_d end_d now
       (_list_lunch_eligible_attendance_days name start_d end_d st) :: c).
Proof.
  intros Hr Hm.
  unfold calc_working_days_for_lunch_cached, calc_working_days_for_lunch,
    _list_lunch_eligible_attendance_days_cached.
  rewrite Hr, Hm. reflexivity.
Qed.

(** X8: an accepted [upsert_attendance_record] and the lunch entitlement,
    on a collection whose pages have distinct identifiers and whose schema
    types the name as a title, the date as a date and the status as a
    select.  Let a read of the eligible days of the employee and the month
    at the time t0, which the read cache does not answer, give n days, and
    let the upsert follow.  A read made less than 60 seconds after t0 is
    answered from the cache and still gives n, whatever was written.  A
    read made 60 seconds after t0 or later runs on the store and gives n
    changed by the record of the day alone: the record written counts for
    one day when its status is 出席 or 遲到 and its day lies in the month
    and is not a Sunday, and the record it replaces, if there is one, no
    longer counts. *)
Theorem upsert_attendance_record_moves_lunch_days :
  forall (name : str) (d e : date) (status actor : str) (st : notion)
         (y m : Z) (start_d end_d : date) (opts : list str)
         (c : lunch_cache) (t0 t1 : Q),
    truthy (ATTEND_DB_ID cfg) = true -> truthy (strip name) = true ->
    PyStr.mem (strip status) (attendance_status_options (ATTEND_DB st))
    = true ->
    next_day d = Some e ->
    dict_get K_EMPLOYEE (get_db_properties (ATTEND_DB st)) = Some TTitle ->
    dict_get K_ATT_DATE (get_db_properties (ATTEND_DB st)) = Some TDate ->
    dict_get K_ATT_STATUS (get_db_properties (ATTEND_DB st))
    = Some (TSelect opts) ->
    NoDup (map page_id (db_pages (ATTEND_DB st))) ->
    _month_range y m = Some (start_d, end_d) ->
    cache_read c name start_d end_d t0 = None ->
    (t0 <= t1)%Q ->
    let key := FAnd [FTitleEq K_EMPLOYEE (strip name);
                     FDateOnOrAfter K_ATT_DATE d; FDateBefore K_ATT_DATE e] in
    let now :=
      PyStr.mem (strip status) [ATTEND_PRESENT_STATUS; ATTEND_LATE_STATUS]
      && (date_leb start_d d && date_ltb d end_d && negb (weekday d =? 6)) in
    let before :=
      match hd_error (matching (ATTEND_DB st) key) with
      | Some p => lunch_eligible (strip name) start_d end_d
                                 (attendance_of (ATTEND_DB st) p)
      | None => false
      end in
    let r0 := calc_working_days_for_lunch_cached name y m t0 c st in
    let st1 := snd (upsert_attendance_record name d status actor st) in
    let r1 := calc_working_days_for_lunch_cached name y m t1 (snd r0) st1 in
    exists n : Z,
      option_map fst (fst r0) = Some n
      /\ ((t1 < t0 + 60)%Q -> option_map fst (fst r1) = Some n)
      /\ ((t0 + 60 <= t1)%Q ->
          option_map fst (fst r1)
          = Some (n - count_of before + count_of now))
      /\ LUNCH_DB st1 = LUNCH_DB st.
Proof.
  intros name d e status actor st y m start_d end_d opts c t0 t1 Hcfg Hname
         Hstatus He T1 T2 T3 Hnd Hrange Hmiss Ht key now before r0 st1 r1.
  destruct (upsert_attendance_eligible_days name d e status actor st y m
              start_d end_d opts Hcfg Hname Hstatus He T1 T2 T3 Hnd Hrange)
    as (n & H0 & H1 & HL).
  fold key in H1. fold st1 in H1, HL. fold now before in H1.
  exists n.
  assert (E0 : r0 = (calc_working_days_for_lunch name y m st,
                     mkentry name start_d end_d t0
                       (_list_lunch_eligible_attendance_days name start_d
                          end_d st) :: c))
    by (apply calc_working_days_cache_miss; assumption).
  split; [rewrite E0; exact H0|].
  assert (Er : cache_read (snd r0) name start_d end_d t1
               = if Qltb t1 (t0 + LUNCH_DAYS_TTL)
                 then Some (_list_lunch_eligible_attendance_days name start_d
                              end_d st)
                 else None)
    by (rewrite E0; apply cache_read_fresh).
  split; [|split; [|exact HL]].
  - intros Hlt. apply Qltb_lt in Hlt.
    change 60%Q with LUNCH_DAYS_TTL in Hlt. rewrite Hlt in Er.
    subst r1. unfold calc_working_days_for_lunch_cached,
                _list_lunch_eligible_attendance_days_cached.
    rewrite Hrange, Er. cbn [fst option_map].
    unfold calc_working_days_for_lunch in H0. rewrite Hrange in H0.
    exact H0.
  - intros Hge. apply Qltb_ge in Hge.
    change 60%Q with LUNCH_DAYS_TTL in Hge. rewrite Hge in Er.
    subst r1.
    rewrite (calc_working_days_cache_miss name y m t1 (snd r0) st1 start_d
               end_d Hrange Er).
    exact H1.
Qed.

End App.

(* ================================================================== *)
(** ** Closed instances *)
(* ================================================================== *)

(** Instance of C1 on the roster of scenario 1, a table, and on a Sunday
    row: the counts stay as they are. *)
Lemma calc_overtime_hours_weekend_witness :
  (table roster_scenario
   /\ dict_get (utf8 "A")
               (calc_overtime_hours_from_duty_rows no_int 2026 2
                  roster_scenario)
      = count_entry (shift_appearances no_int 2026 2 roster_scenario
                       (utf8 "A")))
  /\ make_date 2026 2 (row_day no_int sunday_row) = Some (mkdate 2026 2 1)
  /\ 5 <= weekday (mkdate 2026 2 1)
  /\ count_row no_int 2026 2 [utf8 "檢驗線(中)"] [] sunday_row = [].
Proof.
  assert (Ht : table roster_scenario).
  { intros r0 r H0 Hr. inversion H0; subst r0.
    destruct Hr as [<-|[]]. reflexivity. }
  split; [split; [exact Ht|]|].
  - apply (proj1 (proj2 (calc_overtime_hours_counts_appearances no_int))
             2026 2 roster_scenario (utf8 "A") Ht).
  - split; [reflexivity|]. split; [vm_compute; discriminate|].
    apply (proj1 (proj2 (proj2
                           (calc_overtime_hours_counts_appearances no_int)))
             2026 2 [utf8 "檢驗線(中)"] [] sunday_row (mkdate 2026 2 1)).
    + reflexivity.
    + vm_compute; discriminate.
Defined.

(** C9 as stated fails: the text A/B is not split into A and B. *)
Lemma parse_names_cell_slash_counterexample :
  _parse_names_cell (Some (CStr (utf8 "A/B"))) <> [utf8 "A"; utf8 "B"].
Proof. vm_compute. discriminate. Qed.

(** Instance of the amended C9: A and B joined by a comma. *)
Lemma parse_names_cell_separators_witness :
  In 44%N (SPACE :: name_separators)
  /\ [utf8 "A"; utf8 "B"] <> []
  /\ forallb clean_name [utf8 "A"; utf8 "B"] = true
  /\ _parse_names_cell (Some (CStr (utf8 "A,B"))) = [utf8 "A"; utf8 "B"].
Proof.
  assert (H1 : In 44%N (SPACE :: name_separators))
    by (simpl; tauto).
  assert (H2 : [utf8 "A"; utf8 "B"] <> []) by discriminate.
  assert (H3 : forallb clean_name [utf8 "A"; utf8 "B"] = true)
    by reflexivity.
  split; [exact H1|]. split; [exact H2|]. split; [exact H3|].
  exact (proj1 parse_names_cell_separators 44%N [utf8 "A"; utf8 "B"]
           H1 H2 H3).
Defined.

(** Instance of C4 at scenario 3. *)
Lemma calc_cashout_spec_witness :
  fl_nonneg (fl_of_int 37) = true
  /\ fl_nonneg (fl_of_int 1000) = true
  /\ fl_is_nan (fl_of_int 5) = false
  /\ fl_is_finite (spec_remaining_days (fl_of_int 37) (fl_of_int 8)) = true
  /\ fl_leb fl_zero (fl_of_int 5) = true
  /\ exists c : cashout,
       calc_cashout (Some (fl_of_int 37)) (Some (fl_of_int 8))
                    (Some (fl_of_int 5)) (Some (fl_of_int 1000)) true
       = Some c
       /\ remaining_days c = fl_decimal false 4625 3
       /\ cashout_days c = fl_of_int 4
       /\ cashout_amount c = fl_mul (cashout_days c) (fl_of_int 1000)
       /\ fl_leb (cashout_days c) (fl_of_int 5) = true.
Proof.
  split; [reflexivity|]. split; [reflexivity|]. split; [reflexivity|].
  split; [reflexivity|]. split; [reflexivity|].
  destruct (proj1 calc_cashout_spec (fl_of_int 37) (fl_of_int 8) (fl_of_int 5)
              (fl_of_int 1000) true eq_refl eq_refl eq_refl eq_refl)
    as (c & E & Hr & Hw & _ & Ha & Hb).
  exists c. split; [exact E|].
  split; [rewrite Hr; reflexivity|].
  split; [rewrite (Hw eq_refl); reflexivity|].
  split; [exact Ha | exact (Hb eq_refl)].
Defined.

(** The arithmetic is that of binary64.  The quotient 21.4 / 8 lies just
    below 2.675 and rounds to 2.67; the quotient 36 / 7.2 is rounded to 5
    by the division, and five whole days are cashed out. *)
Lemma calc_cashout_binary64 :
  option_map cashout_days
    (calc_cashout (Some (fl_decimal false 214 1)) (Some (fl_of_int 8))
                  (Some (fl_of_int 5)) (Some (fl_of_int 1000)) false)
  = Some (fl_decimal false 267 2)
  /\ option_map cashout_days
       (calc_cashout (Some (fl_of_int 36)) (Some (fl_decimal false 72 1))
                     (Some (fl_of_int 10)) (Some (fl_of_int 1000)) true)
     = Some (fl_of_int 5).
Proof. split; vm_compute; reflexivity. Qed.

(** Instance of C10: a 102nd request changes nothing. *)
Lemma calc_used_vacation_hours_first_page_witness :
  (100 <= List.length
            (approved_annual_requests (strip EMP_A) st_101_requests))%nat
  /\ calc_used_vacation_hours EMP_A 2026
       (add_leave_pages [leave_request 900 (mkdate 2026 5 4) 8]
                        st_101_requests)
     = calc_used_vacation_hours EMP_A 2026 st_101_requests.
Proof.
  assert (H : (100 <= List.length
                        (approved_annual_requests (strip EMP_A)
                                                  st_101_requests))%nat)
    by (vm_compute; repeat constructor).
  split; [exact H|].
  exact (proj1 (proj2 (proj2 calc_used_vacation_hours_first_page))
           EMP_A 2026 st_101_requests
           [leave_request 900 (mkdate 2026 5 4) 8] H).
Defined.

(** Instance of C5: scenario 2. *)
Lemma lunch_settlement_witness :
  truthy (ATTEND_DB_ID example_cfg) = true
  /\ truthy (strip EMP_B) = true
  /\ _month_range 2026 3 = Some (mkdate 2026 3 1, mkdate 2026 4 1)
  /\ exists s : settlement,
       calc_month_lunch_settlement example_cfg EMP_B 2026 3 false st_march
       = Some s
       /\ eligible_days s
          = spec_eligible_days (strip EMP_B) (mkdate 2026 3 1)
                               (mkdate 2026 4 1) st_march
       /\ entitlement s = inject_Z (eligible_days s * 90)
       /\ diff s = (entitlement s - spent s)%Q.
Proof.
  split; [reflexivity|]. split; [reflexivity|]. split; [reflexivity|].
  exact (proj1 (lunch_settlement_counts_eligible_records example_cfg)
           EMP_B 2026 3 false st_march (mkdate 2026 3 1) (mkdate 2026 4 1)
           eq_refl eq_refl eq_refl).
Defined.

(** Instance of C6: the roster of scenario 1 synced twice into an empty
    collection. *)
Lemma sync_overtime_count_idempotent_witness :
  fresh_ids (OVERTIME_COUNT_DB st_overtime_empty) (next_id st_overtime_empty)
  /\ title_key_apart (OVERTIME_COUNT_DB st_overtime_empty) = true
  /\ (let s1 := snd (sync_overtime_count_from_duty_rows
                       no_int example_cfg 2026 2 roster_scenario
                       (utf8 "admin") st_overtime_empty) in
      let s2 := snd (sync_overtime_count_from_duty_rows
                       no_int example_cfg 2026 2 roster_scenario
                       (utf8 "admin") s1) in
      OVERTIME_COUNT_DB s2 = OVERTIME_COUNT_DB s1
      /\ next_id s2 = next_id s1
      /\ get_overtime_count_hours example_cfg EMP_A 2026 2 s2 = 2%Q
      /\ List.length (key_records (OVERTIME_COUNT_DB s2) EMP_A 2026 2) = 1%nat).
Proof.
  assert (H1 : fresh_ids (OVERTIME_COUNT_DB st_overtime_empty)
                         (next_id st_overtime_empty))
    by (split; constructor).
  assert (H2 : title_key_apart (OVERTIME_COUNT_DB st_overtime_empty) = true)
    by reflexivity.
  split; [exact H1|]. split; [exact H2|].
  destruct (sync_overtime_count_idempotent no_int example_cfg 2026 2
              roster_scenario (utf8 "admin") (utf8 "admin")
              st_overtime_empty H1 H2) as (E1 & E2 & E3).
  destruct (E3 eq_refl EMP_A 2%Q eq_refl) as (_ & E4 & E5).
  split; [exact E1|]. split; [exact E2|]. split; [exact E4 | exact E5].
Defined.


(** Instance of C8: a blank employee name; the operation log is
    configured and stays as it is. *)
Lemma upsert_salary_record_fails_witness :
  strip (utf8 "  ") = []
  /\ truthy (OPLOG_DB_ID example_cfg) = true
  /\ (let r := upsert_salary_record no_int no_float no_str example_cfg
                 (utf8 "  ") 2026 2 None example_kwargs (st_payroll []) in
      fst r = Some false
      /\ same_records (st_payroll []) (snd r)
      /\ OPLOG_DB (snd r) = OPLOG_DB (st_payroll [])
      /\ snd r = st_error_show MSG_NAME_EMPTY (st_payroll [])).
Proof.
  split; [reflexivity|]. split; [reflexivity|].
  exact (proj2 (proj2 (upsert_salary_record_fails_without_write
                         no_int no_float no_str example_cfg))
           (utf8 "  ") 2026 2 example_kwargs (st_payroll []) eq_refl).
Defined.

(** C2 at a store the code can meet: the payroll record of A for February
    2026 exists and its meal allowance and weekday overtime pay are still
    empty.  The suggestions are 180 and 600, yet the form takes 0 for both
    fields, because an empty field is read back as 0.0 and so counts as a
    stored value; with no record at all both suggestions are taken. *)
Theorem salary_form_defaults_empty_fields_read_as_zero :
  option_map (fun pg => (get_number (properties pg) FIELD_MEAL,
                         get_number (properties pg) FIELD_OT_WEEKDAY))
             (hd_error (db_pages
                          (SALARY_DB (st_payroll [salary_page_empty_fields]))))
  = Some (None, None)
  /\ get_month_lunch_amount example_cfg EMP_A 2026 2 false
       (st_payroll [salary_page_empty_fields]) = 180%Q
  /\ ot_amount (calc_weekday_ot_from_duty example_cfg EMP_A 2026 2
                  (st_payroll [salary_page_empty_fields])) = 600%Q
  /\ salary_form_defaults example_cfg EMP_A 2026 2 false
       (st_payroll [salary_page_empty_fields]) = (0%Q, 0%Q)
  /\ salary_form_defaults example_cfg EMP_A 2026 2 false (st_payroll [])
     = (180%Q, 600%Q).
Proof. repeat split; vm_compute; reflexivity. Qed.

(** *** Instances of the further properties *)

(** Instance of X1: employee A has no row for 2027 yet. *)
Lemma ensure_vacation_row_witness :
  truthy (strip EMP_A) = true
  /\ (let r := ensure_vacation_row EMP_A 2027 80 st_long_service in
      fst r = true
      /\ matching (VACATION_DB (snd r))
                  (FAnd [FTitleEq K_EMPLOYEE (strip EMP_A);
                         FNumberEq K_VAC_YEAR 2027]) <> []
      /\ forall d : Q,
           ensure_vacation_row EMP_A 2027 d (snd r) = (true, snd r)).
Proof.
  split; [reflexivity|].
  destruct (ensure_vacation_row_keeps_one_row EMP_A 2027 80 st_long_service
              eq_refl) as (H1 & H2 & _ & _ & H5 & _).
  split; [exact H1|]. split; [exact H2 | exact H5].
Defined.

(** Instance of X2: the snapshot of A for 2026. *)
Lemma vacation_snapshot_witness :
  stripped EMP_A
  /\ exists s : snapshot,
       fst (get_employee_vacation_snapshot EMP_A 2026 st_long_service)
       = Some s
       /\ used s = calc_used_vacation_hours EMP_A 2026 st_long_service
       /\ remaining s = py_max 0 (total s - used s)
       /\ (0 <= remaining s)%Q.
Proof.
  assert (H : stripped EMP_A) by (split; reflexivity).
  split; [exact H|].
  destruct (proj1 (proj2 vacation_snapshot_reads_entitlement_and_requests)
              EMP_A 2026 st_long_service H)
    as (s & row & E & _ & _ & _ & _ & _ & Hu & Hr & Hp & _).
  exists s. rewrite E. split; [reflexivity|].
  split; [exact Hu|]. split; [exact Hr | exact Hp].
Defined.

(** Instance of X3: A asks for 8 hours of 2026. *)
Lemma validate_vacation_enough_witness :
  stripped EMP_A
  /\ exists s : snapshot,
       fst (get_employee_vacation_snapshot EMP_A 2026 st_long_service)
       = Some s
       /\ fst (fst (validate_vacation_enough EMP_A 2026 8 st_long_service))
          = Qle_bool (inject_Z 8) (remaining s).
Proof.
  assert (H : stripped EMP_A) by (split; reflexivity).
  split; [exact H|].
  destruct (proj2 validate_vacation_enough_checks_remaining
              EMP_A 2026 8 st_long_service H) as (s & E & Hv & _).
  exists s. split; [exact E | exact Hv].
Defined.

(** Instance of X4: a request of 0 hours. *)
Lemma create_leave_request_refuses_witness :
  (truthy (strip EMP_A) = false
   \/ truthy (strip (or_str None (strip EMP_A))) = false
   \/ match Some 0 with Some h => h <= 0 | None => True end
   \/ datetime_leb (mkdatetime (mkdate 2026 5 4) 61200)
                   (mkdatetime (mkdate 2026 5 4) 32400) = true)
  /\ (let r := create_leave_request example_cfg EMP_A ANNUAL_LEAVE (Some 0)
                 (mkdatetime (mkdate 2026 5 4) 32400)
                 (mkdatetime (mkdate 2026 5 4) 61200) [] None None
                 st_long_service in
      fst r = false /\ same_records st_long_service (snd r)).
Proof.
  assert (H : truthy (strip EMP_A) = false
              \/ truthy (strip (or_str None (strip EMP_A))) = false
              \/ match Some 0 with Some h => h <= 0 | None => True end
              \/ datetime_leb (mkdatetime (mkdate 2026 5 4) 61200)
                              (mkdatetime (mkdate 2026 5 4) 32400) = true)
    by (right; right; left; simpl; lia).
  split; [exact H|].
  destruct (create_leave_request_refuses_bad_input example_cfg EMP_A
              ANNUAL_LEAVE (Some 0) (mkdatetime (mkdate 2026 5 4) 32400)
              (mkdatetime (mkdate 2026 5 4) 61200) [] None None
              st_long_service H) as (H1 & H2 & _).
  split; [exact H1 | exact H2].
Defined.

(** Instance of X5: A asks for 8 hours of annual leave on 2026-05-04, from
    9 to 17 o'clock. *)
Lemma create_leave_request_adds_witness :
  truthy (strip EMP_A) = true
  /\ truthy (strip (or_str None (strip EMP_A))) = true
  /\ 0 < 8
  /\ datetime_leb (mkdatetime (mkdate 2026 5 4) 61200)
                  (mkdatetime (mkdate 2026 5 4) 32400) = false
  /\ (let r := create_leave_request example_cfg EMP_A ANNUAL_LEAVE (Some 8)
                 (mkdatetime (mkdate 2026 5 4) 32400)
                 (mkdatetime (mkdate 2026 5 4) 61200) [] None None
                 st_long_service in
      fst r = true
      /\ next_id (snd r) = Pos.succ (next_id st_long_service)
      /\ default_leave_status st_long_service = STATUS_PENDING
      /\ calc_used_vacation_hours EMP_A 2026 (snd r)
         = calc_used_vacation_hours EMP_A 2026 st_long_service).
Proof.
  assert (H3 : 0 < 8) by lia.
  split; [reflexivity|]. split; [reflexivity|]. split; [exact H3|].
  split; [reflexivity|].
  destruct (create_leave_request_adds_pending_request example_cfg EMP_A
              ANNUAL_LEAVE 8 (mkdatetime (mkdate 2026 5 4) 32400)
              (mkdatetime (mkdate 2026 5 4) 61200) [] None None
              st_long_service eq_refl eq_refl H3 eq_refl)
    as (H1 & _ & Hn & _ & Hp).
  destruct (Hp (or_introl eq_refl)) as (Hd & Hu).
  split; [exact H1|]. split; [exact Hn|]. split; [exact Hd | apply Hu].
Defined.

(** Instance of X6: a status that the attendance collection does not
    offer. *)
Lemma upsert_attendance_record_refuses_witness :
  (truthy (ATTEND_DB_ID example_cfg) = false
   \/ truthy (strip EMP_B) = false
   \/ PyStr.mem (strip (utf8 "曠職"))
                (attendance_status_options (ATTEND_DB st_march)) = false)
  /\ (let r := upsert_attendance_record example_cfg EMP_B (mkdate 2026 3 31)
                 (utf8 "曠職") (utf8 "admin") st_march in
      fst r = false /\ same_records st_march (snd r)
      /\ OPLOG_DB (snd r) = OPLOG_DB st_march).
Proof.
  assert (H : truthy (ATTEND_DB_ID example_cfg) = false
              \/ truthy (strip EMP_B) = false
              \/ PyStr.mem (strip (utf8 "曠職"))
                           (attendance_status_options (ATTEND_DB st_march))
                 = false)
    by (right; right; reflexivity).
  split; [exact H|].
  destruct (upsert_attendance_record_refuses example_cfg EMP_B
              (mkdate 2026 3 31) (utf8 "曠職") (utf8 "admin") st_march H)
    as (H1 & H2 & H3 & _).
  split; [exact H1|]. split; [exact H2 | exact H3].
Defined.

(** Instance of X7: B is marked present on 2026-03-31, a day without a
    record. *)
Lemma upsert_attendance_record_one_per_day_witness :
  truthy (ATTEND_DB_ID example_cfg) = true
  /\ truthy (strip EMP_B) = true
  /\ PyStr.mem (strip ATTEND_PRESENT_STATUS)
               (attendance_status_options (ATTEND_DB st_march)) = true
  /\ next_day (mkdate 2026 3 31) = Some (mkdate 2026 4 1)
  /\ dict_has K_EMPLOYEE (get_db_properties (ATTEND_DB st_march)) = true
  /\ dict_has K_ATT_DATE (get_db_properties (ATTEND_DB st_march)) = true
  /\ (let r := upsert_attendance_record example_cfg EMP_B (mkdate 2026 3 31)
                 ATTEND_PRESENT_STATUS (utf8 "admin") st_march in
      fst r = true
      /\ (exists rec : page,
             db_pages (ATTEND_DB (snd r))
             = db_pages (ATTEND_DB st_march) ++ [rec])
      /\ let r2 := upsert_attendance_record example_cfg EMP_B
                     (mkdate 2026 3 31) ATTEND_LATE_STATUS (utf8 "admin")
                     (snd r) in
         fst r2 = true
         /\ List.length (db_pages (ATTEND_DB (snd r2)))
            = List.length (db_pages (ATTEND_DB (snd r)))).
Proof.
  split; [reflexivity|]. split; [reflexivity|]. split; [reflexivity|].
  split; [reflexivity|]. split; [reflexivity|]. split; [reflexivity|].
  destruct (upsert_attendance_record_one_per_day example_cfg EMP_B
              (mkdate 2026 3 31) (mkdate 2026 4 1) ATTEND_PRESENT_STATUS
              (utf8 "admin") st_march eq_refl eq_refl eq_refl eq_refl eq_refl
              eq_refl) as (H1 & Hnew & _ & _ & Hagain).
  destruct (Hnew eq_refl) as (rec & Hrec & _).
  destruct (Hagain ATTEND_LATE_STATUS (utf8 "admin") eq_refl)
    as (H2 & H3 & _).
  split; [exact H1|]. split; [exists rec; exact Hrec|].
  split; [exact H2 | exact H3].
Defined.

(** Instance of X8: the eligible days of A in February are read at time 0
    with an empty cache, then A is marked present on Wednesday 2026-02-04,
    a day without a record.  A read at time 30 gives the days of before; a
    read at time 60 gives one day more. *)
Lemma upsert_attendance_record_moves_lunch_days_witness :
  truthy (ATTEND_DB_ID example_cfg) = true
  /\ truthy (strip EMP_A) = true
  /\ PyStr.mem (strip ATTEND_PRESENT_STATUS)
               (attendance_status_options (ATTEND_DB (st_payroll []))) = true
  /\ next_day (mkdate 2026 2 4) = Some (mkdate 2026 2 5)
  /\ dict_get K_EMPLOYEE (get_db_properties (ATTEND_DB (st_payroll [])))
     = Some TTitle
  /\ dict_get K_ATT_DATE (get_db_properties (ATTEND_DB (st_payroll [])))
     = Some TDate
  /\ dict_get K_ATT_STATUS (get_db_properties (ATTEND_DB (st_payroll [])))
     = Some (TSelect [ATTEND_PRESENT_STATUS; ATTEND_LEAVE_STATUS;
                      ATTEND_LATE_STATUS])
  /\ NoDup (map page_id (db_pages (ATTEND_DB (st_payroll []))))
  /\ _month_range 2026 2 = Some (mkdate 2026 2 1, mkdate 2026 3 1)
  /\ cache_read [] EMP_A (mkdate 2026 2 1) (mkdate 2026 3 1) 0 = None
  /\ (0 <= 30)%Q /\ (30 < 0 + 60)%Q /\ (0 <= 60)%Q /\ (0 + 60 <= 60)%Q
  /\ (let r0 := calc_working_days_for_lunch_cached example_cfg EMP_A 2026 2
                   0 [] (st_payroll []) in
      let st1 := snd (upsert_attendance_record example_cfg EMP_A
                        (mkdate 2026 2 4) ATTEND_PRESENT_STATUS (utf8 "admin")
                        (st_payroll [])) in
      exists n : Z,
        option_map fst (fst r0) = Some n
        /\ option_map fst
             (fst (calc_working_days_for_lunch_cached example_cfg EMP_A 2026 2
                     30 (snd r0) st1)) = Some n
        /\ option_map fst
             (fst (calc_working_days_for_lunch_cached example_cfg EMP_A 2026 2
                     60 (snd r0) st1)) = Some (n - 0 + 1)).
Proof.
  assert (Hnd : NoDup (map page_id (db_pages (ATTEND_DB (st_payroll []))))).
  { repeat constructor; simpl; intuition discriminate. }
  assert (H30 : (0 <= 30)%Q) by (vm_compute; discriminate).
  assert (H30' : (30 < 0 + 60)%Q) by reflexivity.
  assert (H60 : (0 <= 60)%Q) by (vm_compute; discriminate).
  assert (H60' : (0 + 60 <= 60)%Q) by (vm_compute; discriminate).
  split; [reflexivity|]. split; [reflexivity|]. split; [reflexivity|].
  split; [reflexivity|]. split; [reflexivity|]. split; [reflexivity|].
  split; [reflexivity|]. split; [exact Hnd|]. split; [reflexivity|].
  split; [reflexivity|]. split; [exact H30|]. split; [exact H30'|].
  split; [exact H60|]. split; [exact H60'|].
  destruct (upsert_attendance_record_moves_lunch_days example_cfg EMP_A
              (mkdate 2026 2 4) (mkdate 2026 2 5) ATTEND_PRESENT_STATUS
              (utf8 "admin") (st_payroll []) 2026 2 (mkdate 2026 2 1)
              (mkdate 2026 3 1)
              [ATTEND_PRESENT_STATUS; ATTEND_LEAVE_STATUS; ATTEND_LATE_STATUS]
              [] 0%Q 30%Q
              eq_refl eq_refl eq_refl eq_refl eq_refl eq_refl eq_refl Hnd
              eq_refl eq_refl H30) as (n & H1 & H2 & _ & _).
  destruct (upsert_attendance_record_moves_lunch_days example_cfg EMP_A
              (mkdate 2026 2 4) (mkdate 2026 2 5) ATTEND_PRESENT_STATUS
              (utf8 "admin") (st_payroll []) 2026 2 (mkdate 2026 2 1)
              (mkdate 2026 3 1)
              [ATTEND_PRESENT_STATUS; ATTEND_LEAVE_STATUS; ATTEND_LATE_STATUS]
              [] 0%Q 60%Q
              eq_refl eq_refl eq_refl eq_refl eq_refl eq_refl eq_refl Hnd
              eq_refl eq_refl H60) as (n' & H1' & _ & H3 & _).
  assert (En : n' = n) by congruence. subst n'.
  exists n. split; [exact H1|]. split; [exact (H2 H30') | exact (H3 H60')].
Defined.

(** Instance of X9: B orders a lunch of 100 on 2026-03-04. *)
Lemma create_lunch_record_adds_to_spent_witness :
  truthy (LUNCH_DB_ID example_cfg) = true
  /\ truthy (strip EMP_B) = true
  /\ PyStr.eqb (strip EMP_B) ALL_EMPLOYEES = false
  /\ dict_get K_EMPLOYEE (get_db_properties (LUNCH_DB st_march)) = Some TTitle
  /\ dict_has K_LUNCH_DATE (get_db_properties (LUNCH_DB st_march)) = true
  /\ dict_has K_LUNCH_AMOUNT (get_db_properties (LUNCH_DB st_march)) = true
  /\ _month_range 2026 3 = Some (mkdate 2026 3 1, mkdate 2026 4 1)
  /\ date_leb (mkdate 2026 3 1) (mkdate 2026 3 4) = true
  /\ date_ltb (mkdate 2026 3 4) (mkdate 2026 4 1) = true
  /\ (List.length (matching (LUNCH_DB st_march)
                     (lunch_key (strip EMP_B) (mkdate 2026 3 1)
                                (mkdate 2026 4 1))) < 100)%nat
  /\ (let r := create_lunch_record example_cfg EMP_B (mkdate 2026 3 4) 100
                 (utf8 "admin") st_march in
      fst r = true
      /\ exists s s' : settlement,
           calc_month_lunch_settlement example_cfg EMP_B 2026 3 false st_march
           = Some s
           /\ calc_month_lunch_settlement example_cfg EMP_B 2026 3 false
                (snd r) = Some s'
           /\ eligible_days s' = eligible_days s
           /\ (spent s' == spent s + or_float (Some 100%Q) 0)%Q).
Proof.
  assert (Hlen : (List.length (matching (LUNCH_DB st_march)
                                 (lunch_key (strip EMP_B) (mkdate 2026 3 1)
                                            (mkdate 2026 4 1))) < 100)%nat)
    by (vm_compute; lia).
  split; [reflexivity|]. split; [reflexivity|]. split; [reflexivity|].
  split; [reflexivity|]. split; [reflexivity|]. split; [reflexivity|].
  split; [reflexivity|]. split; [reflexivity|]. split; [reflexivity|].
  split; [exact Hlen|].
  destruct (create_lunch_record_adds_to_spent example_cfg EMP_B
              (mkdate 2026 3 4) 100%Q (utf8 "admin") st_march 2026 3
              (mkdate 2026 3 1) (mkdate 2026 4 1) false
              eq_refl eq_refl eq_refl eq_refl eq_refl eq_refl eq_refl eq_refl
              eq_refl Hlen) as (H1 & s & s' & E & E' & Hd & _ & Hs & _).
  split; [exact H1|]. exists s, s'.
  split; [exact E|]. split; [exact E'|]. split; [exact Hd | exact Hs].
Defined.

(** Instance of X10: the rule of February 2026, which exists, is set to
    shifts of 1 hour at 250 an hour. *)
Lemma upsert_overtime_rule_then_get_witness :
  truthy (OVERTIME_RULE_DB_ID example_cfg) = true
  /\ dict_get K_YEAR (get_db_properties (OVERTIME_RULE_DB (st_payroll [])))
     = Some TNumber
  /\ dict_get K_MONTH (get_db_properties (OVERTIME_RULE_DB (st_payroll [])))
     = Some TNumber
  /\ dict_get K_SHIFT_HOURS
              (get_db_properties (OVERTIME_RULE_DB (st_payroll [])))
     = Some TNumber
  /\ dict_get K_HOURLY_RATE
              (get_db_properties (OVERTIME_RULE_DB (st_payroll [])))
     = Some TNumber
  /\ (let r := upsert_overtime_rule_to_notion no_float no_str example_cfg
                 2026 2 1 250 [] (st_payroll []) in
      get_overtime_rule example_cfg 2026 2 (snd r)
      = mkrule (or_float (Some 1%Q) 0) (or_float (Some 250%Q) 0)
      /\ List.length (db_pages (OVERTIME_RULE_DB (snd r)))
         = List.length (db_pages (OVERTIME_RULE_DB (st_payroll [])))).
Proof.
  split; [reflexivity|]. split; [reflexivity|]. split; [reflexivity|].
  split; [reflexivity|]. split; [reflexivity|].
  destruct (proj2 (upsert_overtime_rule_then_get no_float no_str example_cfg)
              2026 2 1%Q 250%Q [] (st_payroll []) eq_refl eq_refl eq_refl
              eq_refl eq_refl) as (_ & Hget & _ & Hold & _).
  split; [exact Hget|].
  apply Hold. vm_compute. discriminate.
Defined.

(** Instance of X11: the roster of scenario 1 synced into an empty
    collection. *)
Lemma sync_overtime_count_reports_witness :
  truthy (OVERTIME_COUNT_DB_ID example_cfg) = true
  /\ (let r := sync_overtime_count_from_duty_rows no_int example_cfg 2026 2
                 roster_scenario (utf8 "admin") st_overtime_empty in
      fst r
      = (Z.of_nat (List.length (calc_overtime_hours_from_duty_rows
                                  no_int 2026 2 roster_scenario)), 0)
      /\ OVERTIME_RULE_DB (snd r) = OVERTIME_RULE_DB st_overtime_empty
      /\ st_error (snd r) = st_error st_overtime_empty).
Proof.
  split; [reflexivity|].
  destruct (proj2 (sync_overtime_count_reports_every_employee no_int
                     example_cfg)
              2026 2 roster_scenario (utf8 "admin") st_overtime_empty eq_refl)
    as (H1 & H2 & _ & _ & _ & _ & _ & H3).
  split; [exact H1|]. split; [exact H2 | exact H3].
Defined.

(** Instance of X12: the roster of scenario 1, in which A has two weekday
    appearances, synced into the store of the payroll period, whose rule
    pays 200 an hour. *)
Lemma sync_then_weekday_overtime_pay_witness :
  truthy (OVERTIME_COUNT_DB_ID example_cfg) = true
  /\ fresh_ids (OVERTIME_COUNT_DB (st_payroll [])) (next_id (st_payroll []))
  /\ title_key_apart (OVERTIME_COUNT_DB (st_payroll [])) = true
  /\ dict_get EMP_A
              (calc_overtime_hours_from_duty_rows no_int 2026 2
                 roster_scenario) = Some 2%Q
  /\ (0 < hourly_rate (get_overtime_rule example_cfg 2026 2 (st_payroll [])))%Q
  /\ (let s1 := snd (sync_overtime_count_from_duty_rows no_int example_cfg
                       2026 2 roster_scenario (utf8 "admin")
                       (st_payroll [])) in
      let ot := calc_weekday_ot_from_duty example_cfg EMP_A 2026 2 s1 in
      ot_hours ot = 2%Q
      /\ ot_amount ot
         = (2 * hourly_rate (get_overtime_rule example_cfg 2026 2
                               (st_payroll [])))%Q).
Proof.
  assert (H1 : fresh_ids (OVERTIME_COUNT_DB (st_payroll []))
                         (next_id (st_payroll []))).
  { split.
    - repeat constructor; simpl; intuition discriminate.
    - repeat constructor. }
  assert (H2 : (0 < hourly_rate (get_overtime_rule example_cfg 2026 2
                                   (st_payroll [])))%Q)
    by (vm_compute; reflexivity).
  split; [reflexivity|]. split; [exact H1|]. split; [reflexivity|].
  split; [reflexivity|]. split; [exact H2|].
  destruct (sync_then_weekday_overtime_pay no_int example_cfg 2026 2
              roster_scenario (utf8 "admin") (st_payroll []) EMP_A 2%Q
              eq_refl H1 eq_refl eq_refl) as (_ & _ & Hpos & _).
  exact (Hpos H2).
Defined.

(** Instance of X13: 2026-02-14 lies in February 2026. *)
Lemma month_range_covers_the_month_witness :
  _month_range 2026 2 = Some (mkdate 2026 2 1, mkdate 2026 3 1)
  /\ valid_ymd 2026 2 14 = true
  /\ date_leb (mkdate 2026 2 1) (mkdate 2026 2 14)
     && date_ltb (mkdate 2026 2 14) (mkdate 2026 3 1)
     = (2026 =? 2026) && (2 =? 2).
Proof.
  split; [reflexivity|]. split; [reflexivity|].
  exact (proj2 month_range_covers_the_month 2026 2 (mkdate 2026 2 1)
           (mkdate 2026 3 1) (mkdate 2026 2 14) eq_refl eq_refl).
Defined.

(** Instance of X14: a row with a day and a creation time. *)
Lemma strip_meta_columns_witness :
  nth_error [[(K_DATE, 2); (utf8 "建立時間", 7)]] 0
  = Some [(K_DATE, 2); (utf8 "建立時間", 7)]
  /\ exists r' : dict Z,
       nth_error (strip_meta_columns
                    (Some [[(K_DATE, 2); (utf8 "建立時間", 7)]])) 0
       = Some r'
       /\ dict_get (utf8 "建立時間") r' = None
       /\ dict_get K_DATE r' = Some 2.
Proof.
  split; [reflexivity|].
  destruct (proj1 (proj2 (proj2 (strip_meta_columns_drops_only_meta Z)
                            [[(K_DATE, 2); (utf8 "建立時間", 7)]]))
              0%nat [(K_DATE, 2); (utf8 "建立時間", 7)] eq_refl)
    as (r' & E & _ & Hget).
  exists r'. split; [exact E|].
  split; [exact (Hget (utf8 "建立時間")) | exact (Hget K_DATE)].
Defined.

(** Instance of X15: a cell without a repeated name. *)
Lemma split_names_witness :
  NoDup (_parse_names_cell (Some (CStr (utf8 "A,B"))))
  /\ _split_names (Some (utf8 "A,B"))
     = _parse_names_cell (Some (CStr (utf8 "A,B"))).
Proof.
  assert (H : NoDup (_parse_names_cell (Some (CStr (utf8 "A,B"))))).
  { vm_compute. repeat constructor; simpl; intuition discriminate. }
  split; [exact H|].
  destruct (proj2 split_names_keeps_first_occurrences (utf8 "A,B"))
    as (_ & _ & _ & Hsame & _).
  exact (Hsame H).
Defined.

(** Instance of X16: names joined by a comma. *)
Lemma parse_names_cell_is_stable_witness :
  In 44%N (SPACE :: name_separators)
  /\ _parse_names_cell
       (Some (CStr (join 44 (_parse_names_cell (Some (CStr (utf8 "A B")))))))
     = _parse_names_cell (Some (CStr (utf8 "A B"))).
Proof.
  assert (H : In 44%N (SPACE :: name_separators)) by (simpl; tauto).
  split; [exact H|].
  exact (proj2 (proj2 (proj2 parse_names_cell_is_stable)) (utf8 "A B") 44%N H).
Defined.

(** Instance of X18: February 2026 has 28 rows. *)
Lemma build_month_template_witness :
  1 <= 2026 <= 9999 /\ 1 <= 2 <= 12
  /\ exists rows : list row,
       build_month_template 2026 2 = Some rows
       /\ Z.of_nat (List.length rows) = _days_in_month 2026 2
       /\ calc_overtime_hours_from_duty_rows no_int 2026 2 rows = [].
Proof.
  assert (H1 : 1 <= 2026 <= 9999) by lia.
  assert (H2 : 1 <= 2 <= 12) by lia.
  split; [exact H1|]. split; [exact H2|].
  destruct (proj2 (build_month_template_is_an_empty_roster no_int)
              2026 2 H1 H2) as (rows & E & Hl & _ & _ & _ & Hc).
  exists rows. split; [exact E|]. split; [exact Hl | exact Hc].
Defined.

(** Instance of X19: the name property of the lunch schema, found as it
    is written; and a property é, found for the name É by its lower
    case. *)
Lemma resolve_prop_key_witness :
  dict_has K_EMPLOYEE lunch_schema = true
  /\ resolve_prop_key lunch_schema K_EMPLOYEE = Some K_EMPLOYEE
  /\ dict_has (utf8 "É") [(utf8 "é", 1)] = false
  /\ resolve_prop_key [(utf8 "é", 1)] (utf8 "É") = Some (utf8 "é").
Proof.
  split; [reflexivity|].
  split; [exact (proj1 (resolve_prop_key_finds_the_key prop_type lunch_schema
                          K_EMPLOYEE) eq_refl)|].
  split; [reflexivity|].
  rewrite (proj1 (proj2 (resolve_prop_key_finds_the_key Z [(utf8 "é", 1)]
                           (utf8 "É"))) eq_refl).
  reflexivity.
Defined.

(** Instance of X20: the rows A sees for 2026. *)
Lemma list_vacation_summary_witness :
  false = false
  /\ forall r : vacation_row,
       In r (list_vacation_summary false EMP_A (Some 2026) 5 st_long_service)
       -> vr_name r = EMP_A /\ vr_year r = Some 2026.
Proof.
  split; [reflexivity|].
  destruct (list_vacation_summary_shows_own_rows false EMP_A (Some 2026) 5
              st_long_service) as (_ & _ & Hn & Hy & _).
  intros r Hr. split; [exact (Hn eq_refl r Hr) | exact (Hy 2026 eq_refl r Hr)].
Defined.

(** Instance of X21: the orders of B in March 2026. *)
Lemma list_lunch_records_witness :
  truthy (LUNCH_DB_ID example_cfg) = true
  /\ truthy (strip EMP_B) = true
  /\ PyStr.eqb (strip EMP_B) ALL_EMPLOYEES = false
  /\ dict_get K_EMPLOYEE (get_db_properties (LUNCH_DB st_march)) = Some TTitle
  /\ dict_has K_LUNCH_DATE (get_db_properties (LUNCH_DB st_march)) = true
  /\ dict_has K_LUNCH_AMOUNT (get_db_properties (LUNCH_DB st_march)) = true
  /\ (let rows := list_lunch_records example_cfg false EMP_B (mkdate 2026 3 1)
                    (mkdate 2026 4 1) 200 st_march in
      (List.length rows <= Nat.min 200 100)%nat
      /\ forall r : lunch_row, In r rows -> lunch_employee r = strip EMP_B).
Proof.
  split; [reflexivity|]. split; [reflexivity|]. split; [reflexivity|].
  split; [reflexivity|]. split; [reflexivity|]. split; [reflexivity|].
  destruct (proj2 (proj2 (list_lunch_records_shows_own_orders example_cfg))
              false EMP_B (mkdate 2026 3 1) (mkdate 2026 4 1) 200%nat st_march
              eq_refl eq_refl eq_refl eq_refl eq_refl eq_refl) as (Hl & Hr).
  split; [exact Hl|].
  intros r Hin. destruct (Hr r Hin) as (p & d & _ & _ & He & _). exact He.
Defined.

(* end of file *)
